(** * DREAMT sleep analysis: signal preprocessing and epoch feature extraction

    Shallow embedding of [model-training/src/data/preprocessing.py] (all but
    the Butterworth filters), [model-training/src/features/extractor.py],
    [model-training/src/utils/helpers.py], the methods of [DREAMTLoader] in
    [src/data/loader.py] that work on a table already read, the feature list,
    the column filter and the per-participant extraction of
    [model-training/scripts/train_tflite_model.py], and the packet parsers and
    notification handlers of [wearable-prototype/tests/test_sensors.py].

    Numbers.  In the embedding of the pipeline a float64 sample is a
    [Np.cell]: a real number or NaN.  Arithmetic on cells is exact real
    arithmetic that propagates NaN; rounding, the infinities and the sign of
    zero of IEEE arithmetic are not part of it (a division by zero yields
    NaN).  Results stated on cells are those that do not depend on rounding:
    where one does, the computed value ([np.mean], [np.std]) appears as such
    in the statement or in a hypothesis.  What does depend on rounding or on
    the sign of zero is settled on IEEE doubles: [F64] gives the numpy
    reductions on binary64 floats, with numpy's pairwise summation, and
    [Extractor64] the statistical features computed with them.  Integers are
    [Z], array lengths are [nat].

    Library routines.  The numpy reductions the code calls ([np.sum],
    [np.mean], [np.std], [np.min], [np.max], [np.ptp], [np.diff], [np.abs],
    [np.sqrt], [np.signbit], [np.isnan], [np.where]) and the pandas operations
    ([iloc], [Series.mode], [pd.DataFrame] of a list of dicts) are written
    out.  The scipy routines and the order statistics ([stats.skew],
    [stats.kurtosis], [signal.find_peaks], [interp1d], [np.median],
    [np.percentile], the power spectrum of [np.fft.rfft]) are fields of the
    class [Library]: every result below holds for whatever they return. *)

From Stdlib Require Import String Ascii Bool Arith ZArith Lia List.
From Stdlib Require Import Reals Lra OrdersEx RelationClasses.
From Stdlib Require DecimalString.
From Stdlib.Strings Require Byte.
From Stdlib Require Floats.
From Stdlib Require Uint63.
Import ListNotations.

Set Implicit Arguments.

(* ------------------------------------------------------------------ *)
(** ** Python: exceptions, [range], slices, insertion-ordered dicts     *)
(* ------------------------------------------------------------------ *)

Module Py.

Inductive exn : Type :=
| ValueError
| IndexError
| KeyError
| ZeroDivisionError
| NotImplementedError.

Inductive result (A : Type) : Type :=
| Ok (a : A)
| Raise (e : exn).

Arguments Ok {A} a.
Arguments Raise {A} e.

Definition bind {A B : Type} (m : result A) (k : A -> result B) : result B :=
  match m with
  | Ok a => k a
  | Raise e => Raise e
  end.

Fixpoint mapM {A B : Type} (f : A -> result B) (l : list A) : result (list B) :=
  match l with
  | [] => Ok []
  | x :: xs =>
      bind (f x) (fun y => bind (mapM f xs) (fun ys => Ok (y :: ys)))
  end.

(** [range(start, stop, step)]: a zero step raises [ValueError]. *)
Definition range_len (start stop step : Z) : Z :=
  if (step >? 0)%Z then
    (if (start <? stop)%Z then (stop - start - 1) / step + 1 else 0)%Z
  else
    (if (stop <? start)%Z then (start - stop - 1) / (- step) + 1 else 0)%Z.

Definition range (start stop step : Z) : result (list Z) :=
  if (step =? 0)%Z then Raise ValueError
  else Ok (map (fun k => (start + Z.of_nat k * step)%Z)
               (seq 0 (Z.to_nat (range_len start stop step)))).

(** Slice bounds [a:b] over a sequence of [n] items: a negative bound
    counts from the end, and both are clamped to [0..n]. *)
Definition slice_bound (n : nat) (i : Z) : nat :=
  if (i <? 0)%Z then Z.to_nat (Z.max 0 (i + Z.of_nat n))
  else Nat.min (Z.to_nat i) n.

Definition slice {A : Type} (l : list A) (a b : Z) : list A :=
  let lo := slice_bound (length l) a in
  let hi := slice_bound (length l) b in
  firstn (hi - lo) (skipn lo l).

(** A dict keeps its keys in insertion order; assigning to a key that is
    present replaces the value and keeps the key's position. *)
Definition dict (V : Type) : Type := list (string * V).

Fixpoint dict_set {V : Type} (d : dict V) (k : string) (v : V) : dict V :=
  match d with
  | [] => [(k, v)]
  | (k', v') :: d' =>
      if String.eqb k' k then (k', v) :: d'
      else (k', v') :: dict_set d' k v
  end.

Definition dict_update {V : Type} (d other : dict V) : dict V :=
  fold_left (fun acc kv => dict_set acc (fst kv) (snd kv)) other d.

Definition dict_keys {V : Type} (d : dict V) : list string := map fst d.

Fixpoint dict_get {V : Type} (d : dict V) (k : string) : option V :=
  match d with
  | [] => None
  | (k', v) :: d' => if String.eqb k' k then Some v else dict_get d' k
  end.

(** [int(x)] of a float: truncation toward zero. *)
Definition int (x : R) : Z :=
  if Rle_dec 0 x then Int_part x else (- Int_part (- x))%Z.

(** [x // y] and [x % y] of floats for a divisor that is not zero: the
    floor of the quotient, as a float, and what it leaves. *)
Definition floordiv (x y : R) : R := IZR (Int_part (x / y)).

Definition fmod (x y : R) : R := (x - y * floordiv x y)%R.

(** An [int] formatted by an f-string: its decimal digits. *)
Definition str (n : Z) : string :=
  DecimalString.NilZero.string_of_int (Z.to_int n).

End Py.

Notation "x <- e ;; k" := (Py.bind e (fun x => k))
  (at level 61, e at next level, right associativity).

(* ------------------------------------------------------------------ *)
(** ** numpy: float64 cells and the array routines the code calls       *)
(* ------------------------------------------------------------------ *)

Module Np.

(** A sample: a real number or NaN.  Two doubles that differ only by
    rounding, or the two zeros, are one cell. *)
Definition cell : Type := option R.
Definition NaN : cell := None.
Definition fin (x : R) : cell := Some x.

Definition lift2 (f : R -> R -> R) (a b : cell) : cell :=
  match a, b with
  | Some x, Some y => Some (f x y)
  | _, _ => NaN
  end.

Definition add : cell -> cell -> cell := lift2 Rplus.
Definition sub : cell -> cell -> cell := lift2 Rminus.
Definition mul : cell -> cell -> cell := lift2 Rmult.

Definition div (a b : cell) : cell :=
  match a, b with
  | Some x, Some y => if Req_dec_T y 0 then NaN else Some (x / y)%R
  | _, _ => NaN
  end.

Definition square (a : cell) : cell := mul a a.

Definition abs (a : cell) : cell := option_map Rabs a.

Definition sqrt (a : cell) : cell :=
  match a with
  | Some x => if Rlt_dec x 0 then NaN else Some (R_sqrt.sqrt x)
  | None => NaN
  end.

Definition isnan (a : cell) : bool :=
  match a with
  | Some _ => false
  | None => true
  end.

(** Comparisons with NaN are false. *)
Definition gt (a b : cell) : bool :=
  match a, b with
  | Some x, Some y => if Rlt_dec y x then true else false
  | _, _ => false
  end.

Definition lt (a b : cell) : bool := gt b a.

Definition ge (a b : cell) : bool :=
  match a, b with
  | Some x, Some y => if Rle_dec y x then true else false
  | _, _ => false
  end.

Definition eq (a b : cell) : bool :=
  match a, b with
  | Some x, Some y => if Req_dec_T x y then true else false
  | _, _ => false
  end.

(** [np.signbit] of a real: whether it is negative.  (Of the two zeros of
    IEEE arithmetic this is the positive one; see [F64.signbit].) *)
Definition signbit (a : cell) : bool :=
  match a with
  | Some x => if Rlt_dec x 0 then true else false
  | None => false
  end.

Definition fmin (a b : cell) : cell := lift2 Rmin a b.
Definition fmax (a b : cell) : cell := lift2 Rmax a b.

(** [np.where(c, x, y)] on scalars. *)
Definition where_ (c : bool) (x y : cell) : cell := if c then x else y.

Definition of_Z (z : Z) : cell := Some (IZR z).
Definition of_nat (n : nat) : cell := Some (INR n).

(** Reductions over a one-dimensional array, without rounding (see
    [F64.sum], [F64.mean] and [F64.std] for the rounded ones). *)
Fixpoint sum (a : list cell) : cell :=
  match a with
  | [] => fin 0
  | x :: xs => add x (sum xs)
  end.

Definition mean (a : list cell) : cell :=
  match a with
  | [] => NaN
  | _ :: _ => div (sum a) (of_nat (length a))
  end.

(** [np.std]: the square root of the mean of [abs(x - x.mean())**2]. *)
Definition std (a : list cell) : cell :=
  sqrt (mean (map (fun x => square (abs (sub x (mean a)))) a)).

(** [np.min], [np.max], [np.ptp] raise [ValueError] on an empty array. *)
Definition min (a : list cell) : Py.result cell :=
  match a with
  | [] => Py.Raise Py.ValueError
  | x :: xs => Py.Ok (fold_left fmin xs x)
  end.

Definition max (a : list cell) : Py.result cell :=
  match a with
  | [] => Py.Raise Py.ValueError
  | x :: xs => Py.Ok (fold_left fmax xs x)
  end.

Definition ptp (a : list cell) : Py.result cell :=
  hi <- max a ;; lo <- min a ;; Py.Ok (sub hi lo).

(** [np.diff]: [out[i] = a[i+1] - a[i]]. *)
Fixpoint diff (a : list cell) : list cell :=
  match a with
  | x :: (y :: _) as t => sub y x :: diff t
  | _ => []
  end.

(** [np.diff] of an integer array. *)
Fixpoint diff_int (a : list Z) : list Z :=
  match a with
  | x :: (y :: _) as t => (y - x)%Z :: diff_int t
  | _ => []
  end.

(** [np.diff] of a boolean array: [out[i] = a[i+1] != a[i]]. *)
Fixpoint diff_bool (a : list bool) : list bool :=
  match a with
  | x :: (y :: _) as t => xorb y x :: diff_bool t
  | _ => []
  end.

(** [np.sum] of a boolean array: the number of [True] entries. *)
Definition count_true (a : list bool) : Z :=
  Z.of_nat (length (filter (fun b => b) a)).

(** [a[~np.isnan(a)]]. *)
Definition drop_nan (a : list cell) : list cell :=
  filter (fun x => negb (isnan x)) a.

(** [np.argmax]: the first index of the maximum; a NaN entry counts as
    the maximum.  Raises [ValueError] on an empty array. *)
Fixpoint argmax_from (best : cell) (besti : nat) (i : nat) (a : list cell) : nat :=
  match a with
  | [] => besti
  | x :: xs =>
      if isnan best then besti
      else if isnan x || gt x best then argmax_from x i (S i) xs
      else argmax_from best besti (S i) xs
  end.

Definition argmax (a : list cell) : Py.result nat :=
  match a with
  | [] => Py.Raise Py.ValueError
  | x :: xs => Py.Ok (argmax_from x 0 1 xs)
  end.

(** Smallest integer not below [x]. *)
Definition ceil (x : R) : Z := (- Int_part (- x))%Z.

(** [np.arange(0, stop, step)] for a nonzero [step]: [ceil(stop/step)]
    values [k * step]; a NaN bound raises [ValueError]. *)
Definition arange0 (stop : cell) (step : R) : Py.result (list cell) :=
  match stop with
  | None => Py.Raise Py.ValueError
  | Some s =>
      Py.Ok (map (fun k => fin (INR k * step))
                 (seq 0 (Z.to_nat (ceil (s / step)))))
  end.

(** Arrays are objects: an [ndarray] is an address into a heap of
    arrays, and [copy] allocates a new one. *)
Definition heap : Type := list (list cell).
Definition ndarray : Type := nat.

Definition deref (h : heap) (a : ndarray) : list cell := nth a h [].

Definition alloc (h : heap) (v : list cell) : ndarray * heap :=
  (length h, h ++ [v]).

Definition copy (h : heap) (a : ndarray) : ndarray * heap :=
  alloc h (deref h a).

(** [a + b] of two arrays of one length, entry by entry. *)
Definition vadd (a b : list cell) : list cell :=
  map (fun xy => add (fst xy) (snd xy)) (combine a b).

End Np.

(* ------------------------------------------------------------------ *)
(** ** numpy on IEEE doubles                                            *)
(* ------------------------------------------------------------------ *)

(** The reductions whose result depends on rounding or on the sign of
    zero, on binary64 floats with round-to-nearest-even arithmetic. *)
Module F64.

Import PrimFloat.PrimFloatNotations.
Local Open Scope float_scope.

Definition cell : Set := PrimFloat.float.

(** The double of an array length. *)
Definition of_nat (n : nat) : cell :=
  PrimFloat.of_uint63 (Uint63.of_Z (Z.of_nat n)).

Definition isnan (x : cell) : bool := PrimFloat.is_nan x.

Definition isfinite (x : cell) : bool := PrimFloat.is_finite x.

(** [np.signbit]: the sign field; [-0.0] has it set.  These doubles do not
    record the sign of a NaN, which reads [false]. *)
Definition signbit (x : cell) : bool :=
  match FloatOps.Prim2SF x with
  | SpecFloat.S754_zero s => s
  | SpecFloat.S754_infinity s => s
  | SpecFloat.S754_finite s _ _ => s
  | SpecFloat.S754_nan => false
  end.

(** [a > b]; false when either is NaN. *)
Definition gt (a b : cell) : bool := (b <? a).

(** [np.add.reduce] over a contiguous array is numpy's pairwise sum: fewer
    than 8 entries are added from left to right; up to 128 entries are
    added in 8 interleaved accumulators that are then added as a tree, the
    entries after the last full group of 8 being added at the end; a
    longer array is split near its middle, at a multiple of 8.  The
    accumulators start from [-0.0], which changes no sum but that of
    negative zeros; an empty array sums to [0.0]. *)
Definition tree8 (r : list cell) : cell :=
  match r with
  | [r0; r1; r2; r3; r4; r5; r6; r7] =>
      ((r0 + r1) + (r2 + r3)) + ((r4 + r5) + (r6 + r7))
  | _ => PrimFloat.nan
  end.

Fixpoint add8 (groups : nat) (r a : list cell) : list cell * list cell :=
  match groups with
  | O => (r, a)
  | S g =>
      add8 g (map (fun p => fst p + snd p) (combine r (firstn 8 a))) (skipn 8 a)
  end.

Definition block_sum (a : list cell) : cell :=
  let (r, rest) := add8 (length a / 8 - 1) (firstn 8 a) (skipn 8 a) in
  fold_left PrimFloat.add rest (tree8 r).

Fixpoint pairwise_sum (fuel : nat) (a : list cell) : cell :=
  let n := length a in
  if (n <? 8)%nat then fold_left PrimFloat.add a PrimFloat.neg_zero
  else if (n <=? 128)%nat then block_sum a
  else
    match fuel with
    | O => block_sum a
    | S fuel' =>
        let n2 := (n / 2)%nat in
        let n2 := (n2 - n2 mod 8)%nat in
        pairwise_sum fuel' (firstn n2 a) + pairwise_sum fuel' (skipn n2 a)
    end.

Definition sum (a : list cell) : cell :=
  match a with
  | [] => PrimFloat.zero
  | _ :: _ => PrimFloat.neg_zero + pairwise_sum (length a) a
  end.

(** [np.mean]: the sum divided by the length (NaN for an empty array). *)
Definition mean (a : list cell) : cell := sum a / of_nat (length a).

(** [np.std]: the square root of the mean of the squared deviations from
    the computed mean. *)
Definition std (a : list cell) : cell :=
  let m := mean a in
  PrimFloat.sqrt (mean (map (fun x => (x - m) * (x - m)) a)).

(** [a[~np.isnan(a)]]. *)
Definition drop_nan (a : list cell) : list cell :=
  filter (fun x => negb (isnan x)) a.

(** [np.diff]: [out[i] = a[i+1] - a[i]]. *)
Fixpoint diff (a : list cell) : list cell :=
  match a with
  | x :: (y :: _) as t => (y - x) :: diff t
  | _ => []
  end.

(** A scalar stored in a feature dict. *)
Inductive scalar : Type :=
| VFloat (x : cell)
| VInt (z : Z).

(** The order statistics and the scipy routines, taken as given. *)
Class Library : Type := {
  np_min : list cell -> cell;
  np_max : list cell -> cell;
  np_median : list cell -> cell;
  np_percentile : list cell -> Z -> cell;
  stats_skew : list cell -> cell;
  stats_kurtosis : list cell -> cell
}.

End F64.

(* ------------------------------------------------------------------ *)
(** ** Library routines taken as given                                  *)
(* ------------------------------------------------------------------ *)

Class Library : Type := {
  (** [scipy.stats.skew], [scipy.stats.kurtosis] *)
  stats_skew : list Np.cell -> Np.cell;
  stats_kurtosis : list Np.cell -> Np.cell;
  (** [np.median(a)], [np.percentile(a, q)] *)
  np_median : list Np.cell -> Np.cell;
  np_percentile : list Np.cell -> R -> Np.cell;
  (** [scipy.signal.find_peaks(x, distance=d, prominence=p)]: peak indices *)
  find_peaks : list Np.cell -> Z -> Np.cell -> Py.result (list nat);
  (** [scipy.interpolate.interp1d(x, y, kind=k, fill_value='extrapolate')]:
      the interpolating function, or the error raised for the arguments *)
  interp1d : list Np.cell -> list Np.cell -> string ->
             Py.result (list Np.cell -> list Np.cell);
  (** [np.abs(np.fft.rfft(x))**2] *)
  rfft_power : list Np.cell -> Py.result (list Np.cell)
}.

(* ------------------------------------------------------------------ *)
(** ** data/preprocessing.py                                            *)
(* ------------------------------------------------------------------ *)

Module Preprocessing.
Section WithLibrary.
Context {L : Library}.

Local Open Scope string_scope.

(** [resample_signal(data, original_sr, target_sr, method)].  The rates
    are compared first; the interpolation kind is only looked at by
    [interp1d]. *)
Definition resample_signal (h : Np.heap) (data : Np.ndarray)
    (original_sr target_sr : R) (method : string)
  : Py.result (Np.ndarray * Np.heap) :=
  if Req_dec_T original_sr target_sr then
    Py.Ok (Np.copy h data)
  else
    let d := Np.deref h data in
    let n_samples := length d in
    let t_original :=
      map (fun k => Np.div (Np.of_nat k) (Np.fin original_sr)) (seq 0 n_samples) in
    last_t <- match rev t_original with
              | [] => Py.Raise Py.IndexError
              | t :: _ => Py.Ok t
              end ;;
    step <- (if Req_dec_T target_sr 0 then Py.Raise Py.ZeroDivisionError
             else Py.Ok (1 / target_sr)%R) ;;
    t_target <- Np.arange0 last_t step ;;
    interpolator <- interp1d t_original d method ;;
    Py.Ok (Np.alloc h (interpolator t_target)).

(** [normalize_signal(data, method, axis)] on a one-dimensional array:
    [axis] may be [None], [0] or [-1]; the reductions keep a single value. *)
Definition axis_ok (axis : option Z) : bool :=
  match axis with
  | None => true
  | Some k => (k =? 0)%Z || (k =? -1)%Z
  end.

Definition normalize_signal (data : list Np.cell) (method : string)
    (axis : option Z) : Py.result (list Np.cell) :=
  if String.eqb method "zscore" then
    if negb (axis_ok axis) then Py.Raise Py.ValueError else
    let mean := Np.mean data in
    let std := Np.std data in
    let std := Np.where_ (Np.eq std (Np.fin 0)) (Np.fin 1) std in
    Py.Ok (map (fun x => Np.div (Np.sub x mean) std) data)
  else if String.eqb method "minmax" then
    if negb (axis_ok axis) then Py.Raise Py.ValueError else
    min_val <- Np.min data ;;
    max_val <- Np.max data ;;
    let range_val := Np.sub max_val min_val in
    let range_val := Np.where_ (Np.eq range_val (Np.fin 0)) (Np.fin 1) range_val in
    Py.Ok (map (fun x => Np.div (Np.sub x min_val) range_val) data)
  else if String.eqb method "robust" then
    if negb (axis_ok axis) then Py.Raise Py.ValueError else
    let median := np_median data in
    let q75 := np_percentile data 75 in
    let q25 := np_percentile data 25 in
    let iqr := Np.sub q75 q25 in
    let iqr := Np.where_ (Np.eq iqr (Np.fin 0)) (Np.fin 1) iqr in
    Py.Ok (map (fun x => Np.div (Np.sub x median) iqr) data)
  else
    Py.Raise Py.ValueError.

(** [bvp[peaks]]: every index must be in range. *)
Definition take (a : list Np.cell) (idx : list nat) : Py.result (list Np.cell) :=
  Py.mapM (fun i => match nth_error a i with
                    | Some x => Py.Ok x
                    | None => Py.Raise Py.IndexError
                    end) idx.

(** [detect_ppg_peaks(bvp, fs, min_distance=0.4)]. *)
Definition detect_ppg_peaks (bvp : list Np.cell) (fs : R) (min_distance : R)
  : Py.result (list nat * list Np.cell) :=
  let min_samples := Py.int (min_distance * fs) in
  peaks <- find_peaks bvp min_samples (Np.mul (Np.std bvp) (Np.fin (3 / 10))) ;;
  values <- take bvp peaks ;;
  Py.Ok (peaks, values).

Definition default_min_distance : R := (4 / 10)%R.

(** [compute_ibi_from_peaks(peak_indices, fs)]: milliseconds. *)
Definition compute_ibi_from_peaks (peak_indices : list nat) (fs : R)
  : list Np.cell :=
  let ibi_samples := Np.diff_int (map Z.of_nat peak_indices) in
  map (fun d => Np.mul (Np.div (Np.of_Z d) (Np.fin fs)) (Np.fin 1000)) ibi_samples.

End WithLibrary.

(** [compute_activity_counts(acc_magnitude, fs, epoch_duration=1.0)]:
    [len // samples_per_epoch] raises [ZeroDivisionError] for a window of
    no samples, [np.zeros] raises [ValueError] for a negative count. *)
Definition compute_activity_counts (acc_magnitude : list Np.cell)
    (fs epoch_duration : R) : Py.result (list Np.cell) :=
  let samples_per_epoch := Py.int (epoch_duration * fs) in
  if (samples_per_epoch =? 0)%Z then Py.Raise Py.ZeroDivisionError else
  let n_epochs := (Z.of_nat (length acc_magnitude) / samples_per_epoch)%Z in
  if (n_epochs <? 0)%Z then Py.Raise Py.ValueError else
  i_s <- Py.range 0 n_epochs 1 ;;
  Py.Ok (map (fun i =>
                let start := (i * samples_per_epoch)%Z in
                let end_ := (start + samples_per_epoch)%Z in
                let epoch_data := Py.slice acc_magnitude start end_ in
                Np.sum (map Np.abs
                          (map (fun x => Np.sub x (Np.mean epoch_data)) epoch_data)))
             i_s).

End Preprocessing.

(* ------------------------------------------------------------------ *)
(** ** utils/helpers.py                                                 *)
(* ------------------------------------------------------------------ *)

Module Helpers.

(** [get_sampling_rate(resolution)]: a lookup in the two-entry map. *)
Definition get_sampling_rate (resolution : string) : Py.result R :=
  if String.eqb resolution "64Hz" then Py.Ok 64%R
  else if String.eqb resolution "100Hz" then Py.Ok 100%R
  else Py.Raise Py.ValueError.

(** [create_time_vector(n_samples, fs, start_time=0.0)]:
    [np.arange(n_samples) / fs + start_time]. *)
Definition create_time_vector (n_samples : Z) (fs start_time : R)
  : list Np.cell :=
  map (fun k => Np.add (Np.div (Np.of_nat k) (Np.fin fs)) (Np.fin start_time))
      (seq 0 (Z.to_nat n_samples)).

(** [format_duration(seconds)]: the three integers, then the text. *)
Definition duration_parts (seconds : R) : Z * Z * Z :=
  let hours := Py.int (Py.floordiv seconds 3600) in
  let minutes := Py.int (Py.floordiv (Py.fmod seconds 3600) 60) in
  let secs := Py.int (Py.fmod seconds 60) in
  (hours, minutes, secs).

Definition format_duration (seconds : R) : string :=
  let '(hours, minutes, secs) := duration_parts seconds in
  if (hours >? 0)%Z then
    (Py.str hours ++ "h " ++ Py.str minutes ++ "m " ++ Py.str secs ++ "s")%string
  else if (minutes >? 0)%Z then
    (Py.str minutes ++ "m " ++ Py.str secs ++ "s")%string
  else
    (Py.str secs ++ "s")%string.

(** [samples_to_time(n_samples, fs)]: the division is one of Python
    numbers, so a zero rate raises. *)
Definition samples_to_time (n_samples : Z) (fs : R) : Py.result (R * string) :=
  if Req_dec_T fs 0 then Py.Raise Py.ZeroDivisionError else
  let duration_sec := (IZR n_samples / fs)%R in
  Py.Ok (duration_sec, format_duration duration_sec).

(** [time_to_samples(time_sec, fs)] *)
Definition time_to_samples (time_sec fs : R) : Z := Py.int (time_sec * fs).

End Helpers.

(* ------------------------------------------------------------------ *)
(** ** pandas: tables, [iloc], [Series.mode], [pd.DataFrame(rows)]      *)
(* ------------------------------------------------------------------ *)

Module Pd.

(** A scalar stored in a feature dict or in a table cell. *)
Inductive scalar : Type :=
| VFloat (c : Np.cell)
| VInt (z : Z)
| VStr (s : string).

(** The participant table: float64 channel columns by name, the optional
    ['Sleep_Stage'] column of stage names, and the number of rows. *)
Record DataFrame : Type := {
  signals : list (string * list Np.cell);
  sleep_stage : option (list string);
  n_rows : nat
}.

Definition label_column : string := "Sleep_Stage"%string.

Definition columns (df : DataFrame) : list string :=
  map fst (signals df) ++
  match sleep_stage df with
  | Some _ => [label_column]
  | None => []
  end.

Definition in_columns (c : string) (df : DataFrame) : bool :=
  existsb (String.eqb c) (columns df).

(** Every column has [n_rows] entries, no channel column is called
    ['Sleep_Stage'], names are not repeated. *)
Definition well_formed (df : DataFrame) : Prop :=
  Forall (fun kv => length (snd kv) = n_rows df) (signals df) /\
  (forall l, sleep_stage df = Some l -> length l = n_rows df) /\
  ~ In label_column (map fst (signals df)) /\
  NoDup (columns df).

Definition len (df : DataFrame) : nat := n_rows df.

(** [df.iloc[a:b]] *)
Definition iloc (df : DataFrame) (a b : Z) : DataFrame :=
  {| signals := map (fun kv => (fst kv, Py.slice (snd kv) a b)) (signals df);
     sleep_stage := option_map (fun l => Py.slice l a b) (sleep_stage df);
     n_rows := length (Py.slice (seq 0 (n_rows df)) a b) |}.

(** [df[c].values] of a channel column. *)
Fixpoint lookup (c : string) (cols : list (string * list Np.cell))
  : Py.result (list Np.cell) :=
  match cols with
  | [] => Py.Raise Py.KeyError
  | (k, v) :: rest => if String.eqb k c then Py.Ok v else lookup c rest
  end.

Definition values (df : DataFrame) (c : string) : Py.result (list Np.cell) :=
  lookup c (signals df).

(** [df['Sleep_Stage']] *)
Definition labels (df : DataFrame) : Py.result (list string) :=
  match sleep_stage df with
  | Some l => Py.Ok l
  | None => Py.Raise Py.KeyError
  end.

(** [Series.mode()]: the values that occur most often, in sorted order. *)
Definition count (x : string) (l : list string) : nat :=
  length (filter (String.eqb x) l).

Definition max_count (l : list string) : nat :=
  fold_right Nat.max 0 (map (fun x => count x l) l).

Fixpoint insert_sorted (x : string) (l : list string) : list string :=
  match l with
  | [] => [x]
  | y :: ys => if String.leb x y then x :: l else y :: insert_sorted x ys
  end.

Definition sort (l : list string) : list string :=
  fold_right insert_sorted [] l.

Definition mode (l : list string) : list string :=
  sort (filter (fun x => Nat.eqb (count x l) (max_count l)) (nodup string_dec l)).

(** [s.iloc[0]] *)
Definition iloc0 (l : list string) : Py.result string :=
  match l with
  | [] => Py.Raise Py.IndexError
  | x :: _ => Py.Ok x
  end.

(** [pd.DataFrame(rows)] of a list of dicts: the columns are the keys in
    order of first appearance, a key missing from a row reads NaN. *)
Record FeatureTable : Type := {
  ft_columns : list string;
  ft_rows : list (list scalar)
}.

Definition add_key (acc : list string) (k : string) : list string :=
  if existsb (String.eqb k) acc then acc else acc ++ [k].

Definition union_keys (rows : list (Py.dict scalar)) : list string :=
  fold_left (fun acc d => fold_left add_key (Py.dict_keys d) acc) rows [].

Definition from_records (rows : list (Py.dict scalar)) : FeatureTable :=
  let cols := union_keys rows in
  {| ft_columns := cols;
     ft_rows :=
       map (fun d => map (fun c => match Py.dict_get d c with
                                   | Some v => v
                                   | None => VFloat Np.NaN
                                   end) cols) rows |}.

(** [df[cols]] for a list of names: the named columns in the order asked
    for (the label column, when asked for, is kept where this model holds
    it); a name that is not a column raises [KeyError]. *)
Definition select (df : DataFrame) (cols : list string) : Py.result DataFrame :=
  label <- (if existsb (String.eqb label_column) cols then
              match sleep_stage df with
              | Some l => Py.Ok (Some l)
              | None => Py.Raise Py.KeyError
              end
            else Py.Ok None) ;;
  sigs <- Py.mapM (fun c => v <- lookup c (signals df) ;; Py.Ok (c, v))
            (filter (fun c => negb (String.eqb label_column c)) cols) ;;
  Py.Ok {| signals := sigs; sleep_stage := label; n_rows := n_rows df |}.

(** The same operations on a feature table: [len(t)], [c in t.columns],
    [t[cols]] and [t[c] = v] for a scalar [v]. *)
Definition ft_len (t : FeatureTable) : nat := length (ft_rows t).

Definition ft_in_columns (c : string) (t : FeatureTable) : bool :=
  existsb (String.eqb c) (ft_columns t).

Fixpoint index_of (c : string) (cols : list string) : option nat :=
  match cols with
  | [] => None
  | k :: rest =>
      if String.eqb k c then Some 0%nat
      else option_map S (index_of c rest)
  end.

Definition ft_select (t : FeatureTable) (cols : list string)
  : Py.result FeatureTable :=
  idx <- Py.mapM (fun c => match index_of c (ft_columns t) with
                           | Some i => Py.Ok i
                           | None => Py.Raise Py.KeyError
                           end) cols ;;
  Py.Ok {| ft_columns := cols;
           ft_rows := map (fun row => map (fun i => nth i row (VFloat Np.NaN)) idx)
                          (ft_rows t) |}.

Fixpoint set_nth (i : nat) (v : scalar) (row : list scalar) : list scalar :=
  match row, i with
  | [], _ => []
  | _ :: xs, O => v :: xs
  | x :: xs, S j => x :: set_nth j v xs
  end.

Definition ft_set_column (t : FeatureTable) (c : string) (v : scalar)
  : FeatureTable :=
  match index_of c (ft_columns t) with
  | Some i => {| ft_columns := ft_columns t;
                 ft_rows := map (set_nth i v) (ft_rows t) |}
  | None => {| ft_columns := ft_columns t ++ [c];
               ft_rows := map (fun row => row ++ [v]) (ft_rows t) |}
  end.

End Pd.

(* ------------------------------------------------------------------ *)
(** ** data/loader.py: the methods of [DREAMTLoader] that work on a     *)
(**    table already read                                               *)
(* ------------------------------------------------------------------ *)

Module Loader.

Import Pd.
Local Open Scope string_scope.

Definition IMU_COLUMNS : list string := ["ACC_X"; "ACC_Y"; "ACC_Z"].
Definition PPG_COLUMNS : list string := ["BVP"].
Definition DERIVED_COLUMNS : list string := ["HR"; "IBI"].
Definition LABEL_COLUMN : string := "Sleep_Stage".
Definition TIMESTAMP_COLUMN : string := "TIMESTAMP".

Definition STAGE_ENCODING : Py.dict Z :=
  [("P", -1); ("W", 0); ("N1", 1); ("N2", 2); ("N3", 3); ("R", 4);
   ("Missing", -2)]%Z.

(** Of the loader's attributes only [resolution] is read here. *)
Record DREAMTLoader : Type := {
  resolution : string
}.

Definition get_imu_signals (df : DataFrame) (include_timestamp : bool)
  : Py.result DataFrame :=
  let cols := IMU_COLUMNS in
  let cols :=
    if include_timestamp && in_columns TIMESTAMP_COLUMN df
    then TIMESTAMP_COLUMN :: cols else cols in
  let available_cols := filter (fun c => in_columns c df) cols in
  select df available_cols.

Definition get_ppg_signals (df : DataFrame)
    (include_derived include_timestamp : bool) : Py.result DataFrame :=
  let cols := PPG_COLUMNS in
  let cols :=
    if include_derived
    then (cols ++ filter (fun c => in_columns c df) DERIVED_COLUMNS)%list
    else cols in
  let cols :=
    if include_timestamp && in_columns TIMESTAMP_COLUMN df
    then TIMESTAMP_COLUMN :: cols else cols in
  let available_cols := filter (fun c => in_columns c df) cols in
  select df available_cols.

(** The series returned by [get_sleep_stages]: the stage names, or their
    codes, where a name outside [STAGE_ENCODING] reads NaN ([None]). *)
Inductive stage_series : Type :=
| Names (l : list string)
| Codes (l : list (option Z)).

Definition get_sleep_stages (df : DataFrame) (as_numeric : bool)
  : Py.result stage_series :=
  if negb (in_columns LABEL_COLUMN df) then Py.Raise Py.ValueError else
  stages <- labels df ;;
  if as_numeric then Py.Ok (Codes (map (Py.dict_get STAGE_ENCODING) stages))
  else Py.Ok (Names stages).

(** The rate both [get_time_vector] and [get_epoch_data] work out. *)
Definition rate_of (self : DREAMTLoader) : Z :=
  if String.eqb (resolution self) "64Hz" then 64%Z else 100%Z.

Definition get_time_vector (self : DREAMTLoader) (df : DataFrame)
  : Py.result (list Np.cell) :=
  if in_columns TIMESTAMP_COLUMN df then values df TIMESTAMP_COLUMN
  else
    let sr := rate_of self in
    Py.Ok (map (fun k => Np.div (Np.of_nat k) (Np.of_Z sr)) (seq 0 (len df))).

(** [np.sqrt(acc_x**2 + acc_y**2 + acc_z**2)] on whole columns. *)
Definition compute_imu_magnitude (df : DataFrame) : Py.result (list Np.cell) :=
  acc_x <- values df "ACC_X" ;;
  acc_y <- values df "ACC_Y" ;;
  acc_z <- values df "ACC_Z" ;;
  Py.Ok (map Np.sqrt
           (Np.vadd (Np.vadd (map Np.square acc_x) (map Np.square acc_y))
                    (map Np.square acc_z))).

(** [get_epoch_data(df, epoch_duration=30.0)]: the windows that are full. *)
Definition get_epoch_data (self : DREAMTLoader) (df : DataFrame)
    (epoch_duration : R) : Py.result (list DataFrame) :=
  time <- get_time_vector self df ;;
  let sr := rate_of self in
  let samples_per_epoch := Py.int (epoch_duration * IZR sr) in
  i_s <- Py.range 0 (Z.of_nat (len df)) samples_per_epoch ;;
  Py.Ok (filter (fun epoch => (Z.of_nat (len epoch) =? samples_per_epoch)%Z)
                (map (fun i => iloc df i (i + samples_per_epoch)) i_s)).

End Loader.

(* ------------------------------------------------------------------ *)
(** ** features/extractor.py                                            *)
(* ------------------------------------------------------------------ *)

Module Extractor.
Section WithLibrary.
Context {L : Library}.

Import Pd.
Local Open Scope string_scope.

Definition features_t : Type := Py.dict scalar.

(** The state set up by [FeatureExtractor.__init__]. *)
Record FeatureExtractor : Type := {
  epoch_duration : R;
  fs : R;
  overlap : R;
  samples_per_epoch : Z;
  step_size : Z
}.


Definition _compute_statistical_features (signal_data : list Np.cell)
    (prefix : string) : Py.result features_t :=
  let features : features_t := [] in
  let signal_data := Np.drop_nan signal_data in
  if Nat.eqb (length signal_data) 0 then Py.Ok features else
  let features := Py.dict_set features (prefix ++ "_mean") (VFloat (Np.mean signal_data)) in
  let features := Py.dict_set features (prefix ++ "_std") (VFloat (Np.std signal_data)) in
  lo <- Np.min signal_data ;;
  let features := Py.dict_set features (prefix ++ "_min") (VFloat lo) in
  hi <- Np.max signal_data ;;
  let features := Py.dict_set features (prefix ++ "_max") (VFloat hi) in
  pt <- Np.ptp signal_data ;;
  let features := Py.dict_set features (prefix ++ "_range") (VFloat pt) in
  let features := Py.dict_set features (prefix ++ "_median") (VFloat (np_median signal_data)) in
  let q75 := np_percentile signal_data 75 in
  let q25 := np_percentile signal_data 25 in
  let features := Py.dict_set features (prefix ++ "_iqr") (VFloat (Np.sub q75 q25)) in
  let features :=
    if Np.gt (Np.std signal_data) (Np.fin 0) then
      let features := Py.dict_set features (prefix ++ "_skew") (VFloat (stats_skew signal_data)) in
      Py.dict_set features (prefix ++ "_kurtosis") (VFloat (stats_kurtosis signal_data))
    else
      let features := Py.dict_set features (prefix ++ "_skew") (VFloat (Np.fin 0)) in
      Py.dict_set features (prefix ++ "_kurtosis") (VFloat (Np.fin 0)) in
  let features := Py.dict_set features (prefix ++ "_energy")
                    (VFloat (Np.sum (map Np.square signal_data))) in
  let features := Py.dict_set features (prefix ++ "_rms")
                    (VFloat (Np.sqrt (Np.mean (map Np.square signal_data)))) in
  let zero_crossings :=
    Np.count_true
      (Np.diff_bool
         (map Np.signbit
              (map (fun x => Np.sub x (Np.mean signal_data)) signal_data))) in
  let features := Py.dict_set features (prefix ++ "_zero_crossings") (VInt zero_crossings) in
  Py.Ok features.

(** [ibi[(ibi > 300) & (ibi < 2000)]] *)
Definition valid_ibi (ibi : list Np.cell) : list Np.cell :=
  filter (fun x => Np.gt x (Np.fin 300) && Np.lt x (Np.fin 2000)) ibi.

(** [np.sum(np.abs(d) > t) / len(d) * 100] *)
Definition pnn (successive_diff : list Np.cell) (t : R) : Np.cell :=
  Np.mul
    (Np.div
       (Np.of_Z (Np.count_true (map (fun d => Np.gt (Np.abs d) (Np.fin t)) successive_diff)))
       (Np.of_nat (length successive_diff)))
    (Np.fin 100).

Definition _compute_hrv_features (ibi : list Np.cell) : features_t :=
  let features : features_t := [] in
  if Nat.ltb (length ibi) 2 then features else
  let ibi := valid_ibi ibi in
  if Nat.ltb (length ibi) 2 then features else
  let features := Py.dict_set features "hrv_mean_ibi" (VFloat (Np.mean ibi)) in
  let features := Py.dict_set features "hrv_sdnn" (VFloat (Np.std ibi)) in
  let successive_diff := Np.diff ibi in
  let features := Py.dict_set features "hrv_rmssd"
                    (VFloat (Np.sqrt (Np.mean (map Np.square successive_diff)))) in
  let pnn50 := pnn successive_diff 50 in
  let features := Py.dict_set features "hrv_pnn50" (VFloat pnn50) in
  let pnn20 := pnn successive_diff 20 in
  let features := Py.dict_set features "hrv_pnn20" (VFloat pnn20) in
  features.

(** The body of the [try] block of [_extract_ppg_features]; whatever it
    raises is swallowed by [except Exception: pass]. *)
Definition hrv_block (self : FeatureExtractor) (bvp : list Np.cell)
    (features : features_t) : Py.result features_t :=
  pv <- Preprocessing.detect_ppg_peaks bvp (fs self)
          Preprocessing.default_min_distance ;;
  let peaks := fst pv in
  if Nat.ltb 2 (length peaks) then
    let ibi := Preprocessing.compute_ibi_from_peaks peaks (fs self) in
    let hrv_features := _compute_hrv_features ibi in
    Py.Ok (Py.dict_update features hrv_features)
  else Py.Ok features.

Definition _extract_ppg_features (self : FeatureExtractor) (epoch_df : DataFrame)
  : Py.result features_t :=
  let features : features_t := [] in
  bvp <- values epoch_df "BVP" ;;
  bvp_features <- _compute_statistical_features bvp "ppg" ;;
  let features := Py.dict_update features bvp_features in
  features <-
    (if in_columns "HR" epoch_df then
       hr <- values epoch_df "HR" ;;
       let hr := Np.drop_nan hr in
       if Nat.ltb 0 (length hr) then
         let features := Py.dict_set features "hr_mean" (VFloat (Np.mean hr)) in
         let features := Py.dict_set features "hr_std" (VFloat (Np.std hr)) in
         lo <- Np.min hr ;;
         let features := Py.dict_set features "hr_min" (VFloat lo) in
         hi <- Np.max hr ;;
         let features := Py.dict_set features "hr_max" (VFloat hi) in
         hi' <- Np.max hr ;;
         lo' <- Np.min hr ;;
         Py.Ok (Py.dict_set features "hr_range" (VFloat (Np.sub hi' lo')))
       else Py.Ok features
     else Py.Ok features) ;;
  let features :=
    match hrv_block self bvp features with
    | Py.Ok features' => features'
    | Py.Raise _ => features
    end in
  Py.Ok features.

Definition map3 (f : Np.cell -> Np.cell -> Np.cell -> Np.cell)
    (a b c : list Np.cell) : list Np.cell :=
  map (fun xyz => f (fst (fst xyz)) (snd (fst xyz)) (snd xyz))
      (combine (combine a b) c).

(** [np.sqrt(x**2 + y**2 + z**2)] row by row. *)
Definition magnitude_of (x y z : list Np.cell) : list Np.cell :=
  map3 (fun a b c =>
          Np.sqrt (Np.add (Np.add (Np.square a) (Np.square b)) (Np.square c)))
       x y z.

Definition axis_step (epoch_df : DataFrame) (features : features_t)
    (axis : string * string) : Py.result features_t :=
  let col := "ACC_" ++ fst axis in
  if in_columns col epoch_df then
    signal_data <- values epoch_df col ;;
    axis_features <- _compute_statistical_features signal_data ("imu_" ++ snd axis) ;;
    Py.Ok (Py.dict_update features axis_features)
  else Py.Ok features.

Definition _extract_imu_features (epoch_df : DataFrame) : Py.result features_t :=
  let features : features_t := [] in
  features <- axis_step epoch_df features ("X", "x") ;;
  features <- axis_step epoch_df features ("Y", "y") ;;
  features <- axis_step epoch_df features ("Z", "z") ;;
  if forallb (fun a => in_columns ("ACC_" ++ a) epoch_df) ["X"; "Y"; "Z"] then
    x <- values epoch_df "ACC_X" ;;
    y <- values epoch_df "ACC_Y" ;;
    z <- values epoch_df "ACC_Z" ;;
    let magnitude := magnitude_of x y z in
    mag_features <- _compute_statistical_features magnitude "imu_mag" ;;
    let features := Py.dict_update features mag_features in
    let features := Py.dict_set features "imu_activity_count"
                      (VFloat (Np.sum (map Np.abs (Np.diff magnitude)))) in
    let features := Py.dict_set features "imu_movement_intensity"
                      (VFloat (Np.std magnitude)) in
    Py.Ok features
  else Py.Ok features.

(** One iteration of the loop of [extract_all_features]. *)
Definition extract_epoch (self : FeatureExtractor) (df : DataFrame)
    (include_imu include_ppg : bool) (start : Z) : Py.result features_t :=
  let end_ := (start + samples_per_epoch self)%Z in
  let epoch_df := iloc df start end_ in
  let features : features_t := [] in
  features <-
    (if include_imu &&
        forallb (fun c => in_columns c df) ["ACC_X"; "ACC_Y"; "ACC_Z"] then
       imu_features <- _extract_imu_features epoch_df ;;
       Py.Ok (Py.dict_update features imu_features)
     else Py.Ok features) ;;
  features <-
    (if include_ppg && in_columns "BVP" df then
       ppg_features <- _extract_ppg_features self epoch_df ;;
       Py.Ok (Py.dict_update features ppg_features)
     else Py.Ok features) ;;
  features <-
    (if in_columns "Sleep_Stage" df then
       stages <- labels epoch_df ;;
       label <- iloc0 (mode stages) ;;
       Py.Ok (Py.dict_set features "Sleep_Stage" (VStr label))
     else Py.Ok features) ;;
  Py.Ok features.

(** The loop: the list [epochs] when it ends. *)
Definition extract_epochs (self : FeatureExtractor) (df : DataFrame)
    (include_imu include_ppg : bool) : Py.result (list features_t) :=
  let n_samples := Z.of_nat (len df) in
  starts <- Py.range 0 (n_samples - samples_per_epoch self + 1) (step_size self) ;;
  Py.mapM (extract_epoch self df include_imu include_ppg) starts.

Definition extract_all_features (self : FeatureExtractor) (df : DataFrame)
    (include_imu include_ppg : bool) : Py.result FeatureTable :=
  epochs <- extract_epochs self df include_imu include_ppg ;;
  Py.Ok (from_records epochs).

(** [features.get(k, default)] read as a float. *)
Definition to_cell (v : scalar) : Np.cell :=
  match v with
  | VFloat c => c
  | VInt z => Np.of_Z z
  | VStr _ => Np.NaN
  end.

Definition get_or (features : features_t) (k : string) (default : scalar) : scalar :=
  match Py.dict_get features k with
  | Some v => v
  | None => default
  end.

(** [np.fft.rfftfreq(n, d)]: [k / (d * n)] for [k = 0 .. n // 2]. *)
Definition rfftfreq (n : nat) (d : R) : list Np.cell :=
  map (fun k => Np.div (Np.of_nat k) (Np.fin (d * INR n))) (seq 0 (n / 2 + 1)).

(** [np.sum(power[(fft_freqs >= low) & (fft_freqs < high)])]: the mask
    must be as long as the array. *)
Definition band_power (power fft_freqs : list Np.cell) (low high : R)
  : Py.result Np.cell :=
  if Nat.eqb (length power) (length fft_freqs) then
    Py.Ok (Np.sum (map fst
             (filter (fun pf => Np.ge (snd pf) (Np.fin low) && Np.lt (snd pf) (Np.fin high))
                     (combine power fft_freqs))))
  else Py.Raise Py.IndexError.

Definition bands : list (string * (R * R)) :=
  [ ("vlf", (3 / 1000, 4 / 100)%R);
    ("lf", (4 / 100, 15 / 100)%R);
    ("hf", (15 / 100, 4 / 10)%R) ].

Definition band_step (prefix : string) (power fft_freqs : list Np.cell)
    (acc : Py.result features_t) (band : string * (R * R)) : Py.result features_t :=
  features <- acc ;;
  p <- band_power power fft_freqs (fst (snd band)) (snd (snd band)) ;;
  Py.Ok (Py.dict_set features (prefix ++ "_" ++ fst band ++ "_power") (VFloat p)).

Definition extract_frequency_features (self : FeatureExtractor)
    (signal_data : list Np.cell) (prefix : string) : Py.result features_t :=
  let features : features_t := [] in
  let n := length signal_data in
  power <- rfft_power signal_data ;;
  d <- (if Req_dec_T (fs self) 0 then Py.Raise Py.ZeroDivisionError
        else Py.Ok (1 / fs self)%R) ;;
  let fft_freqs := rfftfreq n d in
  let features := Py.dict_set features (prefix ++ "_total_power") (VFloat (Np.sum power)) in
  i <- Np.argmax (tl power) ;;
  let dominant_idx := (i + 1)%nat in
  f <- match nth_error fft_freqs dominant_idx with
       | Some f => Py.Ok f
       | None => Py.Raise Py.IndexError
       end ;;
  let features := Py.dict_set features (prefix ++ "_dominant_freq") (VFloat f) in
  features <- fold_left (band_step prefix power fft_freqs) bands (Py.Ok features) ;;
  let lf_power := get_or features (prefix ++ "_lf_power") (VInt 0) in
  let hf_power := get_or features (prefix ++ "_hf_power") (VInt 1) in
  let ratio :=
    if Np.gt (to_cell hf_power) (Np.fin 0)
    then VFloat (Np.div (to_cell lf_power) (to_cell hf_power))
    else VInt 0 in
  Py.Ok (Py.dict_set features (prefix ++ "_lf_hf_ratio") ratio).

End WithLibrary.
End Extractor.

(* ------------------------------------------------------------------ *)
(** ** features/extractor.py: the statistical features on doubles      *)
(* ------------------------------------------------------------------ *)

Module Extractor64.
Section WithLibrary.
Context {L : F64.Library}.

Import F64.
Local Open Scope string_scope.

Definition _compute_statistical_features (signal_data : list cell)
    (prefix : string) : Py.dict scalar :=
  let features : Py.dict scalar := [] in
  let signal_data := drop_nan signal_data in
  if Nat.eqb (length signal_data) 0 then features else
  let features := Py.dict_set features (prefix ++ "_mean") (VFloat (mean signal_data)) in
  let features := Py.dict_set features (prefix ++ "_std") (VFloat (std signal_data)) in
  let features := Py.dict_set features (prefix ++ "_min") (VFloat (np_min signal_data)) in
  let features := Py.dict_set features (prefix ++ "_max") (VFloat (np_max signal_data)) in
  let features := Py.dict_set features (prefix ++ "_range")
                    (VFloat (PrimFloat.sub (np_max signal_data) (np_min signal_data))) in
  let features := Py.dict_set features (prefix ++ "_median") (VFloat (np_median signal_data)) in
  let q75 := np_percentile signal_data 75 in
  let q25 := np_percentile signal_data 25 in
  let features := Py.dict_set features (prefix ++ "_iqr") (VFloat (PrimFloat.sub q75 q25)) in
  let features :=
    if gt (std signal_data) PrimFloat.zero then
      let features := Py.dict_set features (prefix ++ "_skew") (VFloat (stats_skew signal_data)) in
      Py.dict_set features (prefix ++ "_kurtosis") (VFloat (stats_kurtosis signal_data))
    else
      let features := Py.dict_set features (prefix ++ "_skew") (VFloat PrimFloat.zero) in
      Py.dict_set features (prefix ++ "_kurtosis") (VFloat PrimFloat.zero) in
  let features := Py.dict_set features (prefix ++ "_energy")
                    (VFloat (sum (map (fun x => PrimFloat.mul x x) signal_data))) in
  let features := Py.dict_set features (prefix ++ "_rms")
                    (VFloat (PrimFloat.sqrt
                               (mean (map (fun x => PrimFloat.mul x x) signal_data)))) in
  let zero_crossings :=
    Np.count_true
      (Np.diff_bool
         (map signbit
              (map (fun x => PrimFloat.sub x (mean signal_data)) signal_data))) in
  let features := Py.dict_set features (prefix ++ "_zero_crossings") (VInt zero_crossings) in
  features.

(** What [_extract_imu_features] computes from the magnitude array, once
    the three axes are read: its statistics and the two activity
    features. *)
Definition magnitude_features (magnitude : list cell) : Py.dict scalar :=
  let features := _compute_statistical_features magnitude "imu_mag" in
  let features := Py.dict_set features "imu_activity_count"
                    (VFloat (sum (map PrimFloat.abs (diff magnitude)))) in
  let features := Py.dict_set features "imu_movement_intensity"
                    (VFloat (std magnitude)) in
  features.

End WithLibrary.
End Extractor64.

(* ------------------------------------------------------------------ *)
(** ** scripts/train_tflite_model.py: feature list, filter, extraction   *)
(* ------------------------------------------------------------------ *)

Module TrainTflite.

Local Open Scope string_scope.

Definition IMU_FEATURE_PREFIXES : list string :=
  ["imu_x"; "imu_y"; "imu_z"; "imu_mag"].

Definition STAT_SUFFIXES : list string :=
  ["mean"; "std"; "min"; "max"; "range"; "median"; "iqr";
   "skew"; "kurtosis"; "energy"; "rms"; "zero_crossings"].

Definition IMU_EXTRA_FEATURES : list string :=
  ["imu_activity_count"; "imu_movement_intensity"].

Definition HRV_FEATURES : list string :=
  ["hrv_mean_ibi"; "hrv_sdnn"; "hrv_rmssd"; "hrv_pnn50"; "hrv_pnn20"].

Definition HR_FEATURES : list string :=
  ["hr_mean"; "hr_std"; "hr_min"; "hr_max"; "hr_range"].

Definition get_feature_list : list string :=
  flat_map (fun prefix => map (fun suffix => prefix ++ "_" ++ suffix) STAT_SUFFIXES)
           IMU_FEATURE_PREFIXES ++
  IMU_EXTRA_FEATURES ++
  map (fun suffix => "ppg_" ++ suffix) STAT_SUFFIXES ++
  HR_FEATURES ++
  HRV_FEATURES.

(** [filter_imu_ppg_features(df)]: the target names that are columns, in
    the order of the target list, then ['Sleep_Stage'] if it is one. *)
Definition filter_imu_ppg_features (df : Pd.FeatureTable)
  : Py.result Pd.FeatureTable :=
  let target_features := get_feature_list in
  let available := filter (fun f => Pd.ft_in_columns f df) target_features in
  let available :=
    if Pd.ft_in_columns "Sleep_Stage" df
    then (available ++ ["Sleep_Stage"])%list else available in
  Pd.ft_select df available.

(** [pd.DataFrame()] *)
Definition empty_frame : Pd.FeatureTable :=
  {| Pd.ft_columns := []; Pd.ft_rows := [] |}.

(** [extract_features_for_participant(loader, participant_id, extractor)];
    [load_participant] stands for the loader's method, which reads a file
    and may raise; whatever the [try] block raises gives the empty frame. *)
Definition extract_features_for_participant {L : Library}
    (load_participant : string -> Py.result Pd.DataFrame)
    (participant_id : string) (extractor : Extractor.FeatureExtractor)
  : Pd.FeatureTable :=
  match
    (df <- load_participant participant_id ;;
     features <- Extractor.extract_all_features extractor df true true ;;
     Py.Ok (Pd.ft_set_column features "participant" (Pd.VStr participant_id)))
  with
  | Py.Ok features => features
  | Py.Raise _ => empty_frame
  end.

End TrainTflite.

(* ------------------------------------------------------------------ *)
(** ** wearable-prototype/tests/test_sensors.py: the packet parsers     *)
(* ------------------------------------------------------------------ *)

Module Sensors.

(** [data[i]] of a [bytes] object, for an index in range. *)
Definition byte_at (data : list Byte.byte) (i : nat) : Z :=
  Z.of_N (Byte.to_N (nth i data Byte.x00)).

(** [struct.unpack('>H', data[o:o+2])[0]] and
    [struct.unpack('>h', data[o:o+2])[0]]: big-endian, 16 bits,
    unsigned and two's complement. *)
Definition unpack_H (data : list Byte.byte) (o : nat) : Z :=
  (byte_at data o * 256 + byte_at data (o + 1))%Z.

Definition unpack_h (data : list Byte.byte) (o : nat) : Z :=
  let u := unpack_H data o in
  if (u <? 32768)%Z then u else (u - 65536)%Z.

Record imu_sample : Type := {
  imu_timestamp : Z;
  accel : R * R * R;
  gyro : R * R * R
}.

Record ppg_sample : Type := {
  ppg_timestamp : Z;
  red : Z;
  ir : Z
}.

Definition imu_sample_size : nat := 14.
Definition ppg_sample_size : nat := 8.

(** The [while] loops, one iteration for each unit of [fuel]; every
    iteration moves [offset] forward, so [length data] iterations are
    never all used. *)
Fixpoint parse_imu_loop (fuel : nat) (data : list Byte.byte) (offset : nat)
    (samples : list imu_sample) : list imu_sample :=
  match fuel with
  | O => samples
  | S fuel' =>
      if (offset + imu_sample_size <=? length data)%nat then
        let timestamp := unpack_H data offset in
        let ax := (IZR (unpack_h data (offset + 2)) / 1000)%R in
        let ay := (IZR (unpack_h data (offset + 4)) / 1000)%R in
        let az := (IZR (unpack_h data (offset + 6)) / 1000)%R in
        let gx := (IZR (unpack_h data (offset + 8)) / 10)%R in
        let gy := (IZR (unpack_h data (offset + 10)) / 10)%R in
        let gz := (IZR (unpack_h data (offset + 12)) / 10)%R in
        parse_imu_loop fuel' data (offset + imu_sample_size)
          (samples ++ [{| imu_timestamp := timestamp;
                          accel := (ax, ay, az);
                          gyro := (gx, gy, gz) |}])
      else samples
  end.

Definition parse_imu_data (data : list Byte.byte) : list imu_sample :=
  parse_imu_loop (length data) data 0 [].

Fixpoint parse_ppg_loop (fuel : nat) (data : list Byte.byte) (offset : nat)
    (samples : list ppg_sample) : list ppg_sample :=
  match fuel with
  | O => samples
  | S fuel' =>
      if (offset + ppg_sample_size <=? length data)%nat then
        let timestamp := unpack_H data offset in
        let red :=
          Z.lor (Z.lor (Z.shiftl (byte_at data (offset + 2)) 16)
                       (Z.shiftl (byte_at data (offset + 3)) 8))
                (byte_at data (offset + 4)) in
        let ir :=
          Z.lor (Z.lor (Z.shiftl (byte_at data (offset + 5)) 16)
                       (Z.shiftl (byte_at data (offset + 6)) 8))
                (byte_at data (offset + 7)) in
        parse_ppg_loop fuel' data (offset + ppg_sample_size)
          (samples ++ [{| ppg_timestamp := timestamp; red := red; ir := ir |}])
      else samples
  end.

Definition parse_ppg_data (data : list Byte.byte) : list ppg_sample :=
  parse_ppg_loop (length data) data 0 [].

(** The module's [test_results], as far as the handlers write it. *)
Record test_results : Type := {
  imu_data_received : bool;
  ppg_data_received : bool;
  hr_data_received : bool;
  imu_samples : Z;
  ppg_samples : Z;
  hr_readings : list Z
}.

Definition initial_results : test_results :=
  {| imu_data_received := false; ppg_data_received := false;
     hr_data_received := false; imu_samples := 0; ppg_samples := 0;
     hr_readings := [] |}.

Definition imu_notification_handler (r : test_results) (data : list Byte.byte)
  : test_results :=
  let samples := parse_imu_data data in
  {| imu_data_received := true;
     ppg_data_received := ppg_data_received r;
     hr_data_received := hr_data_received r;
     imu_samples := (imu_samples r + Z.of_nat (length samples))%Z;
     ppg_samples := ppg_samples r;
     hr_readings := hr_readings r |}.

Definition ppg_notification_handler (r : test_results) (data : list Byte.byte)
  : test_results :=
  let samples := parse_ppg_data data in
  {| imu_data_received := imu_data_received r;
     ppg_data_received := true;
     hr_data_received := hr_data_received r;
     imu_samples := imu_samples r;
     ppg_samples := (ppg_samples r + Z.of_nat (length samples))%Z;
     hr_readings := hr_readings r |}.

Definition hr_notification_handler (r : test_results) (data : list Byte.byte)
  : test_results :=
  {| imu_data_received := imu_data_received r;
     ppg_data_received := ppg_data_received r;
     hr_data_received := true;
     imu_samples := imu_samples r;
     ppg_samples := ppg_samples r;
     hr_readings :=
       if (2 <=? length data)%nat
       then hr_readings r ++ [byte_at data 1]
       else hr_readings r |}.

End Sensors.

(* ------------------------------------------------------------------ *)
(** ** The feature groups as association lists *)
(* ------------------------------------------------------------------ *)

(** Keys built as [prefix ++ suffix] from a table of suffixes. *)
Definition prefixed {V : Type} (prefix : string) (t : Py.dict V) : Py.dict V :=
  map (fun sv => ((prefix ++ fst sv)%string, snd sv)) t.

(** The real samples of an array, NaN entries left out. *)
Definition finite_values (a : list Np.cell) : list R :=
  flat_map (fun x => match x with Some r => [r] | None => [] end) a.

Definition Rsum (xs : list R) : R := fold_right Rplus 0%R xs.

Definition Rmean (xs : list R) : R := (Rsum xs / INR (length xs))%R.

(** Population variance, as [np.std] squares it. *)
Definition Rvar (xs : list R) : R :=
  Rmean (map (fun x => (Rabs (x - Rmean xs) * Rabs (x - Rmean xs))%R) xs).

(** The suffixes and values [_compute_statistical_features] assigns, in
    assignment order, for a NaN-free array [sd] with extrema [lo], [hi]. *)
Definition stat_table {L : Library} (sd : list Np.cell) (lo hi : Np.cell)
  : Py.dict Pd.scalar :=
  [ ("_mean", Pd.VFloat (Np.mean sd));
    ("_std", Pd.VFloat (Np.std sd));
    ("_min", Pd.VFloat lo);
    ("_max", Pd.VFloat hi);
    ("_range", Pd.VFloat (Np.sub hi lo));
    ("_median", Pd.VFloat (np_median sd));
    ("_iqr", Pd.VFloat (Np.sub (np_percentile sd 75) (np_percentile sd 25)));
    ("_skew", Pd.VFloat (if Np.gt (Np.std sd) (Np.fin 0)
                         then stats_skew sd else Np.fin 0));
    ("_kurtosis", Pd.VFloat (if Np.gt (Np.std sd) (Np.fin 0)
                             then stats_kurtosis sd else Np.fin 0));
    ("_energy", Pd.VFloat (Np.sum (map Np.square sd)));
    ("_rms", Pd.VFloat (Np.sqrt (Np.mean (map Np.square sd))));
    ("_zero_crossings",
       Pd.VInt (Np.count_true
                  (Np.diff_bool
                     (map Np.signbit
                          (map (fun x => Np.sub x (Np.mean sd)) sd))))) ]%string.

Definition stat_suffixes : list string :=
  [ "_mean"; "_std"; "_min"; "_max"; "_range"; "_median"; "_iqr"; "_skew";
    "_kurtosis"; "_energy"; "_rms"; "_zero_crossings" ]%string.

(** The values [_compute_hrv_features] assigns for the surviving
    intervals [ibi], in assignment order. *)
Definition hrv_table (ibi : list Np.cell) : Py.dict Pd.scalar :=
  [ ("hrv_mean_ibi", Pd.VFloat (Np.mean ibi));
    ("hrv_sdnn", Pd.VFloat (Np.std ibi));
    ("hrv_rmssd", Pd.VFloat (Np.sqrt (Np.mean (map Np.square (Np.diff ibi)))));
    ("hrv_pnn50", Pd.VFloat (Extractor.pnn (Np.diff ibi) 50));
    ("hrv_pnn20", Pd.VFloat (Extractor.pnn (Np.diff ibi) 20)) ]%string.

Definition hrv_names : list string :=
  [ "hrv_mean_ibi"; "hrv_sdnn"; "hrv_rmssd"; "hrv_pnn50"; "hrv_pnn20" ]%string.

Definition hr_names : list string :=
  [ "hr_mean"; "hr_std"; "hr_min"; "hr_max"; "hr_range" ]%string.

(** Whether an array has a sample that is not NaN. *)
Definition has_valid (a : list Np.cell) : bool :=
  existsb (fun x => negb (Np.isnan x)) a.

Definition detected_peaks {L : Library} (self : Extractor.FeatureExtractor)
    (bvp : list Np.cell) : list nat :=
  match Preprocessing.detect_ppg_peaks bvp (Extractor.fs self)
          Preprocessing.default_min_distance with
  | Py.Ok pv => fst pv
  | Py.Raise _ => []
  end.

(** Whether the [try] block of [_extract_ppg_features] reaches the HRV
    statistics: peak detection returns more than two peaks and at least two
    of their intervals lie strictly between 300 and 2000 ms. *)
Definition hrv_available {L : Library} (self : Extractor.FeatureExtractor)
    (bvp : list Np.cell) : bool :=
  match Preprocessing.detect_ppg_peaks bvp (Extractor.fs self)
          Preprocessing.default_min_distance with
  | Py.Ok (peaks, _) =>
      Nat.ltb 2 (length peaks) &&
      Nat.leb 2 (length (Extractor.valid_ibi
                           (Preprocessing.compute_ibi_from_peaks peaks (Extractor.fs self))))
  | Py.Raise _ => false
  end.

(** The feature groups as association lists, in assignment order. *)
Definition stat_part {L : Library} (prefix : string) (data : list Np.cell)
  : Py.dict Pd.scalar :=
  match Np.drop_nan data with
  | [] => []
  | x :: xs =>
      prefixed prefix
        (stat_table (x :: xs) (fold_left Np.fmin xs x) (fold_left Np.fmax xs x))
  end.

Definition hr_part (hr : list Np.cell) : Py.dict Pd.scalar :=
  match Np.drop_nan hr with
  | [] => []
  | x :: xs =>
      [ ("hr_mean", Pd.VFloat (Np.mean (x :: xs)));
        ("hr_std", Pd.VFloat (Np.std (x :: xs)));
        ("hr_min", Pd.VFloat (fold_left Np.fmin xs x));
        ("hr_max", Pd.VFloat (fold_left Np.fmax xs x));
        ("hr_range", Pd.VFloat (Np.sub (fold_left Np.fmax xs x)
                                       (fold_left Np.fmin xs x))) ]%string
  end.

Definition hrv_part {L : Library} (self : Extractor.FeatureExtractor)
    (bvp : list Np.cell) : Py.dict Pd.scalar :=
  if hrv_available self bvp
  then hrv_table (Extractor.valid_ibi
         (Preprocessing.compute_ibi_from_peaks (detected_peaks self bvp)
            (Extractor.fs self)))
  else [].

Definition imu_part {L : Library} (x y z : list Np.cell) : Py.dict Pd.scalar :=
  stat_part "imu_x" x ++ stat_part "imu_y" y ++ stat_part "imu_z" z ++
  stat_part "imu_mag" (Extractor.magnitude_of x y z) ++
  [ ("imu_activity_count"%string,
       Pd.VFloat (Np.sum (map Np.abs (Np.diff (Extractor.magnitude_of x y z)))));
    ("imu_movement_intensity"%string,
       Pd.VFloat (Np.std (Extractor.magnitude_of x y z))) ].

Definition ppg_part {L : Library} (self : Extractor.FeatureExtractor)
    (bvp : list Np.cell) (hr : option (list Np.cell)) : Py.dict Pd.scalar :=
  stat_part "ppg" bvp ++
  match hr with Some h => hr_part h | None => [] end ++
  hrv_part self bvp.

(** A channel column of a table ([[]] when the table has no such column). *)
Definition column (df : Pd.DataFrame) (c : string) : list Np.cell :=
  match Pd.values df c with
  | Py.Ok v => v
  | Py.Raise _ => []
  end.

Definition hr_column (df : Pd.DataFrame) : option (list Np.cell) :=
  if Pd.in_columns "HR" df then Some (column df "HR") else None.

Definition imu_enabled (df : Pd.DataFrame) (include_imu : bool) : bool :=
  include_imu &&
  forallb (fun c => Pd.in_columns c df) ["ACC_X"; "ACC_Y"; "ACC_Z"]%string.

Definition ppg_enabled (df : Pd.DataFrame) (include_ppg : bool) : bool :=
  include_ppg && Pd.in_columns "BVP" df.

(** The signal features of one epoch window, before the label is added. *)
Definition signal_part {L : Library} (self : Extractor.FeatureExtractor)
    (df epoch_df : Pd.DataFrame) (include_imu include_ppg : bool)
  : Py.dict Pd.scalar :=
  (if imu_enabled df include_imu
   then imu_part (column epoch_df "ACC_X") (column epoch_df "ACC_Y")
                 (column epoch_df "ACC_Z")
   else []) ++
  (if ppg_enabled df include_ppg
   then ppg_part self (column epoch_df "BVP") (hr_column epoch_df)
   else []).

(** The data-dependent conditions that decide which feature groups an
    epoch gets: per channel, whether the slice has a sample that is not
    NaN; whether the HRV statistics are reached. *)
Record Presence : Type := {
  valid_x : bool;
  valid_y : bool;
  valid_z : bool;
  valid_mag : bool;
  valid_bvp : bool;
  valid_hr : bool;
  hrv_ok : bool
}.

Definition presence {L : Library} (self : Extractor.FeatureExtractor)
    (epoch_df : Pd.DataFrame) : Presence :=
  {| valid_x := has_valid (column epoch_df "ACC_X");
     valid_y := has_valid (column epoch_df "ACC_Y");
     valid_z := has_valid (column epoch_df "ACC_Z");
     valid_mag := has_valid (Extractor.magnitude_of (column epoch_df "ACC_X")
                               (column epoch_df "ACC_Y") (column epoch_df "ACC_Z"));
     valid_bvp := has_valid (column epoch_df "BVP");
     valid_hr := match hr_column epoch_df with
                 | Some h => has_valid h
                 | None => false
                 end;
     hrv_ok := hrv_available self (column epoch_df "BVP") |}.

Definition stat_names (prefix : string) (present : bool) : list string :=
  if present then map (String.append prefix) stat_suffixes else [].

Definition imu_names (p : Presence) : list string :=
  stat_names "imu_x" (valid_x p) ++ stat_names "imu_y" (valid_y p) ++
  stat_names "imu_z" (valid_z p) ++ stat_names "imu_mag" (valid_mag p) ++
  ["imu_activity_count"; "imu_movement_intensity"]%string.

Definition ppg_names (p : Presence) : list string :=
  stat_names "ppg" (valid_bvp p) ++
  (if valid_hr p then hr_names else []) ++
  (if hrv_ok p then hrv_names else []).

(** The feature names of one epoch, in order. *)
Definition epoch_names (imu_on ppg_on label_on : bool) (p : Presence) : list string :=
  (if imu_on then imu_names p else []) ++
  (if ppg_on then ppg_names p else []) ++
  (if label_on then ["Sleep_Stage"%string] else []).

Definition all_present : Presence :=
  {| valid_x := true; valid_y := true; valid_z := true; valid_mag := true;
     valid_bvp := true; valid_hr := true; hrv_ok := true |}.

Definition no_hrv_present : Presence :=
  {| valid_x := true; valid_y := true; valid_z := true; valid_mag := true;
     valid_bvp := true; valid_hr := true; hrv_ok := false |}.

(** Every name [extract_all_features] can produce. *)
Definition all_feature_names : list string :=
  epoch_names true true true all_present.

Definition spectral_suffixes : list string :=
  [ "_total_power"; "_dominant_freq"; "_vlf_power"; "_lf_power"; "_hf_power";
    "_lf_hf_ratio" ]%string.

Fixpoint ends_with (suffix s : string) : bool :=
  String.eqb s suffix ||
  match s with
  | EmptyString => false
  | String _ s' => ends_with suffix s'
  end.

(* ------------------------------------------------------------------ *)
(** ** Rules in the specification's wording *)
(* ------------------------------------------------------------------ *)

(** Index of the first row holding [x]. *)
Fixpoint first_index (x : string) (l : list string) : nat :=
  match l with
  | [] => 0
  | y :: ys => if String.eqb y x then 0 else S (first_index x ys)
  end.

(** The tie rule as the specification words it: among the labels tied for
    most frequent, the one whose first row comes earliest is assigned. *)
Definition spec_ties_by_first_occurrence : Prop :=
  forall (L : Library) (self : Extractor.FeatureExtractor) (df : Pd.DataFrame)
         (include_imu include_ppg : bool) (start : Z)
         (col : list string) (features : Extractor.features_t) (label : string),
    Pd.well_formed df ->
    Pd.sleep_stage df = Some col ->
    Extractor.extract_epoch self df include_imu include_ppg start = Py.Ok features ->
    Py.dict_get features "Sleep_Stage" = Some (Pd.VStr label) ->
    let rows := Py.slice col start (start + Extractor.samples_per_epoch self) in
    forall y, In y rows -> Pd.count y rows = Pd.count label rows ->
      (first_index label rows <= first_index y rows)%nat.


(** The zero-crossing count as the specification words it: the number of
    adjacent pairs of sign bits that differ. *)
Fixpoint spec_sign_changes (bits : list bool) : nat :=
  match bits with
  | b :: (b' :: _) as t =>
      (if Bool.eqb b b' then 0 else 1) + spec_sign_changes t
  | _ => 0
  end.

(** The rule for constant sequences as the specification words it: a
    sequence whose samples all equal one value counts no crossing. *)
Definition spec_constant_never_crosses : Prop :=
  forall (L : F64.Library) (signal_data : list F64.cell) (c : F64.cell)
         (prefix : string),
    signal_data <> [] ->
    (forall x, In x signal_data -> PrimFloat.eqb x c = true) ->
    Py.dict_get (Extractor64._compute_statistical_features signal_data prefix)
      (prefix ++ "_zero_crossings")%string = Some (F64.VInt 0).

(** The rule for a constant magnitude as the specification words it: the
    standard deviation of the magnitude is 0. *)
Definition spec_constant_std_zero : Prop :=
  forall (L : F64.Library) (c : F64.cell) (n : nat),
    F64.isfinite c = true -> (0 < n)%nat ->
    exists s,
      Py.dict_get (Extractor64.magnitude_features (repeat c n)) "imu_mag_std" =
        Some (F64.VFloat s) /\
      PrimFloat.eqb s PrimFloat.zero = true.

(** The naming rule as the specification words it: with the same columns
    and the same configuration, two tables give the same column header. *)
Definition spec_names_independent_of_data : Prop :=
  forall (L : Library) (self : Extractor.FeatureExtractor) (df1 df2 : Pd.DataFrame)
         (include_imu include_ppg : bool) (t1 t2 : Pd.FeatureTable),
    Pd.well_formed df1 -> Pd.well_formed df2 ->
    (forall c, Pd.in_columns c df1 = Pd.in_columns c df2) ->
    Extractor.extract_all_features self df1 include_imu include_ppg = Py.Ok t1 ->
    Extractor.extract_all_features self df2 include_imu include_ppg = Py.Ok t2 ->
    Pd.ft_columns t1 = Pd.ft_columns t2.

(* ------------------------------------------------------------------ *)
(** ** Concrete libraries, extractors and tables *)
(* ------------------------------------------------------------------ *)

(** A library whose peak finder answers [peaks] whatever the waveform;
    [interp1d] knows the kinds of scipy and repeats the first sample.
    It serves to run the model on concrete tables. *)
Definition fixed_library (peaks : Py.result (list nat)) : Library :=
  {| stats_skew := fun _ => Np.NaN;
     stats_kurtosis := fun _ => Np.NaN;
     np_median := fun a => hd Np.NaN a;
     np_percentile := fun a _ => hd Np.NaN a;
     find_peaks := fun _ _ _ => peaks;
     interp1d := fun _ y kind =>
       if existsb (String.eqb kind)
            ["linear"; "nearest"; "nearest-up"; "zero"; "slinear";
             "quadratic"; "cubic"; "previous"; "next"]%string
       then Py.Ok (fun t => map (fun _ => hd Np.NaN y) t)
       else Py.Raise Py.NotImplementedError;
     rfft_power := fun a =>
       match a with
       | [] => Py.Raise Py.ValueError
       | _ => Py.Ok (firstn (length a / 2 + 1) a)
       end |}.

Definition four_peaks : Library := fixed_library (Py.Ok [0; 1; 2; 5]%nat).

(** A library on doubles that answers with the first sample. *)
Definition first_sample_library : F64.Library :=
  {| F64.np_min := fun a => hd PrimFloat.nan a;
     F64.np_max := fun a => hd PrimFloat.nan a;
     F64.np_median := fun a => hd PrimFloat.nan a;
     F64.np_percentile := fun a _ => hd PrimFloat.nan a;
     F64.stats_skew := fun _ => PrimFloat.nan;
     F64.stats_kurtosis := fun _ => PrimFloat.nan |}.

(** The double nearest to 0.1, as the literal [0.1] denotes it. *)
Definition one_tenth : F64.cell := PrimFloat.div (F64.of_nat 1) (F64.of_nat 10).

(** An extractor state with given window and stride, its other fields
    chosen to agree with them. *)
Definition extractor_with (fs : R) (E S : Z) : Extractor.FeatureExtractor :=
  {| Extractor.epoch_duration := (IZR E / fs)%R;
     Extractor.fs := fs;
     Extractor.overlap := (1 - IZR S / IZR E)%R;
     Extractor.samples_per_epoch := E;
     Extractor.step_size := S |}.

Definition slow_extractor : Extractor.FeatureExtractor :=
  extractor_with (5 / 4) 6 6.

Definition two_sample_heap : Np.heap := [[Np.fin 1; Np.fin 2]].

Definition tied_table : Pd.DataFrame :=
  {| Pd.signals := [];
     Pd.sleep_stage := Some ["W"; "W"; "N1"; "N1"]%string;
     Pd.n_rows := 4 |}.

(** A 30-second table at 64 Hz whose acceleration is the constant
    vector (1, 0, 0), of magnitude 1. *)
Definition still_table : Pd.DataFrame :=
  {| Pd.signals :=
       [ ("ACC_X"%string, repeat (Np.fin 1) 1920);
         ("ACC_Y"%string, repeat (Np.fin 0) 1920);
         ("ACC_Z"%string, repeat (Np.fin 0) 1920) ];
     Pd.sleep_stage := None;
     Pd.n_rows := 1920 |}.

(** Tables with a [BVP] column: two rows with samples, two rows with
    none, four rows with samples. *)
Definition pulse_table : Pd.DataFrame :=
  {| Pd.signals := [("BVP"%string, [Np.fin 1; Np.fin 2])];
     Pd.sleep_stage := None;
     Pd.n_rows := 2 |}.

Definition long_pulse_table : Pd.DataFrame :=
  {| Pd.signals := [("BVP"%string, [Np.fin 5; Np.fin 6; Np.fin 7; Np.fin 8])];
     Pd.sleep_stage := None;
     Pd.n_rows := 4 |}.

Definition blank_table : Pd.DataFrame :=
  {| Pd.signals := [("BVP"%string, [Np.NaN; Np.NaN])];
     Pd.sleep_stage := None;
     Pd.n_rows := 2 |}.

(** A table of six rows with a [BVP] column and an extractor at 1.25 Hz;
    for a peak finder that reports rows 0, 1, 2 and 5 the intervals are
    800, 800 and 2400 ms. *)
Definition six_row_table : Pd.DataFrame :=
  {| Pd.signals := [("BVP"%string, repeat (Np.fin 0) 6)];
     Pd.sleep_stage := None;
     Pd.n_rows := 6 |}.

(** A table of two rows whose second [ACC_X] sample is missing. *)
Definition gap_table : Pd.DataFrame :=
  {| Pd.signals :=
       [ ("ACC_X"%string, [Np.fin 1; Np.NaN]);
         ("ACC_Y"%string, [Np.fin 0; Np.fin 0]);
         ("ACC_Z"%string, [Np.fin 0; Np.fin 0]) ];
     Pd.sleep_stage := None;
     Pd.n_rows := 2 |}.

(* ------------------------------------------------------------------ *)
(** ** Packets read sample by sample *)
(* ------------------------------------------------------------------ *)

(** The PPG sample whose eight bytes start at [o], its fields as sums of
    the bytes. *)
Definition ppg_sample_at (data : list Byte.byte) (o : nat) : Sensors.ppg_sample :=
  let b := fun i => Sensors.byte_at data (o + i) in
  {| Sensors.ppg_timestamp := (b 0%nat * 256 + b 1%nat)%Z;
     Sensors.red := (b 2%nat * 65536 + b 3%nat * 256 + b 4%nat)%Z;
     Sensors.ir := (b 5%nat * 65536 + b 6%nat * 256 + b 7%nat)%Z |}.

(** The IMU sample whose fourteen bytes start at [o]. *)
Definition imu_sample_at (data : list Byte.byte) (o : nat) : Sensors.imu_sample :=
  let h := fun i => IZR (Sensors.unpack_h data (o + i)) in
  {| Sensors.imu_timestamp := Sensors.unpack_H data o;
     Sensors.accel := (h 2%nat / 1000, h 4%nat / 1000, h 6%nat / 1000)%R;
     Sensors.gyro := (h 8%nat / 10, h 10%nat / 10, h 12%nat / 10)%R |}.

(** One notification as the BLE client delivers it to its handler. *)
Inductive notification : Type :=
| ImuPacket (data : list Byte.byte)
| PpgPacket (data : list Byte.byte)
| HrPacket (data : list Byte.byte).

Definition deliver (r : Sensors.test_results) (n : notification)
  : Sensors.test_results :=
  match n with
  | ImuPacket data => Sensors.imu_notification_handler r data
  | PpgPacket data => Sensors.ppg_notification_handler r data
  | HrPacket data => Sensors.hr_notification_handler r data
  end.

(** What a run of notifications should leave in the counters. *)
Definition complete_samples (size : nat) (data : list Byte.byte) : Z :=
  Z.of_nat (length data / size).

Definition imu_total (ns : list notification) : Z :=
  fold_right Z.add 0%Z
    (map (fun n => match n with
                   | ImuPacket data => complete_samples 14 data
                   | _ => 0%Z
                   end) ns).

Definition ppg_total (ns : list notification) : Z :=
  fold_right Z.add 0%Z
    (map (fun n => match n with
                   | PpgPacket data => complete_samples 8 data
                   | _ => 0%Z
                   end) ns).

Definition hr_bytes (ns : list notification) : list Z :=
  flat_map (fun n => match n with
                     | HrPacket data =>
                         if (2 <=? length data)%nat
                         then [Sensors.byte_at data 1] else []
                     | _ => []
                     end) ns.

(* ------------------------------------------------------------------ *)
(** ** Cells of a feature table *)
(* ------------------------------------------------------------------ *)

(** The cell of row [r] in the column called [c], if the table has that
    row and that column. *)
Definition ft_cell (t : Pd.FeatureTable) (r : nat) (c : string) : option Pd.scalar :=
  match nth_error (Pd.ft_rows t) r, Pd.index_of c (Pd.ft_columns t) with
  | Some row, Some i => nth_error row i
  | _, _ => None
  end.

(** Every row has one cell for each column. *)
Definition ft_rectangular (t : Pd.FeatureTable) : Prop :=
  Forall (fun row => length row = length (Pd.ft_columns t)) (Pd.ft_rows t).

(* ------------------------------------------------------------------ *)
(** ** The sign field of a double *)
(* ------------------------------------------------------------------ *)

(** The sign field of a double, as [F64.signbit] reads it. *)
Definition sf_sign (f : SpecFloat.spec_float) : bool :=
  match f with
  | SpecFloat.S754_zero s => s
  | SpecFloat.S754_infinity s => s
  | SpecFloat.S754_finite s _ _ => s
  | SpecFloat.S754_nan => false
  end.

(** A double that is a zero or a finite number. *)
Definition sf_finite (f : SpecFloat.spec_float) : bool :=
  match f with
  | SpecFloat.S754_zero _ | SpecFloat.S754_finite _ _ _ => true
  | _ => false
  end.

(** A result that is not NaN and carries the sign [s]. *)
Definition sign_is (s : bool) (f : SpecFloat.spec_float) : Prop :=
  f <> SpecFloat.S754_nan /\ sf_sign f = s.

(* ------------------------------------------------------------------ *)
(** ** An epoch written on the rows it covers *)
(* ------------------------------------------------------------------ *)

(** Rows [a], ..., [a + e - 1] of a column. *)
Definition rows_of {A : Type} (col : list A) (a e : nat) : list A :=
  firstn e (skipn a col).

(** The label entry of an epoch whose rows carry the stage names [stages]:
    the first of their modes in sorted order. *)
Definition label_part (stages : option (list string)) : Py.dict Pd.scalar :=
  match stages with
  | Some l =>
      match Pd.mode l with
      | m :: _ => [("Sleep_Stage"%string, Pd.VStr m)]
      | [] => []
      end
  | None => []
  end.

(** The features of the epoch made of rows [a], ..., [a + e - 1] of [df],
    group by group, each computed from those rows of its columns and from
    no other row. *)
Definition epoch_of_rows {L : Library} (self : Extractor.FeatureExtractor)
    (df : Pd.DataFrame) (include_imu include_ppg : bool) (a e : nat)
  : Py.dict Pd.scalar :=
  let rows := fun c => rows_of (column df c) a e in
  (if imu_enabled df include_imu
   then imu_part (rows "ACC_X"%string) (rows "ACC_Y"%string) (rows "ACC_Z"%string)
   else []) ++
  (if ppg_enabled df include_ppg
   then ppg_part self (rows "BVP"%string)
          (if Pd.in_columns "HR" df then Some (rows "HR"%string) else None)
   else []) ++
  label_part (option_map (fun l => rows_of l a e) (Pd.sleep_stage df)).

(* ------------------------------------------------------------------ *)
(** ** The presence conditions of a recording *)
(* ------------------------------------------------------------------ *)

Definition presence_eqb (p q : Presence) : bool :=
  Bool.eqb (valid_x p) (valid_x q) && Bool.eqb (valid_y p) (valid_y q) &&
  Bool.eqb (valid_z p) (valid_z q) && Bool.eqb (valid_mag p) (valid_mag q) &&
  Bool.eqb (valid_bvp p) (valid_bvp q) && Bool.eqb (valid_hr p) (valid_hr q) &&
  Bool.eqb (hrv_ok p) (hrv_ok q).

(** The conditions of a list, each kept where it first occurs. *)
Fixpoint first_seen_from (seen ps : list Presence) : list Presence :=
  match ps with
  | [] => []
  | p :: rest =>
      if existsb (presence_eqb p) seen then first_seen_from seen rest
      else p :: first_seen_from (p :: seen) rest
  end.

Definition first_seen (ps : list Presence) : list Presence :=
  first_seen_from [] ps.

(** The header that a list of presence conditions gives under the naming
    [names]: the names of each condition in turn, a name already listed
    being left where it is. *)
Definition header_of (names : Presence -> list string) (ps : list Presence)
  : list string :=
  fold_left (fun acc p => fold_left Pd.add_key (names p) acc) ps [].

(** The rows at which the loop of [extract_all_features] starts a window. *)
Definition window_starts (self : Extractor.FeatureExtractor) (df : Pd.DataFrame)
  : list Z :=
  match Py.range 0 (Z.of_nat (Pd.len df) - Extractor.samples_per_epoch self + 1)
          (Extractor.step_size self) with
  | Py.Ok starts => starts
  | Py.Raise _ => []
  end.

(** The presence conditions of the windows of a recording, in loop order. *)
Definition window_presences {L : Library} (self : Extractor.FeatureExtractor)
    (df : Pd.DataFrame) : list Presence :=
  map (fun start =>
         presence self
           (Pd.iloc df start (start + Extractor.samples_per_epoch self)))
      (window_starts self df).

(* ================================================================== *)
(** * Properties                                                        *)
(* ================================================================== *)

(* ------------------------------------------------------------------ *)
(** ** Python helpers                                                   *)
(* ------------------------------------------------------------------ *)

Lemma mapM_length {A B : Type} (f : A -> Py.result B) (l : list A) (r : list B) :
  Py.mapM f l = Py.Ok r -> length r = length l.
Proof.
  revert r. induction l as [|x xs IH]; intros r H; simpl in H.
  - inversion H. reflexivity.
  - destruct (f x) as [y|e]; simpl in H; [|discriminate].
    destruct (Py.mapM f xs) as [ys|e]; simpl in H; [|discriminate].
    inversion H. simpl. f_equal. apply IH. reflexivity.
Qed.

Lemma mapM_nth {A B : Type} (f : A -> Py.result B) (l : list A) (r : list B) :
  Py.mapM f l = Py.Ok r ->
  forall k x, nth_error l k = Some x ->
  exists y, nth_error r k = Some y /\ f x = Py.Ok y.
Proof.
  revert r. induction l as [|a xs IH]; intros r H k x Hk.
  - destruct k; discriminate.
  - simpl in H. destruct (f a) as [y|e] eqn:Hy; simpl in H; [|discriminate].
    destruct (Py.mapM f xs) as [ys|e] eqn:Hys; simpl in H; [|discriminate].
    inversion H; subst r. destruct k as [|k]; simpl in *.
    + inversion Hk; subst. exists y. split; [reflexivity|assumption].
    + eapply IH; [reflexivity|eassumption].
Qed.

Lemma mapM_ok {A B : Type} (f : A -> Py.result B) (l : list A) :
  (forall x, In x l -> exists y, f x = Py.Ok y) ->
  exists r, Py.mapM f l = Py.Ok r.
Proof.
  induction l as [|a xs IH]; intros H; simpl.
  - eexists. reflexivity.
  - destruct (H a (or_introl eq_refl)) as [y Hy]. rewrite Hy. simpl.
    destruct IH as [ys Hys]. { intros x Hx. apply H. right. assumption. }
    rewrite Hys. simpl. eexists. reflexivity.
Qed.

Lemma range_len_forward (stop step : Z) :
  (1 <= step)%Z ->
  Py.range_len 0 stop step =
  (if (0 <? stop)%Z then (stop - 1) / step + 1 else 0)%Z.
Proof.
  intros Hs. unfold Py.range_len.
  destruct (Z.gtb_spec step 0); [|lia].
  rewrite Z.sub_0_r. reflexivity.
Qed.

Lemma range_len_nonneg (stop step : Z) :
  (1 <= step)%Z -> (0 <= Py.range_len 0 stop step)%Z.
Proof.
  intros Hs. rewrite range_len_forward by assumption.
  destruct (Z.ltb_spec 0 stop); [|lia].
  assert (0 <= (stop - 1) / step)%Z by (apply Z.div_pos; lia). lia.
Qed.

Lemma range_forward (stop step : Z) :
  (1 <= step)%Z ->
  Py.range 0 stop step =
  Py.Ok (map (fun k => (Z.of_nat k * step)%Z)
             (seq 0 (Z.to_nat (Py.range_len 0 stop step)))).
Proof.
  intros Hs. unfold Py.range.
  destruct (Z.eqb_spec step 0); [lia|]. reflexivity.
Qed.

(** Members of a forward range from 0 lie below the stop. *)
Lemma range_member_bound (stop step : Z) (k : nat) :
  (1 <= step)%Z ->
  (Z.of_nat k < Py.range_len 0 stop step)%Z ->
  (0 <= Z.of_nat k * step < stop)%Z.
Proof.
  intros Hs Hk. rewrite range_len_forward in Hk by assumption.
  destruct (Z.ltb_spec 0 stop) as [Hpos|]; [|lia].
  assert (Hq : (Z.of_nat k <= (stop - 1) / step)%Z) by lia.
  assert (Hm : (step * ((stop - 1) / step) <= stop - 1)%Z)
    by (apply Z.mul_div_le; lia).
  split; [apply Z.mul_nonneg_nonneg; lia|]. nia.
Qed.

Lemma slice_bound_id (n : nat) (i : Z) :
  (0 <= i <= Z.of_nat n)%Z -> Py.slice_bound n i = Z.to_nat i.
Proof.
  intros H. unfold Py.slice_bound.
  destruct (Z.ltb_spec i 0); [lia|]. lia.
Qed.

Lemma slice_window {A : Type} (l : list A) (a e : Z) :
  (0 <= a)%Z -> (0 <= e)%Z -> (a + e <= Z.of_nat (length l))%Z ->
  Py.slice l a (a + e) = firstn (Z.to_nat e) (skipn (Z.to_nat a) l).
Proof.
  intros Ha He Hn. unfold Py.slice.
  rewrite !slice_bound_id by lia.
  f_equal. lia.
Qed.

Lemma slice_window_length {A : Type} (l : list A) (a e : Z) :
  (0 <= a)%Z -> (0 <= e)%Z -> (a + e <= Z.of_nat (length l))%Z ->
  length (Py.slice l a (a + e)) = Z.to_nat e.
Proof.
  intros Ha He Hn. rewrite slice_window by assumption.
  rewrite length_firstn, length_skipn. lia.
Qed.

(* ------------------------------------------------------------------ *)
(** ** Dicts and key names                                              *)
(* ------------------------------------------------------------------ *)

Lemma existsb_eqb_In (k : string) (l : list string) :
  existsb (String.eqb k) l = true <-> In k l.
Proof.
  rewrite existsb_exists. split.
  - intros [x [Hx He]]. apply String.eqb_eq in He. subst. assumption.
  - intros H. exists k. split; [assumption|apply String.eqb_refl].
Qed.

Lemma dict_set_fresh {V : Type} (d : Py.dict V) (k : string) (v : V) :
  ~ In k (Py.dict_keys d) -> Py.dict_set d k v = d ++ [(k, v)].
Proof.
  induction d as [|[k' v'] d IH]; intros H; simpl.
  - reflexivity.
  - simpl in H. destruct (String.eqb_spec k' k) as [->|Hne].
    + exfalso. apply H. left. reflexivity.
    + f_equal. apply IH. intros Hin. apply H. right. assumption.
Qed.

Lemma dict_get_app {V : Type} (d1 d2 : Py.dict V) (k : string) :
  Py.dict_get (d1 ++ d2) k =
  match Py.dict_get d1 k with
  | Some v => Some v
  | None => Py.dict_get d2 k
  end.
Proof.
  induction d1 as [|[k' v'] d1 IH]; simpl.
  - reflexivity.
  - destruct (String.eqb k' k); [reflexivity|apply IH].
Qed.

Lemma dict_get_None {V : Type} (d : Py.dict V) (k : string) :
  Py.dict_get d k = None <-> ~ In k (Py.dict_keys d).
Proof.
  induction d as [|[k' v'] d IH]; simpl.
  - split; [intros _ []|reflexivity].
  - destruct (String.eqb_spec k' k) as [->|Hne].
    + split; [discriminate|]. intros H. exfalso. apply H. left. reflexivity.
    + rewrite IH. split.
      * intros H [Heq|Hin]; [contradiction|apply H; assumption].
      * intros H Hin. apply H. right. assumption.
Qed.

Lemma append_inj_l (p a b : string) :
  (p ++ a)%string = (p ++ b)%string -> a = b.
Proof.
  induction p as [|c p IH]; simpl; intros H.
  - assumption.
  - inversion H. apply IH. assumption.
Qed.

Lemma prefixed_keys {V : Type} (prefix : string) (t : Py.dict V) :
  Py.dict_keys (prefixed prefix t) = map (String.append prefix) (Py.dict_keys t).
Proof.
  unfold prefixed, Py.dict_keys. rewrite !map_map. reflexivity.
Qed.

Lemma prefixed_get {V : Type} (prefix : string) (t : Py.dict V) (s : string) :
  Py.dict_get (prefixed prefix t) (prefix ++ s)%string = Py.dict_get t s.
Proof.
  induction t as [|[s' v] t IH]; simpl.
  - reflexivity.
  - destruct (String.eqb_spec (prefix ++ s')%string (prefix ++ s)%string) as [He|Hne].
    + apply append_inj_l in He. subst. rewrite String.eqb_refl. reflexivity.
    + destruct (String.eqb_spec s' s) as [->|_]; [contradiction|apply IH].
Qed.

Lemma prefixed_snoc {V : Type} (prefix : string) (t : Py.dict V) (s : string) (v : V) :
  ~ In s (Py.dict_keys t) ->
  Py.dict_set (prefixed prefix t) (prefix ++ s)%string v = prefixed prefix (t ++ [(s, v)]).
Proof.
  intros H. rewrite dict_set_fresh.
  - unfold prefixed. rewrite map_app. reflexivity.
  - rewrite prefixed_keys. intros Hin. apply in_map_iff in Hin.
    destruct Hin as [s' [He Hs']]. apply append_inj_l in He. subst. contradiction.
Qed.

Lemma add_key_spec (acc : list string) (k c : string) :
  In c (Pd.add_key acc k) <-> In c acc \/ c = k.
Proof.
  unfold Pd.add_key. destruct (existsb (String.eqb k) acc) eqn:E.
  - apply existsb_eqb_In in E. split; [tauto|].
    intros [H|Hk]; [exact H|rewrite Hk; exact E].
  - rewrite in_app_iff. simpl. split; intros [H|H]; try tauto.
    + destruct H as [<-|[]]. right. reflexivity.
    + right. left. symmetry. exact H.
Qed.

Lemma add_key_NoDup (acc : list string) (k : string) :
  NoDup acc -> NoDup (Pd.add_key acc k).
Proof.
  intros Hnd. unfold Pd.add_key. destruct (existsb (String.eqb k) acc) eqn:E.
  - exact Hnd.
  - apply NoDup_app; [exact Hnd|repeat constructor; intros []|].
    intros c Hc [<-|[]].
    assert (Ht : existsb (String.eqb k) acc = true) by (apply existsb_eqb_In; exact Hc).
    congruence.
Qed.

Lemma add_keys_spec (ks acc : list string) (c : string) :
  In c (fold_left Pd.add_key ks acc) <-> In c acc \/ In c ks.
Proof.
  revert acc. induction ks as [|k ks IH]; intros acc; cbn [fold_left].
  - simpl. tauto.
  - rewrite IH, add_key_spec. simpl. split; intros H.
    + destruct H as [[H|H]|H]; [tauto|right; left; symmetry; exact H|tauto].
    + destruct H as [H|[H|H]]; [tauto|left; right; symmetry; exact H|tauto].
Qed.

Lemma add_keys_NoDup (ks acc : list string) :
  NoDup acc -> NoDup (fold_left Pd.add_key ks acc).
Proof.
  revert acc. induction ks as [|k ks IH]; intros acc Hnd; cbn [fold_left].
  - exact Hnd.
  - apply IH. apply add_key_NoDup. exact Hnd.
Qed.

(* ------------------------------------------------------------------ *)
(** ** Arrays without NaN                                               *)
(* ------------------------------------------------------------------ *)

Lemma drop_nan_finite (a : list Np.cell) :
  Np.drop_nan a = map Some (finite_values a).
Proof.
  induction a as [|[x|] a IH]; simpl.
  - reflexivity.
  - f_equal. apply IH.
  - apply IH.
Qed.

Lemma finite_values_fins (xs : list R) : finite_values (map Some xs) = xs.
Proof.
  induction xs as [|x xs IH]; simpl; [reflexivity|f_equal; apply IH].
Qed.

Lemma drop_nan_fins (xs : list R) : Np.drop_nan (map Some xs) = map Some xs.
Proof. rewrite drop_nan_finite, finite_values_fins. reflexivity. Qed.

Lemma sum_fins (xs : list R) : Np.sum (map Some xs) = Some (Rsum xs).
Proof.
  induction xs as [|x xs IH]; simpl.
  - reflexivity.
  - rewrite IH. reflexivity.
Qed.

Lemma INR_length_pos {A : Type} (x : A) (xs : list A) :
  (0 < INR (length (x :: xs)))%R.
Proof. apply lt_0_INR. simpl. lia. Qed.

Lemma mean_fins (xs : list R) :
  xs <> [] -> Np.mean (map Some xs) = Some (Rmean xs).
Proof.
  destruct xs as [|x xs]; [congruence|]. intros _.
  unfold Np.mean. change (map Some (x :: xs)) with (Some x :: map Some xs).
  change (Some x :: map Some xs) with (map Some (x :: xs)).
  rewrite sum_fins. unfold Np.div, Np.of_nat. rewrite length_map.
  destruct (Req_dec_T (INR (length (x :: xs))) 0) as [H0|_].
  - pose proof (INR_length_pos x xs). lra.
  - reflexivity.
Qed.

Lemma Rsum_nonneg (xs : list R) :
  Forall (fun x => 0 <= x)%R xs -> (0 <= Rsum xs)%R.
Proof.
  induction 1 as [|x xs Hx _ IH]; simpl; lra.
Qed.

Lemma Rvar_nonneg (xs : list R) : xs <> [] -> (0 <= Rvar xs)%R.
Proof.
  intros Hne. unfold Rvar, Rmean at 1. rewrite length_map.
  apply Rmult_le_pos.
  - apply Rsum_nonneg. apply Forall_forall. intros y Hy.
    apply in_map_iff in Hy. destruct Hy as [x [<- _]].
    apply Rmult_le_pos; apply Rabs_pos.
  - left. apply Rinv_0_lt_compat. destruct xs; [congruence|apply INR_length_pos].
Qed.

Lemma std_fins (xs : list R) :
  xs <> [] -> Np.std (map Some xs) = Some (sqrt (Rvar xs)).
Proof.
  intros Hne. unfold Np.std. rewrite mean_fins by assumption.
  rewrite map_map. simpl.
  change (fun x : R => Some (Rabs (x - Rmean xs) * Rabs (x - Rmean xs))%R)
    with (fun x : R => Some ((fun y => Rabs (y - Rmean xs) * Rabs (y - Rmean xs))%R x)).
  rewrite <- (map_map (fun y => (Rabs (y - Rmean xs) * Rabs (y - Rmean xs))%R) Some).
  rewrite mean_fins by (destruct xs; [congruence|discriminate]).
  unfold Np.sqrt. fold (Rvar xs).
  destruct (Rlt_dec (Rvar xs) 0) as [Hlt|_]; [|reflexivity].
  pose proof (Rvar_nonneg Hne). lra.
Qed.

(** Constant sequences. *)
Lemma constant_repeat {A : Type} (c : A) (xs : list A) :
  (forall x, In x xs -> x = c) -> xs = repeat c (length xs).
Proof.
  induction xs as [|x xs IH]; intros H; simpl.
  - reflexivity.
  - rewrite (H x (or_introl eq_refl)). f_equal. apply IH.
    intros y Hy. apply H. right. assumption.
Qed.

Lemma Rsum_repeat (c : R) (n : nat) : Rsum (repeat c n) = (INR n * c)%R.
Proof.
  induction n as [|n IH].
  - simpl. lra.
  - change (repeat c (S n)) with (c :: repeat c n).
    change (Rsum (c :: repeat c n)) with (c + Rsum (repeat c n))%R.
    rewrite IH, S_INR. lra.
Qed.

Lemma Rmean_repeat (c : R) (n : nat) : (0 < n)%nat -> Rmean (repeat c n) = c.
Proof.
  intros Hn. unfold Rmean. rewrite Rsum_repeat, repeat_length.
  assert (0 < INR n)%R by (apply lt_0_INR; assumption).
  field. lra.
Qed.

Lemma Rvar_repeat (c : R) (n : nat) : (0 < n)%nat -> Rvar (repeat c n) = 0%R.
Proof.
  intros Hn. unfold Rvar. rewrite Rmean_repeat by assumption.
  rewrite map_repeat.
  replace (Rabs (c - c) * Rabs (c - c))%R with 0%R.
  - apply Rmean_repeat. assumption.
  - replace (c - c)%R with 0%R by lra. rewrite Rabs_R0. lra.
Qed.

Lemma repeat_not_nil {A : Type} (c : A) (n : nat) : (0 < n)%nat -> repeat c n <> [].
Proof. destruct n; [lia|discriminate]. Qed.

Lemma mean_constant (c : R) (n : nat) :
  (0 < n)%nat -> Np.mean (repeat (Np.fin c) n) = Np.fin c.
Proof.
  intros Hn. change (Np.fin c) with (Some c). rewrite <- map_repeat.
  rewrite mean_fins by (apply repeat_not_nil; assumption).
  rewrite Rmean_repeat by assumption. reflexivity.
Qed.

Lemma std_constant (c : R) (n : nat) :
  (0 < n)%nat -> Np.std (repeat (Np.fin c) n) = Np.fin 0.
Proof.
  intros Hn. change (Np.fin c) with (Some c). rewrite <- map_repeat.
  rewrite std_fins by (apply repeat_not_nil; assumption).
  rewrite Rvar_repeat by assumption. rewrite sqrt_0. reflexivity.
Qed.

Lemma gt_zero_zero : Np.gt (Np.fin 0) (Np.fin 0) = false.
Proof.
  unfold Np.gt, Np.fin. destruct (Rlt_dec 0 0) as [H|_]; [lra|reflexivity].
Qed.

Lemma diff_constant (c : R) (n : nat) :
  Np.diff (repeat (Np.fin c) n) = repeat (Np.fin 0) (n - 1).
Proof.
  induction n as [|n IH]; [reflexivity|].
  destruct n as [|n]; [reflexivity|].
  change (repeat (Np.fin c) (S (S n)))
    with (Np.fin c :: Np.fin c :: repeat (Np.fin c) n).
  change (Np.diff (Np.fin c :: Np.fin c :: repeat (Np.fin c) n))
    with (Np.sub (Np.fin c) (Np.fin c) :: Np.diff (repeat (Np.fin c) (S n))).
  rewrite IH. simpl. rewrite Nat.sub_0_r.
  unfold Np.fin. f_equal. f_equal. lra.
Qed.

Lemma sum_abs_zeros (n : nat) :
  Np.sum (map Np.abs (repeat (Np.fin 0) n)) = Np.fin 0.
Proof.
  induction n as [|n IH]; [reflexivity|].
  simpl. rewrite IH. unfold Np.add, Np.lift2, Np.fin. f_equal.
  rewrite Rabs_R0. lra.
Qed.

(* ------------------------------------------------------------------ *)
(** ** The statistical feature set in normal form                       *)
(* ------------------------------------------------------------------ *)

Section StatFeatures.
Context {L : Library}.

Local Ltac fresh_suffix :=
  simpl; intros Hin;
  repeat (destruct Hin as [Hin|Hin]; [discriminate Hin|]); exact Hin.

Lemma stat_features_normal_form (data : list Np.cell) (prefix : string) :
  Extractor._compute_statistical_features data prefix =
  match Np.drop_nan data with
  | [] => Py.Ok []
  | x :: xs =>
      Py.Ok (prefixed prefix
               (stat_table (x :: xs) (fold_left Np.fmin xs x) (fold_left Np.fmax xs x)))
  end.
Proof.
  unfold Extractor._compute_statistical_features.
  destruct (Np.drop_nan data) as [|x xs]; [reflexivity|].
  cbn [length Nat.eqb Np.min Np.max Np.ptp Py.bind].
  set (sd := x :: xs). set (lo := fold_left Np.fmin xs x). set (hi := fold_left Np.fmax xs x).
  change (Py.dict_set [] (prefix ++ "_mean")%string (Pd.VFloat (Np.mean sd)))
    with (prefixed prefix [("_mean"%string, Pd.VFloat (Np.mean sd))]).
  rewrite (prefixed_snoc prefix _ "_std") by fresh_suffix.
  rewrite (prefixed_snoc prefix _ "_min") by fresh_suffix.
  rewrite (prefixed_snoc prefix _ "_max") by fresh_suffix.
  rewrite (prefixed_snoc prefix _ "_range") by fresh_suffix.
  rewrite (prefixed_snoc prefix _ "_median") by fresh_suffix.
  rewrite (prefixed_snoc prefix _ "_iqr") by fresh_suffix.
  unfold stat_table.
  destruct (Np.gt (Np.std sd) (Np.fin 0)).
  - rewrite (prefixed_snoc prefix _ "_skew") by fresh_suffix.
    rewrite (prefixed_snoc prefix _ "_kurtosis") by fresh_suffix.
    rewrite (prefixed_snoc prefix _ "_energy") by fresh_suffix.
    rewrite (prefixed_snoc prefix _ "_rms") by fresh_suffix.
    rewrite (prefixed_snoc prefix _ "_zero_crossings") by fresh_suffix.
    reflexivity.
  - rewrite (prefixed_snoc prefix _ "_skew") by fresh_suffix.
    rewrite (prefixed_snoc prefix _ "_kurtosis") by fresh_suffix.
    rewrite (prefixed_snoc prefix _ "_energy") by fresh_suffix.
    rewrite (prefixed_snoc prefix _ "_rms") by fresh_suffix.
    rewrite (prefixed_snoc prefix _ "_zero_crossings") by fresh_suffix.
    reflexivity.
Qed.

End StatFeatures.

(* ------------------------------------------------------------------ *)
(** ** Reading a dict after assignments and updates                     *)
(* ------------------------------------------------------------------ *)

Lemma dict_get_set {V : Type} (d : Py.dict V) (k k' : string) (v : V) :
  Py.dict_get (Py.dict_set d k v) k' =
  if String.eqb k k' then Some v else Py.dict_get d k'.
Proof.
  induction d as [|[k0 v0] d IH]; simpl.
  - reflexivity.
  - destruct (String.eqb_spec k0 k) as [->|Hne]; simpl.
    + destruct (String.eqb k k'); reflexivity.
    + rewrite IH. destruct (String.eqb_spec k0 k') as [->|Hne'].
      * destruct (String.eqb_spec k k') as [->|_]; [contradiction|reflexivity].
      * reflexivity.
Qed.

(* ------------------------------------------------------------------ *)
(** ** HRV features                                                     *)
(* ------------------------------------------------------------------ *)

Lemma valid_ibi_length_le (ibi : list Np.cell) :
  (length (Extractor.valid_ibi ibi) <= length ibi)%nat.
Proof. apply filter_length_le. Qed.

Lemma hrv_features_normal_form (ibi : list Np.cell) :
  Extractor._compute_hrv_features ibi =
  if Nat.leb 2 (length (Extractor.valid_ibi ibi))
  then hrv_table (Extractor.valid_ibi ibi) else [].
Proof.
  unfold Extractor._compute_hrv_features.
  pose proof (valid_ibi_length_le ibi) as Hle.
  destruct (Nat.ltb_spec (length ibi) 2) as [H1|H1].
  - destruct (Nat.leb_spec 2 (length (Extractor.valid_ibi ibi))); [lia|reflexivity].
  - destruct (Nat.ltb_spec (length (Extractor.valid_ibi ibi)) 2) as [H2|H2];
      destruct (Nat.leb_spec 2 (length (Extractor.valid_ibi ibi))); try lia; reflexivity.
Qed.

Section HrvBlock.
Context {L : Library}.

(** What the [try ... except: pass] leaves in [features]. *)
Lemma hrv_block_outcome (self : Extractor.FeatureExtractor) (bvp : list Np.cell)
    (features : Extractor.features_t) :
  match Extractor.hrv_block self bvp features with
  | Py.Ok features' => features'
  | Py.Raise _ => features
  end =
  if hrv_available self bvp
  then Py.dict_update features
         (hrv_table (Extractor.valid_ibi
            (Preprocessing.compute_ibi_from_peaks
               (match Preprocessing.detect_ppg_peaks bvp (Extractor.fs self)
                        Preprocessing.default_min_distance with
                | Py.Ok pv => fst pv
                | Py.Raise _ => []
                end) (Extractor.fs self))))
  else features.
Proof.
  unfold Extractor.hrv_block, hrv_available.
  destruct (Preprocessing.detect_ppg_peaks bvp (Extractor.fs self)
              Preprocessing.default_min_distance) as [[peaks vals]|e];
    cbn [Py.bind fst].
  - destruct (Nat.ltb 2 (length peaks)); cbn [andb]; [|reflexivity].
    rewrite hrv_features_normal_form.
    destruct (Nat.leb 2 _); reflexivity.
  - reflexivity.
Qed.

End HrvBlock.

(* ------------------------------------------------------------------ *)
(** ** The feature groups in normal form                                *)
(* ------------------------------------------------------------------ *)

Ltac dict_norm :=
  cbv [Py.dict_update Py.dict_set fold_left prefixed stat_table hrv_table
       map fst snd String.append String.eqb Ascii.eqb Bool.eqb app
       stat_part hr_part].

Section Groups.
Context {L : Library}.

Lemma stat_features_part (data : list Np.cell) (prefix : string) :
  Extractor._compute_statistical_features data prefix =
  Py.Ok (stat_part prefix data).
Proof.
  rewrite stat_features_normal_form. unfold stat_part.
  destruct (Np.drop_nan data); reflexivity.
Qed.

Lemma hrv_block_part (self : Extractor.FeatureExtractor) (bvp : list Np.cell)
    (features : Extractor.features_t) :
  match Extractor.hrv_block self bvp features with
  | Py.Ok features' => features'
  | Py.Raise _ => features
  end = Py.dict_update features (hrv_part self bvp).
Proof.
  rewrite hrv_block_outcome. unfold hrv_part, detected_peaks.
  destruct (hrv_available self bvp); reflexivity.
Qed.

Lemma ppg_features_normal_form (self : Extractor.FeatureExtractor)
    (epoch_df : Pd.DataFrame) (bvp : list Np.cell) (hr : option (list Np.cell)) :
  Pd.values epoch_df "BVP" = Py.Ok bvp ->
  match hr with
  | Some h => Pd.in_columns "HR" epoch_df = true /\
              Pd.values epoch_df "HR" = Py.Ok h
  | None => Pd.in_columns "HR" epoch_df = false
  end ->
  Extractor._extract_ppg_features self epoch_df = Py.Ok (ppg_part self bvp hr).
Proof.
  intros Hbvp Hhr. unfold Extractor._extract_ppg_features.
  rewrite Hbvp. cbn [Py.bind]. rewrite stat_features_part. cbn [Py.bind].
  unfold ppg_part.
  destruct hr as [h|].
  - destruct Hhr as [Hin Hval]. rewrite Hin, Hval. cbn [Py.bind].
    unfold hr_part.
    destruct (Np.drop_nan h) as [|a hs];
      cbn [length Nat.ltb Nat.leb Np.min Np.max Py.bind];
      rewrite (hrv_block_part self bvp); unfold hrv_part, stat_part;
      destruct (Np.drop_nan bvp) as [|b bs];
      destruct (hrv_available self bvp); dict_norm; reflexivity.
  - rewrite Hhr. cbn [Py.bind].
    rewrite (hrv_block_part self bvp). unfold hrv_part, stat_part.
    destruct (Np.drop_nan bvp) as [|b bs];
      destruct (hrv_available self bvp); dict_norm; reflexivity.
Qed.

End Groups.

(* ------------------------------------------------------------------ *)
(** ** Tables and windows                                               *)
(* ------------------------------------------------------------------ *)

Lemma lookup_in (c : string) (cols : list (string * list Np.cell)) :
  In c (map fst cols) -> exists v, Pd.lookup c cols = Py.Ok v.
Proof.
  induction cols as [|[k v] cols IH]; simpl; intros H.
  - contradiction.
  - destruct (String.eqb_spec k c) as [->|Hne].
    + eexists. reflexivity.
    + destruct H as [H|H]; [contradiction|apply IH; assumption].
Qed.

Lemma lookup_slice (c : string) (cols : list (string * list Np.cell)) (a b : Z) :
  Pd.lookup c (map (fun kv => (fst kv, Py.slice (snd kv) a b)) cols) =
  match Pd.lookup c cols with
  | Py.Ok v => Py.Ok (Py.slice v a b)
  | Py.Raise e => Py.Raise e
  end.
Proof.
  induction cols as [|[k v] cols IH]; simpl.
  - reflexivity.
  - destruct (String.eqb k c); [reflexivity|apply IH].
Qed.

Lemma values_iloc (df : Pd.DataFrame) (c : string) (a b : Z) :
  Pd.values (Pd.iloc df a b) c =
  match Pd.values df c with
  | Py.Ok v => Py.Ok (Py.slice v a b)
  | Py.Raise e => Py.Raise e
  end.
Proof. unfold Pd.values, Pd.iloc. simpl. apply lookup_slice. Qed.

Lemma columns_iloc (df : Pd.DataFrame) (a b : Z) :
  Pd.columns (Pd.iloc df a b) = Pd.columns df.
Proof.
  unfold Pd.columns, Pd.iloc. simpl. rewrite map_map. simpl.
  destruct (Pd.sleep_stage df); reflexivity.
Qed.

Lemma in_columns_iloc (df : Pd.DataFrame) (c : string) (a b : Z) :
  Pd.in_columns c (Pd.iloc df a b) = Pd.in_columns c df.
Proof. unfold Pd.in_columns. rewrite columns_iloc. reflexivity. Qed.

Lemma in_columns_values (df : Pd.DataFrame) (c : string) :
  c <> Pd.label_column -> Pd.in_columns c df = true ->
  Pd.values df c = Py.Ok (column df c).
Proof.
  intros Hc Hin. unfold Pd.in_columns in Hin. apply existsb_eqb_In in Hin.
  unfold Pd.columns in Hin. apply in_app_or in Hin.
  assert (Hs : In c (map fst (Pd.signals df))).
  { destruct Hin as [Hin|Hin]; [assumption|].
    destruct (Pd.sleep_stage df); simpl in Hin; [|contradiction].
    destruct Hin as [Hin|[]]. congruence. }
  unfold column, Pd.values. destruct (lookup_in c _ Hs) as [v Hv].
  rewrite Hv. reflexivity.
Qed.

Lemma in_columns_label (df : Pd.DataFrame) :
  Pd.well_formed df ->
  Pd.in_columns Pd.label_column df = true ->
  exists l, Pd.sleep_stage df = Some l.
Proof.
  intros (_ & _ & Hnl & _) Hin. unfold Pd.in_columns in Hin.
  apply existsb_eqb_In in Hin. unfold Pd.columns in Hin.
  apply in_app_or in Hin. destruct Hin as [Hin|Hin]; [contradiction|].
  destruct (Pd.sleep_stage df) as [l|]; [eexists; reflexivity|contradiction].
Qed.

Section EpochNormalForm.
Context {L : Library}.

Lemma imu_features_normal_form (epoch_df : Pd.DataFrame) :
  forallb (fun c => Pd.in_columns c epoch_df) ["ACC_X"; "ACC_Y"; "ACC_Z"]%string = true ->
  Extractor._extract_imu_features epoch_df =
  Py.Ok (imu_part (column epoch_df "ACC_X") (column epoch_df "ACC_Y")
                  (column epoch_df "ACC_Z")).
Proof.
  intros Hall. cbn [forallb] in Hall.
  apply andb_prop in Hall. destruct Hall as [Hx Hall].
  apply andb_prop in Hall. destruct Hall as [Hy Hall].
  apply andb_prop in Hall. destruct Hall as [Hz _].
  assert (Vx := in_columns_values epoch_df (c := "ACC_X") ltac:(discriminate) Hx).
  assert (Vy := in_columns_values epoch_df (c := "ACC_Y") ltac:(discriminate) Hy).
  assert (Vz := in_columns_values epoch_df (c := "ACC_Z") ltac:(discriminate) Hz).
  unfold Extractor._extract_imu_features, Extractor.axis_step.
  cbn [fst snd String.append forallb].
  rewrite Hx, Hy, Hz, Vx, Vy, Vz. cbn [Py.bind andb].
  repeat (rewrite stat_features_part; cbn [Py.bind]).
  unfold imu_part.
  set (m := Extractor.magnitude_of _ _ _).
  unfold stat_part.
  destruct (Np.drop_nan (column epoch_df "ACC_X"));
    destruct (Np.drop_nan (column epoch_df "ACC_Y"));
    destruct (Np.drop_nan (column epoch_df "ACC_Z"));
    destruct (Np.drop_nan m); dict_norm; reflexivity.
Qed.

End EpochNormalForm.

Section Assembly.
Context {L : Library}.

(** The key sets of the groups never meet, so merging the group dicts
    with [update] lists them one after another. *)
Lemma signal_part_assembly (self : Extractor.FeatureExtractor)
    (x y z bvp : list Np.cell) (hr : option (list Np.cell)) (bi bp : bool) :
  let IMU := if bi then imu_part x y z else [] in
  let PPG := if bp then ppg_part self bvp hr else [] in
  Py.dict_update (Py.dict_update [] IMU) PPG = IMU ++ PPG /\
  forall v, Py.dict_set (IMU ++ PPG) "Sleep_Stage" v =
            (IMU ++ PPG) ++ [("Sleep_Stage"%string, v)].
Proof.
  unfold imu_part, ppg_part, hrv_part.
  set (m := Extractor.magnitude_of x y z).
  set (ibi := Extractor.valid_ibi _).
  destruct bi, bp; cbv zeta;
    destruct hr as [h|];
    unfold stat_part, hr_part;
    try destruct (Np.drop_nan x);
    try destruct (Np.drop_nan y);
    try destruct (Np.drop_nan z);
    try destruct (Np.drop_nan m);
    try destruct (Np.drop_nan bvp);
    try destruct (Np.drop_nan h);
    try destruct (hrv_available self bvp);
    (split; [|intros v]; dict_norm; reflexivity).
Qed.

End Assembly.

Section EpochFeatures.
Context {L : Library}.

Lemma hr_column_spec (epoch_df : Pd.DataFrame) :
  match hr_column epoch_df with
  | Some h => Pd.in_columns "HR" epoch_df = true /\
              Pd.values epoch_df "HR" = Py.Ok h
  | None => Pd.in_columns "HR" epoch_df = false
  end.
Proof.
  unfold hr_column. destruct (Pd.in_columns "HR" epoch_df) eqn:Hin.
  - split; [reflexivity|]. apply in_columns_values; [discriminate|assumption].
  - reflexivity.
Qed.

(** One loop iteration: the signal features of the window, then the label. *)
Lemma extract_epoch_normal_form (self : Extractor.FeatureExtractor)
    (df : Pd.DataFrame) (include_imu include_ppg : bool) (start : Z) :
  Extractor.extract_epoch self df include_imu include_ppg start =
  let epoch_df := Pd.iloc df start (start + Extractor.samples_per_epoch self) in
  let f := signal_part self df epoch_df include_imu include_ppg in
  if Pd.in_columns "Sleep_Stage" df then
    stages <- Pd.labels epoch_df ;;
    label <- Pd.iloc0 (Pd.mode stages) ;;
    Py.Ok (f ++ [("Sleep_Stage"%string, Pd.VStr label)])
  else Py.Ok f.
Proof.
  unfold Extractor.extract_epoch. cbv zeta.
  set (epoch_df := Pd.iloc df start (start + Extractor.samples_per_epoch self)).
  unfold signal_part.
  change (include_imu && forallb (fun c => Pd.in_columns c df)
            ["ACC_X"; "ACC_Y"; "ACC_Z"]%string) with (imu_enabled df include_imu).
  change (include_ppg && Pd.in_columns "BVP" df) with (ppg_enabled df include_ppg).
  pose proof (signal_part_assembly self (column epoch_df "ACC_X")
                (column epoch_df "ACC_Y") (column epoch_df "ACC_Z")
                (column epoch_df "BVP") (hr_column epoch_df)
                (imu_enabled df include_imu) (ppg_enabled df include_ppg)) as [Hup Hset].
  destruct (imu_enabled df include_imu) eqn:Hi.
  - assert (Himu : forallb (fun c => Pd.in_columns c epoch_df)
                     ["ACC_X"; "ACC_Y"; "ACC_Z"]%string = true).
    { unfold imu_enabled in Hi. apply andb_prop in Hi. destruct Hi as [_ Hi].
      unfold epoch_df. cbn [forallb] in *. rewrite !in_columns_iloc. exact Hi. }
    rewrite (imu_features_normal_form epoch_df Himu). cbn [Py.bind].
    destruct (ppg_enabled df include_ppg) eqn:Hp.
    + assert (Hb : Pd.values epoch_df "BVP" = Py.Ok (column epoch_df "BVP")).
      { apply in_columns_values; [discriminate|]. unfold epoch_df.
        rewrite in_columns_iloc. unfold ppg_enabled in Hp.
        apply andb_prop in Hp. apply Hp. }
      rewrite (ppg_features_normal_form self epoch_df (hr_column epoch_df) Hb
                 (hr_column_spec epoch_df)).
      cbn [Py.bind]. rewrite Hup.
      destruct (Pd.in_columns "Sleep_Stage" df); [|reflexivity].
      destruct (Pd.labels epoch_df) as [stages|e]; [|reflexivity]. cbn [Py.bind].
      destruct (Pd.iloc0 (Pd.mode stages)) as [label|e]; [|reflexivity]. cbn [Py.bind].
      rewrite Hset. reflexivity.
    + cbn [Py.bind]. simpl (Py.dict_update _ []) in Hup. rewrite Hup.
      destruct (Pd.in_columns "Sleep_Stage" df); [|reflexivity].
      destruct (Pd.labels epoch_df) as [stages|e]; [|reflexivity]. cbn [Py.bind].
      destruct (Pd.iloc0 (Pd.mode stages)) as [label|e]; [|reflexivity]. cbn [Py.bind].
      rewrite Hset. reflexivity.
  - cbn [Py.bind].
    destruct (ppg_enabled df include_ppg) eqn:Hp.
    + assert (Hb : Pd.values epoch_df "BVP" = Py.Ok (column epoch_df "BVP")).
      { apply in_columns_values; [discriminate|]. unfold epoch_df.
        rewrite in_columns_iloc. unfold ppg_enabled in Hp.
        apply andb_prop in Hp. apply Hp. }
      rewrite (ppg_features_normal_form self epoch_df (hr_column epoch_df) Hb
                 (hr_column_spec epoch_df)).
      cbn [Py.bind]. simpl (Py.dict_update [] []) in Hup. rewrite Hup.
      destruct (Pd.in_columns "Sleep_Stage" df); [|reflexivity].
      destruct (Pd.labels epoch_df) as [stages|e]; [|reflexivity]. cbn [Py.bind].
      destruct (Pd.iloc0 (Pd.mode stages)) as [label|e]; [|reflexivity]. cbn [Py.bind].
      rewrite Hset. reflexivity.
    + cbn [Py.bind].
      destruct (Pd.in_columns "Sleep_Stage" df); [|reflexivity].
      destruct (Pd.labels epoch_df) as [stages|e]; [|reflexivity]. cbn [Py.bind].
      destruct (Pd.iloc0 (Pd.mode stages)) as [label|e]; [|reflexivity]. cbn [Py.bind].
      reflexivity.
Qed.

End EpochFeatures.

(* ------------------------------------------------------------------ *)
(** ** Mode of the stage labels, windows that yield features           *)
(* ------------------------------------------------------------------ *)

Lemma string_compare_OT (a b : string) : String.compare a b = String_as_OT.compare a b.
Proof.
  revert b. induction a as [|c a IH]; destruct b as [|d b]; simpl; try reflexivity.
Qed.

Lemma string_leb_trans (a b c : string) :
  String.leb a b = true -> String.leb b c = true -> String.leb a c = true.
Proof.
  intros Hab Hbc. generalize Hab Hbc. unfold String.leb at 1 2.
  rewrite (string_compare_OT a b), (string_compare_OT b c).
  destruct (String_as_OT.compare_spec a b) as [Eab|Lab|Gab];
    [| |cbn; intros H; discriminate H];
  (destruct (String_as_OT.compare_spec b c) as [Ebc|Lbc|Gbc];
    [| |cbn; intros _ H; discriminate H]); intros _ _;
  unfold String_as_OT.eq in *; subst; try assumption.
  assert (H : String_as_OT.lt a c)
    by (exact (StrictOrder_Transitive a b c Lab Lbc)).
  unfold String.leb. rewrite string_compare_OT.
  unfold String_as_OT.lt in H. rewrite H. reflexivity.
Qed.

Lemma insert_sorted_In (x y : string) (l : list string) :
  In y (Pd.insert_sorted x l) <-> y = x \/ In y l.
Proof.
  induction l as [|a l IH]; simpl.
  - intuition.
  - destruct (String.leb x a); simpl; rewrite ?IH; intuition.
Qed.

Lemma sort_In (y : string) (l : list string) : In y (Pd.sort l) <-> In y l.
Proof.
  induction l as [|a l IH]; simpl.
  - reflexivity.
  - rewrite insert_sorted_In, IH. intuition.
Qed.

(** The first entry of a sorted list is below every entry. *)
Lemma sort_head_least (l : list string) (m : string) (r : list string) :
  Pd.sort l = m :: r -> forall y, In y l -> String.leb m y = true.
Proof.
  assert (Hrefl : forall s, String.leb s s = true)
    by (intros s; destruct (String.leb_total s s); assumption).
  revert m r. induction l as [|a l IH]; intros m r Hs y Hy.
  - contradiction.
  - simpl in Hs. destruct (Pd.sort l) as [|m' r'] eqn:Hl.
    + simpl in Hs. injection Hs as Hm Hr. rewrite <- Hm.
      destruct Hy as [Heq|Hy].
      * rewrite Heq. apply Hrefl.
      * apply (sort_In y) in Hy. rewrite Hl in Hy. contradiction.
    + simpl in Hs. destruct (String.leb a m') eqn:Hle.
      * injection Hs as Hm Hr. rewrite <- Hm. destruct Hy as [Heq|Hy].
        -- rewrite Heq. apply Hrefl.
        -- apply string_leb_trans with m'; [assumption|].
           apply (IH m' r' eq_refl). assumption.
      * injection Hs as Hm Hr. rewrite <- Hm. destruct Hy as [Heq|Hy].
        -- rewrite <- Heq.
           destruct (String.leb_total m' a) as [H|H]; [assumption|congruence].
        -- apply (IH m' r' eq_refl). assumption.
Qed.

Lemma fold_max_ge (f : string -> nat) (l : list string) (x : string) :
  In x l -> (f x <= fold_right Nat.max 0 (map f l))%nat.
Proof.
  induction l as [|a l IH]; intros H; simpl.
  - contradiction.
  - destruct H as [->|H].
    + apply Nat.le_max_l.
    + etransitivity; [apply IH; assumption|apply Nat.le_max_r].
Qed.

Lemma fold_max_attained (f : string -> nat) (l : list string) :
  l <> [] -> exists x, In x l /\ f x = fold_right Nat.max 0 (map f l).
Proof.
  induction l as [|a l IH]; intros Hne; [congruence|].
  simpl. destruct l as [|b l].
  - exists a. split; [left; reflexivity|]. simpl. lia.
  - destruct (IH ltac:(discriminate)) as [x [Hx Hc]].
    destruct (Nat.max_spec (f a) (fold_right Nat.max 0 (map f (b :: l))))
      as [[Hlt He]|[Hle He]].
    + exists x. split; [right; assumption|]. rewrite He. assumption.
    + exists a. split; [left; reflexivity|]. rewrite He. reflexivity.
Qed.

Lemma count_le_max (x : string) (l : list string) :
  In x l -> (Pd.count x l <= Pd.max_count l)%nat.
Proof. apply (fold_max_ge (fun y => Pd.count y l)). Qed.

Lemma max_count_attained (l : list string) :
  l <> [] -> exists x, In x l /\ Pd.count x l = Pd.max_count l.
Proof. apply (fold_max_attained (fun y => Pd.count y l)). Qed.

Lemma mode_In (x : string) (l : list string) :
  In x (Pd.mode l) <-> In x l /\ Pd.count x l = Pd.max_count l.
Proof.
  unfold Pd.mode. rewrite sort_In, filter_In, nodup_In, Nat.eqb_eq. reflexivity.
Qed.

Lemma mode_not_nil (l : list string) : l <> [] -> Pd.mode l <> [].
Proof.
  intros Hne Hm. destruct (max_count_attained Hne) as [x Hx].
  apply mode_In in Hx. rewrite Hm in Hx. contradiction.
Qed.

Section Windows.
Context {L : Library}.

Lemma signal_part_label (self : Extractor.FeatureExtractor)
    (df epoch_df : Pd.DataFrame) (include_imu include_ppg : bool) (v : Pd.scalar) :
  Py.dict_get (signal_part self df epoch_df include_imu include_ppg
                 ++ [("Sleep_Stage"%string, v)]) "Sleep_Stage" = Some v.
Proof.
  unfold signal_part.
  destruct (signal_part_assembly self (column epoch_df "ACC_X")
              (column epoch_df "ACC_Y") (column epoch_df "ACC_Z")
              (column epoch_df "BVP") (hr_column epoch_df)
              (imu_enabled df include_imu) (ppg_enabled df include_ppg)) as [_ Hset].
  rewrite <- Hset. rewrite dict_get_set, String.eqb_refl. reflexivity.
Qed.

Lemma labels_iloc (df : Pd.DataFrame) (l : list string) (a b : Z) :
  Pd.sleep_stage df = Some l ->
  Pd.labels (Pd.iloc df a b) = Py.Ok (Py.slice l a b).
Proof. intros H. unfold Pd.labels, Pd.iloc. simpl. rewrite H. reflexivity. Qed.

(** A window that lies inside the table and has at least one row yields a
    feature dict. *)
Lemma extract_epoch_ok (self : Extractor.FeatureExtractor) (df : Pd.DataFrame)
    (include_imu include_ppg : bool) (start : Z) :
  Pd.well_formed df ->
  (1 <= Extractor.samples_per_epoch self)%Z ->
  (0 <= start)%Z ->
  (start + Extractor.samples_per_epoch self <= Z.of_nat (Pd.len df))%Z ->
  exists features,
    Extractor.extract_epoch self df include_imu include_ppg start = Py.Ok features.
Proof.
  intros Hwf HE H0 Hend. rewrite extract_epoch_normal_form. cbv zeta.
  destruct (Pd.in_columns "Sleep_Stage" df) eqn:Hin; [|eexists; reflexivity].
  destruct (in_columns_label Hwf Hin) as [l Hl].
  rewrite labels_iloc with (l := l) by exact Hl. cbn [Py.bind].
  destruct Hwf as (_ & Hlen & _).
  assert (Hne : Py.slice l start (start + Extractor.samples_per_epoch self) <> []).
  { intros Hnil. apply (f_equal (@length string)) in Hnil.
    rewrite slice_window_length in Hnil; [simpl in Hnil; lia|lia|lia|].
    rewrite (Hlen l Hl). exact Hend. }
  apply mode_not_nil in Hne.
  destruct (Pd.mode _) as [|m r]; [congruence|].
  cbn [Pd.iloc0 Py.bind]. eexists. reflexivity.
Qed.

End Windows.

(* ------------------------------------------------------------------ *)
(** ** C3: epoch windows *)
(* ------------------------------------------------------------------ *)

Lemma six_row_table_well_formed : Pd.well_formed six_row_table.
Proof.
  unfold Pd.well_formed, six_row_table. cbn [Pd.signals Pd.sleep_stage Pd.n_rows].
  repeat split.
  - repeat constructor.
  - intros l H. discriminate H.
  - cbn [map fst]. intros [H|[]]. discriminate H.
  - unfold Pd.columns. cbn. repeat constructor. intros [].
Qed.

Lemma nth_error_map_seq {A : Type} (f : nat -> A) (n k : nat) :
  (k < n)%nat -> nth_error (map f (seq 0 n)) k = Some (f k).
Proof.
  intros H. rewrite nth_error_map, nth_error_seq.
  destruct (Nat.ltb_spec k n); [reflexivity|lia].
Qed.

Lemma n_rows_iloc_window (df : Pd.DataFrame) (a e : Z) :
  (0 <= a)%Z -> (0 <= e)%Z -> (a + e <= Z.of_nat (Pd.len df))%Z ->
  Pd.n_rows (Pd.iloc df a (a + e)) = Z.to_nat e.
Proof.
  intros Ha He Hn. unfold Pd.iloc. simpl.
  apply slice_window_length; [assumption|assumption|].
  rewrite length_seq. exact Hn.
Qed.

(** The loop of [extract_all_features]: how many windows it visits, where
    they lie, and that each yields a feature dict. *)
Lemma extract_epochs_windows {L : Library}
    (self : Extractor.FeatureExtractor) (df : Pd.DataFrame)
    (include_imu include_ppg : bool) :
  Pd.well_formed df ->
  (1 <= Extractor.step_size self)%Z ->
  (1 <= Extractor.samples_per_epoch self)%Z ->
  let N := Z.of_nat (Pd.len df) in
  let E := Extractor.samples_per_epoch self in
  let S := Extractor.step_size self in
  exists epochs,
    Extractor.extract_epochs self df include_imu include_ppg = Py.Ok epochs /\
    Extractor.extract_all_features self df include_imu include_ppg =
      Py.Ok (Pd.from_records epochs) /\
    length (Pd.ft_rows (Pd.from_records epochs)) = length epochs /\
    Z.of_nat (length epochs) = (if (N <? E)%Z then 0 else (N - E) / S + 1)%Z /\
    forall k, (k < length epochs)%nat ->
      let start := (Z.of_nat k * S)%Z in
      (0 <= start)%Z /\ (start + E <= N)%Z /\
      (exists features,
         nth_error epochs k = Some features /\
         Extractor.extract_epoch self df include_imu include_ppg start =
           Py.Ok features) /\
      Pd.n_rows (Pd.iloc df start (start + E)) = Z.to_nat E /\
      (forall c col, Pd.values df c = Py.Ok col ->
         Pd.values (Pd.iloc df start (start + E)) c =
           Py.Ok (firstn (Z.to_nat E) (skipn (Z.to_nat start) col))).
Proof.
  intros Hwf HS HE N E S.
  assert (Hrange := range_forward (N - E + 1) HS). fold S in Hrange.
  set (n := Z.to_nat (Py.range_len 0 (N - E + 1) S)) in Hrange.
  assert (Hbound : forall k, (k < n)%nat ->
            (0 <= Z.of_nat k * S)%Z /\ (Z.of_nat k * S + E <= N)%Z).
  { intros k Hk.
    assert (Hk' : (Z.of_nat k < Py.range_len 0 (N - E + 1) S)%Z) by (unfold n in Hk; lia).
    pose proof (range_member_bound (N - E + 1) k HS Hk'). lia. }
  assert (Hok : exists epochs,
            Py.mapM (Extractor.extract_epoch self df include_imu include_ppg)
              (map (fun k => (Z.of_nat k * S)%Z) (seq 0 n)) = Py.Ok epochs).
  { apply mapM_ok. intros x Hx. apply in_map_iff in Hx.
    destruct Hx as [k [<- Hk]]. apply in_seq in Hk.
    destruct (Hbound k ltac:(lia)) as [H0 H1].
    apply extract_epoch_ok; assumption. }
  destruct Hok as [epochs Hep]. exists epochs.
  assert (Hlen : length epochs = n).
  { rewrite (mapM_length _ _ Hep), length_map, length_seq. reflexivity. }
  assert (Hrun : Extractor.extract_epochs self df include_imu include_ppg = Py.Ok epochs).
  { unfold Extractor.extract_epochs. fold N E S. rewrite Hrange. cbn [Py.bind]. exact Hep. }
  split; [exact Hrun|].
  split; [unfold Extractor.extract_all_features; rewrite Hrun; reflexivity|].
  split; [unfold Pd.from_records; simpl; apply length_map|].
  split.
  - rewrite Hlen. unfold n.
    rewrite Z2Nat.id by (apply range_len_nonneg; assumption).
    rewrite range_len_forward by assumption.
    destruct (Z.ltb_spec 0 (N - E + 1)); destruct (Z.ltb_spec N E); try lia.
    replace (N - E + 1 - 1)%Z with (N - E)%Z by lia. reflexivity.
  - intros k Hk start. rewrite Hlen in Hk.
    destruct (Hbound k Hk) as [H0 H1]. fold start in H0, H1.
    split; [exact H0|]. split; [exact H1|]. split; [|split].
    + destruct (mapM_nth _ _ Hep k (x := start)) as [y [Hy Hf]].
      { apply (nth_error_map_seq (fun k => (Z.of_nat k * S)%Z)). exact Hk. }
      exists y. split; assumption.
    + apply n_rows_iloc_window; [assumption|unfold E; lia|exact H1].
    + intros c col Hc. rewrite values_iloc, Hc. f_equal.
      apply slice_window; [assumption|unfold E; lia|].
      destruct Hwf as (Hsig & _). rewrite Forall_forall in Hsig.
      assert (Hin : In (c, col) (Pd.signals df)).
      { clear - Hc. unfold Pd.values in Hc.
        induction (Pd.signals df) as [|[k' v'] cols IH]; simpl in Hc; [discriminate|].
        destruct (String.eqb_spec k' c) as [->|_].
        - inversion Hc. left. reflexivity.
        - right. apply IH. assumption. }
      pose proof (Hsig _ Hin) as Hl. simpl in Hl. rewrite Hl. exact H1.
Qed.

(* ------------------------------------------------------------------ *)
(** ** Epochs and the rows they cover                                   *)
(* ------------------------------------------------------------------ *)

Lemma rows_of_length {A : Type} (col : list A) (a e : nat) :
  (a + e <= length col)%nat -> length (rows_of col a e) = e.
Proof.
  intros H. unfold rows_of. rewrite length_firstn, length_skipn. lia.
Qed.

Lemma rows_of_nth {A : Type} (col : list A) (a e i : nat) :
  (i < e)%nat -> nth_error (rows_of col a e) i = nth_error col (a + i).
Proof.
  intros H. unfold rows_of. rewrite nth_error_firstn.
  destruct (Nat.ltb_spec i e); [|lia]. apply nth_error_skipn.
Qed.

Lemma values_length (df : Pd.DataFrame) (c : string) (v : list Np.cell) :
  Pd.well_formed df -> Pd.values df c = Py.Ok v -> length v = Pd.n_rows df.
Proof.
  intros (Hsig & _) Hc. rewrite Forall_forall in Hsig.
  assert (Hin : In (c, v) (Pd.signals df)).
  { clear - Hc. unfold Pd.values in Hc.
    induction (Pd.signals df) as [|[k' v'] cols IH]; simpl in Hc; [discriminate|].
    destruct (String.eqb_spec k' c) as [->|_].
    - inversion Hc. left. reflexivity.
    - right. apply IH. assumption. }
  exact (Hsig _ Hin).
Qed.

(** A column of the window [df.iloc[a : a + e]] holds rows [a], ...,
    [a + e - 1] of the column of [df]. *)
Lemma column_iloc_rows (df : Pd.DataFrame) (c : string) (a e : Z) :
  Pd.well_formed df ->
  (0 <= a)%Z -> (0 <= e)%Z -> (a + e <= Z.of_nat (Pd.len df))%Z ->
  column (Pd.iloc df a (a + e)) c =
  rows_of (column df c) (Z.to_nat a) (Z.to_nat e).
Proof.
  intros Hwf Ha He Hn. unfold column. rewrite values_iloc.
  destruct (Pd.values df c) as [v|err] eqn:Hv.
  - apply slice_window; [assumption|assumption|].
    rewrite (@values_length df c v Hwf Hv). exact Hn.
  - unfold rows_of. rewrite skipn_nil, firstn_nil. reflexivity.
Qed.

Lemma label_column_absent (df : Pd.DataFrame) :
  Pd.in_columns "Sleep_Stage" df = false -> Pd.sleep_stage df = None.
Proof.
  intros Hin. destruct (Pd.sleep_stage df) as [l|] eqn:Hl; [|reflexivity].
  exfalso. assert (Ht : Pd.in_columns "Sleep_Stage" df = true).
  { unfold Pd.in_columns. apply existsb_eqb_In. unfold Pd.columns.
    rewrite Hl. apply in_or_app. right. left. reflexivity. }
  congruence.
Qed.

Section EpochRows.
Context {L : Library}.

(** One loop iteration at a window inside the table: the features are
    those of the rows the window covers. *)
Lemma extract_epoch_rows (self : Extractor.FeatureExtractor) (df : Pd.DataFrame)
    (include_imu include_ppg : bool) (start : Z) :
  Pd.well_formed df ->
  (1 <= Extractor.samples_per_epoch self)%Z ->
  (0 <= start)%Z ->
  (start + Extractor.samples_per_epoch self <= Z.of_nat (Pd.len df))%Z ->
  Extractor.extract_epoch self df include_imu include_ppg start =
  Py.Ok (epoch_of_rows self df include_imu include_ppg (Z.to_nat start)
           (Z.to_nat (Extractor.samples_per_epoch self))).
Proof.
  intros Hwf HE H0 Hend. rewrite extract_epoch_normal_form. cbv zeta.
  set (E := Extractor.samples_per_epoch self) in *.
  assert (Hcol : forall c, column (Pd.iloc df start (start + E)) c =
                           rows_of (column df c) (Z.to_nat start) (Z.to_nat E)).
  { intros c. apply column_iloc_rows; [assumption|assumption|lia|assumption]. }
  assert (Hsig : signal_part self df (Pd.iloc df start (start + E))
                   include_imu include_ppg ++
                 label_part (option_map
                               (fun l => rows_of l (Z.to_nat start) (Z.to_nat E))
                               (Pd.sleep_stage df)) =
                 epoch_of_rows self df include_imu include_ppg
                   (Z.to_nat start) (Z.to_nat E)).
  { unfold signal_part, epoch_of_rows, hr_column. cbv zeta.
    rewrite in_columns_iloc, !Hcol, <- app_assoc. reflexivity. }
  rewrite <- Hsig.
  destruct (Pd.in_columns "Sleep_Stage" df) eqn:Hin.
  - destruct (in_columns_label Hwf Hin) as [l Hl].
    rewrite labels_iloc with (l := l) by exact Hl. cbn [Py.bind].
    rewrite Hl. cbn [option_map label_part].
    assert (Hlen : length l = Pd.n_rows df) by (destruct Hwf as (_ & Hlab & _); auto).
    rewrite slice_window by (try assumption; try lia; rewrite Hlen; exact Hend).
    fold (rows_of l (Z.to_nat start) (Z.to_nat E)).
    assert (Hne : rows_of l (Z.to_nat start) (Z.to_nat E) <> []).
    { intros Hnil. apply (f_equal (@length string)) in Hnil.
      rewrite rows_of_length in Hnil; [simpl in Hnil; lia|].
      rewrite Hlen. unfold Pd.len in Hend. lia. }
    apply mode_not_nil in Hne.
    destruct (Pd.mode _) as [|m r]; [congruence|]. reflexivity.
  - rewrite (label_column_absent df Hin). cbn [option_map label_part].
    rewrite app_nil_r. reflexivity.
Qed.

End EpochRows.

Lemma rows_of_rows {A : Type} (col : list A) (a e : nat) :
  rows_of (rows_of col a e) 0 e = rows_of col a e.
Proof.
  unfold rows_of. cbn [skipn]. rewrite firstn_firstn, Nat.min_id. reflexivity.
Qed.

Section EpochsRows.
Context {L : Library}.

(** The loop of [extract_all_features]: epoch [k] holds the features of
    rows [k * S], ..., [k * S + E - 1]. *)
Lemma extract_epochs_rows (self : Extractor.FeatureExtractor) (df : Pd.DataFrame)
    (include_imu include_ppg : bool) :
  Pd.well_formed df ->
  (1 <= Extractor.step_size self)%Z ->
  (1 <= Extractor.samples_per_epoch self)%Z ->
  let N := Z.of_nat (Pd.len df) in
  let E := Extractor.samples_per_epoch self in
  let S := Extractor.step_size self in
  exists epochs,
    Extractor.extract_epochs self df include_imu include_ppg = Py.Ok epochs /\
    Extractor.extract_all_features self df include_imu include_ppg =
      Py.Ok (Pd.from_records epochs) /\
    length (Pd.ft_rows (Pd.from_records epochs)) = length epochs /\
    Z.of_nat (length epochs) = (if (N <? E)%Z then 0 else (N - E) / S + 1)%Z /\
    forall k, (k < length epochs)%nat ->
      let start := (Z.of_nat k * S)%Z in
      (0 <= start)%Z /\ (start + E <= N)%Z /\
      nth_error epochs k =
        Some (epoch_of_rows self df include_imu include_ppg
                (Z.to_nat start) (Z.to_nat E)).
Proof.
  intros Hwf HS HE N E S.
  destruct (@extract_epochs_windows L self df include_imu include_ppg Hwf HS HE)
    as [epochs (Hrun & Hall & Hrows & Hcount & Hwin)].
  exists epochs. repeat (split; [assumption|]).
  intros k Hk start.
  destruct (Hwin k Hk) as (H0 & Hend & [features [Hnth Hep]] & _).
  fold S in H0, Hend, Hep. fold E in Hend. fold start in H0, Hend, Hep.
  split; [exact H0|]. split; [exact Hend|].
  rewrite (extract_epoch_rows self include_imu include_ppg Hwf HE H0 Hend) in Hep.
  injection Hep as <-. exact Hnth.
Qed.

(** The features of all rows of a window are the features of those rows
    of the table. *)
Lemma epoch_of_rows_iloc (self : Extractor.FeatureExtractor) (df : Pd.DataFrame)
    (include_imu include_ppg : bool) (a e : Z) :
  Pd.well_formed df ->
  (0 <= a)%Z -> (0 <= e)%Z -> (a + e <= Z.of_nat (Pd.len df))%Z ->
  epoch_of_rows self (Pd.iloc df a (a + e)) include_imu include_ppg 0 (Z.to_nat e) =
  epoch_of_rows self df include_imu include_ppg (Z.to_nat a) (Z.to_nat e).
Proof.
  intros Hwf Ha He Hn. unfold epoch_of_rows, imu_enabled, ppg_enabled. cbv zeta.
  cbn [forallb]. rewrite !in_columns_iloc.
  rewrite !(column_iloc_rows _ Hwf Ha He Hn), !rows_of_rows.
  f_equal. f_equal. f_equal.
  destruct (Pd.sleep_stage df) as [l|] eqn:Hl; cbn [Pd.iloc Pd.sleep_stage option_map];
    rewrite Hl; cbn [option_map]; [|reflexivity].
  assert (Hlen : length l = Pd.n_rows df) by (destruct Hwf as (_ & Hlab & _); auto).
  rewrite slice_window by (try assumption; rewrite Hlen; exact Hn).
  fold (rows_of l (Z.to_nat a) (Z.to_nat e)). rewrite rows_of_rows. reflexivity.
Qed.

End EpochsRows.

(** C3. With [E = samples_per_epoch >= 1] and [S = step_size >= 1], a
    well-formed table of [N] rows yields [floor((N - E) / S) + 1] epochs when
    [N >= E] and none when [N < E]; the table returned has one row per
    epoch; epoch [k] holds the features of the [E] contiguous rows [k * S],
    ..., [k * S + E - 1], which lie inside the table: each of its columns
    contributes exactly these [E] entries, row [k * S + i] at position [i]. *)
Theorem extract_all_features_epoch_count {L : Library}
    (self : Extractor.FeatureExtractor) (df : Pd.DataFrame)
    (include_imu include_ppg : bool) :
  Pd.well_formed df ->
  (1 <= Extractor.step_size self)%Z ->
  (1 <= Extractor.samples_per_epoch self)%Z ->
  let N := Z.of_nat (Pd.len df) in
  let E := Extractor.samples_per_epoch self in
  let S := Extractor.step_size self in
  exists epochs,
    Extractor.extract_epochs self df include_imu include_ppg = Py.Ok epochs /\
    Extractor.extract_all_features self df include_imu include_ppg =
      Py.Ok (Pd.from_records epochs) /\
    length (Pd.ft_rows (Pd.from_records epochs)) = length epochs /\
    Z.of_nat (length epochs) = (if (N <? E)%Z then 0 else (N - E) / S + 1)%Z /\
    forall k, (k < length epochs)%nat ->
      let start := (Z.of_nat k * S)%Z in
      (0 <= start)%Z /\ (start + E <= N)%Z /\
      nth_error epochs k =
        Some (epoch_of_rows self df include_imu include_ppg
                (Z.to_nat start) (Z.to_nat E)) /\
      Extractor.extract_epoch self df include_imu include_ppg start =
        Py.Ok (epoch_of_rows self df include_imu include_ppg
                 (Z.to_nat start) (Z.to_nat E)) /\
      (forall c col, Pd.values df c = Py.Ok col ->
         length (rows_of col (Z.to_nat start) (Z.to_nat E)) = Z.to_nat E /\
         forall i, (i < Z.to_nat E)%nat ->
           nth_error (rows_of col (Z.to_nat start) (Z.to_nat E)) i =
           nth_error col (Z.to_nat start + i)) /\
      (forall l, Pd.sleep_stage df = Some l ->
         length (rows_of l (Z.to_nat start) (Z.to_nat E)) = Z.to_nat E).
Proof.
  intros Hwf HS HE N E S.
  destruct (extract_epochs_rows self include_imu include_ppg Hwf HS HE)
    as [epochs (Hrun & Hall & Hrows & Hcount & Hwin)].
  exists epochs. repeat (split; [assumption|]).
  intros k Hk start.
  destruct (Hwin k Hk) as (H0 & Hend & Hnth).
  fold S in H0, Hend, Hnth. fold E in Hend, Hnth. fold start in H0, Hend, Hnth.
  split; [exact H0|]. split; [exact Hend|]. split; [exact Hnth|].
  split; [apply extract_epoch_rows; assumption|]. split.
  - intros c col Hc. split.
    + apply rows_of_length. rewrite (@values_length df c col Hwf Hc).
      unfold N, Pd.len in Hend. lia.
    + intros i Hi. apply rows_of_nth. exact Hi.
  - intros l Hl. apply rows_of_length.
    destruct Hwf as (_ & Hlab & _). rewrite (Hlab l Hl).
    unfold N, Pd.len in Hend. lia.
Qed.

Lemma extract_all_features_epoch_count_witness :
  exists epochs,
    Extractor.extract_epochs (L := four_peaks) (extractor_with 64 4 2)
      six_row_table true true = Py.Ok epochs /\
    length epochs = 2%nat /\
    nth_error epochs 1 =
      Some (epoch_of_rows (L := four_peaks) (extractor_with 64 4 2)
              six_row_table true true 2 4).
Proof.
  destruct (@extract_all_features_epoch_count four_peaks (extractor_with 64 4 2)
              six_row_table true true six_row_table_well_formed
              ltac:(simpl; lia) ltac:(simpl; lia))
    as [epochs (Hrun & _ & _ & Hlen & Hwin)].
  change (Z.of_nat (length epochs) = 2%Z) in Hlen.
  exists epochs. split; [exact Hrun|]. split; [lia|].
  destruct (Hwin 1%nat ltac:(lia)) as (_ & _ & Hnth & _).
  exact Hnth.
Defined.



(* ------------------------------------------------------------------ *)
(** ** C4: the label of an epoch *)
(* ------------------------------------------------------------------ *)

Lemma tied_table_well_formed : Pd.well_formed tied_table.
Proof.
  unfold Pd.well_formed, tied_table. simpl. repeat split.
  - constructor.
  - intros l H. inversion H. reflexivity.
  - intros [].
  - repeat constructor. intros [].
Qed.

Section Labels.
Context {L : Library}.

(** C4 (amended). The label of an epoch with at least one row is a most
    frequent label of its rows, and among the labels tied for most frequent
    it is the smallest in string order; rows [W, W, N1, W] give [W]. *)
Theorem epoch_label_sorted_mode (self : Extractor.FeatureExtractor)
    (df : Pd.DataFrame) (include_imu include_ppg : bool) (start : Z)
    (col : list string) :
  Pd.well_formed df ->
  Pd.sleep_stage df = Some col ->
  let rows := Py.slice col start (start + Extractor.samples_per_epoch self) in
  rows <> [] ->
  (exists features label,
     Extractor.extract_epoch self df include_imu include_ppg start = Py.Ok features /\
     Py.dict_get features "Sleep_Stage" = Some (Pd.VStr label) /\
     In label rows /\
     (forall y, In y rows -> (Pd.count y rows <= Pd.count label rows)%nat) /\
     (forall y, In y rows -> Pd.count y rows = Pd.count label rows ->
        String.leb label y = true)) /\
  Pd.iloc0 (Pd.mode ["W"; "W"; "N1"; "W"]%string) = Py.Ok "W"%string.
Proof.
  intros Hwf Hcol rows Hne. split; [|reflexivity].
  rewrite extract_epoch_normal_form. cbv zeta.
  assert (Hin : Pd.in_columns "Sleep_Stage" df = true).
  { unfold Pd.in_columns, Pd.columns. rewrite Hcol. apply existsb_eqb_In.
    apply in_or_app. right. left. reflexivity. }
  rewrite Hin. rewrite labels_iloc with (l := col) by exact Hcol.
  cbn [Py.bind]. fold rows.
  pose proof (mode_not_nil Hne) as Hm.
  destruct (Pd.mode rows) as [|m r] eqn:Hmode; [congruence|].
  cbn [Pd.iloc0 Py.bind].
  assert (Hmin : In m (Pd.mode rows)) by (rewrite Hmode; left; reflexivity).
  apply mode_In in Hmin. destruct Hmin as [Hmrows Hmax].
  eexists. exists m. split; [reflexivity|].
  split; [apply signal_part_label|].
  split; [exact Hmrows|]. split.
  - intros y Hy. rewrite Hmax. apply count_le_max. exact Hy.
  - intros y Hy Hc. unfold Pd.mode in Hmode.
    apply (sort_head_least _ Hmode).
    apply filter_In. split; [apply nodup_In; exact Hy|].
    apply Nat.eqb_eq. rewrite Hc. exact Hmax.
Qed.

End Labels.

Lemma epoch_label_sorted_mode_witness :
  exists features,
    Extractor.extract_epoch (L := fixed_library (Py.Ok []))
      (extractor_with 64 4 4) tied_table true true 0 = Py.Ok features /\
    Py.dict_get features "Sleep_Stage" = Some (Pd.VStr "N1").
Proof.
  destruct (@epoch_label_sorted_mode (fixed_library (Py.Ok []))
              (extractor_with 64 4 4) tied_table true true 0%Z
              ["W"; "W"; "N1"; "N1"]%string
              tied_table_well_formed eq_refl ltac:(discriminate))
    as [[features [label (Hrun & Hget & Hin & _ & Hleast)]] _].
  exists features. split; [exact Hrun|].
  rewrite Hget. do 2 f_equal.
  vm_compute in Hrun. inversion Hrun; subst features.
  vm_compute in Hget. inversion Hget. reflexivity.
Defined.

(** C4, as stated: ties are not broken by first occurrence.  In rows
    [W, W, N1, N1] both labels occur twice and [W] comes first, yet the
    epoch is labelled [N1]. *)
Lemma label_tie_not_first_occurrence : ~ spec_ties_by_first_occurrence.
Proof.
  intros H.
  specialize (H (fixed_library (Py.Ok [])) (extractor_with 64 4 4) tied_table
                true true 0%Z ["W"; "W"; "N1"; "N1"]%string
                [("Sleep_Stage", Pd.VStr "N1")]%string "N1"%string
                tied_table_well_formed eq_refl eq_refl eq_refl
                "W"%string).
  vm_compute in H.
  specialize (H (or_introl eq_refl) eq_refl).
  inversion H.
Qed.

(* ------------------------------------------------------------------ *)
(** ** C5, C6: resampling, method and resolution errors *)
(* ------------------------------------------------------------------ *)

Section Resample.
Context {L : Library}.

(** C5. With equal rates [resample_signal] returns, for every method
    string, a newly allocated array whose contents equal the input's; the
    input array and every other array are left as they were. *)
Theorem resample_equal_rates_is_copy (h : Np.heap) (data : Np.ndarray)
    (r : R) (method : string) :
  (data < length h)%nat ->
  exists data' h',
    Preprocessing.resample_signal h data r r method = Py.Ok (data', h') /\
    Np.deref h' data' = Np.deref h data /\
    data' <> data /\
    (forall a, (a < length h)%nat -> Np.deref h' a = Np.deref h a).
Proof.
  intros Hvalid. unfold Preprocessing.resample_signal.
  destruct (Req_dec_T r r) as [_|Hne]; [|congruence].
  unfold Np.copy, Np.alloc. do 2 eexists. split; [reflexivity|].
  unfold Np.deref. split; [|split].
  - rewrite app_nth2 by lia. rewrite Nat.sub_diag. reflexivity.
  - lia.
  - intros a Ha. apply app_nth1. exact Ha.
Qed.



End Resample.

Lemma resample_equal_rates_is_copy_witness :
  exists data' h',
    Preprocessing.resample_signal (L := fixed_library (Py.Ok []))
      two_sample_heap 0 64 64 "no-such-kind" = Py.Ok (data', h') /\
    Np.deref h' data' = [Np.fin 1; Np.fin 2] /\ data' <> 0%nat.
Proof.
  destruct (@resample_equal_rates_is_copy (fixed_library (Py.Ok []))
              two_sample_heap 0%nat 64%R "no-such-kind"%string
              ltac:(simpl; lia))
    as [data' [h' (Hrun & Hval & Hneq & _)]].
  exists data', h'. repeat split; assumption.
Defined.



(* ------------------------------------------------------------------ *)
(** ** C7: normalisation *)
(* ------------------------------------------------------------------ *)




Section Normalize.
Context {L : Library}.


End Normalize.


(* ------------------------------------------------------------------ *)
(** ** C10: zero crossings *)
(* ------------------------------------------------------------------ *)

Lemma count_true_cons (b : bool) (l : list bool) :
  Np.count_true (b :: l) = ((if b then 1 else 0) + Np.count_true l)%Z.
Proof. unfold Np.count_true. simpl. destruct b; simpl length; lia. Qed.

Lemma Prim2SF_infinity : FloatOps.Prim2SF PrimFloat.infinity = SpecFloat.S754_infinity false.
Proof. reflexivity. Qed.

Lemma isfinite_cases (x : F64.cell) :
  F64.isfinite x = true ->
  (exists s, FloatOps.Prim2SF x = SpecFloat.S754_zero s) \/
  (exists s m e, FloatOps.Prim2SF x = SpecFloat.S754_finite s m e).
Proof.
  unfold F64.isfinite, PrimFloat.is_finite, PrimFloat.is_nan, PrimFloat.is_infinity.
  rewrite !FloatAxioms.eqb_spec, FloatAxioms.abs_spec, Prim2SF_infinity.
  destruct (FloatOps.Prim2SF x) as [s|s| |s m e]; cbn.
  - intros _. left. exists s. reflexivity.
  - destruct s; intros H; discriminate H.
  - intros H. discriminate H.
  - intros _. right. exists s, m, e. reflexivity.
Qed.

Lemma SFcompare_Eq_finite (s s' : bool) (m m' : positive) (e e' : Z) :
  SpecFloat.SFcompare (SpecFloat.S754_finite s m e) (SpecFloat.S754_finite s' m' e') = Some Eq ->
  s = s' /\ m = m' /\ e = e'.
Proof.
  cbn. destruct s, s'; try (intros H; discriminate H).
  - destruct (Z.compare_spec e e') as [He|He|He]; try (intros H; discriminate H).
    intros H. injection H as H. apply CompOpp_iff in H. cbn in H.
    apply Pos.compare_eq in H. auto.
  - destruct (Z.compare_spec e e') as [He|He|He]; try (intros H; discriminate H).
    intros H. injection H as H. apply Pos.compare_eq in H. auto.
Qed.

(** The sign of a difference of doubles: rounding keeps the sign of the
    exact difference of the aligned mantissas. *)
Section DoubleRounding.
Variables prec emax : Z.

Lemma shr_1_nonneg (mrs : SpecFloat.shr_record) :
  (0 <= SpecFloat.shr_m mrs)%Z -> (0 <= SpecFloat.shr_m (SpecFloat.shr_1 mrs))%Z.
Proof.
  destruct mrs as [m r s]. cbn [SpecFloat.shr_m]. intros H.
  destruct m as [|p|p]; [cbn; lia| |lia].
  destruct p; cbn; lia.
Qed.

Lemma iter_shr_1_nonneg (p : positive) (mrs : SpecFloat.shr_record) :
  (0 <= SpecFloat.shr_m mrs)%Z ->
  (0 <= SpecFloat.shr_m (SpecFloat.iter_pos SpecFloat.shr_1 p mrs))%Z.
Proof.
  revert mrs. induction p as [p IH|p IH|]; intros mrs H; cbn [SpecFloat.iter_pos].
  - apply IH, IH, shr_1_nonneg, H.
  - apply IH, IH, H.
  - apply shr_1_nonneg, H.
Qed.

Lemma shr_fexp_nonneg (m e : Z) (l : SpecFloat.location) :
  (0 <= m)%Z ->
  (0 <= SpecFloat.shr_m (fst (SpecFloat.shr_fexp prec emax m e l)))%Z.
Proof.
  intros H. unfold SpecFloat.shr_fexp, SpecFloat.shr.
  assert (H0 : (0 <= SpecFloat.shr_m (SpecFloat.shr_record_of_loc m l))%Z).
  { destruct l as [|[| |]]; exact H. }
  destruct (_ - e)%Z as [|p|p]; cbn [fst]; [exact H0| |exact H0].
  apply iter_shr_1_nonneg, H0.
Qed.

Lemma round_nearest_even_nonneg (m : Z) (l : SpecFloat.location) :
  (0 <= m)%Z -> (0 <= SpecFloat.round_nearest_even m l)%Z.
Proof.
  intros H. unfold SpecFloat.round_nearest_even.
  destruct l as [|[| |]]; try destruct (Z.even m); lia.
Qed.

Lemma binary_round_aux_sign_is (s : bool) (m e : Z) (l : SpecFloat.location) :
  (0 <= m)%Z -> sign_is s (SpecFloat.binary_round_aux prec emax s m e l).
Proof.
  intros H. unfold SpecFloat.binary_round_aux.
  pose proof (shr_fexp_nonneg e l H) as H1.
  destruct (SpecFloat.shr_fexp prec emax m e l) as [mrs' e'].
  cbn [fst] in H1.
  pose proof (@shr_fexp_nonneg
                (SpecFloat.round_nearest_even (SpecFloat.shr_m mrs')
                   (SpecFloat.loc_of_shr_record mrs')) e' SpecFloat.loc_Exact
                (round_nearest_even_nonneg _ H1)) as H2.
  destruct (SpecFloat.shr_fexp prec emax _ e' SpecFloat.loc_Exact) as [mrs'' e''].
  cbn [fst] in H2.
  destruct (SpecFloat.shr_m mrs'') as [|p|p]; [| |lia].
  - split; [discriminate|reflexivity].
  - destruct (e'' <=? emax - prec)%Z; split; try discriminate; reflexivity.
Qed.

Lemma binary_normalize_sign_is (z e : Z) :
  z <> 0%Z ->
  sign_is (z <? 0)%Z (SpecFloat.binary_normalize prec emax z e false).
Proof.
  intros Hz. destruct z as [|p|p]; [congruence| |];
    unfold SpecFloat.binary_normalize, SpecFloat.binary_round;
    destruct (SpecFloat.shl_align _ _ _) as [mz ez];
    apply binary_round_aux_sign_is; lia.
Qed.


Hypothesis Hprec : (0 < prec)%Z.

Lemma iter_xO_pow (m d : positive) :
  Zpos (Pos.iter xO m d) = (Zpos m * 2 ^ Zpos d)%Z.
Proof.
  induction d as [|d IH] using Pos.peano_ind.
  - cbn [Pos.iter]. lia.
  - rewrite Pos.iter_succ, Pos2Z.inj_xO, IH, Pos2Z.inj_succ, Z.pow_succ_r by lia.
    lia.
Qed.

Lemma shl_align_value (m : positive) (e ez : Z) :
  (ez <= e)%Z ->
  Zpos (fst (SpecFloat.shl_align m e ez)) = (Zpos m * 2 ^ (e - ez))%Z.
Proof.
  intros H. unfold SpecFloat.shl_align.
  destruct (ez - e)%Z as [|p|p] eqn:He.
  - replace (e - ez)%Z with 0%Z by lia. cbn [fst]. lia.
  - lia.
  - cbn [fst]. rewrite iter_xO_pow. replace (e - ez)%Z with (Zpos p) by lia.
    reflexivity.
Qed.

Lemma digits2_pos_bounds (m : positive) :
  (2 ^ (Zpos (SpecFloat.digits2_pos m) - 1) <= Zpos m
   < 2 ^ Zpos (SpecFloat.digits2_pos m))%Z.
Proof.
  induction m as [m IH|m IH|]; cbn [SpecFloat.digits2_pos].
  - rewrite Pos2Z.inj_succ, Z.pow_succ_r by lia.
    replace (Z.succ (Zpos (SpecFloat.digits2_pos m)) - 1)%Z
      with (Z.succ (Zpos (SpecFloat.digits2_pos m) - 1)) by lia.
    rewrite Z.pow_succ_r by lia. lia.
  - rewrite Pos2Z.inj_succ, Z.pow_succ_r by lia.
    replace (Z.succ (Zpos (SpecFloat.digits2_pos m)) - 1)%Z
      with (Z.succ (Zpos (SpecFloat.digits2_pos m) - 1)) by lia.
    rewrite Z.pow_succ_r by lia. lia.
  - cbn. lia.
Qed.

(** A canonical mantissa has at most [prec] digits, and exactly [prec] above
    the least exponent. *)
Lemma canonical_digits (m : positive) (e : Z) :
  SpecFloat.canonical_mantissa prec emax m e = true ->
  (SpecFloat.emin prec emax <= e)%Z /\
  (Zpos (SpecFloat.digits2_pos m) <= prec)%Z /\
  ((SpecFloat.emin prec emax < e)%Z -> Zpos (SpecFloat.digits2_pos m) = prec).
Proof.
  unfold SpecFloat.canonical_mantissa, SpecFloat.fexp. intros H.
  apply Z.eqb_eq in H. lia.
Qed.

(** Of two canonical mantissas the one with the larger exponent is the larger
    number. *)
Lemma canonical_exponent_order (m1 m2 : positive) (e1 e2 : Z) :
  SpecFloat.canonical_mantissa prec emax m1 e1 = true ->
  SpecFloat.canonical_mantissa prec emax m2 e2 = true ->
  (e1 < e2)%Z ->
  (Zpos m1 < Zpos m2 * 2 ^ (e2 - e1))%Z.
Proof.
  intros H1 H2 He.
  destruct (canonical_digits _ _ H1) as (Hmin1 & Hd1 & _).
  destruct (canonical_digits _ _ H2) as (_ & _ & Hd2).
  specialize (Hd2 ltac:(lia)).
  pose proof (digits2_pos_bounds m1) as [_ B1].
  pose proof (digits2_pos_bounds m2) as [B2 _].
  rewrite Hd2 in B2.
  assert (P1 : (2 ^ Zpos (SpecFloat.digits2_pos m1) <= 2 ^ prec)%Z)
    by (apply Z.pow_le_mono_r; lia).
  assert (P2 : (2 ^ 1 <= 2 ^ (e2 - e1))%Z) by (apply Z.pow_le_mono_r; lia).
  assert (P3 : (2 ^ prec = 2 ^ (prec - 1) * 2 ^ 1)%Z).
  { rewrite <- Z.pow_add_r by lia. f_equal. lia. }
  assert (P4 : (0 < 2 ^ (prec - 1))%Z) by (apply Z.pow_pos_nonneg; lia).
  nia.
Qed.

(** The sign of a difference of two finite doubles is decided by their
    comparison; equal operands give +0.0 except for (-0.0) - (+0.0). *)
Lemma SFsub_sign (x y : SpecFloat.spec_float) :
  SpecFloat.valid_binary prec emax x = true ->
  SpecFloat.valid_binary prec emax y = true ->
  sf_finite x = true ->
  sf_finite y = true ->
  sign_is (match SpecFloat.SFcompare x y with
          | Some Lt => true
          | Some Eq => sf_sign x && negb (sf_sign y)
          | _ => false
          end) (SpecFloat.SFsub prec emax x y).
Proof.
  intros Vx Vy Fx Fy.
  destruct x as [sx|sx| |sx mx ex]; try discriminate Fx;
    destruct y as [sy|sy| |sy my ey]; try discriminate Fy.
  - destruct sx, sy; split; try discriminate; reflexivity.
  - destruct sy; split; try discriminate; reflexivity.
  - destruct sx; split; try discriminate; reflexivity.
  - cbn [SpecFloat.valid_binary] in Vx, Vy. unfold SpecFloat.bounded in Vx, Vy.
    apply andb_true_iff in Vx as [Cx _]. apply andb_true_iff in Vy as [Cy _].
    cbn [SpecFloat.SFsub SpecFloat.SFcompare sf_sign].
    set (ez := Z.min ex ey).
    pose proof (@shl_align_value mx ex ez ltac:(lia)) as Ax.
    pose proof (@shl_align_value my ey ez ltac:(lia)) as Ay.
    set (a := Zpos (fst (SpecFloat.shl_align mx ex ez))) in *.
    set (b := Zpos (fst (SpecFloat.shl_align my ey ez))) in *.
    assert (Ha : (0 < a)%Z) by (unfold a; lia).
    assert (Hb : (0 < b)%Z) by (unfold b; lia).
    assert (Hcmp : match (ex ?= ey)%Z with
                   | Lt => (a < b)%Z
                   | Gt => (b < a)%Z
                   | Eq => a = Zpos mx /\ b = Zpos my
                   end).
    { destruct (Z.compare_spec ex ey) as [E|E|E].
      - subst ey. unfold ez in Ax, Ay. rewrite Z.min_id, Z.sub_diag in Ax, Ay.
        cbn in Ax, Ay. lia.
      - unfold ez in Ax, Ay. rewrite Z.min_l in Ax, Ay by lia.
        rewrite Z.sub_diag in Ax. rewrite Ax, Ay.
        pose proof (canonical_exponent_order _ _ Cx Cy E). cbn [Z.pow]. lia.
      - unfold ez in Ax, Ay. rewrite Z.min_r in Ax, Ay by lia.
        rewrite Z.sub_diag in Ay. rewrite Ax, Ay.
        pose proof (canonical_exponent_order _ _ Cy Cx E). cbn [Z.pow]. lia. }
    assert (Hnorm : forall z s,
               (z <> 0%Z -> (z <? 0)%Z = s) -> (z = 0%Z -> s = false) ->
               sign_is s (SpecFloat.binary_normalize prec emax z ez false)).
    { intros z s H1 H2. destruct (Z.eq_dec z 0) as [E|E].
      - subst z. rewrite (H2 eq_refl). split; [discriminate|reflexivity].
      - rewrite <- (H1 E). apply binary_normalize_sign_is, E. }
    rewrite Pos.compare_cont_spec.
    destruct sx, sy; cbn [SpecFloat.cond_Zopp andb negb]; apply Hnorm;
      intros Hz;
      try (destruct (ex ?= ey)%Z;
           [destruct Hcmp as [Ea Eb];
            destruct (Pos.compare_spec mx my) as [Em|Em|Em]| |]);
      cbn [CompOpp Pos.switch_Eq];
      first [reflexivity | apply Z.ltb_lt; lia | apply Z.ltb_ge; lia
            | exfalso; lia].
Qed.

End DoubleRounding.

Lemma SFcompare_refl (f : SpecFloat.spec_float) :
  f <> SpecFloat.S754_nan -> SpecFloat.SFcompare f f = Some Eq.
Proof.
  destruct f as [s|s| |s m e]; intros H; try congruence;
    cbn [SpecFloat.SFcompare].
  - reflexivity.
  - destruct s; reflexivity.
  - rewrite Z.compare_refl, Pos.compare_cont_refl. destruct s; reflexivity.
Qed.

Lemma isnan_Prim2SF (x : F64.cell) :
  FloatOps.Prim2SF x <> SpecFloat.S754_nan -> F64.isnan x = false.
Proof.
  intros H. unfold F64.isnan, PrimFloat.is_nan.
  rewrite FloatAxioms.eqb_spec. unfold SpecFloat.SFeqb.
  rewrite SFcompare_refl by exact H. reflexivity.
Qed.

Lemma isfinite_sf_finite (x : F64.cell) :
  F64.isfinite x = true -> sf_finite (FloatOps.Prim2SF x) = true.
Proof.
  intros H. destruct (isfinite_cases x H) as [[s ->]|[s [m [e ->]]]]; reflexivity.
Qed.

(** The difference of two finite doubles is never NaN, and its sign bit is
    set exactly when the first is below the second, or the two are [-0.0]
    and [+0.0]. *)
Lemma signbit_sub_finite (x m : F64.cell) :
  F64.isfinite x = true -> F64.isfinite m = true ->
  F64.isnan (PrimFloat.sub x m) = false /\
  F64.signbit (PrimFloat.sub x m) =
    PrimFloat.ltb x m || (PrimFloat.eqb x m && F64.signbit x && negb (F64.signbit m)).
Proof.
  intros Hx Hm.
  destruct (@SFsub_sign FloatOps.prec FloatOps.emax ltac:(reflexivity)
              (FloatOps.Prim2SF x) (FloatOps.Prim2SF m)
              (FloatAxioms.Prim2SF_valid x) (FloatAxioms.Prim2SF_valid m)
              (isfinite_sf_finite x Hx) (isfinite_sf_finite m Hm)) as [Hnan Hsign].
  split.
  - apply isnan_Prim2SF. rewrite FloatAxioms.sub_spec. exact Hnan.
  - change (F64.signbit (PrimFloat.sub x m))
      with (sf_sign (FloatOps.Prim2SF (PrimFloat.sub x m))).
    rewrite FloatAxioms.sub_spec. unfold FloatAxioms.SF64sub. rewrite Hsign.
    rewrite FloatAxioms.ltb_spec, FloatAxioms.eqb_spec.
    unfold SpecFloat.SFltb, SpecFloat.SFeqb.
    change (F64.signbit x) with (sf_sign (FloatOps.Prim2SF x)).
    change (F64.signbit m) with (sf_sign (FloatOps.Prim2SF m)).
    destruct (SpecFloat.SFcompare (FloatOps.Prim2SF x) (FloatOps.Prim2SF m))
      as [[| |]|]; reflexivity.
Qed.

(** Subtracting a double from an equal one: the difference is a zero,
    negative only for [-0.0 - 0.0]. *)
Lemma signbit_sub_equal (x m : F64.cell) :
  PrimFloat.eqb x m = true -> F64.isfinite x = true ->
  F64.signbit (PrimFloat.sub x m) = F64.signbit x && negb (F64.signbit m).
Proof.
  intros Heq Hfin. unfold F64.signbit.
  rewrite FloatAxioms.sub_spec. rewrite FloatAxioms.eqb_spec in Heq.
  unfold SpecFloat.SFeqb in Heq.
  destruct (isfinite_cases x Hfin) as [[s Hx]|[s [mx [ex Hx]]]]; rewrite Hx in *.
  - destruct (FloatOps.Prim2SF m) as [s'|s'| |s' m' e']; cbn in Heq;
      try discriminate Heq.
    + destruct s, s'; reflexivity.
    + destruct s'; discriminate Heq.
    + destruct s'; discriminate Heq.
  - destruct (FloatOps.Prim2SF m) as [s'|s'| |s' m' e'] eqn:Hm.
    + cbn in Heq. destruct s; discriminate Heq.
    + cbn in Heq. destruct s'; discriminate Heq.
    + cbn in Heq. discriminate Heq.
    + destruct (SpecFloat.SFcompare (SpecFloat.S754_finite s mx ex)
                  (SpecFloat.S754_finite s' m' e')) as [[| |]|] eqn:Hc;
        try discriminate Heq.
      apply SFcompare_Eq_finite in Hc. destruct Hc as (<- & <- & <-).
      unfold FloatAxioms.SF64sub, SpecFloat.SFsub.
      rewrite Z.sub_diag. cbn. destruct s; reflexivity.
Qed.

Lemma sign_changes_count (bits : list bool) :
  Np.count_true (Np.diff_bool bits) = Z.of_nat (spec_sign_changes bits).
Proof.
  induction bits as [|b bits IH]; [reflexivity|].
  destruct bits as [|b' bits]; [reflexivity|].
  change (spec_sign_changes (b :: b' :: bits))
    with ((if Bool.eqb b b' then 0 else 1) + spec_sign_changes (b' :: bits))%nat.
  rewrite Nat2Z.inj_add, <- IH. clear IH.
  cbn [Np.diff_bool]. rewrite count_true_cons.
  f_equal. destruct b, b'; reflexivity.
Qed.

Lemma sign_changes_split (a : bool) (l1 l2 : list bool) :
  spec_sign_changes (l1 ++ a :: l2) =
  (spec_sign_changes (l1 ++ [a]) + spec_sign_changes (a :: l2))%nat.
Proof.
  induction l1 as [|x l1 IH].
  - simpl. reflexivity.
  - destruct l1 as [|y l1].
    + simpl. lia.
    + change ((x :: y :: l1) ++ a :: l2) with (x :: y :: (l1 ++ a :: l2)).
      change ((x :: y :: l1) ++ [a]) with (x :: y :: (l1 ++ [a])).
      change (spec_sign_changes (x :: y :: (l1 ++ a :: l2)))
        with ((if Bool.eqb x y then 0 else 1)
              + spec_sign_changes ((y :: l1) ++ a :: l2))%nat.
      change (spec_sign_changes (x :: y :: (l1 ++ [a])))
        with ((if Bool.eqb x y then 0 else 1)
              + spec_sign_changes ((y :: l1) ++ [a]))%nat.
      rewrite IH. lia.
Qed.

Lemma sign_changes_constant (b : bool) (n : nat) :
  spec_sign_changes (repeat b n) = 0%nat.
Proof.
  induction n as [|n IH]; [reflexivity|].
  destruct n as [|n]; [reflexivity|].
  change (repeat b (S (S n))) with (b :: b :: repeat b n).
  change (spec_sign_changes (b :: b :: repeat b n))
    with ((if Bool.eqb b b then 0 else 1) + spec_sign_changes (repeat b (S n)))%nat.
  rewrite IH, Bool.eqb_reflx. reflexivity.
Qed.

Section ZeroCrossings64.
Context {L : F64.Library}.

Lemma zero_crossings_get (signal_data : list F64.cell) (prefix : string) :
  F64.drop_nan signal_data <> [] ->
  Py.dict_get (Extractor64._compute_statistical_features signal_data prefix)
    (prefix ++ "_zero_crossings")%string =
  Some (F64.VInt
          (Np.count_true
             (Np.diff_bool
                (map F64.signbit
                   (map (fun x => PrimFloat.sub x (F64.mean (F64.drop_nan signal_data)))
                        (F64.drop_nan signal_data)))))).
Proof.
  intros Hne. unfold Extractor64._compute_statistical_features.
  destruct (F64.drop_nan signal_data) as [|x xs]; [congruence|].
  cbn [length Nat.eqb]. rewrite dict_get_set, String.eqb_refl. reflexivity.
Qed.

End ZeroCrossings64.

Section ZeroCrossingsTheorem.
Context {L : F64.Library}.

(** C10 (amended). On doubles, over the NaN-filtered slice [sd] with
    computed mean [m], the zero-crossings feature is the number of adjacent
    pairs whose centred values [x - m] differ in sign bit.  Under a finite
    mean the centred value of a finite sample is never NaN, and its sign
    bit is set exactly when the sample is below the mean, or is [-0.0]
    under a mean of [+0.0] (whose difference is [-0.0]); so a sample equal
    to the mean has sign bit false but for that one pair.  A slice of
    identical samples counts 0, and a sample equal to the mean between two
    samples whose centred values have sign bit false adds nothing.  (A
    difference that is NaN, which takes an infinite sample, is left out:
    these doubles do not record the sign of NaN.) *)
Theorem zero_crossings_count_sign_changes (signal_data : list F64.cell)
    (prefix : string) :
  let sd := F64.drop_nan signal_data in
  let m := F64.mean sd in
  let side := fun x => F64.signbit (PrimFloat.sub x m) in
  let features := Extractor64._compute_statistical_features signal_data prefix in
  sd <> [] ->
  (forall x, In x sd -> F64.isnan (PrimFloat.sub x m) = false) ->
  Py.dict_get features (prefix ++ "_zero_crossings")%string =
    Some (F64.VInt (Z.of_nat (spec_sign_changes (map side sd)))) /\
  (forall x, F64.isfinite x = true -> F64.isfinite m = true ->
     F64.isnan (PrimFloat.sub x m) = false /\
     side x = PrimFloat.ltb x m ||
              (PrimFloat.eqb x m && F64.signbit x && negb (F64.signbit m))) /\
  (forall c, (forall x, In x sd -> x = c) ->
     Py.dict_get features (prefix ++ "_zero_crossings")%string = Some (F64.VInt 0)) /\
  (forall l1 a b c l2, sd = l1 ++ a :: b :: c :: l2 ->
     side a = false -> side c = false ->
     PrimFloat.eqb b m = true -> F64.isfinite b = true ->
     ~ (F64.signbit b = true /\ F64.signbit m = false) ->
     spec_sign_changes (map side sd) =
     (spec_sign_changes (map side (l1 ++ [a])) +
      spec_sign_changes (map side (c :: l2)))%nat).
Proof.
  intros sd m side features Hne _.
  assert (Hget : Py.dict_get features (prefix ++ "_zero_crossings")%string =
                 Some (F64.VInt (Z.of_nat (spec_sign_changes (map side sd))))).
  { unfold features. rewrite zero_crossings_get by exact Hne.
    fold sd. fold m. rewrite map_map. rewrite sign_changes_count. reflexivity. }
  split; [exact Hget|]. split; [|split].
  - intros x Hx Hm. apply signbit_sub_finite; assumption.
  - intros c Hc. rewrite Hget. rewrite (@constant_repeat _ c sd Hc).
    rewrite map_repeat, sign_changes_constant. reflexivity.
  - intros l1 a b c l2 Hsd Ha Hc Heq Hfin Hex.
    assert (Hb : side b = false).
    { unfold side. rewrite signbit_sub_equal by assumption.
      destruct (F64.signbit b), (F64.signbit m); try reflexivity.
      exfalso. apply Hex. split; reflexivity. }
    rewrite Hsd. rewrite !map_app. cbn [map].
    rewrite sign_changes_split. f_equal.
    change (spec_sign_changes (side a :: side b :: side c :: map side l2))
      with ((if Bool.eqb (side a) (side b) then 0 else 1)
            + ((if Bool.eqb (side b) (side c) then 0 else 1)
               + spec_sign_changes (side c :: map side l2)))%nat.
    rewrite Ha, Hb, Hc. reflexivity.
Qed.

End ZeroCrossingsTheorem.

Lemma zero_crossings_count_sign_changes_witness :
  Py.dict_get
    (Extractor64._compute_statistical_features (L := first_sample_library)
       [F64.of_nat 7; PrimFloat.nan; F64.of_nat 7] "ppg")
    "ppg_zero_crossings" = Some (F64.VInt 0).
Proof.
  refine (proj1 (proj2 (proj2
            (@zero_crossings_count_sign_changes first_sample_library
               [F64.of_nat 7; PrimFloat.nan; F64.of_nat 7] "ppg"%string _ _)))
            (F64.of_nat 7) _).
  - vm_compute. discriminate.
  - vm_compute. intros x [H|[H|[]]]; rewrite <- H; reflexivity.
  - vm_compute. intros x [H|[H|[]]]; symmetry; exact H.
Defined.

(** The mean is the computed one: the doubles 1.1, 1.0, 0.9, 1.0, 1.0 have
    the computed mean 1.0, on which three of them lie, and the feature
    counts 2 crossings (their exact mean is above 1.0). *)
Lemma rounded_mean_crossings :
  let q := fun a b => PrimFloat.div (F64.of_nat a) (F64.of_nat b) in
  Py.dict_get
    (Extractor64._compute_statistical_features (L := first_sample_library)
       [q 11 10; q 1 1; q 9 10; q 1 1; q 1 1]%nat "ppg")
    "ppg_zero_crossings" = Some (F64.VInt 2).
Proof. vm_compute. reflexivity. Qed.

(** C10, as stated: the samples [0.0, -0.0, 0.0, -0.0] all equal 0 and
    their mean is [+0.0], yet [-0.0 - 0.0] is [-0.0], whose sign bit is set:
    the feature counts 3 crossings. *)
Lemma signed_zeros_cross : ~ spec_constant_never_crosses.
Proof.
  intros H.
  specialize (H first_sample_library
                [PrimFloat.zero; PrimFloat.neg_zero; PrimFloat.zero; PrimFloat.neg_zero]
                PrimFloat.zero "ppg"%string ltac:(discriminate)).
  assert (Hall : forall x,
            In x [PrimFloat.zero; PrimFloat.neg_zero; PrimFloat.zero; PrimFloat.neg_zero] ->
            PrimFloat.eqb x PrimFloat.zero = true).
  { intros x [<-|[<-|[<-|[<-|[]]]]]; reflexivity. }
  specialize (H Hall). vm_compute in H. discriminate H.
Qed.

(* ------------------------------------------------------------------ *)
(** ** C8: an epoch of constant magnitude *)
(* ------------------------------------------------------------------ *)

Ltac dict_read :=
  cbv [Py.dict_get prefixed stat_table hrv_table map fst snd app
       String.append String.eqb Ascii.eqb Bool.eqb].

Lemma drop_nan_constant (c : R) (n : nat) :
  Np.drop_nan (repeat (Np.fin c) n) = repeat (Np.fin c) n.
Proof.
  change (Np.fin c) with (Some c). rewrite <- map_repeat. apply drop_nan_fins.
Qed.

Section ConstantMagnitude.
Context {L : Library}.

(** Shape statistics of a slice whose standard deviation is not above 0. *)
Lemma stat_part_zero_std (prefix : string) (data : list Np.cell) :
  Np.drop_nan data <> [] ->
  Np.std (Np.drop_nan data) = Np.fin 0 ->
  Py.dict_get (stat_part prefix data) (prefix ++ "_std")%string =
    Some (Pd.VFloat (Np.fin 0)) /\
  Py.dict_get (stat_part prefix data) (prefix ++ "_skew")%string =
    Some (Pd.VFloat (Np.fin 0)) /\
  Py.dict_get (stat_part prefix data) (prefix ++ "_kurtosis")%string =
    Some (Pd.VFloat (Np.fin 0)).
Proof.
  intros Hne Hstd. unfold stat_part.
  destruct (Np.drop_nan data) as [|x xs]; [congruence|].
  rewrite !prefixed_get.
  cbn [stat_table Py.dict_get String.eqb Ascii.eqb Bool.eqb].
  rewrite Hstd, gt_zero_zero. repeat split; reflexivity.
Qed.

Lemma imu_part_magnitude_get (x y z : list Np.cell) (s : string) :
  In s stat_suffixes ->
  Py.dict_get (imu_part x y z) ("imu_mag" ++ s)%string =
  Py.dict_get (stat_part "imu_mag" (Extractor.magnitude_of x y z)) ("imu_mag" ++ s)%string.
Proof.
  intros Hs. unfold imu_part.
  set (m := stat_part "imu_mag" _).
  assert (Hx : forall d, Py.dict_get (stat_part "imu_x" d) ("imu_mag" ++ s)%string = None).
  { intros d. unfold stat_part. destruct (Np.drop_nan d); [reflexivity|].
    simpl in Hs. repeat (destruct Hs as [<-|Hs]; [dict_read; reflexivity|]). contradiction. }
  assert (Hy : forall d, Py.dict_get (stat_part "imu_y" d) ("imu_mag" ++ s)%string = None).
  { intros d. unfold stat_part. destruct (Np.drop_nan d); [reflexivity|].
    simpl in Hs. repeat (destruct Hs as [<-|Hs]; [dict_read; reflexivity|]). contradiction. }
  assert (Hz : forall d, Py.dict_get (stat_part "imu_z" d) ("imu_mag" ++ s)%string = None).
  { intros d. unfold stat_part. destruct (Np.drop_nan d); [reflexivity|].
    simpl in Hs. repeat (destruct Hs as [<-|Hs]; [dict_read; reflexivity|]). contradiction. }
  rewrite !dict_get_app, Hx, Hy, Hz.
  destruct (Py.dict_get m ("imu_mag" ++ s)%string) eqn:Hm; [reflexivity|].
  simpl in Hs. repeat (destruct Hs as [<-|Hs]; [reflexivity|]). contradiction.
Qed.

Lemma imu_part_activity_get (x y z : list Np.cell) :
  Py.dict_get (imu_part x y z) "imu_activity_count" =
  Some (Pd.VFloat (Np.sum (map Np.abs (Np.diff (Extractor.magnitude_of x y z))))).
Proof.
  unfold imu_part. set (m := Extractor.magnitude_of x y z).
  unfold stat_part.
  destruct (Np.drop_nan x); destruct (Np.drop_nan y); destruct (Np.drop_nan z);
    destruct (Np.drop_nan m); dict_read; reflexivity.
Qed.

End ConstantMagnitude.

Lemma magnitude_constant_vector (a b c : R) (n : nat) :
  Extractor.magnitude_of (repeat (Np.fin a) n) (repeat (Np.fin b) n)
    (repeat (Np.fin c) n) =
  repeat (Np.fin (sqrt (a * a + b * b + c * c))) n.
Proof.
  unfold Extractor.magnitude_of, Extractor.map3.
  induction n as [|n IH]; [reflexivity|].
  simpl. rewrite IH. f_equal.
  unfold Np.sqrt, Np.fin.
  destruct (Rlt_dec (a * a + b * b + c * c) 0) as [H|_]; [|reflexivity].
  nra.
Qed.

Lemma slice_full {A : Type} (l : list A) :
  Py.slice l 0 (0 + Z.of_nat (length l)) = l.
Proof.
  rewrite slice_window by lia. rewrite Nat2Z.id. simpl. apply firstn_all.
Qed.

(** Constant sequences on doubles. *)
Lemma Prim2SF_zero_eq (x : F64.cell) :
  FloatOps.Prim2SF x = SpecFloat.S754_zero false -> x = PrimFloat.zero.
Proof.
  intros H. rewrite <- (FloatAxioms.SF2Prim_Prim2SF x), H. reflexivity.
Qed.

(** A finite double minus itself is [+0.0]. *)
Lemma sub_self (c : F64.cell) :
  F64.isfinite c = true -> PrimFloat.sub c c = PrimFloat.zero.
Proof.
  intros Hfin. apply Prim2SF_zero_eq. rewrite FloatAxioms.sub_spec.
  destruct (isfinite_cases c Hfin) as [[s Hc]|[s [m [e Hc]]]]; rewrite Hc.
  - destruct s; reflexivity.
  - unfold FloatAxioms.SF64sub, SpecFloat.SFsub. rewrite Z.sub_diag. reflexivity.
Qed.

Lemma isfinite_not_nan (c : F64.cell) : F64.isfinite c = true -> F64.isnan c = false.
Proof.
  unfold F64.isfinite, F64.isnan, PrimFloat.is_finite.
  destruct (PrimFloat.is_nan c); [intros H; discriminate H|reflexivity].
Qed.

(** [+0.0] divided by a positive double is [+0.0]. *)
Lemma div_zero_positive (y : F64.cell) :
  PrimFloat.ltb PrimFloat.zero y = true -> PrimFloat.div PrimFloat.zero y = PrimFloat.zero.
Proof.
  intros H. apply Prim2SF_zero_eq. rewrite FloatAxioms.div_spec.
  rewrite FloatAxioms.ltb_spec in H. unfold SpecFloat.SFltb in H.
  change (FloatOps.Prim2SF PrimFloat.zero) with (SpecFloat.S754_zero false) in *.
  destruct (FloatOps.Prim2SF y) as [s|s| |s m e]; cbn in H.
  - discriminate H.
  - destruct s; [discriminate H|reflexivity].
  - discriminate H.
  - destruct s; [discriminate H|reflexivity].
Qed.

Lemma fold_add_zeros (k : nat) (acc : F64.cell) :
  acc = PrimFloat.zero \/ acc = PrimFloat.neg_zero ->
  (0 < k)%nat ->
  fold_left PrimFloat.add (repeat PrimFloat.zero k) acc = PrimFloat.zero.
Proof.
  revert acc. induction k as [|k IH]; intros acc Hacc Hk; [lia|].
  cbn [repeat fold_left].
  assert (Hstep : PrimFloat.add acc PrimFloat.zero = PrimFloat.zero)
    by (destruct Hacc as [->| ->]; reflexivity).
  rewrite Hstep. destruct k as [|k]; [reflexivity|].
  apply IH; [left; reflexivity|lia].
Qed.

Lemma fold_add_zeros_from_zero (k : nat) :
  fold_left PrimFloat.add (repeat PrimFloat.zero k) PrimFloat.zero = PrimFloat.zero.
Proof.
  destruct k as [|k]; [reflexivity|].
  apply fold_add_zeros; [left; reflexivity|lia].
Qed.

Lemma firstn_repeat_le {A : Type} (x : A) (n k : nat) :
  (n <= k)%nat -> firstn n (repeat x k) = repeat x n.
Proof.
  revert k. induction n as [|n IH]; intros k H; [reflexivity|].
  destruct k as [|k]; [lia|]. cbn [repeat firstn]. f_equal. apply IH. lia.
Qed.

Lemma skipn_repeat {A : Type} (x : A) (n k : nat) :
  skipn n (repeat x k) = repeat x (k - n).
Proof.
  revert k. induction n as [|n IH]; intros k.
  - rewrite Nat.sub_0_r. reflexivity.
  - destruct k as [|k]; [reflexivity|]. cbn [repeat skipn]. apply IH.
Qed.

Lemma add8_zeros (g j : nat) :
  (8 * g <= j)%nat ->
  F64.add8 g (repeat PrimFloat.zero 8) (repeat PrimFloat.zero j) =
  (repeat PrimFloat.zero 8, repeat PrimFloat.zero (j - 8 * g)).
Proof.
  revert j. induction g as [|g IH]; intros j H.
  - cbn [F64.add8]. rewrite Nat.mul_0_r, Nat.sub_0_r. reflexivity.
  - cbn [F64.add8]. rewrite firstn_repeat_le by lia. rewrite skipn_repeat.
    change (map (fun p => PrimFloat.add (fst p) (snd p))
              (combine (repeat PrimFloat.zero 8) (repeat PrimFloat.zero 8)))
      with (repeat PrimFloat.zero 8).
    rewrite IH by lia. f_equal. f_equal. lia.
Qed.

Lemma block_sum_zeros (k : nat) :
  (8 <= k)%nat -> F64.block_sum (repeat PrimFloat.zero k) = PrimFloat.zero.
Proof.
  intros Hk. unfold F64.block_sum. rewrite repeat_length.
  rewrite firstn_repeat_le by lia. rewrite skipn_repeat.
  rewrite add8_zeros.
  - change (F64.tree8 (repeat PrimFloat.zero 8)) with PrimFloat.zero.
    apply fold_add_zeros_from_zero.
  - pose proof (Nat.Div0.mul_div_le k 8).
    assert (1 <= k / 8)%nat by (apply Nat.div_le_lower_bound; lia). lia.
Qed.

Lemma pairwise_sum_zeros (fuel k : nat) :
  (0 < k)%nat -> F64.pairwise_sum fuel (repeat PrimFloat.zero k) = PrimFloat.zero.
Proof.
  revert k. induction fuel as [|fuel IH]; intros k Hk.
  - cbn [F64.pairwise_sum]. rewrite repeat_length.
    destruct (Nat.ltb_spec k 8).
    + apply fold_add_zeros; [right; reflexivity|exact Hk].
    + destruct (k <=? 128)%nat; apply block_sum_zeros; assumption.
  - cbn [F64.pairwise_sum]. rewrite repeat_length.
    destruct (Nat.ltb_spec k 8).
    + apply fold_add_zeros; [right; reflexivity|exact Hk].
    + destruct (Nat.leb_spec k 128); [apply block_sum_zeros; assumption|].
      set (n2 := (k / 2 - (k / 2) mod 8)%nat).
      assert (Hn2 : (0 < n2 < k)%nat).
      { unfold n2. pose proof (Nat.mod_upper_bound (k / 2) 8 ltac:(lia)).
        assert (64 <= k / 2)%nat by (apply Nat.div_le_lower_bound; lia).
        pose proof (Nat.Div0.mul_div_le k 2). lia. }
      rewrite firstn_repeat_le by lia. rewrite skipn_repeat.
      rewrite !IH by lia. reflexivity.
Qed.

Lemma sum_zeros (k : nat) : F64.sum (repeat PrimFloat.zero k) = PrimFloat.zero.
Proof.
  destruct k as [|k]; [reflexivity|].
  change (repeat PrimFloat.zero (S k)) with (PrimFloat.zero :: repeat PrimFloat.zero k).
  unfold F64.sum.
  change (PrimFloat.zero :: repeat PrimFloat.zero k) with (repeat PrimFloat.zero (S k)).
  rewrite pairwise_sum_zeros by lia. reflexivity.
Qed.

Lemma mean_zeros (n : nat) :
  PrimFloat.ltb PrimFloat.zero (F64.of_nat n) = true ->
  F64.mean (repeat PrimFloat.zero n) = PrimFloat.zero.
Proof.
  intros Hn. unfold F64.mean. rewrite sum_zeros, repeat_length.
  apply div_zero_positive. exact Hn.
Qed.

(** The standard deviation of a constant sequence whose computed mean is
    the constant itself is [+0.0]. *)
Lemma std64_constant_exact_mean (c : F64.cell) (n : nat) :
  F64.isfinite c = true ->
  PrimFloat.ltb PrimFloat.zero (F64.of_nat n) = true ->
  F64.mean (repeat c n) = c ->
  F64.std (repeat c n) = PrimFloat.zero.
Proof.
  intros Hfin Hn Hmean. unfold F64.std. cbv zeta. rewrite Hmean, map_repeat.
  rewrite (@sub_self c Hfin).
  change (PrimFloat.mul PrimFloat.zero PrimFloat.zero) with PrimFloat.zero.
  rewrite (@mean_zeros n Hn). reflexivity.
Qed.

Lemma diff_constant64 (c : F64.cell) (n : nat) :
  F64.diff (repeat c n) = repeat (PrimFloat.sub c c) (n - 1).
Proof.
  induction n as [|n IH]; [reflexivity|].
  destruct n as [|n]; [reflexivity|].
  change (repeat c (S (S n))) with (c :: c :: repeat c n).
  change (F64.diff (c :: c :: repeat c n))
    with (PrimFloat.sub c c :: F64.diff (repeat c (S n))).
  rewrite IH. simpl. rewrite Nat.sub_0_r. reflexivity.
Qed.

Lemma drop_nan64_constant (c : F64.cell) (n : nat) :
  F64.isfinite c = true -> F64.drop_nan (repeat c n) = repeat c n.
Proof.
  intros Hfin. unfold F64.drop_nan. induction n as [|n IH]; [reflexivity|].
  cbn [repeat filter]. rewrite (@isfinite_not_nan c Hfin). cbn [negb].
  f_equal. exact IH.
Qed.

(** The standard deviation of a constant sequence whose computed mean is
    the constant itself: every deviation is [c - c = 0]. *)
Lemma std_constant_exact_mean (c : R) (n : nat) :
  (0 < n)%nat ->
  Np.mean (repeat (Np.fin c) n) = Np.fin c ->
  Np.std (repeat (Np.fin c) n) = Np.fin 0.
Proof.
  intros Hn Hmean. unfold Np.std. rewrite Hmean, map_repeat.
  replace (Np.square (Np.abs (Np.sub (Np.fin c) (Np.fin c)))) with (Np.fin 0).
  - rewrite mean_constant by exact Hn. unfold Np.sqrt, Np.fin.
    destruct (Rlt_dec 0 0) as [H|_]; [lra|]. rewrite sqrt_0. reflexivity.
  - unfold Np.square, Np.abs, Np.sub, Np.mul, Np.lift2, Np.fin. cbn [option_map].
    f_equal. replace (c - c)%R with 0%R by lra. rewrite Rabs_R0. lra.
Qed.

Section ConstantMagnitudeTheorem.
Context {L : Library}.

(** An epoch of constant magnitude [c]: the activity count is 0, the
    standard deviation of the magnitude is the computed one, and it is 0,
    with skew and kurtosis, when the computed mean is [c] itself. *)
Lemma constant_magnitude_epoch (self : Extractor.FeatureExtractor)
    (df : Pd.DataFrame) (include_ppg : bool) (start : Z) (c : R) :
  Pd.well_formed df ->
  imu_enabled df true = true ->
  (1 <= Extractor.samples_per_epoch self)%Z ->
  (0 <= start)%Z ->
  (start + Extractor.samples_per_epoch self <= Z.of_nat (Pd.len df))%Z ->
  let epoch_df := Pd.iloc df start (start + Extractor.samples_per_epoch self) in
  let magnitude :=
    Extractor.magnitude_of (column epoch_df "ACC_X") (column epoch_df "ACC_Y")
      (column epoch_df "ACC_Z") in
  magnitude = repeat (Np.fin c) (Z.to_nat (Extractor.samples_per_epoch self)) ->
  (exists features,
     Extractor.extract_epoch self df true include_ppg start = Py.Ok features /\
     Py.dict_get features "imu_activity_count" = Some (Pd.VFloat (Np.fin 0)) /\
     Py.dict_get features "imu_mag_std" = Some (Pd.VFloat (Np.std magnitude)) /\
     (Np.mean magnitude = Np.fin c ->
      Py.dict_get features "imu_mag_std" = Some (Pd.VFloat (Np.fin 0)) /\
      Py.dict_get features "imu_mag_skew" = Some (Pd.VFloat (Np.fin 0)) /\
      Py.dict_get features "imu_mag_kurtosis" = Some (Pd.VFloat (Np.fin 0)))) /\
  (forall prefix data,
     Np.drop_nan data <> [] -> Np.std (Np.drop_nan data) = Np.fin 0 ->
     exists d,
       Extractor._compute_statistical_features data prefix = Py.Ok d /\
       Py.dict_get d (prefix ++ "_skew")%string = Some (Pd.VFloat (Np.fin 0)) /\
       Py.dict_get d (prefix ++ "_kurtosis")%string = Some (Pd.VFloat (Np.fin 0))).
Proof.
  intros Hwf Himu HE H0 Hend epoch_df magnitude Hmag. split.
  - destruct (extract_epoch_ok self true include_ppg Hwf HE H0 Hend)
      as [features Hrun].
    exists features. split; [exact Hrun|].
    rewrite extract_epoch_normal_form in Hrun. cbv zeta in Hrun. fold epoch_df in Hrun.
    set (n := Z.to_nat (Extractor.samples_per_epoch self)) in *.
    assert (Hn : (0 < n)%nat) by (unfold n; lia).
    set (x := column epoch_df "ACC_X") in *.
    set (y := column epoch_df "ACC_Y") in *.
    set (z := column epoch_df "ACC_Z") in *.
    assert (Hdrop : Np.drop_nan magnitude = magnitude)
      by (rewrite Hmag; apply drop_nan_constant).
    assert (Hne : Np.drop_nan magnitude <> [])
      by (rewrite Hdrop, Hmag; apply repeat_not_nil; exact Hn).
    assert (Hsig : forall k v, Py.dict_get (imu_part x y z) k = Some v ->
                     Py.dict_get features k = Some v).
    { intros k v Hk. unfold signal_part in Hrun. rewrite Himu in Hrun.
      fold x y z in Hrun.
      destruct (Pd.in_columns "Sleep_Stage" df).
      - destruct (Pd.labels epoch_df) as [stages|];
          cbn [Py.bind] in Hrun; [|discriminate Hrun].
        destruct (Pd.iloc0 (Pd.mode stages)) as [label|];
          cbn [Py.bind] in Hrun; [|discriminate Hrun].
        inversion Hrun.
        rewrite !dict_get_app, Hk. reflexivity.
      - inversion Hrun. rewrite dict_get_app, Hk. reflexivity. }
    assert (Gstd : Py.dict_get (stat_part "imu_mag" magnitude) "imu_mag_std" =
                   Some (Pd.VFloat (Np.std magnitude))).
    { unfold stat_part. rewrite Hdrop.
      destruct magnitude as [|m0 ms] eqn:Hm; [rewrite <- Hdrop in Hne; congruence|].
      change "imu_mag_std"%string with ("imu_mag" ++ "_std")%string.
      rewrite prefixed_get. reflexivity. }
    split; [|split].
    + apply Hsig. fold magnitude.
      rewrite imu_part_activity_get. fold magnitude.
      rewrite Hmag, diff_constant, sum_abs_zeros. reflexivity.
    + apply Hsig. rewrite <- Gstd.
      apply (imu_part_magnitude_get x y z (s := "_std")). simpl. tauto.
    + intros Hmean.
      assert (Hstd : Np.std (Np.drop_nan magnitude) = Np.fin 0).
      { rewrite Hdrop, Hmag. apply std_constant_exact_mean; [exact Hn|].
        rewrite <- Hmag. exact Hmean. }
      destruct (stat_part_zero_std "imu_mag" magnitude Hne Hstd)
        as (Zstd & Zskew & Zkurt).
      repeat split; apply Hsig.
      * rewrite <- Zstd. apply (imu_part_magnitude_get x y z (s := "_std")).
        simpl. tauto.
      * rewrite <- Zskew. apply (imu_part_magnitude_get x y z (s := "_skew")).
        simpl. tauto.
      * rewrite <- Zkurt. apply (imu_part_magnitude_get x y z (s := "_kurtosis")).
        simpl. tauto.
  - intros prefix data Hne Hstd. exists (stat_part prefix data).
    split; [apply stat_features_part|].
    destruct (stat_part_zero_std prefix data Hne Hstd) as (_ & Gskew & Gkurt).
    split; assumption.
Qed.

End ConstantMagnitudeTheorem.

Lemma eqb_append_prefix (p a b : string) :
  String.eqb (p ++ a) (p ++ b) = String.eqb a b.
Proof.
  induction p as [|c p IH]; simpl; [reflexivity|].
  rewrite Ascii.eqb_refl. exact IH.
Qed.

Section Magnitude64.
Context {L64 : F64.Library}.

(** The spread and shape entries of the statistics on doubles. *)
Lemma stat64_spread (signal_data : list F64.cell) (prefix : string) :
  let sd := F64.drop_nan signal_data in
  let features := Extractor64._compute_statistical_features signal_data prefix in
  sd <> [] ->
  Py.dict_get features (prefix ++ "_std")%string = Some (F64.VFloat (F64.std sd)) /\
  Py.dict_get features (prefix ++ "_skew")%string =
    Some (F64.VFloat (if F64.gt (F64.std sd) PrimFloat.zero
                      then F64.stats_skew sd else PrimFloat.zero)) /\
  Py.dict_get features (prefix ++ "_kurtosis")%string =
    Some (F64.VFloat (if F64.gt (F64.std sd) PrimFloat.zero
                      then F64.stats_kurtosis sd else PrimFloat.zero)).
Proof.
  intros sd features Hne. unfold features, Extractor64._compute_statistical_features.
  fold sd. destruct sd as [|x xs] eqn:Hsd; [congruence|].
  cbn [length Nat.eqb].
  destruct (F64.gt (F64.std (x :: xs)) PrimFloat.zero);
    rewrite !dict_get_set, !eqb_append_prefix;
    cbv [String.eqb Ascii.eqb Bool.eqb]; repeat split; reflexivity.
Qed.

Lemma magnitude_features_get (magnitude : list F64.cell) (s : string) :
  In s ["_std"; "_skew"; "_kurtosis"]%string ->
  Py.dict_get (Extractor64.magnitude_features magnitude) ("imu_mag" ++ s)%string =
  Py.dict_get (Extractor64._compute_statistical_features magnitude "imu_mag")
    ("imu_mag" ++ s)%string.
Proof.
  intros Hs. unfold Extractor64.magnitude_features. rewrite !dict_get_set.
  destruct Hs as [<-|[<-|[<-|[]]]]; reflexivity.
Qed.

Lemma magnitude_features_activity (magnitude : list F64.cell) :
  Py.dict_get (Extractor64.magnitude_features magnitude) "imu_activity_count" =
  Some (F64.VFloat (F64.sum (map PrimFloat.abs (F64.diff magnitude)))).
Proof.
  unfold Extractor64.magnitude_features. rewrite !dict_get_set. reflexivity.
Qed.

(** A constant magnitude on doubles. *)
Lemma constant_magnitude_on_doubles (c : F64.cell) (n : nat) :
  F64.isfinite c = true ->
  PrimFloat.ltb PrimFloat.zero (F64.of_nat n) = true ->
  let features := Extractor64.magnitude_features (repeat c n) in
  Py.dict_get features "imu_activity_count" = Some (F64.VFloat PrimFloat.zero) /\
  Py.dict_get features "imu_mag_std" = Some (F64.VFloat (F64.std (repeat c n))) /\
  (F64.mean (repeat c n) = c ->
   Py.dict_get features "imu_mag_std" = Some (F64.VFloat PrimFloat.zero) /\
   Py.dict_get features "imu_mag_skew" = Some (F64.VFloat PrimFloat.zero) /\
   Py.dict_get features "imu_mag_kurtosis" = Some (F64.VFloat PrimFloat.zero)).
Proof.
  intros Hfin Hn features.
  assert (Hpos : (0 < n)%nat).
  { destruct n as [|n]; [|lia]. exfalso. revert Hn. vm_compute. discriminate. }
  assert (Hdrop : F64.drop_nan (repeat c n) = repeat c n)
    by (apply drop_nan64_constant; exact Hfin).
  assert (Hne : F64.drop_nan (repeat c n) <> []).
  { rewrite Hdrop. destruct n; [lia|discriminate]. }
  destruct (stat64_spread (repeat c n) "imu_mag" Hne) as (Gstd & Gskew & Gkurt).
  rewrite Hdrop in Gstd, Gskew, Gkurt.
  split; [|split].
  - unfold features. rewrite magnitude_features_activity, diff_constant64.
    rewrite (@sub_self c Hfin), map_repeat.
    change (PrimFloat.abs PrimFloat.zero) with PrimFloat.zero.
    rewrite sum_zeros. reflexivity.
  - unfold features.
    rewrite <- Gstd.
    exact (@magnitude_features_get (repeat c n) "_std" ltac:(simpl; tauto)).
  - intros Hmean.
    pose proof (@std64_constant_exact_mean c n Hfin Hn Hmean) as Hstd.
    rewrite Hstd in Gstd, Gskew, Gkurt.
    change (F64.gt PrimFloat.zero PrimFloat.zero) with false in Gskew, Gkurt.
    unfold features. repeat split.
    + rewrite <- Gstd.
      exact (@magnitude_features_get (repeat c n) "_std" ltac:(simpl; tauto)).
    + rewrite <- Gskew.
      exact (@magnitude_features_get (repeat c n) "_skew" ltac:(simpl; tauto)).
    + rewrite <- Gkurt.
      exact (@magnitude_features_get (repeat c n) "_kurtosis" ltac:(simpl; tauto)).
Qed.

End Magnitude64.

Section ConstantMagnitudeFeatures.
Context {L : Library} {L64 : F64.Library}.

(** C8 (amended). In an epoch whose accelerometer magnitude is a constant
    sequence of [c], [imu_activity_count] is 0 and [imu_mag_std] is the
    computed [np.std] of the magnitude; when the computed mean of the
    magnitude is [c] itself, [imu_mag_std], [imu_mag_skew] and
    [imu_mag_kurtosis] are 0.  For every channel prefix, skew and kurtosis
    are 0 whenever the standard deviation of the NaN-filtered slice is 0.
    The same holds on doubles, for a finite [c] and a length that is a
    positive double (every length from 1 on): the activity count is [0.0],
    and the standard deviation, the skew and the kurtosis are [0.0] when
    the computed mean is [c]. *)
Theorem constant_magnitude_features :
  (forall (self : Extractor.FeatureExtractor) (df : Pd.DataFrame)
          (include_ppg : bool) (start : Z) (c : R),
     Pd.well_formed df ->
     imu_enabled df true = true ->
     (1 <= Extractor.samples_per_epoch self)%Z ->
     (0 <= start)%Z ->
     (start + Extractor.samples_per_epoch self <= Z.of_nat (Pd.len df))%Z ->
     let epoch_df := Pd.iloc df start (start + Extractor.samples_per_epoch self) in
     let magnitude :=
       Extractor.magnitude_of (column epoch_df "ACC_X") (column epoch_df "ACC_Y")
         (column epoch_df "ACC_Z") in
     magnitude = repeat (Np.fin c) (Z.to_nat (Extractor.samples_per_epoch self)) ->
     exists features,
       Extractor.extract_epoch self df true include_ppg start = Py.Ok features /\
       Py.dict_get features "imu_activity_count" = Some (Pd.VFloat (Np.fin 0)) /\
       Py.dict_get features "imu_mag_std" = Some (Pd.VFloat (Np.std magnitude)) /\
       (Np.mean magnitude = Np.fin c ->
        Py.dict_get features "imu_mag_std" = Some (Pd.VFloat (Np.fin 0)) /\
        Py.dict_get features "imu_mag_skew" = Some (Pd.VFloat (Np.fin 0)) /\
        Py.dict_get features "imu_mag_kurtosis" = Some (Pd.VFloat (Np.fin 0)))) /\
  (forall prefix data,
     Np.drop_nan data <> [] -> Np.std (Np.drop_nan data) = Np.fin 0 ->
     exists d,
       Extractor._compute_statistical_features data prefix = Py.Ok d /\
       Py.dict_get d (prefix ++ "_skew")%string = Some (Pd.VFloat (Np.fin 0)) /\
       Py.dict_get d (prefix ++ "_kurtosis")%string = Some (Pd.VFloat (Np.fin 0))) /\
  (forall (c : F64.cell) (n : nat),
     F64.isfinite c = true ->
     PrimFloat.ltb PrimFloat.zero (F64.of_nat n) = true ->
     let features := Extractor64.magnitude_features (repeat c n) in
     Py.dict_get features "imu_activity_count" = Some (F64.VFloat PrimFloat.zero) /\
     Py.dict_get features "imu_mag_std" = Some (F64.VFloat (F64.std (repeat c n))) /\
     (F64.mean (repeat c n) = c ->
      Py.dict_get features "imu_mag_std" = Some (F64.VFloat PrimFloat.zero) /\
      Py.dict_get features "imu_mag_skew" = Some (F64.VFloat PrimFloat.zero) /\
      Py.dict_get features "imu_mag_kurtosis" = Some (F64.VFloat PrimFloat.zero))).
Proof.
  split; [|split].
  - intros self df include_ppg start c Hwf Himu HE H0 Hend epoch_df magnitude Hmag.
    exact (proj1 (@constant_magnitude_epoch L self df include_ppg start c
                    Hwf Himu HE H0 Hend Hmag)).
  - intros prefix data Hne Hstd. exists (stat_part prefix data).
    split; [apply stat_features_part|].
    destruct (stat_part_zero_std prefix data Hne Hstd) as (_ & Gskew & Gkurt).
    split; assumption.
  - intros c n Hfin Hn. apply constant_magnitude_on_doubles; assumption.
Qed.

End ConstantMagnitudeFeatures.

Lemma still_table_well_formed : Pd.well_formed still_table.
Proof.
  unfold Pd.well_formed, still_table. cbn [Pd.signals Pd.sleep_stage Pd.n_rows].
  repeat split.
  - repeat constructor; cbn [snd]; apply repeat_length.
  - intros l H. discriminate H.
  - cbn [map fst]. intros [H|[H|[H|[]]]]; discriminate H.
  - unfold Pd.columns. cbn [Pd.signals Pd.sleep_stage map fst app].
    repeat (constructor; [simpl; intros Hin;
      repeat (destruct Hin as [Hin|Hin]; [discriminate Hin|]); exact Hin|]).
    constructor.
Qed.

Lemma still_table_column (name : string) (v : list Np.cell) :
  Pd.values still_table name = Py.Ok v -> length v = 1920%nat ->
  column (Pd.iloc still_table 0 (0 + 1920)) name = v.
Proof.
  intros Hv Hlen. unfold column. rewrite values_iloc, Hv.
  replace 1920%Z with (Z.of_nat (length v)) by (rewrite Hlen; reflexivity).
  apply slice_full.
Qed.

Lemma still_table_magnitude :
  Extractor.magnitude_of
    (column (Pd.iloc still_table 0 (0 + 1920)) "ACC_X")
    (column (Pd.iloc still_table 0 (0 + 1920)) "ACC_Y")
    (column (Pd.iloc still_table 0 (0 + 1920)) "ACC_Z") =
  repeat (Np.fin 1) 1920.
Proof.
  rewrite (@still_table_column "ACC_X" (repeat (Np.fin 1) 1920) eq_refl (repeat_length _ _)).
  rewrite (@still_table_column "ACC_Y" (repeat (Np.fin 0) 1920) eq_refl (repeat_length _ _)).
  rewrite (@still_table_column "ACC_Z" (repeat (Np.fin 0) 1920) eq_refl (repeat_length _ _)).
  rewrite magnitude_constant_vector.
  replace (1 * 1 + 0 * 0 + 0 * 0)%R with 1%R by lra.
  rewrite sqrt_1. reflexivity.
Qed.

Lemma constant_magnitude_features_witness :
  (exists features,
     Extractor.extract_epoch (L := fixed_library (Py.Ok []))
       (extractor_with 64 1920 1920) still_table true true 0 = Py.Ok features /\
     Py.dict_get features "imu_activity_count" = Some (Pd.VFloat (Np.fin 0)) /\
     Py.dict_get features "imu_mag_std" = Some (Pd.VFloat (Np.fin 0)) /\
     Py.dict_get features "imu_mag_skew" = Some (Pd.VFloat (Np.fin 0)) /\
     Py.dict_get features "imu_mag_kurtosis" = Some (Pd.VFloat (Np.fin 0))) /\
  Py.dict_get
    (Extractor64.magnitude_features (L := first_sample_library)
       (repeat PrimFloat.one 1920)) "imu_mag_std" = Some (F64.VFloat PrimFloat.zero).
Proof.
  split; [|
    exact (proj1 (proj2 (proj2
             (proj2 (proj2 (@constant_magnitude_features (fixed_library (Py.Ok []))
                              first_sample_library))
                PrimFloat.one 1920%nat eq_refl eq_refl))
             ltac:(vm_compute; reflexivity)))].
  destruct (proj1 (@constant_magnitude_features (fixed_library (Py.Ok []))
                     first_sample_library)
              (extractor_with 64 1920 1920) still_table true 0%Z 1%R
              still_table_well_formed eq_refl
              ltac:(cbn [extractor_with Extractor.samples_per_epoch]; lia)
              ltac:(lia)
              ltac:(cbn [extractor_with Extractor.samples_per_epoch still_table
                         Pd.len Pd.n_rows]; lia)
              still_table_magnitude)
    as [features (Hrun & Hact & _ & Hzero)].
  exists features. split; [exact Hrun|]. split; [exact Hact|].
  apply Hzero.
  cbn [extractor_with Extractor.samples_per_epoch].
  rewrite still_table_magnitude. apply mean_constant. lia.
Defined.

(** On doubles the mean of 1920 samples of 1.0 is 1.0 itself, and their
    standard deviation is 0. *)
Lemma unit_constant_std_zero :
  F64.mean (repeat PrimFloat.one 1920) = PrimFloat.one /\
  F64.std (repeat PrimFloat.one 1920) = PrimFloat.zero.
Proof. vm_compute. split; reflexivity. Qed.

(** The mean of 1920 samples of the double 0.1 is the next double above
    it, and their standard deviation is [2^-56], which is positive. *)
Lemma tenth_constant_std_positive :
  F64.mean (repeat one_tenth 1920) = PrimFloat.next_up one_tenth /\
  F64.std (repeat one_tenth 1920) =
    PrimFloat.div PrimFloat.one (PrimFloat.of_uint63 (Uint63.of_Z (2 ^ 56))) /\
  F64.gt (F64.std (repeat one_tenth 1920)) PrimFloat.zero = true.
Proof. vm_compute. repeat split; reflexivity. Qed.

(** C8, as stated: 1920 samples of the double 0.1 have mean
    0.10000000000000002, so their standard deviation is [2^-56], not 0, and
    skew and kurtosis are asked of scipy. *)
Lemma constant_std_not_zero : ~ spec_constant_std_zero.
Proof.
  intros H.
  destruct (H first_sample_library one_tenth 1920%nat eq_refl ltac:(lia))
    as [s [Hs Hz]].
  vm_compute in Hs. injection Hs as <-. vm_compute in Hz. discriminate Hz.
Qed.

(* ------------------------------------------------------------------ *)
(** ** The feature names of an epoch *)
(* ------------------------------------------------------------------ *)

Section Names.
Context {L : Library}.

Lemma has_valid_drop_nan (a : list Np.cell) :
  has_valid a = match Np.drop_nan a with [] => false | _ :: _ => true end.
Proof.
  unfold has_valid, Np.drop_nan. induction a as [|x a IH]; simpl; [reflexivity|].
  destruct (negb (Np.isnan x)); [reflexivity|apply IH].
Qed.

Lemma stat_part_keys (prefix : string) (data : list Np.cell) :
  Py.dict_keys (stat_part prefix data) = stat_names prefix (has_valid data).
Proof.
  unfold stat_part, stat_names. rewrite has_valid_drop_nan.
  destruct (Np.drop_nan data); [reflexivity|].
  rewrite prefixed_keys. reflexivity.
Qed.

Lemma hr_part_keys (h : list Np.cell) :
  Py.dict_keys (hr_part h) = if has_valid h then hr_names else [].
Proof.
  unfold hr_part. rewrite has_valid_drop_nan.
  destruct (Np.drop_nan h); reflexivity.
Qed.

Lemma hrv_part_keys (self : Extractor.FeatureExtractor) (bvp : list Np.cell) :
  Py.dict_keys (hrv_part self bvp) = if hrv_available self bvp then hrv_names else [].
Proof. unfold hrv_part. destruct (hrv_available self bvp); reflexivity. Qed.

Lemma dict_keys_app {V : Type} (a b : Py.dict V) :
  Py.dict_keys (a ++ b) = Py.dict_keys a ++ Py.dict_keys b.
Proof. apply map_app. Qed.

Lemma signal_part_keys (self : Extractor.FeatureExtractor)
    (df epoch_df : Pd.DataFrame) (include_imu include_ppg : bool) :
  Py.dict_keys (signal_part self df epoch_df include_imu include_ppg) =
  (if imu_enabled df include_imu then imu_names (presence self epoch_df) else []) ++
  (if ppg_enabled df include_ppg then ppg_names (presence self epoch_df) else []).
Proof.
  unfold signal_part. rewrite dict_keys_app. f_equal.
  - destruct (imu_enabled df include_imu); [|reflexivity].
    unfold imu_part, imu_names, presence. cbn [valid_x valid_y valid_z valid_mag].
    rewrite !dict_keys_app, !stat_part_keys. reflexivity.
  - destruct (ppg_enabled df include_ppg); [|reflexivity].
    unfold ppg_part, ppg_names, presence. cbn [valid_bvp valid_hr hrv_ok].
    rewrite !dict_keys_app, stat_part_keys, hrv_part_keys.
    destruct (hr_column epoch_df); [rewrite hr_part_keys|]; reflexivity.
Qed.

(** The names of an epoch's features are fixed by the enabled groups and
    the presence conditions of its window. *)
Lemma extract_epoch_keys (self : Extractor.FeatureExtractor) (df : Pd.DataFrame)
    (include_imu include_ppg : bool) (start : Z) (features : Extractor.features_t) :
  Extractor.extract_epoch self df include_imu include_ppg start = Py.Ok features ->
  Py.dict_keys features =
  epoch_names (imu_enabled df include_imu) (ppg_enabled df include_ppg)
    (Pd.in_columns "Sleep_Stage" df)
    (presence self (Pd.iloc df start (start + Extractor.samples_per_epoch self))).
Proof.
  rewrite extract_epoch_normal_form. cbv zeta. unfold epoch_names.
  set (epoch_df := Pd.iloc df start (start + Extractor.samples_per_epoch self)).
  rewrite app_assoc, <- signal_part_keys.
  destruct (Pd.in_columns "Sleep_Stage" df).
  - destruct (Pd.labels epoch_df) as [stages|]; cbn [Py.bind]; [|discriminate].
    destruct (Pd.iloc0 (Pd.mode stages)) as [label|]; cbn [Py.bind]; [|discriminate].
    intros H. inversion H. rewrite dict_keys_app. reflexivity.
  - intros H. inversion H. rewrite app_nil_r. reflexivity.
Qed.

End Names.

(* ------------------------------------------------------------------ *)
(** ** C9: no spectral feature *)
(* ------------------------------------------------------------------ *)

Lemma ends_with_append (prefix suffix : string) :
  ends_with suffix (prefix ++ suffix)%string = true.
Proof.
  induction prefix as [|c p IH]; simpl.
  - destruct suffix; simpl; rewrite ?Ascii.eqb_refl, ?String.eqb_refl; reflexivity.
  - rewrite IH. apply orb_true_r.
Qed.

Lemma incl_if_then (b : bool) (l m : list string) :
  incl l m -> incl (if b then l else []) m.
Proof. destruct b; [trivial|intros _ x []]. Qed.

Lemma epoch_names_universe (imu_on ppg_on label_on : bool) (p : Presence) (c : string) :
  In c (epoch_names imu_on ppg_on label_on p) -> In c all_feature_names.
Proof.
  assert (Hincl : incl (epoch_names imu_on ppg_on label_on p) all_feature_names).
  { unfold epoch_names, all_feature_names, imu_names, ppg_names, stat_names.
    cbn [all_present valid_x valid_y valid_z valid_mag valid_bvp valid_hr hrv_ok].
    repeat first
      [ apply incl_app_app
      | apply incl_if_then
      | apply incl_refl ]. }
  apply Hincl.
Qed.

(** The names the extractor can produce are the target list of the
    training script, in its order, followed by the label. *)
Lemma all_feature_names_target_list :
  all_feature_names = TrainTflite.get_feature_list ++ ["Sleep_Stage"%string].
Proof. reflexivity. Qed.

Lemma all_feature_names_not_spectral :
  forallb (fun c => forallb (fun suffix => negb (ends_with suffix c)) spectral_suffixes)
          all_feature_names = true.
Proof. vm_compute. reflexivity. Qed.

Lemma union_keys_In (rows : list (Py.dict Pd.scalar)) (c : string) :
  In c (Pd.union_keys rows) -> exists d, In d rows /\ In c (Py.dict_keys d).
Proof.
  unfold Pd.union_keys.
  assert (Hgen : forall acc,
            In c (fold_left (fun acc d => fold_left Pd.add_key (Py.dict_keys d) acc) rows acc) ->
            In c acc \/ exists d, In d rows /\ In c (Py.dict_keys d)).
  { induction rows as [|d rows IH]; intros acc H; simpl in H.
    - left. exact H.
    - destruct (IH _ H) as [Hin|[d' [Hd' Hc]]].
      + assert (Hk : forall ks acc', In c (fold_left Pd.add_key ks acc') ->
                       In c acc' \/ In c ks).
        { clear. induction ks as [|k ks IHk]; intros acc' H; simpl in H.
          - left. exact H.
          - destruct (IHk _ H) as [Ha|Hk]; [|right; right; exact Hk].
            unfold Pd.add_key in Ha. destruct (existsb (String.eqb k) acc').
            + left. exact Ha.
            + apply in_app_or in Ha. destruct Ha as [Ha|[->|[]]].
              * left. exact Ha.
              * right. left. reflexivity. }
        destruct (Hk _ _ Hin) as [Ha|Hd].
        * left. exact Ha.
        * right. exists d. split; [left; reflexivity|exact Hd].
      + right. exists d'. split; [right; exact Hd'|exact Hc]. }
  intros H. destruct (Hgen [] H) as [[]|Hd]. exact Hd.
Qed.

Lemma mapM_In {A B : Type} (f : A -> Py.result B) (l : list A) (r : list B) :
  Py.mapM f l = Py.Ok r -> forall y, In y r -> exists x, In x l /\ f x = Py.Ok y.
Proof.
  revert r. induction l as [|a l IH]; intros r H y Hy; simpl in H.
  - inversion H; subst. contradiction.
  - destruct (f a) as [b|] eqn:Hb; cbn [Py.bind] in H; [|discriminate].
    destruct (Py.mapM f l) as [bs|] eqn:Hbs; cbn [Py.bind] in H; [|discriminate].
    inversion H; subst. destruct Hy as [<-|Hy].
    + exists a. split; [left; reflexivity|exact Hb].
    + destruct (IH bs eq_refl y Hy) as [x [Hx Hfx]].
      exists x. split; [right; exact Hx|exact Hfx].
Qed.

Section Spectral.
Context {L : Library}.

Local Ltac fresh_suffix :=
  simpl; intros Hin;
  repeat (destruct Hin as [Hin|Hin]; [discriminate Hin|]); exact Hin.

(** The keys [extract_frequency_features] assigns. *)
Lemma frequency_features_keys (self : Extractor.FeatureExtractor)
    (signal_data : list Np.cell) (prefix : string) (d : Extractor.features_t) :
  Extractor.extract_frequency_features self signal_data prefix = Py.Ok d ->
  Py.dict_keys d = map (String.append prefix) spectral_suffixes.
Proof.
  unfold Extractor.extract_frequency_features. cbv zeta.
  destruct (rfft_power signal_data) as [power|]; cbn [Py.bind]; [|discriminate].
  destruct (Req_dec_T (Extractor.fs self) 0); cbn [Py.bind]; [discriminate|].
  destruct (Np.argmax (tl power)) as [i|]; cbn [Py.bind]; [|discriminate].
  destruct (nth_error _ (i + 1)) as [f|]; cbn [Py.bind]; [|discriminate].
  unfold Extractor.bands. cbn [fold_left]. unfold Extractor.band_step.
  cbn [Py.bind fst snd].
  destruct (Extractor.band_power power _ (3/1000) (4/100)) as [p1|]; cbn [Py.bind];
    [|discriminate].
  destruct (Extractor.band_power power _ (4/100) (15/100)) as [p2|]; cbn [Py.bind];
    [|discriminate].
  destruct (Extractor.band_power power _ (15/100) (4/10)) as [p3|]; cbn [Py.bind];
    [|discriminate].
  change (prefix ++ "_" ++ "vlf" ++ "_power")%string with (prefix ++ "_vlf_power")%string.
  change (prefix ++ "_" ++ "lf" ++ "_power")%string with (prefix ++ "_lf_power")%string.
  change (prefix ++ "_" ++ "hf" ++ "_power")%string with (prefix ++ "_hf_power")%string.
  change (Py.dict_set [] (prefix ++ "_total_power")%string (Pd.VFloat (Np.sum power)))
    with (prefixed prefix [("_total_power"%string, Pd.VFloat (Np.sum power))]).
  rewrite (prefixed_snoc prefix _ "_dominant_freq") by fresh_suffix.
  rewrite (prefixed_snoc prefix _ "_vlf_power") by fresh_suffix.
  rewrite (prefixed_snoc prefix _ "_lf_power") by fresh_suffix.
  rewrite (prefixed_snoc prefix _ "_hf_power") by fresh_suffix.
  rewrite (prefixed_snoc prefix _ "_lf_hf_ratio") by fresh_suffix.
  intros H. injection H as Hd. rewrite <- Hd. reflexivity.
Qed.

(** C9. No column of the table returned by [extract_all_features], and no
    key of any of its epochs, is a key of [extract_frequency_features]. *)
Theorem no_spectral_features (self : Extractor.FeatureExtractor) (df : Pd.DataFrame)
    (include_imu include_ppg : bool) (epochs : list Extractor.features_t) :
  Extractor.extract_epochs self df include_imu include_ppg = Py.Ok epochs ->
  Extractor.extract_all_features self df include_imu include_ppg =
    Py.Ok (Pd.from_records epochs) /\
  forall c,
    (In c (Pd.ft_columns (Pd.from_records epochs)) \/
     exists features, In features epochs /\ In c (Py.dict_keys features)) ->
    In c all_feature_names /\
    (forall suffix, In suffix spectral_suffixes -> ends_with suffix c = false) /\
    (forall self' signal_data prefix d,
       Extractor.extract_frequency_features self' signal_data prefix = Py.Ok d ->
       ~ In c (Py.dict_keys d)).
Proof.
  intros Hrun. split.
  { unfold Extractor.extract_all_features. rewrite Hrun. reflexivity. }
  intros c Hc.
  assert (Hfeat : exists features, In features epochs /\ In c (Py.dict_keys features)).
  { destruct Hc as [Hc|Hc]; [|exact Hc]. apply union_keys_In. exact Hc. }
  destruct Hfeat as [features [Hin Hk]].
  unfold Extractor.extract_epochs in Hrun.
  destruct (Py.range 0 _ _) as [starts|]; cbn [Py.bind] in Hrun; [|discriminate].
  destruct (mapM_In _ _ Hrun features Hin) as [start [_ Hstart]].
  rewrite (extract_epoch_keys _ _ _ _ _ Hstart) in Hk.
  apply epoch_names_universe in Hk.
  assert (Hns : forall suffix, In suffix spectral_suffixes -> ends_with suffix c = false).
  { intros suffix Hs. pose proof all_feature_names_not_spectral as Hall.
    rewrite forallb_forall in Hall. specialize (Hall c Hk).
    rewrite forallb_forall in Hall. specialize (Hall suffix Hs).
    apply negb_true_iff. exact Hall. }
  split; [exact Hk|]. split; [exact Hns|].
  intros self' signal_data prefix d Hd Hcd.
  rewrite (frequency_features_keys _ _ _ Hd) in Hcd.
  apply in_map_iff in Hcd. destruct Hcd as [suffix [<- Hs]].
  specialize (Hns suffix Hs). rewrite ends_with_append in Hns. discriminate.
Qed.

End Spectral.

Lemma no_spectral_features_witness :
  exists epochs,
    Extractor.extract_epochs (L := four_peaks) slow_extractor six_row_table
      true true = Py.Ok epochs /\
    forall c, In c (Pd.ft_columns (Pd.from_records epochs)) ->
      ends_with "_total_power" c = false.
Proof.
  destruct (@extract_epochs_windows four_peaks slow_extractor six_row_table true true
              six_row_table_well_formed ltac:(simpl; lia) ltac:(simpl; lia))
    as [epochs (Hrun & _)].
  exists epochs. split; [exact Hrun|].
  intros c Hc.
  destruct (@no_spectral_features four_peaks slow_extractor six_row_table true true
              epochs Hrun) as [_ Hno].
  destruct (Hno c (or_introl Hc)) as (_ & Hsuffix & _).
  apply Hsuffix. simpl. tauto.
Defined.

(* ------------------------------------------------------------------ *)
(** ** C1: feature names and the data *)
(* ------------------------------------------------------------------ *)

Lemma enabled_same_columns (df1 df2 : Pd.DataFrame) (include_imu include_ppg : bool) :
  (forall c, Pd.in_columns c df1 = Pd.in_columns c df2) ->
  imu_enabled df1 include_imu = imu_enabled df2 include_imu /\
  ppg_enabled df1 include_ppg = ppg_enabled df2 include_ppg.
Proof.
  intros H. unfold imu_enabled, ppg_enabled. cbn [forallb].
  rewrite !H. split; reflexivity.
Qed.

Lemma presence_eqb_eq (p q : Presence) : presence_eqb p q = true -> p = q.
Proof.
  destruct p, q. unfold presence_eqb. cbn.
  intros H. repeat (apply andb_prop in H; destruct H as [H ?]).
  repeat match goal with
         | E : Bool.eqb _ _ = true |- _ => apply eqb_prop in E
         end.
  subst. reflexivity.
Qed.

Lemma add_keys_absorb (ks acc : list string) :
  incl ks acc -> fold_left Pd.add_key ks acc = acc.
Proof.
  induction ks as [|k ks IH]; intros H; [reflexivity|].
  cbn [fold_left]. unfold Pd.add_key at 2.
  assert (Hk : existsb (String.eqb k) acc = true).
  { apply existsb_eqb_In. apply H. left. reflexivity. }
  rewrite Hk. apply IH. intros c Hc. apply H. right. exact Hc.
Qed.

(** Adding the names of a condition already met changes nothing: the
    header is built from the conditions in order of first appearance. *)
Lemma union_first_seen (K : Presence -> list string) (ps seen : list Presence)
    (acc : list string) :
  (forall p, In p seen -> incl (K p) acc) ->
  fold_left (fun a p => fold_left Pd.add_key (K p) a) ps acc =
  fold_left (fun a p => fold_left Pd.add_key (K p) a) (first_seen_from seen ps) acc.
Proof.
  revert seen acc. induction ps as [|p ps IH]; intros seen acc Hseen; [reflexivity|].
  cbn [fold_left first_seen_from].
  destruct (existsb (presence_eqb p) seen) eqn:Hex.
  - apply existsb_exists in Hex. destruct Hex as [q [Hq Heq]].
    apply presence_eqb_eq in Heq. subst q.
    rewrite (add_keys_absorb (Hseen p Hq)). apply IH. exact Hseen.
  - cbn [fold_left]. apply IH. intros q [<-|Hq] c Hc.
    + apply add_keys_spec. right. exact Hc.
    + apply add_keys_spec. left. exact (Hseen q Hq c Hc).
Qed.

Lemma union_keys_names (K : Presence -> list string) (ps : list Presence)
    (rows : list (Py.dict Pd.scalar)) :
  map (@Py.dict_keys Pd.scalar) rows = map K ps ->
  Pd.union_keys rows = header_of K (first_seen ps).
Proof.
  intros H. unfold header_of, first_seen.
  rewrite <- (@union_first_seen K ps [] []) by (intros p []).
  unfold Pd.union_keys. generalize (@nil string) as acc.
  revert ps H. induction rows as [|d rows IH]; intros [|p ps] H acc;
    simpl in H; try discriminate; [reflexivity|].
  injection H as Hd Hr. cbn [fold_left]. rewrite Hd. apply IH. exact Hr.
Qed.

Lemma mapM_keys {A : Type} (f : A -> Py.result (Py.dict Pd.scalar))
    (g : A -> list string) (l : list A) (r : list (Py.dict Pd.scalar)) :
  (forall x y, f x = Py.Ok y -> Py.dict_keys y = g x) ->
  Py.mapM f l = Py.Ok r ->
  map (@Py.dict_keys Pd.scalar) r = map g l.
Proof.
  intros Hk. revert r. induction l as [|a l IH]; intros r H; simpl in H.
  - injection H as <-. reflexivity.
  - destruct (f a) as [y|] eqn:Hf; cbn [Py.bind] in H; [|discriminate].
    destruct (Py.mapM f l) as [ys|]; cbn [Py.bind] in H; [|discriminate].
    injection H as <-. simpl. f_equal; [apply Hk; exact Hf|apply IH; reflexivity].
Qed.

Section NamesTheorem.
Context {L : Library}.

(** The keys of the epochs of a recording, window by window. *)
Lemma extract_epochs_keys (self : Extractor.FeatureExtractor) (df : Pd.DataFrame)
    (include_imu include_ppg : bool) (epochs : list Extractor.features_t) :
  Extractor.extract_epochs self df include_imu include_ppg = Py.Ok epochs ->
  map (@Py.dict_keys Pd.scalar) epochs =
  map (epoch_names (imu_enabled df include_imu) (ppg_enabled df include_ppg)
         (Pd.in_columns "Sleep_Stage" df))
      (window_presences self df).
Proof.
  unfold Extractor.extract_epochs, window_presences, window_starts.
  destruct (Py.range _ _ _) as [starts|]; cbn [Py.bind]; [|discriminate].
  intros H. rewrite map_map. eapply mapM_keys; [|exact H].
  intros start y Hy. apply (extract_epoch_keys _ _ _ _ _ Hy).
Qed.

(** C1 (amended). For two well-formed tables with the same columns, of
    whatever lengths, under one configuration with window and stride at
    least 1: the keys of each epoch are fixed by the enabled groups and the
    presence conditions of its window (which of the accelerometer axes, the
    magnitude, BVP and HR have a sample that is not NaN, and whether the HRV
    statistics are reached); the header of the table [extract_all_features]
    returns is fixed by the enabled groups and the presence conditions the
    windows meet, in order of first appearance; so the two tables get the
    same column names in the same order whenever their windows meet the
    same presence conditions in the same order of first appearance. *)
Theorem feature_names_fixed_by_presence (self : Extractor.FeatureExtractor)
    (df1 df2 : Pd.DataFrame) (include_imu include_ppg : bool) :
  Pd.well_formed df1 -> Pd.well_formed df2 ->
  (forall c, Pd.in_columns c df1 = Pd.in_columns c df2) ->
  (1 <= Extractor.step_size self)%Z ->
  (1 <= Extractor.samples_per_epoch self)%Z ->
  let names := epoch_names (imu_enabled df1 include_imu) (ppg_enabled df1 include_ppg)
                 (Pd.in_columns "Sleep_Stage" df1) in
  exists epochs1 epochs2,
    Extractor.extract_epochs self df1 include_imu include_ppg = Py.Ok epochs1 /\
    Extractor.extract_epochs self df2 include_imu include_ppg = Py.Ok epochs2 /\
    Extractor.extract_all_features self df1 include_imu include_ppg =
      Py.Ok (Pd.from_records epochs1) /\
    Extractor.extract_all_features self df2 include_imu include_ppg =
      Py.Ok (Pd.from_records epochs2) /\
    map (@Py.dict_keys Pd.scalar) epochs1 = map names (window_presences self df1) /\
    map (@Py.dict_keys Pd.scalar) epochs2 = map names (window_presences self df2) /\
    Pd.ft_columns (Pd.from_records epochs1) =
      header_of names (first_seen (window_presences self df1)) /\
    Pd.ft_columns (Pd.from_records epochs2) =
      header_of names (first_seen (window_presences self df2)) /\
    (first_seen (window_presences self df1) = first_seen (window_presences self df2) ->
     Pd.ft_columns (Pd.from_records epochs1) = Pd.ft_columns (Pd.from_records epochs2)).
Proof.
  intros Hwf1 Hwf2 Hcols HS HE names.
  destruct (extract_epochs_windows self include_imu include_ppg Hwf1 HS HE)
    as [epochs1 (Hrun1 & Hall1 & _)].
  destruct (extract_epochs_windows self include_imu include_ppg Hwf2 HS HE)
    as [epochs2 (Hrun2 & Hall2 & _)].
  exists epochs1, epochs2.
  pose proof (extract_epochs_keys _ _ _ _ Hrun1) as Hk1.
  pose proof (extract_epochs_keys _ _ _ _ Hrun2) as Hk2.
  destruct (enabled_same_columns df1 df2 include_imu include_ppg Hcols) as [Hi Hp].
  rewrite <- Hi, <- Hp, <- Hcols in Hk2. fold names in Hk1, Hk2.
  repeat (split; [assumption|]).
  unfold Pd.from_records. cbn [Pd.ft_columns].
  rewrite (union_keys_names names _ _ Hk1), (union_keys_names names _ _ Hk2).
  split; [reflexivity|]. split; [reflexivity|].
  intros Hpres. rewrite Hpres. reflexivity.
Qed.

End NamesTheorem.

Lemma pulse_table_well_formed : Pd.well_formed pulse_table.
Proof.
  unfold Pd.well_formed, pulse_table. cbn [Pd.signals Pd.sleep_stage Pd.n_rows].
  repeat split.
  - repeat constructor.
  - intros l H. discriminate H.
  - cbn [map fst]. intros [H|[]]. discriminate H.
  - unfold Pd.columns. cbn. repeat constructor. intros [].
Qed.

Lemma blank_table_well_formed : Pd.well_formed blank_table.
Proof.
  unfold Pd.well_formed, blank_table. cbn [Pd.signals Pd.sleep_stage Pd.n_rows].
  repeat split.
  - repeat constructor.
  - intros l H. discriminate H.
  - cbn [map fst]. intros [H|[]]. discriminate H.
  - unfold Pd.columns. cbn. repeat constructor. intros [].
Qed.

Lemma long_pulse_table_well_formed : Pd.well_formed long_pulse_table.
Proof.
  unfold Pd.well_formed, long_pulse_table. cbn [Pd.signals Pd.sleep_stage Pd.n_rows].
  repeat split.
  - repeat constructor.
  - intros l H. discriminate H.
  - cbn [map fst]. intros [H|[]]. discriminate H.
  - unfold Pd.columns. cbn. repeat constructor. intros [].
Qed.

Lemma feature_names_fixed_by_presence_witness :
  exists epochs1 epochs2,
    Extractor.extract_epochs (L := fixed_library (Py.Ok []))
      (extractor_with 64 2 2) pulse_table true true = Py.Ok epochs1 /\
    Extractor.extract_epochs (L := fixed_library (Py.Ok []))
      (extractor_with 64 2 2) long_pulse_table true true = Py.Ok epochs2 /\
    length epochs1 = 1%nat /\ length epochs2 = 2%nat /\
    Pd.ft_columns (Pd.from_records epochs1) = Pd.ft_columns (Pd.from_records epochs2).
Proof.
  destruct (@feature_names_fixed_by_presence (fixed_library (Py.Ok []))
              (extractor_with 64 2 2) pulse_table long_pulse_table true true
              pulse_table_well_formed long_pulse_table_well_formed
              (fun c => eq_refl) ltac:(simpl; lia) ltac:(simpl; lia))
    as [epochs1 [epochs2 (H1 & H2 & _ & _ & K1 & K2 & _ & _ & Hc)]].
  exists epochs1, epochs2. split; [exact H1|]. split; [exact H2|].
  apply (f_equal (@length _)) in K1. apply (f_equal (@length _)) in K2.
  rewrite !length_map in K1, K2.
  split; [exact K1|]. split; [exact K2|exact (Hc eq_refl)].
Defined.

(** C1, as stated: the column header depends on the samples.  A [BVP]
    column with samples gives the twelve [ppg_] statistics, an all-NaN one
    gives no column at all. *)
Lemma names_depend_on_data : ~ spec_names_independent_of_data.
Proof.
  intros H.
  destruct (@extract_epochs_windows (fixed_library (Py.Ok []))
              (extractor_with 64 2 2) pulse_table true true
              pulse_table_well_formed ltac:(simpl; lia) ltac:(simpl; lia))
    as [e1 (_ & Hall1 & _ & Hn1 & Hw1)].
  destruct (@extract_epochs_windows (fixed_library (Py.Ok []))
              (extractor_with 64 2 2) blank_table true true
              blank_table_well_formed ltac:(simpl; lia) ltac:(simpl; lia))
    as [e2 (_ & Hall2 & _ & Hn2 & Hw2)].
  specialize (H (fixed_library (Py.Ok [])) (extractor_with 64 2 2)
                pulse_table blank_table true true _ _
                pulse_table_well_formed blank_table_well_formed
                (fun c => eq_refl) Hall1 Hall2).
  change (Z.of_nat (length e1) = 1%Z) in Hn1.
  change (Z.of_nat (length e2) = 1%Z) in Hn2.
  destruct e1 as [|f1 [|]]; try (simpl in Hn1; lia).
  destruct e2 as [|f2 [|]]; try (simpl in Hn2; lia).
  destruct (Hw1 0%nat ltac:(simpl; lia)) as (_ & _ & [g1 [Hg1 Hr1]] & _).
  destruct (Hw2 0%nat ltac:(simpl; lia)) as (_ & _ & [g2 [Hg2 Hr2]] & _).
  injection Hg1 as <-. injection Hg2 as <-.
  apply extract_epoch_keys in Hr1. apply extract_epoch_keys in Hr2.
  unfold Pd.from_records, Pd.union_keys in H. cbn [Pd.ft_columns fold_left] in H.
  rewrite Hr1, Hr2 in H. vm_compute in H. discriminate H.
Qed.

(* ------------------------------------------------------------------ *)
(** ** C2: HRV features *)
(* ------------------------------------------------------------------ *)

Lemma valid_ibi_In (ibi : list Np.cell) (x : Np.cell) :
  In x (Extractor.valid_ibi ibi) <->
  In x ibi /\ exists r, x = Some r /\ (300 < r < 2000)%R.
Proof.
  unfold Extractor.valid_ibi. rewrite filter_In. apply and_iff_compat_l.
  unfold Np.gt, Np.lt, Np.gt, Np.fin. destruct x as [r|].
  - destruct (Rlt_dec 300 r), (Rlt_dec r 2000); simpl; split;
      try discriminate; try (intros _; exists r; split; [reflexivity|lra]);
      intros [r' [Hr Hb]]; injection Hr as <-; try lra; reflexivity.
  - split; [discriminate|]. intros [r [Hr _]]. discriminate Hr.
Qed.

Lemma valid_ibi_insert_invalid (l1 l2 : list Np.cell) (x : Np.cell) :
  (forall r, x = Some r -> (r <= 300)%R \/ (2000 <= r)%R) ->
  Extractor.valid_ibi (l1 ++ x :: l2) = Extractor.valid_ibi (l1 ++ l2).
Proof.
  intros Hx. unfold Extractor.valid_ibi. rewrite !filter_app. f_equal.
  simpl. unfold Np.gt, Np.lt, Np.gt, Np.fin. destruct x as [r|]; [|reflexivity].
  destruct (Hx r eq_refl); destruct (Rlt_dec 300 r), (Rlt_dec r 2000);
    simpl; try reflexivity; lra.
Qed.

Lemma hrv_table_constant (c : R) (n : nat) :
  (2 <= n)%nat ->
  Py.dict_get (hrv_table (repeat (Np.fin c) n)) "hrv_sdnn" = Some (Pd.VFloat (Np.fin 0)) /\
  Py.dict_get (hrv_table (repeat (Np.fin c) n)) "hrv_rmssd" = Some (Pd.VFloat (Np.fin 0)).
Proof.
  intros Hn. cbn [hrv_table Py.dict_get String.eqb Ascii.eqb Bool.eqb]. split.
  - rewrite std_constant by lia. reflexivity.
  - rewrite diff_constant. rewrite map_repeat.
    replace (Np.square (Np.fin 0)) with (Np.fin 0)
      by (unfold Np.square, Np.mul, Np.lift2, Np.fin; f_equal; lra).
    rewrite mean_constant by lia.
    unfold Np.sqrt, Np.fin. destruct (Rlt_dec 0 0) as [H|_]; [lra|].
    rewrite sqrt_0. reflexivity.
Qed.

Section Hrv.
Context {L : Library}.

Lemma hrv_available_spec (self : Extractor.FeatureExtractor) (bvp : list Np.cell) :
  hrv_available self bvp =
  Nat.ltb 2 (length (detected_peaks self bvp)) &&
  Nat.leb 2 (length (Extractor.valid_ibi
                       (Preprocessing.compute_ibi_from_peaks (detected_peaks self bvp)
                          (Extractor.fs self)))).
Proof.
  unfold hrv_available, detected_peaks.
  destruct (Preprocessing.detect_ppg_peaks bvp (Extractor.fs self)
              Preprocessing.default_min_distance) as [[peaks vals]|e]; reflexivity.
Qed.

Lemma no_hrv_names_prefix :
  forallb (fun k => negb (String.prefix "hrv_" k))
          (epoch_names true true true no_hrv_present) = true.
Proof. vm_compute. reflexivity. Qed.

Lemma epoch_names_no_hrv (imu_on ppg_on label_on : bool) (p : Presence) (k : string) :
  hrv_ok p = false ->
  In k (epoch_names imu_on ppg_on label_on p) -> String.prefix "hrv_" k = false.
Proof.
  intros Hp Hk.
  assert (Hincl : incl (epoch_names imu_on ppg_on label_on p)
                       (epoch_names true true true no_hrv_present)).
  { unfold epoch_names, imu_names, ppg_names, stat_names. rewrite Hp.
    cbn [no_hrv_present valid_x valid_y valid_z valid_mag valid_bvp valid_hr hrv_ok].
    repeat first
      [ apply incl_app_app
      | apply incl_if_then
      | apply incl_refl ]. }
  pose proof no_hrv_names_prefix as Hall. rewrite forallb_forall in Hall.
  apply negb_true_iff. apply Hall. apply Hincl. exact Hk.
Qed.

Lemma other_groups_lack_hrv (k : string) :
  In k hrv_names ->
  (forall prefix, In prefix ["imu_x"; "imu_y"; "imu_z"; "imu_mag"; "ppg"]%string ->
     ~ In k (map (String.append prefix) stat_suffixes)) /\
  ~ In k hr_names /\
  ~ In k ["imu_activity_count"; "imu_movement_intensity"]%string.
Proof.
  intros Hk. simpl in Hk.
  repeat (destruct Hk as [<-|Hk];
    [split; [intros prefix Hp; simpl in Hp;
             repeat (destruct Hp as [<-|Hp];
               [simpl; intros Hin;
                repeat (destruct Hin as [Hin|Hin]; [discriminate Hin|]); exact Hin|]);
             contradiction
            |split; simpl; intros Hin;
               repeat (destruct Hin as [Hin|Hin]; [discriminate Hin|]); exact Hin]|]).
  contradiction.
Qed.

Lemma stat_part_lacks_hrv (prefix : string) (data : list Np.cell) (k : string) :
  In prefix ["imu_x"; "imu_y"; "imu_z"; "imu_mag"; "ppg"]%string ->
  In k hrv_names -> Py.dict_get (stat_part prefix data) k = None.
Proof.
  intros Hp Hk. apply dict_get_None. rewrite stat_part_keys.
  destruct (other_groups_lack_hrv Hk) as (Hs & _ & _).
  unfold stat_names. destruct (has_valid data); [apply Hs; exact Hp|intros []].
Qed.

Lemma signal_part_get_hrv (self : Extractor.FeatureExtractor)
    (df epoch_df : Pd.DataFrame) (include_imu : bool) (k : string) :
  ppg_enabled df true = true ->
  In k hrv_names ->
  Py.dict_get (signal_part self df epoch_df include_imu true) k =
  Py.dict_get (hrv_part self (column epoch_df "BVP")) k.
Proof.
  intros Hp Hk. unfold signal_part. rewrite Hp.
  destruct (other_groups_lack_hrv Hk) as (_ & Hhr & Hact).
  assert (Himu : Py.dict_get
                   (imu_part (column epoch_df "ACC_X") (column epoch_df "ACC_Y")
                      (column epoch_df "ACC_Z")) k = None).
  { unfold imu_part. rewrite !dict_get_app.
    rewrite !stat_part_lacks_hrv by (simpl; tauto || exact Hk).
    apply dict_get_None. exact Hact. }
  rewrite dict_get_app.
  destruct (imu_enabled df include_imu); [rewrite Himu|cbn [Py.dict_get]];
    unfold ppg_part; rewrite !dict_get_app;
    rewrite stat_part_lacks_hrv by (simpl; tauto || exact Hk);
    (destruct (hr_column epoch_df) as [h|]; [|reflexivity]);
    (assert (Hh : Py.dict_get (hr_part h) k = None)
       by (apply dict_get_None; rewrite hr_part_keys;
           destruct (has_valid h); [exact Hhr|intros []]));
    rewrite Hh; reflexivity.
Qed.

End Hrv.

Section HrvTheorem.
Context {L : Library}.

Lemma hrv_features_constant (ibi : list Np.cell) (c : R) :
  (2 <= length (Extractor.valid_ibi ibi))%nat ->
  (forall x, In x (Extractor.valid_ibi ibi) -> x = Np.fin c) ->
  Py.dict_get (Extractor._compute_hrv_features ibi) "hrv_sdnn" =
    Some (Pd.VFloat (Np.fin 0)) /\
  Py.dict_get (Extractor._compute_hrv_features ibi) "hrv_rmssd" =
    Some (Pd.VFloat (Np.fin 0)).
Proof.
  intros Hlen Hall. rewrite hrv_features_normal_form.
  destruct (Nat.leb_spec 2 (length (Extractor.valid_ibi ibi))); [|lia].
  rewrite (@constant_repeat _ (Np.fin c) (Extractor.valid_ibi ibi) Hall).
  apply hrv_table_constant. exact Hlen.
Qed.

(** C2. The HRV statistics are reached only when peak detection returns
    more than 2 peaks; they are computed from the intervals that lie
    strictly between 300 and 2000 ms; when fewer than 2 such intervals
    remain the epoch has no key starting with [hrv_]; when the surviving
    intervals are all 800 ms, [hrv_sdnn] and [hrv_rmssd] are 0. *)
Theorem hrv_features_policy (self : Extractor.FeatureExtractor)
    (df : Pd.DataFrame) (include_imu : bool) (start : Z) :
  Pd.well_formed df ->
  ppg_enabled df true = true ->
  (1 <= Extractor.samples_per_epoch self)%Z ->
  (0 <= start)%Z ->
  (start + Extractor.samples_per_epoch self <= Z.of_nat (Pd.len df))%Z ->
  let epoch_df := Pd.iloc df start (start + Extractor.samples_per_epoch self) in
  let peaks := detected_peaks self (column epoch_df "BVP") in
  let ibi := Preprocessing.compute_ibi_from_peaks peaks (Extractor.fs self) in
  let valid := Extractor.valid_ibi ibi in
  (exists features,
     Extractor.extract_epoch self df include_imu true start = Py.Ok features /\
     (((length peaks <= 2)%nat \/ (length valid < 2)%nat) ->
      forall k, In k (Py.dict_keys features) -> String.prefix "hrv_" k = false) /\
     ((2 < length peaks)%nat -> (2 <= length valid)%nat ->
      Py.dict_get features "hrv_mean_ibi" = Some (Pd.VFloat (Np.mean valid)) /\
      Py.dict_get features "hrv_sdnn" = Some (Pd.VFloat (Np.std valid)) /\
      Py.dict_get features "hrv_rmssd" =
        Some (Pd.VFloat (Np.sqrt (Np.mean (map Np.square (Np.diff valid))))) /\
      Py.dict_get features "hrv_pnn50" =
        Some (Pd.VFloat (Extractor.pnn (Np.diff valid) 50)) /\
      Py.dict_get features "hrv_pnn20" =
        Some (Pd.VFloat (Extractor.pnn (Np.diff valid) 20)) /\
      ((forall x, In x valid -> x = Np.fin 800) ->
       Py.dict_get features "hrv_sdnn" = Some (Pd.VFloat (Np.fin 0)) /\
       Py.dict_get features "hrv_rmssd" = Some (Pd.VFloat (Np.fin 0))))) /\
  (forall x, In x valid <-> In x ibi /\ exists r, x = Some r /\ (300 < r < 2000)%R) /\
  (forall (l1 l2 : list Np.cell) (x : Np.cell),
     (forall r, x = Some r -> (r <= 300)%R \/ (2000 <= r)%R) ->
     Extractor._compute_hrv_features (l1 ++ x :: l2) =
     Extractor._compute_hrv_features (l1 ++ l2)) /\
  (forall intervals, (length (Extractor.valid_ibi intervals) < 2)%nat ->
     Extractor._compute_hrv_features intervals = []) /\
  (forall intervals,
     (2 <= length (Extractor.valid_ibi intervals))%nat ->
     (forall x, In x (Extractor.valid_ibi intervals) -> x = Np.fin 800) ->
     Py.dict_get (Extractor._compute_hrv_features intervals) "hrv_sdnn" =
       Some (Pd.VFloat (Np.fin 0)) /\
     Py.dict_get (Extractor._compute_hrv_features intervals) "hrv_rmssd" =
       Some (Pd.VFloat (Np.fin 0))).
Proof.
  intros Hwf Hppg HE H0 Hend epoch_df peaks ibi valid.
  split; [|split; [|split; [|split]]].
  - destruct (extract_epoch_ok self include_imu true Hwf HE H0 Hend)
      as [features Hrun].
    exists features. split; [exact Hrun|].
    pose proof (extract_epoch_keys _ _ _ _ _ Hrun) as Hkeys. fold epoch_df in Hkeys.
    rewrite extract_epoch_normal_form in Hrun. cbv zeta in Hrun. fold epoch_df in Hrun.
    pose proof (hrv_available_spec self (column epoch_df "BVP")) as Hav.
    fold peaks ibi valid in Hav.
    split.
    + intros Hfew k Hk. rewrite Hkeys in Hk.
      eapply epoch_names_no_hrv; [|exact Hk].
      unfold presence. cbn [hrv_ok]. rewrite Hav.
      destruct Hfew as [Hp|Hv].
      * destruct (Nat.ltb_spec 2 (length peaks)); [lia|reflexivity].
      * destruct (Nat.leb_spec 2 (length valid)); [lia|apply andb_false_r].
    + intros Hp Hv.
      assert (Hon : hrv_available self (column epoch_df "BVP") = true).
      { rewrite Hav. destruct (Nat.ltb_spec 2 (length peaks)); [|lia].
        destruct (Nat.leb_spec 2 (length valid)); [reflexivity|lia]. }
      assert (Hget : forall k, In k hrv_names ->
                Py.dict_get features k = Py.dict_get (hrv_table valid) k).
      { intros k Hk.
        assert (Hs : Py.dict_get (signal_part self df epoch_df include_imu true) k =
                     Py.dict_get (hrv_table valid) k).
        { rewrite (@signal_part_get_hrv L self df epoch_df include_imu k Hppg Hk).
          unfold hrv_part. rewrite Hon. reflexivity. }
        assert (Hsome : exists v, Py.dict_get (hrv_table valid) k = Some v).
        { simpl in Hk. repeat (destruct Hk as [<-|Hk]; [eexists; reflexivity|]).
          contradiction. }
        destruct Hsome as [v Hv']. rewrite Hv' in Hs |- *.
        destruct (Pd.in_columns "Sleep_Stage" df).
        - destruct (Pd.labels epoch_df) as [stages|];
            cbn [Py.bind] in Hrun; [|discriminate Hrun].
          destruct (Pd.iloc0 (Pd.mode stages)) as [label|];
            cbn [Py.bind] in Hrun; [|discriminate Hrun].
          injection Hrun as <-. rewrite dict_get_app, Hs. reflexivity.
        - injection Hrun as <-. exact Hs. }
      assert (G1 := Hget "hrv_mean_ibi"%string ltac:(simpl; tauto)).
      assert (G2 := Hget "hrv_sdnn"%string ltac:(simpl; tauto)).
      assert (G3 := Hget "hrv_rmssd"%string ltac:(simpl; tauto)).
      assert (G4 := Hget "hrv_pnn50"%string ltac:(simpl; tauto)).
      assert (G5 := Hget "hrv_pnn20"%string ltac:(simpl; tauto)).
      repeat split; try assumption.
      * rewrite G2. rewrite (@constant_repeat _ (Np.fin 800) valid H).
        apply hrv_table_constant. exact Hv.
      * rewrite G3. rewrite (@constant_repeat _ (Np.fin 800) valid H).
        apply hrv_table_constant. exact Hv.
  - intros x. apply valid_ibi_In.
  - intros l1 l2 x Hx. rewrite !hrv_features_normal_form.
    rewrite (@valid_ibi_insert_invalid l1 l2 x Hx). reflexivity.
  - intros intervals Hlt. rewrite hrv_features_normal_form.
    destruct (Nat.leb_spec 2 (length (Extractor.valid_ibi intervals))); [lia|reflexivity].
  - intros intervals Hlen Hall. apply (hrv_features_constant intervals Hlen Hall).
Qed.

End HrvTheorem.

Lemma six_row_peaks :
  detected_peaks (L := four_peaks) slow_extractor
    (column (Pd.iloc six_row_table 0 (0 + Extractor.samples_per_epoch slow_extractor)) "BVP") =
  [0; 1; 2; 5]%nat.
Proof. reflexivity. Qed.

Lemma interval_ms (d : Z) (fs : R) :
  fs <> 0%R ->
  Np.mul (Np.div (Np.of_Z d) (Np.fin fs)) (Np.fin 1000) = Some (IZR d / fs * 1000)%R.
Proof.
  intros Hfs. unfold Np.div, Np.of_Z, Np.fin.
  destruct (Req_dec_T fs 0) as [H|_]; [contradiction|reflexivity].
Qed.

Lemma six_row_intervals :
  Extractor.valid_ibi
    (Preprocessing.compute_ibi_from_peaks [0; 1; 2; 5]%nat (5 / 4)) =
  [Some (1 / (5 / 4) * 1000)%R; Some (1 / (5 / 4) * 1000)%R].
Proof.
  unfold Preprocessing.compute_ibi_from_peaks.
  cbn [map Z.of_nat Np.diff_int Pos.of_succ_nat Pos.succ Z.sub Z.add Z.opp
       Z.pos_sub Pos.pred_double Z.succ_double Z.pred_double Z.double].
  rewrite !interval_ms by lra.
  unfold Extractor.valid_ibi. cbn [filter].
  unfold Np.gt, Np.lt, Np.gt, Np.fin.
  repeat match goal with
         | |- context [Rlt_dec ?a ?b] => destruct (Rlt_dec a b); try lra
         end.
  reflexivity.
Qed.

Lemma hrv_features_policy_witness :
  exists features,
    Extractor.extract_epoch (L := four_peaks) slow_extractor six_row_table
      true true 0 = Py.Ok features /\
    Py.dict_get features "hrv_sdnn" = Some (Pd.VFloat (Np.fin 0)) /\
    Py.dict_get features "hrv_rmssd" = Some (Pd.VFloat (Np.fin 0)).
Proof.
  destruct (@hrv_features_policy four_peaks slow_extractor six_row_table true 0%Z
              six_row_table_well_formed eq_refl ltac:(simpl; lia) ltac:(lia)
              ltac:(simpl; lia))
    as [[features (Hrun & _ & Hstats)] _].
  exists features. split; [exact Hrun|].
  rewrite six_row_peaks in Hstats.
  change (Extractor.fs slow_extractor) with (5 / 4)%R in Hstats.
  rewrite six_row_intervals in Hstats.
  destruct (Hstats ltac:(simpl; lia) ltac:(simpl; lia)) as (_ & _ & _ & _ & _ & Hconst).
  apply Hconst. intros x [<-|[<-|[]]]; unfold Np.fin; f_equal; field.
Defined.

(* ------------------------------------------------------------------ *)
(** ** Truncation and floor of reals                                    *)
(* ------------------------------------------------------------------ *)

Lemma Int_part_IZR (z : Z) : Int_part (IZR z) = z.
Proof. symmetry. apply Int_part_spec. lra. Qed.

Lemma int_IZR (z : Z) : Py.int (IZR z) = z.
Proof.
  unfold Py.int. destruct (Rle_dec 0 (IZR z)) as [H|H].
  - apply Int_part_IZR.
  - rewrite <- opp_IZR, Int_part_IZR. lia.
Qed.

Lemma int_floor (x : R) : (0 <= x)%R -> Py.int x = Int_part x.
Proof. intros H. unfold Py.int. destruct (Rle_dec 0 x); [reflexivity|contradiction]. Qed.

(** Between two consecutive integers there is no integer. *)
Lemma Int_part_unique (x : R) (z : Z) :
  (IZR z <= x < IZR z + 1)%R -> Int_part x = z.
Proof. intros H. symmetry. apply Int_part_spec. lra. Qed.



(* ------------------------------------------------------------------ *)
(** ** Activity counts                                                  *)
(* ------------------------------------------------------------------ *)

Lemma range_unit (n : Z) :
  (0 <= n)%Z -> Py.range 0 n 1 = Py.Ok (map Z.of_nat (seq 0 (Z.to_nat n))).
Proof.
  intros Hn. rewrite range_forward by lia. rewrite range_len_forward by lia.
  destruct (Z.ltb_spec 0 n) as [H|H].
  - rewrite Z.div_1_r. replace (n - 1 + 1)%Z with n by lia.
    f_equal. apply map_ext. intros k. lia.
  - replace n with 0%Z by lia. reflexivity.
Qed.

Lemma sum_nan_iff (l : list Np.cell) : Np.sum l = None <-> In None l.
Proof.
  induction l as [|x xs IH]; simpl.
  - split; [discriminate|tauto].
  - destruct x as [x|]; simpl.
    + destruct (Np.sum xs) as [s|] eqn:Hs; simpl.
      * split; [discriminate|]. intros [H|H]; [discriminate|].
        apply IH in H. discriminate.
      * split; [|reflexivity]. intros _. right. apply IH. reflexivity.
    + split; [|reflexivity]. intros _. left. reflexivity.
Qed.

Lemma mean_nan_iff (l : list Np.cell) : l <> [] -> (Np.mean l = None <-> In None l).
Proof.
  intros Hl. destruct l as [|x xs]; [contradiction|].
  unfold Np.mean. rewrite <- sum_nan_iff.
  destruct (Np.sum (x :: xs)) as [s|].
  - unfold Np.div, Np.of_nat.
    destruct (Req_dec_T (INR (length (x :: xs))) 0) as [H0|H0].
    + pose proof (INR_length_pos x xs). lra.
    + split; intros H; discriminate H.
  - split; reflexivity.
Qed.

Lemma sum_nonneg (l : list Np.cell) (s : R) :
  (forall r, In (Some r) l -> 0 <= r)%R -> Np.sum l = Some s -> (0 <= s)%R.
Proof.
  revert s. induction l as [|x xs IH]; simpl; intros s Hall Hs.
  - unfold Np.fin in Hs. injection Hs as <-. lra.
  - destruct x as [x|]; [|discriminate].
    destruct (Np.sum xs) as [t|] eqn:Ht; [|discriminate].
    cbv [Np.add Np.lift2] in Hs. injection Hs as <-.
    assert (0 <= x)%R by (apply Hall; left; reflexivity).
    assert (0 <= t)%R by (apply IH; [intros r Hr; apply Hall; right; exact Hr|reflexivity]).
    lra.
Qed.

(** The sum of absolute deviations from the mean of a window. *)
Lemma abs_deviation_cases (w : list Np.cell) :
  w <> [] ->
  let c := Np.sum (map Np.abs (map (fun x => Np.sub x (Np.mean w)) w)) in
  (c = None <-> In None w) /\ (forall r, c = Some r -> (0 <= r)%R).
Proof.
  intros Hw c. split.
  - unfold c. rewrite sum_nan_iff, map_map, in_map_iff. split.
    + intros [x [Hx Hin]]. destruct x as [x|]; [|exact Hin].
      destruct (Np.mean w) as [m|] eqn:Hm; [discriminate|].
      apply mean_nan_iff; assumption.
    + intros Hin. exists None. split; [reflexivity|exact Hin].
  - intros r Hr. apply (@sum_nonneg _ r) in Hr; [exact Hr|].
    intros a Ha. rewrite map_map in Ha. apply in_map_iff in Ha.
    destruct Ha as [x [Hx _]]. destruct x as [x|]; [|discriminate].
    destruct (Np.mean w) as [m|]; [|discriminate].
    simpl in Hx. injection Hx as <-. apply Rabs_pos.
Qed.

Lemma window_of_prefix {A : Type} (l : list A) (k n e : nat) :
  (k < n)%nat ->
  firstn e (skipn (k * e) (firstn (n * e) l)) = firstn e (skipn (k * e) l).
Proof.
  intros Hk. rewrite skipn_firstn_comm, firstn_firstn.
  f_equal. nia.
Qed.

Lemma activity_counts_run (acc_magnitude : list Np.cell) (fs epoch_duration : R) :
  let spe := Py.int (epoch_duration * fs) in
  (1 <= spe)%Z ->
  Preprocessing.compute_activity_counts acc_magnitude fs epoch_duration =
  Py.Ok (map (fun k =>
                let w := firstn (Z.to_nat spe) (skipn (k * Z.to_nat spe) acc_magnitude) in
                Np.sum (map Np.abs (map (fun x => Np.sub x (Np.mean w)) w)))
             (seq 0 (length acc_magnitude / Z.to_nat spe))).
Proof.
  intros spe Hspe. unfold Preprocessing.compute_activity_counts. fold spe.
  destruct (Z.eqb_spec spe 0) as [H0|_]; [lia|].
  set (N := length acc_magnitude).
  assert (Hn : (0 <= Z.of_nat N / spe)%Z) by (apply Z.div_pos; lia).
  destruct (Z.ltb_spec (Z.of_nat N / spe) 0) as [Hneg|_]; [lia|].
  rewrite range_unit by exact Hn. cbn [Py.bind]. f_equal.
  assert (Hq : Z.to_nat (Z.of_nat N / spe) = (N / Z.to_nat spe)%nat).
  { rewrite <- (Z2Nat.id spe) at 1 by lia. rewrite <- Nat2Z.inj_div.
    apply Nat2Z.id. }
  rewrite Hq, map_map. apply map_ext_in. intros k Hk.
  apply in_seq in Hk. cbv zeta.
  assert (Hle : (k * Z.to_nat spe + Z.to_nat spe <= N)%nat).
  { pose proof (Nat.Div0.mul_div_le N (Z.to_nat spe)). nia. }
  rewrite slice_window by (fold N; lia).
  replace (Z.to_nat (Z.of_nat k * spe)) with (k * Z.to_nat spe)%nat by nia.
  reflexivity.
Qed.

(** X1. [compute_activity_counts] with a window of at least one sample
    returns one count per full window of the signal, window [k] being the
    samples [k * w .. k * w + w - 1] and its count the sum of the absolute
    deviations from the window's mean; the samples after the last full
    window are not used. *)
Theorem activity_counts_windows (acc_magnitude : list Np.cell)
    (fs epoch_duration : R) :
  let spe := Py.int (epoch_duration * fs) in
  (1 <= spe)%Z ->
  exists counts,
    Preprocessing.compute_activity_counts acc_magnitude fs epoch_duration =
      Py.Ok counts /\
    length counts = (length acc_magnitude / Z.to_nat spe)%nat /\
    (forall k, (k < length counts)%nat ->
       let w := firstn (Z.to_nat spe) (skipn (k * Z.to_nat spe) acc_magnitude) in
       length w = Z.to_nat spe /\
       nth_error counts k =
         Some (Np.sum (map Np.abs (map (fun x => Np.sub x (Np.mean w)) w)))) /\
    Preprocessing.compute_activity_counts
      (firstn (length counts * Z.to_nat spe) acc_magnitude) fs epoch_duration =
      Py.Ok counts.
Proof.
  intros spe Hspe.
  pose proof (@activity_counts_run acc_magnitude fs epoch_duration Hspe) as Hrun.
  fold spe in Hrun. cbv zeta in Hrun.
  eexists. split; [exact Hrun|].
  set (e := Z.to_nat spe) in *.
  assert (He : (1 <= e)%nat) by (unfold e; lia).
  set (n := (length acc_magnitude / e)%nat).
  assert (Hfit : (n * e <= length acc_magnitude)%nat).
  { unfold n. pose proof (Nat.Div0.mul_div_le (length acc_magnitude) e). nia. }
  rewrite length_map, length_seq. split; [reflexivity|]. split.
  - intros k Hk w. split.
    + unfold w. rewrite length_firstn, length_skipn. fold n in Hk. nia.
    + rewrite nth_error_map_seq by exact Hk. reflexivity.
  - fold n.
    rewrite (@activity_counts_run (firstn (n * e) acc_magnitude) fs epoch_duration Hspe).
    fold spe. fold e. cbv zeta. f_equal.
    rewrite length_firstn, Nat.min_l by exact Hfit.
    rewrite Nat.div_mul by lia.
    apply map_ext_in. intros k Hk. apply in_seq in Hk.
    rewrite window_of_prefix by lia. reflexivity.
Qed.

Lemma activity_counts_windows_witness :
  exists counts,
    Preprocessing.compute_activity_counts
      [Np.fin 1; Np.fin 3; Np.fin 5; Np.fin 5; Np.fin 9] 2 1 = Py.Ok counts /\
    length counts = 2%nat.
Proof.
  assert (Hint : Py.int (1 * 2) = 2%Z).
  { replace (1 * 2)%R with (IZR 2) by (simpl; lra). apply int_IZR. }
  destruct (@activity_counts_windows
              [Np.fin 1; Np.fin 3; Np.fin 5; Np.fin 5; Np.fin 9] 2 1
              ltac:(rewrite Hint; lia)) as [counts [Hrun [Hlen _]]].
  exists counts. split; [exact Hrun|].
  rewrite Hlen, Hint. reflexivity.
Defined.



(** X3. A count returned by [compute_activity_counts] is NaN exactly when
    its own window holds a NaN sample, and is otherwise a number that is
    not negative: a NaN sample spoils one window only. *)
Theorem activity_counts_nan_local (acc_magnitude : list Np.cell)
    (fs epoch_duration : R) (counts : list Np.cell) :
  let spe := Py.int (epoch_duration * fs) in
  (1 <= spe)%Z ->
  Preprocessing.compute_activity_counts acc_magnitude fs epoch_duration =
    Py.Ok counts ->
  forall k c, nth_error counts k = Some c ->
    let w := firstn (Z.to_nat spe) (skipn (k * Z.to_nat spe) acc_magnitude) in
    (c = Np.NaN <-> In Np.NaN w) /\
    (forall r, c = Np.fin r -> (0 <= r)%R).
Proof.
  intros spe Hspe Hrun k c Hk w.
  rewrite (@activity_counts_run acc_magnitude fs epoch_duration Hspe) in Hrun.
  fold spe in Hrun. cbv zeta in Hrun. injection Hrun as <-.
  assert (Hlt : (k < length acc_magnitude / Z.to_nat spe)%nat).
  { assert (Hsome : nth_error
              (map (fun k0 =>
                 Np.sum (map Np.abs (map (fun x => Np.sub x
                   (Np.mean (firstn (Z.to_nat spe)
                      (skipn (k0 * Z.to_nat spe) acc_magnitude))))
                   (firstn (Z.to_nat spe) (skipn (k0 * Z.to_nat spe) acc_magnitude)))))
                 (seq 0 (length acc_magnitude / Z.to_nat spe))) k <> None)
      by (rewrite Hk; discriminate).
    apply nth_error_Some in Hsome. rewrite length_map, length_seq in Hsome.
    exact Hsome. }
  rewrite nth_error_map_seq in Hk by exact Hlt. injection Hk as <-.
  apply abs_deviation_cases.
  intros Hnil. apply (f_equal (@length Np.cell)) in Hnil.
  unfold w in Hnil. rewrite length_firstn, length_skipn in Hnil. simpl in Hnil.
  pose proof (Nat.Div0.mul_div_le (length acc_magnitude) (Z.to_nat spe)). nia.
Qed.

Lemma activity_counts_nan_local_witness :
  exists counts c,
    Preprocessing.compute_activity_counts
      [Np.fin 1; Np.NaN; Np.fin 5; Np.fin 5] 2 1 = Py.Ok counts /\
    nth_error counts 0 = Some c /\ c = Np.NaN.
Proof.
  assert (Hint : Py.int (1 * 2) = 2%Z).
  { replace (1 * 2)%R with (IZR 2) by (simpl; lra). apply int_IZR. }
  assert (Hrun := @activity_counts_run [Np.fin 1; Np.NaN; Np.fin 5; Np.fin 5] 2 1
                    ltac:(rewrite Hint; lia)).
  rewrite Hint in Hrun. cbv zeta in Hrun.
  eexists. eexists. split; [exact Hrun|]. split; [reflexivity|].
  apply (proj1 (@activity_counts_nan_local _ 2 1 _ ltac:(rewrite Hint; lia) Hrun
                  0%nat _ eq_refl)).
  rewrite Hint. simpl. right. left. reflexivity.
Defined.

(* ------------------------------------------------------------------ *)
(** ** Durations                                                        *)
(* ------------------------------------------------------------------ *)

Lemma floor_bounds (x : R) : (IZR (Int_part x) <= x < IZR (Int_part x) + 1)%R.
Proof. destruct (base_Int_part x). lra. Qed.

Lemma duration_parts_floor (seconds : R) :
  (0 <= seconds)%R ->
  let f := Int_part seconds in
  let q := Int_part (seconds / 60) in
  let h := Int_part (seconds / 3600) in
  Helpers.duration_parts seconds = (h, (q - 60 * h)%Z, (f - 60 * q)%Z) /\
  (0 <= h)%Z /\ (0 <= q - 60 * h < 60)%Z /\ (0 <= f - 60 * q < 60)%Z.
Proof.
  intros Hx f q h.
  pose proof (floor_bounds seconds) as Hf. fold f in Hf.
  pose proof (floor_bounds (seconds / 60)) as Hq. fold q in Hq.
  pose proof (floor_bounds (seconds / 3600)) as Hh. fold h in Hh.
  assert (Hh0 : (0 <= h)%Z).
  { assert (H : (-1 < IZR h)%R) by lra.
    apply (lt_IZR (-1)) in H. lia. }
  assert (Hm : (0 <= q - 60 * h < 60)%Z).
  { split.
    - assert (H : (IZR (60 * h - 1) < IZR q)%R)
        by (rewrite minus_IZR, mult_IZR; lra).
      apply lt_IZR in H. lia.
    - assert (H : (IZR q < IZR (60 * h + 60))%R)
        by (rewrite plus_IZR, mult_IZR; lra).
      apply lt_IZR in H. lia. }
  assert (Hs : (0 <= f - 60 * q < 60)%Z).
  { split.
    - assert (H : (IZR (60 * q - 1) < IZR f)%R)
        by (rewrite minus_IZR, mult_IZR; lra).
      apply lt_IZR in H. lia.
    - assert (H : (IZR f < IZR (60 * q + 60))%R)
        by (rewrite plus_IZR, mult_IZR; lra).
      apply lt_IZR in H. lia. }
  split; [|tauto].
  unfold Helpers.duration_parts, Py.fmod, Py.floordiv. fold h. fold q.
  rewrite !int_IZR.
  assert (Hmin : Int_part ((seconds - 3600 * IZR h) / 60) = (q - 60 * h)%Z).
  { apply Int_part_unique. rewrite minus_IZR, mult_IZR. lra. }
  rewrite Hmin.
  assert (Hsec : Py.int (seconds - 60 * IZR q) = (f - 60 * q)%Z).
  { rewrite int_floor by lra.
    apply Int_part_unique. rewrite minus_IZR, mult_IZR. lra. }
  rewrite Hsec. reflexivity.
Qed.

(** X4. For a duration that is not negative, [format_duration] splits
    the whole seconds into hours, minutes below 60 and seconds below 60
    that add up to the duration rounded down, and prints the hours only
    from one hour on and the minutes only from one minute on. *)
Theorem format_duration_parts (seconds : R) :
  (0 <= seconds)%R ->
  exists hours minutes secs : Z,
    Helpers.duration_parts seconds = (hours, minutes, secs) /\
    (0 <= hours)%Z /\ (0 <= minutes < 60)%Z /\ (0 <= secs < 60)%Z /\
    (IZR (hours * 3600 + minutes * 60 + secs) <= seconds
       < IZR (hours * 3600 + minutes * 60 + secs) + 1)%R /\
    Helpers.format_duration seconds =
      (if Rlt_dec seconds 60 then Py.str secs ++ "s"
       else if Rlt_dec seconds 3600
            then Py.str minutes ++ "m " ++ Py.str secs ++ "s"
            else Py.str hours ++ "h " ++ Py.str minutes ++ "m " ++
                 Py.str secs ++ "s")%string.
Proof.
  intros Hx.
  destruct (duration_parts_floor Hx) as [Hparts [Hh [Hm Hs]]].
  set (f := Int_part seconds) in *.
  set (q := Int_part (seconds / 60)) in *.
  set (h := Int_part (seconds / 3600)) in *.
  exists h, (q - 60 * h)%Z, (f - 60 * q)%Z.
  split; [exact Hparts|]. split; [exact Hh|]. split; [exact Hm|].
  split; [exact Hs|].
  pose proof (floor_bounds seconds) as Hf. fold f in Hf.
  pose proof (floor_bounds (seconds / 60)) as Hq. fold q in Hq.
  pose proof (floor_bounds (seconds / 3600)) as Hhh. fold h in Hhh.
  split.
  - replace (h * 3600 + (q - 60 * h) * 60 + (f - 60 * q))%Z with f by lia.
    exact Hf.
  - unfold Helpers.format_duration. rewrite Hparts.
    destruct (Rlt_dec seconds 60) as [H60|H60].
    + assert (Hq0 : q = 0%Z).
      { apply Int_part_unique. simpl. lra. }
      assert (Hh0 : h = 0%Z).
      { apply Int_part_unique. simpl. lra. }
      rewrite Hq0, Hh0. reflexivity.
    + destruct (Rlt_dec seconds 3600) as [H3600|H3600].
      * assert (Hh0 : h = 0%Z).
        { apply Int_part_unique. simpl. lra. }
        rewrite Hh0.
        assert (Hq1 : (1 <= q)%Z).
        { assert (H : (0 < IZR q)%R) by lra. apply lt_IZR in H. lia. }
        cbn [Z.gtb Z.compare].
        destruct (Z.gtb_spec (q - 60 * 0) 0); [reflexivity|lia].
      * assert (Hh1 : (1 <= h)%Z).
        { assert (H : (0 < IZR h)%R) by lra. apply lt_IZR in H. lia. }
        destruct (Z.gtb_spec h 0); [reflexivity|lia].
Qed.

Lemma format_duration_parts_witness :
  Helpers.format_duration 3725 = "1h 2m 5s"%string.
Proof.
  destruct (@format_duration_parts 3725 ltac:(lra))
    as [hours [minutes [secs [Hparts [Hh [Hm [Hs [Hsum Hfmt]]]]]]]].
  rewrite Hfmt.
  destruct (Rlt_dec 3725 60) as [H|_]; [lra|].
  destruct (Rlt_dec 3725 3600) as [H|_]; [lra|].
  assert (Ht : (hours * 3600 + minutes * 60 + secs = 3725)%Z).
  { destruct Hsum as [Hlo Hhi].
    apply le_IZR in Hlo.
    assert (H : (IZR 3725 < IZR (hours * 3600 + minutes * 60 + secs + 1))%R)
      by (rewrite plus_IZR; exact Hhi).
    apply lt_IZR in H. lia. }
  assert (hours = 1 /\ minutes = 2 /\ secs = 5)%Z as [-> [-> ->]] by lia.
  reflexivity.
Defined.

(* ------------------------------------------------------------------ *)
(** ** The loader: column selection                                     *)
(* ------------------------------------------------------------------ *)

Lemma in_columns_signal (df : Pd.DataFrame) (c : string) :
  c <> Pd.label_column -> Pd.in_columns c df = true ->
  In c (map fst (Pd.signals df)).
Proof.
  intros Hc Hin. unfold Pd.in_columns in Hin. apply existsb_eqb_In in Hin.
  unfold Pd.columns in Hin. apply in_app_or in Hin. destruct Hin as [H|H].
  - exact H.
  - destruct (Pd.sleep_stage df); simpl in H; [|contradiction].
    destruct H as [H|[]]. congruence.
Qed.

Lemma select_signals (df : Pd.DataFrame) (cols : list string) :
  ~ In Pd.label_column cols ->
  (forall c, In c cols -> Pd.in_columns c df = true) ->
  Pd.select df cols =
  Py.Ok {| Pd.signals := map (fun c => (c, column df c)) cols;
           Pd.sleep_stage := None;
           Pd.n_rows := Pd.n_rows df |}.
Proof.
  intros Hlab Hall. unfold Pd.select.
  assert (Hex : existsb (String.eqb Pd.label_column) cols = false).
  { destruct (existsb (String.eqb Pd.label_column) cols) eqn:E; [|reflexivity].
    apply existsb_eqb_In in E. contradiction. }
  rewrite Hex. cbn [Py.bind].
  assert (Hfil : filter (fun c => negb (String.eqb Pd.label_column c)) cols = cols).
  { clear Hall Hex. induction cols as [|c cs IH]; [reflexivity|].
    cbn [filter]. destruct (String.eqb_spec Pd.label_column c) as [E|E].
    - exfalso. apply Hlab. left. symmetry. exact E.
    - cbn [negb]. f_equal. apply IH. intros H. apply Hlab. right. exact H. }
  rewrite Hfil.
  assert (Hmap : Py.mapM (fun c => v <- Pd.lookup c (Pd.signals df) ;; Py.Ok (c, v)) cols =
                 Py.Ok (map (fun c => (c, column df c)) cols)).
  { clear Hfil Hex. induction cols as [|c cs IH]; [reflexivity|].
    cbn [Py.mapM map].
    assert (Hv : Pd.values df c = Py.Ok (column df c)).
    { apply in_columns_values.
      - intros E. apply Hlab. left. exact E.
      - apply Hall. left. reflexivity. }
    unfold Pd.values in Hv. rewrite Hv. cbn [Py.bind].
    rewrite IH; [reflexivity| |].
    + intros H. apply Hlab. right. exact H.
    + intros c' H. apply Hall. right. exact H. }
  rewrite Hmap. reflexivity.
Qed.

Lemma filter_In_all {A : Type} (f : A -> bool) (l : list A) (x : A) :
  In x (filter f l) -> f x = true.
Proof. intros H. apply filter_In in H. tauto. Qed.

Lemma values_selected (df : Pd.DataFrame) (cols : list string) (c : string) :
  In c cols ->
  Pd.values {| Pd.signals := map (fun c => (c, column df c)) cols;
               Pd.sleep_stage := None;
               Pd.n_rows := Pd.n_rows df |} c = Py.Ok (column df c).
Proof.
  intros Hin. unfold Pd.values. cbn [Pd.signals].
  induction cols as [|k ks IH]; [contradiction|].
  cbn [map Pd.lookup]. destruct (String.eqb_spec k c) as [->|Hne]; [reflexivity|].
  apply IH. destruct Hin as [H|H]; [contradiction|exact H].
Qed.

(** X5. [get_imu_signals] and [get_ppg_signals] never raise: they return
    the columns of their lists that the table has, in the lists' order
    with the timestamp first, each with the table's values and row
    count, and never the stage column; with no such column the result
    has no column at all. *)
Theorem loader_signal_selection (df : Pd.DataFrame)
    (include_derived include_timestamp : bool) :
  let present := filter (fun c => Pd.in_columns c df) in
  let ts := if include_timestamp then [Loader.TIMESTAMP_COLUMN] else [] in
  let derived := if include_derived then Loader.DERIVED_COLUMNS else [] in
  exists imu ppg,
    Loader.get_imu_signals df include_timestamp = Py.Ok imu /\
    Loader.get_ppg_signals df include_derived include_timestamp = Py.Ok ppg /\
    Pd.columns imu = present (ts ++ Loader.IMU_COLUMNS) /\
    Pd.columns ppg = present (ts ++ Loader.PPG_COLUMNS ++ derived) /\
    Pd.n_rows imu = Pd.n_rows df /\ Pd.n_rows ppg = Pd.n_rows df /\
    (forall c, In c (Pd.columns imu) -> Pd.values imu c = Pd.values df c) /\
    (forall c, In c (Pd.columns ppg) -> Pd.values ppg c = Pd.values df c).
Proof.
  intros present ts derived.
  assert (Hsel : forall cols,
             ~ In Pd.label_column cols ->
             Pd.select df (present cols) =
             Py.Ok {| Pd.signals := map (fun c => (c, column df c)) (present cols);
                      Pd.sleep_stage := None;
                      Pd.n_rows := Pd.n_rows df |}).
  { intros cols Hlab. apply select_signals.
    - intros H. apply filter_In in H. tauto.
    - intros c H. apply (filter_In_all _ _ _ H). }
  assert (Hcols : forall cols,
             Pd.columns {| Pd.signals := map (fun c => (c, column df c)) (present cols);
                           Pd.sleep_stage := None;
                           Pd.n_rows := Pd.n_rows df |} = present cols).
  { intros cols. unfold Pd.columns. cbn [Pd.signals Pd.sleep_stage].
    rewrite app_nil_r, map_map. cbn [fst]. apply map_id. }
  assert (Hvals : forall cols c,
             ~ In Pd.label_column cols ->
             In c (present cols) ->
             Pd.values {| Pd.signals := map (fun c => (c, column df c)) (present cols);
                          Pd.sleep_stage := None;
                          Pd.n_rows := Pd.n_rows df |} c = Pd.values df c).
  { intros cols c Hlab Hin. rewrite values_selected by exact Hin.
    symmetry. apply in_columns_values.
    - intros E. apply Hlab. apply filter_In in Hin. rewrite <- E. tauto.
    - apply (filter_In_all _ _ _ Hin). }
  assert (Himu : Loader.get_imu_signals df include_timestamp =
                 Pd.select df (present (ts ++ Loader.IMU_COLUMNS))).
  { unfold Loader.get_imu_signals, ts, present.
    destruct include_timestamp; cbn [andb]; [|reflexivity].
    destruct (Pd.in_columns Loader.TIMESTAMP_COLUMN df) eqn:E; [reflexivity|].
    cbn [app filter]. rewrite E. reflexivity. }
  assert (Hppg : Loader.get_ppg_signals df include_derived include_timestamp =
                 Pd.select df (present (ts ++ Loader.PPG_COLUMNS ++ derived))).
  { unfold Loader.get_ppg_signals, ts, derived, present.
    assert (Hidem : forall l,
               filter (fun c => Pd.in_columns c df)
                 (Loader.PPG_COLUMNS ++
                  (if include_derived
                   then filter (fun c => Pd.in_columns c df) l else [])) =
               filter (fun c => Pd.in_columns c df)
                 (Loader.PPG_COLUMNS ++ (if include_derived then l else []))).
    { intros l. rewrite !filter_app. f_equal.
      destruct include_derived; [|reflexivity].
      induction l as [|x xs IH]; [reflexivity|].
      cbn [filter]. destruct (Pd.in_columns x df) eqn:E; cbn [filter];
        rewrite ?E, IH; reflexivity. }
    destruct include_timestamp; cbn [andb].
    - destruct (Pd.in_columns Loader.TIMESTAMP_COLUMN df) eqn:E.
      + destruct include_derived.
        * cbn [app]. cbn [filter]. rewrite E.
          f_equal. f_equal. apply (Hidem Loader.DERIVED_COLUMNS).
        * reflexivity.
      + destruct include_derived.
        * cbn [app]. cbn [filter]. rewrite E.
          f_equal. apply (Hidem Loader.DERIVED_COLUMNS).
        * cbn [app filter]. rewrite E. reflexivity.
    - destruct include_derived.
      + f_equal. apply (Hidem Loader.DERIVED_COLUMNS).
      + reflexivity. }
  assert (Hl1 : ~ In Pd.label_column (ts ++ Loader.IMU_COLUMNS)).
  { unfold ts. destruct include_timestamp; simpl; intros H;
      repeat (destruct H as [H|H]; [discriminate H|]); exact H. }
  assert (Hl2 : ~ In Pd.label_column (ts ++ Loader.PPG_COLUMNS ++ derived)).
  { unfold ts, derived. destruct include_timestamp, include_derived; simpl; intros H;
      repeat (destruct H as [H|H]; [discriminate H|]); exact H. }
  eexists. eexists.
  split; [rewrite Himu; apply (Hsel _ Hl1)|].
  split; [rewrite Hppg; apply (Hsel _ Hl2)|].
  split; [apply Hcols|]. split; [apply Hcols|].
  split; [reflexivity|]. split; [reflexivity|].
  split.
  - intros c Hc. rewrite Hcols in Hc. apply Hvals; assumption.
  - intros c Hc. rewrite Hcols in Hc. apply Hvals; assumption.
Qed.

Lemma loader_signal_selection_witness :
  exists imu ppg,
    Loader.get_imu_signals still_table true = Py.Ok imu /\
    Loader.get_ppg_signals still_table true true = Py.Ok ppg /\
    Pd.columns imu = ["ACC_X"; "ACC_Y"; "ACC_Z"]%string /\
    Pd.columns ppg = [] /\
    Pd.values imu "ACC_X" = Pd.values still_table "ACC_X".
Proof.
  destruct (loader_signal_selection still_table true true)
    as [imu [ppg [Himu [Hppg [Hci [Hcp [_ [_ [Hvi _]]]]]]]]].
  exists imu, ppg. split; [exact Himu|]. split; [exact Hppg|].
  split; [rewrite Hci; reflexivity|]. split; [rewrite Hcp; reflexivity|].
  apply Hvi. rewrite Hci. left. reflexivity.
Defined.

(* ------------------------------------------------------------------ *)
(** ** The loader: stages, magnitude, rate                              *)
(* ------------------------------------------------------------------ *)

Lemma label_in_columns (df : Pd.DataFrame) :
  Pd.in_columns Pd.label_column df =
  match Pd.sleep_stage df with
  | Some _ => true
  | None => existsb (String.eqb Pd.label_column) (map fst (Pd.signals df))
  end.
Proof.
  unfold Pd.in_columns, Pd.columns. rewrite existsb_app.
  destruct (Pd.sleep_stage df).
  - cbn [existsb]. rewrite String.eqb_refl. cbn [orb]. apply orb_true_r.
  - cbn [existsb]. apply orb_false_r.
Qed.

(** X6. [get_sleep_stages] raises [ValueError] on a table without the
    stage column; otherwise it returns the column as it is or, as
    numbers, row by row the code of the stage name, NaN for a name that
    has no code; two names never share a code. *)
Theorem loader_sleep_stages (df : Pd.DataFrame) :
  (Pd.in_columns Loader.LABEL_COLUMN df = false ->
   forall as_numeric,
     Loader.get_sleep_stages df as_numeric = Py.Raise Py.ValueError) /\
  (forall l, Pd.sleep_stage df = Some l ->
     Loader.get_sleep_stages df false = Py.Ok (Loader.Names l) /\
     exists codes,
       Loader.get_sleep_stages df true = Py.Ok (Loader.Codes codes) /\
       length codes = length l /\
       forall k s, nth_error l k = Some s ->
         nth_error codes k = Some (Py.dict_get Loader.STAGE_ENCODING s) /\
         (~ In s (Py.dict_keys Loader.STAGE_ENCODING) ->
          nth_error codes k = Some None)) /\
  (forall s1 s2 code,
     Py.dict_get Loader.STAGE_ENCODING s1 = Some code ->
     Py.dict_get Loader.STAGE_ENCODING s2 = Some code -> s1 = s2).
Proof.
  split; [|split].
  - intros H as_numeric. unfold Loader.get_sleep_stages. rewrite H. reflexivity.
  - intros l Hl.
    assert (Hin : Pd.in_columns Loader.LABEL_COLUMN df = true).
    { change Loader.LABEL_COLUMN with Pd.label_column.
      rewrite label_in_columns, Hl. reflexivity. }
    unfold Loader.get_sleep_stages. rewrite Hin. cbn [negb].
    unfold Pd.labels. rewrite Hl. cbn [Py.bind].
    split; [reflexivity|]. eexists. split; [reflexivity|].
    split; [apply length_map|].
    intros k s Hk. rewrite nth_error_map, Hk. cbn [option_map].
    split; [reflexivity|].
    intros Hs. apply dict_get_None in Hs. rewrite Hs. reflexivity.
  - intros s1 s2 code H1 H2. unfold Loader.STAGE_ENCODING in *.
    cbn [Py.dict_get] in H1, H2.
    repeat match type of H1 with
           | context [String.eqb ?a s1] =>
               destruct (String.eqb_spec a s1); [subst s1|]
           end;
    repeat match type of H2 with
           | context [String.eqb ?a s2] =>
               destruct (String.eqb_spec a s2); [subst s2|]
           end;
    try reflexivity; try discriminate; congruence.
Qed.

Lemma loader_sleep_stages_witness :
  (exists codes,
     Loader.get_sleep_stages tied_table true = Py.Ok (Loader.Codes codes) /\
     nth_error codes 2 = Some (Some 1%Z)) /\
  Loader.get_sleep_stages six_row_table true = Py.Raise Py.ValueError.
Proof.
  destruct (loader_sleep_stages tied_table) as [_ [H _]].
  destruct (H _ eq_refl) as [_ [codes [Hrun [_ Hcodes]]]].
  split.
  - exists codes. split; [exact Hrun|].
    apply (proj1 (Hcodes 2%nat "N1"%string eq_refl)).
  - apply (proj1 (loader_sleep_stages six_row_table)). reflexivity.
Defined.

Lemma vadd_maps {A B : Type} (f : A -> Np.cell) (g : B -> Np.cell)
    (a : list A) (b : list B) :
  Np.vadd (map f a) (map g b) =
  map (fun p => Np.add (f (fst p)) (g (snd p))) (combine a b).
Proof.
  unfold Np.vadd. revert b. induction a as [|x xs IH]; intros [|y ys]; try reflexivity.
  cbn [map combine fst snd]. f_equal. apply IH.
Qed.

Lemma lookup_absent (c : string) (cols : list (string * list Np.cell)) :
  ~ In c (map fst cols) -> Pd.lookup c cols = Py.Raise Py.KeyError.
Proof.
  induction cols as [|[k v] rest IH]; intros H; [reflexivity|].
  cbn [Pd.lookup]. destruct (String.eqb_spec k c) as [E|E].
  - exfalso. apply H. left. exact E.
  - apply IH. intros H'. apply H. right. exact H'.
Qed.

Lemma values_absent (df : Pd.DataFrame) (c : string) :
  Pd.in_columns c df = false -> Pd.values df c = Py.Raise Py.KeyError.
Proof.
  intros H. apply lookup_absent. intros Hin.
  assert (Pd.in_columns c df = true); [|congruence].
  apply existsb_eqb_In. unfold Pd.columns. apply in_or_app. left. exact Hin.
Qed.

(** X7. [compute_imu_magnitude] of the loader gives, on a table with the
    three accelerometer columns, the same array as the magnitude the
    feature extractor computes from them, one value per row; when one of
    the columns is missing it raises [KeyError]. *)
Theorem loader_magnitude_agrees (df : Pd.DataFrame) :
  Pd.well_formed df ->
  (forallb (fun c => Pd.in_columns c df) Loader.IMU_COLUMNS = true ->
   exists m,
     Loader.compute_imu_magnitude df = Py.Ok m /\
     m = Extractor.magnitude_of (column df "ACC_X") (column df "ACC_Y")
           (column df "ACC_Z") /\
     length m = Pd.len df) /\
  (forallb (fun c => Pd.in_columns c df) Loader.IMU_COLUMNS = false ->
   Loader.compute_imu_magnitude df = Py.Raise Py.KeyError).
Proof.
  intros Hwf. unfold Loader.IMU_COLUMNS. cbn [forallb]. split.
  - intros H. apply andb_prop in H. destruct H as [Hx H].
    apply andb_prop in H. destruct H as [Hy H].
    apply andb_prop in H. destruct H as [Hz _].
    assert (Hvx := in_columns_values df (c := "ACC_X") ltac:(discriminate) Hx).
    assert (Hvy := in_columns_values df (c := "ACC_Y") ltac:(discriminate) Hy).
    assert (Hvz := in_columns_values df (c := "ACC_Z") ltac:(discriminate) Hz).
    unfold Loader.compute_imu_magnitude. rewrite Hvx, Hvy, Hvz. cbn [Py.bind].
    eexists. split; [reflexivity|].
    assert (Hlen : forall c, Pd.values df c = Py.Ok (column df c) ->
                   length (column df c) = Pd.n_rows df).
    { intros c Hv. destruct Hwf as [Hall _]. unfold Pd.values in Hv.
      rewrite Forall_forall in Hall.
      revert Hv Hall. generalize (column df c) as v.
      induction (Pd.signals df) as [|[k w] rest IH]; intros v Hv Hall; [discriminate|].
      cbn [Pd.lookup] in Hv. destruct (String.eqb k c).
      - injection Hv as <-. apply (Hall (k, w)). left. reflexivity.
      - apply IH; [exact Hv|]. intros kv Hkv. apply Hall. right. exact Hkv. }
    split.
    + rewrite !vadd_maps, map_map. unfold Extractor.magnitude_of, Extractor.map3.
      reflexivity.
    + rewrite length_map, !vadd_maps, length_map, !length_combine.
      rewrite (Hlen _ Hvx), (Hlen _ Hvy), (Hlen _ Hvz). unfold Pd.len. lia.
  - intros H. unfold Loader.compute_imu_magnitude.
    destruct (Pd.in_columns "ACC_X" df) eqn:Hx.
    + rewrite (in_columns_values df (c := "ACC_X") ltac:(discriminate) Hx). cbn [Py.bind].
      destruct (Pd.in_columns "ACC_Y" df) eqn:Hy.
      * rewrite (in_columns_values df (c := "ACC_Y") ltac:(discriminate) Hy). cbn [Py.bind].
        destruct (Pd.in_columns "ACC_Z" df) eqn:Hz; [discriminate H|].
        rewrite (values_absent _ _ Hz). reflexivity.
      * rewrite (values_absent _ _ Hy). reflexivity.
    + rewrite (values_absent _ _ Hx). reflexivity.
Qed.

Lemma loader_magnitude_agrees_witness :
  Loader.compute_imu_magnitude six_row_table = Py.Raise Py.KeyError /\
  exists m, Loader.compute_imu_magnitude still_table = Py.Ok m /\
            length m = 1920%nat.
Proof.
  split.
  - apply (proj2 (loader_magnitude_agrees six_row_table_well_formed)). reflexivity.
  - destruct (proj1 (loader_magnitude_agrees still_table_well_formed) eq_refl)
      as [m [Hrun [_ Hlen]]].
    exists m. split; [exact Hrun|exact Hlen].
Defined.

Lemma get_time_vector_run (self : Loader.DREAMTLoader) (df : Pd.DataFrame) :
  Loader.get_time_vector self df =
    (if Pd.in_columns Loader.TIMESTAMP_COLUMN df
     then Py.Ok (column df Loader.TIMESTAMP_COLUMN)
     else Py.Ok (map (fun k => Np.fin (INR k / IZR (Loader.rate_of self)))
                     (seq 0 (Pd.len df)))).
Proof.
  unfold Loader.get_time_vector.
  destruct (Pd.in_columns Loader.TIMESTAMP_COLUMN df) eqn:Hts.
  - apply in_columns_values; [discriminate|exact Hts].
  - f_equal. apply map_ext. intros k.
    unfold Np.div, Np.of_nat, Np.of_Z, Np.fin.
    destruct (Req_dec_T (IZR (Loader.rate_of self)) 0) as [H|H]; [|reflexivity].
    exfalso. unfold Loader.rate_of in H.
    destruct (String.eqb (Loader.resolution self) "64Hz"); lra.
Qed.

(** X8. For the resolutions ['64Hz'] and ['100Hz'] the loader works with
    the rate [get_sampling_rate] returns; for any other resolution
    [get_sampling_rate] raises [ValueError] while the loader goes on
    with 100 Hz.  That rate only sets the time vector of a table without
    a timestamp column, whose entry [k] is [k / rate]; with the column,
    the time vector is the column. *)
Theorem loader_rate_fallback (self : Loader.DREAMTLoader) (df : Pd.DataFrame) :
  match Helpers.get_sampling_rate (Loader.resolution self) with
  | Py.Ok sr => IZR (Loader.rate_of self) = sr
  | Py.Raise e =>
      e = Py.ValueError /\ Loader.rate_of self = 100%Z /\
      Loader.resolution self <> "64Hz"%string /\
      Loader.resolution self <> "100Hz"%string
  end /\
  Loader.get_time_vector self df =
    (if Pd.in_columns Loader.TIMESTAMP_COLUMN df
     then Py.Ok (column df Loader.TIMESTAMP_COLUMN)
     else Py.Ok (map (fun k => Np.fin (INR k / IZR (Loader.rate_of self)))
                     (seq 0 (Pd.len df)))).
Proof.
  split.
  - unfold Helpers.get_sampling_rate, Loader.rate_of.
    destruct (String.eqb_spec (Loader.resolution self) "64Hz") as [E|E];
      [reflexivity|].
    destruct (String.eqb_spec (Loader.resolution self) "100Hz") as [E'|E'];
      [reflexivity|].
    repeat split; assumption.
  - apply get_time_vector_run.
Qed.

(* ------------------------------------------------------------------ *)
(** ** The loader: epochs                                               *)
(* ------------------------------------------------------------------ *)

Lemma slice_length {A : Type} (l : list A) (a b : Z) :
  (0 <= a)%Z -> (0 <= b)%Z ->
  length (Py.slice l a b) =
  (Nat.min (Z.to_nat b) (length l) - Nat.min (Z.to_nat a) (length l))%nat.
Proof.
  intros Ha Hb. unfold Py.slice, Py.slice_bound.
  destruct (Z.ltb_spec a 0); [lia|]. destruct (Z.ltb_spec b 0); [lia|].
  rewrite length_firstn, length_skipn. lia.
Qed.

Lemma filter_map_seq_prefix {A : Type} (P : A -> bool) (h : nat -> A) (q c : nat) :
  (q <= c)%nat ->
  (forall k, (k < q)%nat -> P (h k) = true) ->
  (forall k, (q <= k)%nat -> P (h k) = false) ->
  filter P (map h (seq 0 c)) = map h (seq 0 q).
Proof.
  intros Hqc Hin Hout.
  replace c with (q + (c - q))%nat by lia.
  rewrite seq_app, map_app, filter_app.
  assert (H1 : filter P (map h (seq 0 q)) = map h (seq 0 q)).
  { apply forallb_filter_id. apply forallb_forall. intros x Hx.
    apply in_map_iff in Hx. destruct Hx as [k [<- Hk]]. apply in_seq in Hk.
    apply Hin. lia. }
  assert (H2 : filter P (map h (seq (0 + q) (c - q))) = []).
  { generalize (c - q)%nat as m. generalize (Nat.le_refl q).
    generalize q at 2 3 as s. intros s Hs m. revert s Hs.
    induction m as [|m IH]; intros s Hs; [reflexivity|].
    cbn [seq map filter]. rewrite Hout by lia. apply IH. lia. }
  rewrite H1, H2. apply app_nil_r.
Qed.

Lemma time_vector_ok (self : Loader.DREAMTLoader) (df : Pd.DataFrame) :
  exists t, Loader.get_time_vector self df = Py.Ok t.
Proof.
  rewrite get_time_vector_run.
  destruct (Pd.in_columns Loader.TIMESTAMP_COLUMN df); eexists; reflexivity.
Qed.

Lemma get_epoch_data_run (self : Loader.DREAMTLoader) (df : Pd.DataFrame)
    (epoch_duration : R) :
  let spe := Py.int (epoch_duration * IZR (Loader.rate_of self)) in
  (1 <= spe)%Z ->
  Loader.get_epoch_data self df epoch_duration =
  Py.Ok (map (fun k => Pd.iloc df (Z.of_nat k * spe) (Z.of_nat k * spe + spe))
             (seq 0 (Pd.len df / Z.to_nat spe))).
Proof.
  intros spe Hspe. unfold Loader.get_epoch_data. fold spe.
  destruct (time_vector_ok self df) as [t Ht]. rewrite Ht. cbn [Py.bind].
  rewrite range_forward by exact Hspe. cbn [Py.bind]. f_equal.
  rewrite map_map.
  set (n := Pd.len df). set (e := Z.to_nat spe).
  assert (He : (1 <= e)%nat) by (unfold e; lia).
  assert (Hfit : (n / e * e <= n)%nat).
  { pose proof (Nat.Div0.mul_div_le n e). lia. }
  assert (Hnext : (n < (n / e + 1) * e)%nat).
  { pose proof (Nat.mul_succ_div_gt n e ltac:(lia)). nia. }
  apply filter_map_seq_prefix.
  - rewrite range_len_forward by exact Hspe.
    destruct (Z.ltb_spec 0 (Z.of_nat n)) as [Hpos|Hzero].
    + assert (Hq : (Z.of_nat (n / e) - 1 <= (Z.of_nat n - 1) / spe)%Z).
      { apply Z.div_le_lower_bound; [lia|]. unfold e in *. nia. }
      lia.
    + replace n with 0%nat by lia. rewrite Nat.Div0.div_0_l. lia.
  - intros k Hk. apply Z.eqb_eq. unfold Pd.len, Pd.iloc. cbn [Pd.n_rows].
    rewrite slice_length, length_seq by lia. fold (Pd.len df). fold n.
    unfold e in *. nia.
  - intros k Hk. apply Z.eqb_neq. unfold Pd.len, Pd.iloc. cbn [Pd.n_rows].
    rewrite slice_length, length_seq by lia. fold (Pd.len df). fold n.
    unfold e in *. nia.
Qed.

(** X9. [get_epoch_data] with a window of [w >= 1] rows returns the
    [len(df) // w] consecutive windows of exactly [w] rows, window [k]
    being rows [k * w .. k * w + w - 1]; the rows left after the last
    full window are dropped.  A window of no rows raises [ValueError],
    a negative one gives no epoch. *)
Theorem loader_epochs_full_windows (self : Loader.DREAMTLoader)
    (df : Pd.DataFrame) (epoch_duration : R) :
  let spe := Py.int (epoch_duration * IZR (Loader.rate_of self)) in
  ((1 <= spe)%Z ->
   exists epochs,
     Loader.get_epoch_data self df epoch_duration = Py.Ok epochs /\
     length epochs = (Pd.len df / Z.to_nat spe)%nat /\
     forall k, (k < length epochs)%nat ->
       nth_error epochs k =
         Some (Pd.iloc df (Z.of_nat k * spe) (Z.of_nat k * spe + spe)) /\
       Pd.len (Pd.iloc df (Z.of_nat k * spe) (Z.of_nat k * spe + spe)) =
         Z.to_nat spe /\
       (Z.of_nat k * spe + spe <= Z.of_nat (Pd.len df))%Z) /\
  (spe = 0%Z ->
   Loader.get_epoch_data self df epoch_duration = Py.Raise Py.ValueError) /\
  ((spe < 0)%Z -> Loader.get_epoch_data self df epoch_duration = Py.Ok []).
Proof.
  intros spe. split; [|split].
  - intros Hspe.
    pose proof (@get_epoch_data_run self df epoch_duration Hspe) as Hrun.
    fold spe in Hrun. cbv zeta in Hrun.
    eexists. split; [exact Hrun|].
    rewrite length_map, length_seq. split; [reflexivity|].
    intros k Hk.
    assert (Hfit : (Z.of_nat k * spe + spe <= Z.of_nat (Pd.len df))%Z).
    { pose proof (Nat.Div0.mul_div_le (Pd.len df) (Z.to_nat spe)). nia. }
    split; [|split].
    + rewrite nth_error_map_seq by exact Hk. reflexivity.
    + unfold Pd.len at 1. apply n_rows_iloc_window; lia.
    + exact Hfit.
  - intros H0. unfold Loader.get_epoch_data. fold spe.
    destruct (time_vector_ok self df) as [t Ht]. rewrite Ht. cbn [Py.bind].
    rewrite H0. reflexivity.
  - intros Hneg. unfold Loader.get_epoch_data. fold spe.
    destruct (time_vector_ok self df) as [t Ht]. rewrite Ht. cbn [Py.bind].
    unfold Py.range, Py.range_len.
    destruct (Z.eqb_spec spe 0); [lia|].
    destruct (Z.gtb_spec spe 0); [lia|].
    destruct (Z.ltb_spec (Z.of_nat (Pd.len df)) 0); [lia|].
    reflexivity.
Qed.

Lemma loader_epochs_full_windows_witness :
  exists epochs,
    Loader.get_epoch_data {| Loader.resolution := "64Hz" |} still_table 10 =
      Py.Ok epochs /\
    length epochs = 3%nat.
Proof.
  assert (Hint : Py.int (10 * IZR (Loader.rate_of {| Loader.resolution := "64Hz" |}))
                 = 640%Z).
  { change (Loader.rate_of {| Loader.resolution := "64Hz" |}) with 64%Z.
    replace (10 * 64)%R with (IZR 640) by lra.
    apply int_IZR. }
  destruct (proj1 (loader_epochs_full_windows
                     {| Loader.resolution := "64Hz" |} still_table 10)
              ltac:(rewrite Hint; lia)) as [epochs [Hrun [Hlen _]]].
  exists epochs. split; [exact Hrun|]. rewrite Hlen, Hint. reflexivity.
Defined.

Section LoaderAndExtractor.
Context {L : Library}.

(** X10. When the loader's window has as many rows as the extractor's
    and the extractor's stride equals its window (no overlap),
    [get_epoch_data] and [extract_all_features] cut a table into the
    same windows: the feature table has one row per loader epoch, and
    row [k] holds the features of loader epoch [k], computed from all the
    rows of that epoch's table and from no other row. *)
Theorem loader_epochs_match_extractor (loader : Loader.DREAMTLoader)
    (self : Extractor.FeatureExtractor) (df : Pd.DataFrame)
    (epoch_duration : R) (include_imu include_ppg : bool) :
  Pd.well_formed df ->
  (1 <= Extractor.samples_per_epoch self)%Z ->
  Extractor.step_size self = Extractor.samples_per_epoch self ->
  Py.int (epoch_duration * IZR (Loader.rate_of loader)) =
    Extractor.samples_per_epoch self ->
  exists windows epochs,
    Loader.get_epoch_data loader df epoch_duration = Py.Ok windows /\
    Extractor.extract_epochs self df include_imu include_ppg = Py.Ok epochs /\
    Extractor.extract_all_features self df include_imu include_ppg =
      Py.Ok (Pd.from_records epochs) /\
    Pd.ft_len (Pd.from_records epochs) = length windows /\
    forall k window, nth_error windows k = Some window ->
      Pd.len window = Z.to_nat (Extractor.samples_per_epoch self) /\
      nth_error epochs k =
        Some (epoch_of_rows self window include_imu include_ppg 0 (Pd.len window)).
Proof.
  intros Hwf HE HS Hint.
  pose proof (@get_epoch_data_run loader df epoch_duration
                ltac:(rewrite Hint; exact HE)) as Hrun.
  rewrite Hint in Hrun. cbv zeta in Hrun.
  destruct (extract_epochs_rows self include_imu include_ppg Hwf
              ltac:(rewrite HS; exact HE) HE)
    as [epochs [Hep [Hall [Hrows [Hcount Hk]]]]].
  rewrite HS in Hcount, Hk.
  set (E := Extractor.samples_per_epoch self) in *.
  set (N := Pd.len df) in *.
  assert (Hlen : length epochs = (N / Z.to_nat E)%nat).
  { assert (HZ : Z.of_nat (length epochs) = (Z.of_nat N / E)%Z).
    { rewrite Hcount. destruct (Z.ltb_spec (Z.of_nat N) E) as [Hlt|Hge].
      - symmetry. apply Z.div_small. lia.
      - replace (Z.of_nat N) with ((Z.of_nat N - E) + 1 * E)%Z at 2 by lia.
        rewrite Z.div_add by lia. reflexivity. }
    apply Nat2Z.inj. rewrite HZ.
    rewrite <- (Z2Nat.id E) at 1 by lia. rewrite <- Nat2Z.inj_div. reflexivity. }
  eexists. exists epochs. split; [exact Hrun|]. split; [exact Hep|].
  split; [exact Hall|]. split.
  - unfold Pd.ft_len. rewrite Hrows, length_map, length_seq. exact Hlen.
  - intros k window Hw.
    assert (Hlt : (k < N / Z.to_nat E)%nat).
    { assert (Hsome : nth_error
                (map (fun k0 => Pd.iloc df (Z.of_nat k0 * E) (Z.of_nat k0 * E + E))
                     (seq 0 (N / Z.to_nat E))) k <> None)
        by (rewrite Hw; discriminate).
      apply nth_error_Some in Hsome. rewrite length_map, length_seq in Hsome.
      exact Hsome. }
    rewrite nth_error_map_seq in Hw by exact Hlt. injection Hw as <-.
    destruct (Hk k ltac:(rewrite Hlen; exact Hlt)) as (H0 & Hend & Hnth).
    assert (Hrowsk : Pd.len (Pd.iloc df (Z.of_nat k * E) (Z.of_nat k * E + E)) =
                     Z.to_nat E).
    { unfold Pd.len at 1. apply n_rows_iloc_window; [exact H0|lia|exact Hend]. }
    split; [exact Hrowsk|].
    rewrite Hrowsk, epoch_of_rows_iloc by (try assumption; lia).
    exact Hnth.
Qed.

End LoaderAndExtractor.

Lemma loader_epochs_match_extractor_witness :
  exists windows epochs,
    Loader.get_epoch_data {| Loader.resolution := "64Hz" |} still_table 10 =
      Py.Ok windows /\
    Extractor.extract_epochs (L := fixed_library (Py.Ok []))
      (extractor_with 64 640 640) still_table true true = Py.Ok epochs /\
    Pd.ft_len (Pd.from_records epochs) = length windows.
Proof.
  assert (Hint : Py.int (10 * IZR (Loader.rate_of {| Loader.resolution := "64Hz" |}))
                 = 640%Z).
  { change (Loader.rate_of {| Loader.resolution := "64Hz" |}) with 64%Z.
    replace (10 * 64)%R with (IZR 640) by lra.
    apply int_IZR. }
  destruct (@loader_epochs_match_extractor (fixed_library (Py.Ok []))
              {| Loader.resolution := "64Hz" |} (extractor_with 64 640 640)
              still_table 10 true true still_table_well_formed
              ltac:(simpl; lia) eq_refl Hint)
    as [windows [epochs [Hw [He [_ [Hlen _]]]]]].
  exists windows, epochs. repeat split; assumption.
Defined.

(* ------------------------------------------------------------------ *)
(** ** Bytes and packets                                                *)
(* ------------------------------------------------------------------ *)

Lemma lor_shiftl_add (x y n : Z) :
  (0 <= n)%Z -> (0 <= y < 2 ^ n)%Z ->
  Z.lor (Z.shiftl x n) y = (x * 2 ^ n + y)%Z.
Proof.
  intros Hn Hy. rewrite Z.shiftl_mul_pow2 by exact Hn.
  rewrite <- Z.add_lor_land.
  assert (Hland : Z.land (x * 2 ^ n) y = 0%Z).
  { apply Z.bits_inj'. intros m Hm. rewrite Z.land_spec, Z.bits_0.
    destruct (Z.lt_ge_cases m n) as [Hlt|Hge].
    - rewrite Z.mul_pow2_bits_low by exact Hlt. reflexivity.
    - destruct (Z.eq_dec y 0) as [->|Hy0].
      + rewrite Z.bits_0. apply andb_false_r.
      + rewrite (Z.bits_above_log2 y m); [apply andb_false_r|lia|].
        apply Z.log2_lt_pow2; [lia|].
        apply Z.lt_le_trans with (2 ^ n)%Z; [lia|].
        apply Z.pow_le_mono_r; lia. }
  rewrite Hland. lia.
Qed.

Lemma byte_at_range (data : list Byte.byte) (i : nat) :
  (0 <= Sensors.byte_at data i < 256)%Z.
Proof.
  unfold Sensors.byte_at. pose proof (Byte.to_N_bounded (nth i data Byte.x00)). lia.
Qed.

Lemma three_bytes (a b c : Z) :
  (0 <= a < 256)%Z -> (0 <= b < 256)%Z -> (0 <= c < 256)%Z ->
  Z.lor (Z.lor (Z.shiftl a 16) (Z.shiftl b 8)) c = (a * 65536 + b * 256 + c)%Z.
Proof.
  intros Ha Hb Hc.
  replace (Z.shiftl a 16) with (Z.shiftl (Z.shiftl a 8) 8)
    by (rewrite Z.shiftl_shiftl by lia; reflexivity).
  rewrite <- Z.shiftl_lor.
  rewrite (@lor_shiftl_add a b 8) by (simpl; lia).
  rewrite lor_shiftl_add by (simpl; lia).
  change (2 ^ 8)%Z with 256%Z. lia.
Qed.

Lemma byte_at_app_l (a b : list Byte.byte) (i : nat) :
  (i < length a)%nat -> Sensors.byte_at (a ++ b) i = Sensors.byte_at a i.
Proof. intros H. unfold Sensors.byte_at. rewrite app_nth1 by exact H. reflexivity. Qed.

Lemma byte_at_app_r (a b : list Byte.byte) (i : nat) :
  Sensors.byte_at (a ++ b) (length a + i) = Sensors.byte_at b i.
Proof.
  unfold Sensors.byte_at. rewrite app_nth2 by lia.
  replace (length a + i - length a)%nat with i by lia. reflexivity.
Qed.

Lemma parse_ppg_loop_run (data : list Byte.byte) (fuel offset : nat)
    (samples : list Sensors.ppg_sample) :
  ((length data - offset) / 8 <= fuel)%nat ->
  Sensors.parse_ppg_loop fuel data offset samples =
  samples ++ map (fun k => ppg_sample_at data (offset + 8 * k))
                 (seq 0 ((length data - offset) / 8)).
Proof.
  revert offset samples. induction fuel as [|fuel IH]; intros offset samples Hfuel.
  - replace ((length data - offset) / 8)%nat with 0%nat by lia.
    cbn [Sensors.parse_ppg_loop seq map]. rewrite app_nil_r. reflexivity.
  - cbn [Sensors.parse_ppg_loop]. unfold Sensors.ppg_sample_size.
    destruct (Nat.leb_spec (offset + 8) (length data)) as [Hle|Hgt].
    + assert (Hq : ((length data - offset) / 8 =
                    S ((length data - (offset + 8)) / 8))%nat).
      { replace (length data - offset)%nat
          with ((length data - (offset + 8)) + 1 * 8)%nat by lia.
        rewrite Nat.div_add by lia. lia. }
      rewrite IH by lia. rewrite Hq. cbn [seq map].
      rewrite <- app_assoc. cbn [app]. f_equal. f_equal.
      * unfold ppg_sample_at, Sensors.unpack_H.
        rewrite !three_bytes by apply byte_at_range.
        rewrite !Nat.mul_0_r, !Nat.add_0_r. reflexivity.
      * rewrite <- seq_shift, map_map. apply map_ext. intros k.
        f_equal. lia.
    + rewrite Nat.div_small by lia. cbn [seq map]. rewrite app_nil_r. reflexivity.
Qed.

Lemma parse_ppg_data_run (data : list Byte.byte) :
  Sensors.parse_ppg_data data =
  map (fun k => ppg_sample_at data (8 * k)) (seq 0 (length data / 8)).
Proof.
  unfold Sensors.parse_ppg_data. rewrite parse_ppg_loop_run.
  - rewrite Nat.sub_0_r. reflexivity.
  - rewrite Nat.sub_0_r. apply Nat.Div0.div_le_upper_bound. lia.
Qed.

Lemma parse_imu_loop_run (data : list Byte.byte) (fuel offset : nat)
    (samples : list Sensors.imu_sample) :
  ((length data - offset) / 14 <= fuel)%nat ->
  Sensors.parse_imu_loop fuel data offset samples =
  samples ++ map (fun k => imu_sample_at data (offset + 14 * k))
                 (seq 0 ((length data - offset) / 14)).
Proof.
  revert offset samples. induction fuel as [|fuel IH]; intros offset samples Hfuel.
  - replace ((length data - offset) / 14)%nat with 0%nat by lia.
    cbn [Sensors.parse_imu_loop seq map]. rewrite app_nil_r. reflexivity.
  - cbn [Sensors.parse_imu_loop]. unfold Sensors.imu_sample_size.
    destruct (Nat.leb_spec (offset + 14) (length data)) as [Hle|Hgt].
    + assert (Hq : ((length data - offset) / 14 =
                    S ((length data - (offset + 14)) / 14))%nat).
      { replace (length data - offset)%nat
          with ((length data - (offset + 14)) + 1 * 14)%nat by lia.
        rewrite Nat.div_add by lia. lia. }
      rewrite IH by lia. rewrite Hq. cbn [seq map].
      rewrite <- app_assoc. cbn [app]. f_equal. f_equal.
      * unfold imu_sample_at.
        rewrite !Nat.mul_0_r, !Nat.add_0_r. reflexivity.
      * rewrite <- seq_shift, map_map. apply map_ext. intros k.
        f_equal. lia.
    + rewrite Nat.div_small by lia. cbn [seq map]. rewrite app_nil_r. reflexivity.
Qed.

Lemma parse_imu_data_run (data : list Byte.byte) :
  Sensors.parse_imu_data data =
  map (fun k => imu_sample_at data (14 * k)) (seq 0 (length data / 14)).
Proof.
  unfold Sensors.parse_imu_data. rewrite parse_imu_loop_run.
  - rewrite Nat.sub_0_r. reflexivity.
  - rewrite Nat.sub_0_r. apply Nat.Div0.div_le_upper_bound. lia.
Qed.

Lemma ppg_sample_at_app_l (a b : list Byte.byte) (o : nat) :
  (o + 8 <= length a)%nat -> ppg_sample_at (a ++ b) o = ppg_sample_at a o.
Proof.
  intros H. unfold ppg_sample_at. rewrite !byte_at_app_l by lia. reflexivity.
Qed.

Lemma ppg_sample_at_app_r (a b : list Byte.byte) (o : nat) :
  ppg_sample_at (a ++ b) (length a + o) = ppg_sample_at b o.
Proof.
  unfold ppg_sample_at. rewrite <- !Nat.add_assoc, !byte_at_app_r. reflexivity.
Qed.

Lemma imu_sample_at_app_l (a b : list Byte.byte) (o : nat) :
  (o + 14 <= length a)%nat -> imu_sample_at (a ++ b) o = imu_sample_at a o.
Proof.
  intros H. unfold imu_sample_at, Sensors.unpack_h, Sensors.unpack_H.
  rewrite !byte_at_app_l by lia. reflexivity.
Qed.

Lemma imu_sample_at_app_r (a b : list Byte.byte) (o : nat) :
  imu_sample_at (a ++ b) (length a + o) = imu_sample_at b o.
Proof.
  unfold imu_sample_at, Sensors.unpack_h, Sensors.unpack_H.
  rewrite <- !Nat.add_assoc, !byte_at_app_r. reflexivity.
Qed.

Lemma map_seq_blocks {A : Type} (size m n : nat) (f g h : nat -> A) :
  (forall k, (k < m)%nat -> f (size * k)%nat = g (size * k)%nat) ->
  (forall k, f (size * m + size * k)%nat = h (size * k)%nat) ->
  map (fun k => f (size * k)%nat) (seq 0 (m + n)) =
  map (fun k => g (size * k)%nat) (seq 0 m) ++
  map (fun k => h (size * k)%nat) (seq 0 n).
Proof.
  intros Hl Hr. rewrite seq_app, map_app. f_equal.
  - apply map_ext_in. intros k Hk. apply in_seq in Hk. apply Hl. lia.
  - rewrite Nat.add_0_l.
    replace (seq m n) with (map (fun k => m + k)%nat (seq 0 n)).
    + rewrite map_map. apply map_ext. intros k.
      rewrite Nat.mul_add_distr_l. apply Hr.
    + clear. revert m. induction n as [|n IH]; intros m; [reflexivity|].
      cbn [seq map]. rewrite Nat.add_0_r. f_equal.
      rewrite <- seq_shift, map_map.
      rewrite <- (IH (S m)). apply map_ext. intros k. lia.
Qed.

Lemma unpack_H_range (data : list Byte.byte) (o : nat) :
  (0 <= Sensors.unpack_H data o < 65536)%Z.
Proof.
  unfold Sensors.unpack_H.
  pose proof (byte_at_range data o). pose proof (byte_at_range data (o + 1)). lia.
Qed.

Lemma unpack_h_range (data : list Byte.byte) (o : nat) :
  (-32768 <= Sensors.unpack_h data o <= 32767)%Z.
Proof.
  unfold Sensors.unpack_h. pose proof (unpack_H_range data o).
  destruct (Z.ltb_spec (Sensors.unpack_H data o) 32768); lia.
Qed.

Lemma nth_error_map_seq_inv {A : Type} (f : nat -> A) (n k : nat) (x : A) :
  nth_error (map f (seq 0 n)) k = Some x -> (k < n)%nat /\ x = f k.
Proof.
  intros H.
  assert (Hk : (k < n)%nat).
  { assert (Hs : nth_error (map f (seq 0 n)) k <> None) by (rewrite H; discriminate).
    apply nth_error_Some in Hs. rewrite length_map, length_seq in Hs. exact Hs. }
  split; [exact Hk|]. rewrite nth_error_map_seq in H by exact Hk.
  injection H as <-. reflexivity.
Qed.

(** X11. [parse_ppg_data] returns one sample for every complete group
    of eight bytes and ignores the bytes after the last one; sample [k]
    is read from bytes [8k .. 8k+7] alone: a 16-bit timestamp and two
    24-bit values, most significant byte first.  Parsing a packet that
    continues a whole number of samples with further bytes gives the
    samples of the two parts, one after the other. *)
Theorem parse_ppg_samples (data : list Byte.byte) :
  length (Sensors.parse_ppg_data data) = (length data / 8)%nat /\
  (forall k s, nth_error (Sensors.parse_ppg_data data) k = Some s ->
     let b := fun i => Sensors.byte_at data (8 * k + i) in
     (8 * k + 8 <= length data)%nat /\
     Sensors.ppg_timestamp s = (b 0%nat * 256 + b 1%nat)%Z /\
     Sensors.red s = (b 2%nat * 65536 + b 3%nat * 256 + b 4%nat)%Z /\
     Sensors.ir s = (b 5%nat * 65536 + b 6%nat * 256 + b 7%nat)%Z /\
     (0 <= Sensors.ppg_timestamp s < 2 ^ 16)%Z /\
     (0 <= Sensors.red s < 2 ^ 24)%Z /\ (0 <= Sensors.ir s < 2 ^ 24)%Z) /\
  (forall head tail, data = head ++ tail -> (length head mod 8 = 0)%nat ->
     Sensors.parse_ppg_data data =
     Sensors.parse_ppg_data head ++ Sensors.parse_ppg_data tail) /\
  (forall tail, (length tail < 8)%nat -> (length data mod 8 = 0)%nat ->
     Sensors.parse_ppg_data (data ++ tail) = Sensors.parse_ppg_data data).
Proof.
  assert (Happ : forall head tail, (length head mod 8 = 0)%nat ->
            Sensors.parse_ppg_data (head ++ tail) =
            Sensors.parse_ppg_data head ++ Sensors.parse_ppg_data tail).
  { intros head tail Hm. rewrite !parse_ppg_data_run.
    assert (Hh : length head = (8 * (length head / 8))%nat).
    { pose proof (Nat.div_mod_eq (length head) 8). lia. }
    rewrite length_app.
    replace ((length head + length tail) / 8)%nat
      with (length head / 8 + length tail / 8)%nat.
    - apply map_seq_blocks with (f := ppg_sample_at (head ++ tail)).
      + intros k Hk. apply ppg_sample_at_app_l. lia.
      + intros k. rewrite <- Hh. apply ppg_sample_at_app_r.
    - rewrite Hh at 2. rewrite Nat.mul_comm, Nat.div_add_l by lia. reflexivity. }
  split; [|split; [|split]].
  - rewrite parse_ppg_data_run, length_map, length_seq. reflexivity.
  - intros k s Hs b. rewrite parse_ppg_data_run in Hs.
    apply nth_error_map_seq_inv in Hs. destruct Hs as [Hk ->].
    assert (Hfit : (8 * k + 8 <= length data)%nat).
    { pose proof (Nat.Div0.mul_div_le (length data) 8). lia. }
    cbn [ppg_sample_at Sensors.ppg_timestamp Sensors.red Sensors.ir].
    fold b.
    pose proof (byte_at_range data (8 * k + 0)). pose proof (byte_at_range data (8 * k + 1)).
    pose proof (byte_at_range data (8 * k + 2)). pose proof (byte_at_range data (8 * k + 3)).
    pose proof (byte_at_range data (8 * k + 4)). pose proof (byte_at_range data (8 * k + 5)).
    pose proof (byte_at_range data (8 * k + 6)). pose proof (byte_at_range data (8 * k + 7)).
    change (2 ^ 16)%Z with 65536%Z. change (2 ^ 24)%Z with 16777216%Z.
    unfold b. repeat split; try reflexivity; lia.
  - intros head tail -> Hm. apply Happ. exact Hm.
  - intros tail Ht Hm. rewrite Happ by exact Hm.
    rewrite (parse_ppg_data_run tail), Nat.div_small by exact Ht.
    cbn [seq map]. apply app_nil_r.
Qed.

Lemma parse_ppg_samples_witness :
  exists s,
    Sensors.parse_ppg_data
      [Byte.x01; Byte.x02; Byte.x01; Byte.x00; Byte.x00; Byte.x00; Byte.x00;
       Byte.xff; Byte.x07] = [s] /\
    Sensors.ppg_timestamp s = 258%Z /\ Sensors.red s = 65536%Z /\
    Sensors.ir s = 255%Z.
Proof.
  set (data := [Byte.x01; Byte.x02; Byte.x01; Byte.x00; Byte.x00; Byte.x00;
                Byte.x00; Byte.xff; Byte.x07]).
  destruct (parse_ppg_samples data) as [Hlen [Hat _]].
  destruct (Sensors.parse_ppg_data data) as [|s [|s' rest]] eqn:Hrun;
    try discriminate Hlen.
  exists s. split; [reflexivity|].
  destruct (Hat 0%nat s eq_refl) as [_ [Hts [Hred [Hir _]]]].
  rewrite Hts, Hred, Hir. repeat split; reflexivity.
Defined.

Lemma scaled_range (v : Z) (d : R) :
  (-32768 <= v <= 32767)%Z -> (0 < d)%R ->
  (-32768 / d <= IZR v / d <= 32767 / d)%R.
Proof.
  intros [Hlo Hhi] Hd. apply IZR_le in Hlo, Hhi.
  split; apply Rmult_le_compat_r; try assumption;
    left; apply Rinv_0_lt_compat; exact Hd.
Qed.

(** X12. [parse_imu_data] returns one sample for every complete group
    of fourteen bytes and ignores the bytes after the last one; sample
    [k] is read from bytes [14k .. 14k+13] alone: an unsigned 16-bit
    timestamp and six signed 16-bit values, the accelerations divided by
    1000 and so between -32.768 and 32.767, the rotation rates divided
    by 10 and so between -3276.8 and 3276.7.  Parsing a packet that
    continues a whole number of samples gives the samples of the two
    parts, one after the other. *)
Theorem parse_imu_samples (data : list Byte.byte) :
  length (Sensors.parse_imu_data data) = (length data / 14)%nat /\
  (forall k s, nth_error (Sensors.parse_imu_data data) k = Some s ->
     let h := fun i => IZR (Sensors.unpack_h data (14 * k + i)) in
     (14 * k + 14 <= length data)%nat /\
     Sensors.imu_timestamp s = Sensors.unpack_H data (14 * k) /\
     (0 <= Sensors.imu_timestamp s < 2 ^ 16)%Z /\
     Sensors.accel s = (h 2%nat / 1000, h 4%nat / 1000, h 6%nat / 1000)%R /\
     Sensors.gyro s = (h 8%nat / 10, h 10%nat / 10, h 12%nat / 10)%R /\
     (forall i, -32768 / 1000 <= h i / 1000 <= 32767 / 1000)%R /\
     (forall i, -32768 / 10 <= h i / 10 <= 32767 / 10)%R) /\
  (forall head tail, data = head ++ tail -> (length head mod 14 = 0)%nat ->
     Sensors.parse_imu_data data =
     Sensors.parse_imu_data head ++ Sensors.parse_imu_data tail) /\
  (forall tail, (length tail < 14)%nat -> (length data mod 14 = 0)%nat ->
     Sensors.parse_imu_data (data ++ tail) = Sensors.parse_imu_data data).
Proof.
  assert (Happ : forall head tail, (length head mod 14 = 0)%nat ->
            Sensors.parse_imu_data (head ++ tail) =
            Sensors.parse_imu_data head ++ Sensors.parse_imu_data tail).
  { intros head tail Hm. rewrite !parse_imu_data_run.
    assert (Hh : length head = (14 * (length head / 14))%nat).
    { pose proof (Nat.div_mod_eq (length head) 14). lia. }
    rewrite length_app.
    replace ((length head + length tail) / 14)%nat
      with (length head / 14 + length tail / 14)%nat.
    - apply map_seq_blocks with (f := imu_sample_at (head ++ tail)).
      + intros k Hk. apply imu_sample_at_app_l. lia.
      + intros k. rewrite <- Hh. apply imu_sample_at_app_r.
    - rewrite Hh at 2. rewrite Nat.mul_comm, Nat.div_add_l by lia. reflexivity. }
  split; [|split; [|split]].
  - rewrite parse_imu_data_run, length_map, length_seq. reflexivity.
  - intros k s Hs h. rewrite parse_imu_data_run in Hs.
    apply nth_error_map_seq_inv in Hs. destruct Hs as [Hk ->].
    assert (Hfit : (14 * k + 14 <= length data)%nat).
    { pose proof (Nat.Div0.mul_div_le (length data) 14). lia. }
    cbn [imu_sample_at Sensors.imu_timestamp Sensors.accel Sensors.gyro].
    split; [exact Hfit|]. split; [reflexivity|].
    split; [change (2 ^ 16)%Z with 65536%Z; apply unpack_H_range|].
    split; [reflexivity|]. split; [reflexivity|].
    split; intros i; (apply scaled_range; [apply unpack_h_range|lra]).
  - intros head tail -> Hm. apply Happ. exact Hm.
  - intros tail Ht Hm. rewrite Happ by exact Hm.
    rewrite (parse_imu_data_run tail), Nat.div_small by exact Ht.
    cbn [seq map]. apply app_nil_r.
Qed.

Lemma parse_imu_samples_witness :
  exists s,
    Sensors.parse_imu_data
      [Byte.x00; Byte.x05; Byte.xff; Byte.xff; Byte.x00; Byte.x00; Byte.x03;
       Byte.xe8; Byte.x00; Byte.x00; Byte.x00; Byte.x00; Byte.x00; Byte.x0a;
       Byte.x09] = [s] /\
    Sensors.imu_timestamp s = 5%Z /\
    Sensors.accel s = (-1 / 1000, 0 / 1000, 1000 / 1000)%R.
Proof.
  set (data := [Byte.x00; Byte.x05; Byte.xff; Byte.xff; Byte.x00; Byte.x00;
                Byte.x03; Byte.xe8; Byte.x00; Byte.x00; Byte.x00; Byte.x00;
                Byte.x00; Byte.x0a; Byte.x09]).
  destruct (parse_imu_samples data) as [Hlen [Hat _]].
  destruct (Sensors.parse_imu_data data) as [|s [|s' rest]] eqn:Hrun;
    try discriminate Hlen.
  exists s. split; [reflexivity|].
  destruct (Hat 0%nat s eq_refl) as [_ [Hts [_ [Hacc _]]]].
  rewrite Hts, Hacc. split; reflexivity.
Defined.

Lemma deliver_counters (ns : list notification) (r : Sensors.test_results) :
  let r' := fold_left deliver ns r in
  Sensors.imu_samples r' = (Sensors.imu_samples r + imu_total ns)%Z /\
  Sensors.ppg_samples r' = (Sensors.ppg_samples r + ppg_total ns)%Z /\
  Sensors.hr_readings r' = Sensors.hr_readings r ++ hr_bytes ns.
Proof.
  revert r. induction ns as [|n ns IH]; intros r; cbn zeta.
  - cbn [fold_left imu_total ppg_total hr_bytes map fold_right flat_map].
    rewrite !Z.add_0_r, app_nil_r. repeat split.
  - cbn [fold_left]. destruct (IH (deliver r n)) as [Hi [Hp Hh]].
    rewrite Hi, Hp, Hh. unfold imu_total, ppg_total, hr_bytes.
    cbn [map fold_right flat_map].
    destruct n as [data|data|data];
      cbn [deliver Sensors.imu_notification_handler Sensors.ppg_notification_handler
           Sensors.hr_notification_handler Sensors.imu_samples Sensors.ppg_samples
           Sensors.hr_readings].
    + rewrite parse_imu_data_run, length_map, length_seq.
      unfold complete_samples. repeat split; lia.
    + rewrite parse_ppg_data_run, length_map, length_seq.
      unfold complete_samples. repeat split; lia.
    + destruct (2 <=? length data)%nat; rewrite <- ?app_assoc;
        repeat split; try lia; reflexivity.
Qed.

(** X13. After any run of notifications the counters of [test_results]
    hold the number of complete IMU samples and of complete PPG samples
    summed packet by packet, and the heart-rate list holds the second
    byte of every heart-rate packet of two bytes or more, each between 0
    and 255.  A sample split between two packets is counted in neither:
    two packets never count more samples than their bytes joined. *)
Theorem notification_counters (ns : list notification) :
  let r := fold_left deliver ns Sensors.initial_results in
  Sensors.imu_samples r = imu_total ns /\
  Sensors.ppg_samples r = ppg_total ns /\
  Sensors.hr_readings r = hr_bytes ns /\
  Forall (fun hr => 0 <= hr < 256)%Z (Sensors.hr_readings r) /\
  (forall a b,
     (imu_total [ImuPacket a; ImuPacket b] <= complete_samples 14 (a ++ b))%Z /\
     (ppg_total [PpgPacket a; PpgPacket b] <= complete_samples 8 (a ++ b))%Z).
Proof.
  intros r. destruct (deliver_counters ns Sensors.initial_results) as [Hi [Hp Hh]].
  fold r in Hi, Hp, Hh. cbn [Sensors.initial_results Sensors.imu_samples
    Sensors.ppg_samples Sensors.hr_readings app] in Hi, Hp, Hh.
  rewrite Z.add_0_l in Hi, Hp.
  split; [exact Hi|]. split; [exact Hp|]. split; [exact Hh|]. split.
  - rewrite Hh. apply Forall_forall. intros hr Hin.
    unfold hr_bytes in Hin. apply in_flat_map in Hin.
    destruct Hin as [n [_ Hin]]. destruct n as [data|data|data]; try contradiction.
    destruct (2 <=? length data)%nat; [|contradiction].
    destruct Hin as [<-|[]]. apply byte_at_range.
  - intros a b. unfold imu_total, ppg_total, complete_samples.
    cbn [map fold_right]. rewrite length_app.
    assert (Hdiv : forall size x y, (0 < size)%nat ->
               (x / size + y / size <= (x + y) / size)%nat).
    { intros size x y Hs. apply Nat.div_le_lower_bound; [lia|].
      pose proof (Nat.Div0.mul_div_le x size).
      pose proof (Nat.Div0.mul_div_le y size). lia. }
    pose proof (Hdiv 14%nat (length a) (length b) ltac:(lia)).
    pose proof (Hdiv 8%nat (length a) (length b) ltac:(lia)).
    lia.
Qed.

(* ------------------------------------------------------------------ *)
(** ** Window and stride                                                *)
(* ------------------------------------------------------------------ *)



Section Coverage.
Context {L : Library}.


End Coverage.


(* ------------------------------------------------------------------ *)
(** ** Strides of no row, tables without a modality                     *)
(* ------------------------------------------------------------------ *)

Section EpochLoop.
Context {L : Library}.


Lemma names_without_imu (ppg_on label_on : bool) (p : Presence) (c : string) :
  In c (epoch_names false ppg_on label_on p) -> String.prefix "imu_" c = false.
Proof.
  intros Hc.
  assert (Hincl : incl (epoch_names false ppg_on label_on p)
                       (epoch_names false true true all_present)).
  { unfold epoch_names, ppg_names, stat_names.
    cbn [all_present valid_x valid_y valid_z valid_mag valid_bvp valid_hr hrv_ok].
    repeat first
      [ apply incl_app_app
      | apply incl_if_then
      | apply incl_refl ]. }
  assert (Hall : forallb (fun k => negb (String.prefix "imu_" k))
                   (epoch_names false true true all_present) = true)
    by (vm_compute; reflexivity).
  rewrite forallb_forall in Hall.
  apply negb_true_iff. apply Hall. apply Hincl. exact Hc.
Qed.

Lemma names_without_ppg (imu_on label_on : bool) (p : Presence) (c : string) :
  In c (epoch_names imu_on false label_on p) ->
  String.prefix "ppg_" c = false /\ String.prefix "hr_" c = false /\
  String.prefix "hrv_" c = false.
Proof.
  intros Hc.
  assert (Hincl : incl (epoch_names imu_on false label_on p)
                       (epoch_names true false true all_present)).
  { unfold epoch_names, imu_names, stat_names.
    cbn [all_present valid_x valid_y valid_z valid_mag valid_bvp valid_hr hrv_ok].
    repeat first
      [ apply incl_app_app
      | apply incl_if_then
      | apply incl_refl ]. }
  assert (Hall : forallb (fun k => negb (String.prefix "ppg_" k) &&
                                   negb (String.prefix "hr_" k) &&
                                   negb (String.prefix "hrv_" k))
                   (epoch_names true false true all_present) = true)
    by (vm_compute; reflexivity).
  rewrite forallb_forall in Hall.
  specialize (Hall c (Hincl c Hc)).
  apply andb_prop in Hall. destruct Hall as [Hall H3].
  apply andb_prop in Hall. destruct Hall as [H1 H2].
  rewrite negb_true_iff in H1, H2, H3. tauto.
Qed.

Lemma table_column_origin (self : Extractor.FeatureExtractor) (df : Pd.DataFrame)
    (include_imu include_ppg : bool) (t : Pd.FeatureTable) (c : string) :
  Extractor.extract_all_features self df include_imu include_ppg = Py.Ok t ->
  In c (Pd.ft_columns t) ->
  exists p,
    In c (epoch_names (imu_enabled df include_imu) (ppg_enabled df include_ppg)
            (Pd.in_columns "Sleep_Stage" df) p).
Proof.
  intros Hrun Hc. unfold Extractor.extract_all_features in Hrun.
  destruct (Extractor.extract_epochs self df include_imu include_ppg)
    as [epochs|e] eqn:Hep; [|discriminate].
  cbn [Py.bind] in Hrun. injection Hrun as <-.
  cbn [Pd.from_records Pd.ft_columns] in Hc.
  apply union_keys_In in Hc. destruct Hc as [d [Hd Hk]].
  unfold Extractor.extract_epochs in Hep.
  destruct (Py.range 0 (Z.of_nat (Pd.len df) - Extractor.samples_per_epoch self + 1)
              (Extractor.step_size self)) as [starts|e] eqn:Hr; [|discriminate].
  cbn [Py.bind] in Hep.
  destruct (mapM_In _ _ Hep d Hd) as [start [_ Hrun]].
  rewrite (extract_epoch_keys _ _ _ _ _ Hrun) in Hk.
  eexists. exact Hk.
Qed.

(** X16. A table that lacks one of [ACC_X], [ACC_Y], [ACC_Z] gets no
    column starting with [imu_], also when IMU features are asked for,
    and a table without [BVP] gets none starting with [ppg_], [hr_] or
    [hrv_], also when it has an [HR] column: the modality is left out
    without an error. *)
Theorem missing_modality_skipped (self : Extractor.FeatureExtractor)
    (df : Pd.DataFrame) (include_imu include_ppg : bool) (t : Pd.FeatureTable) :
  Extractor.extract_all_features self df include_imu include_ppg = Py.Ok t ->
  ((include_imu = false \/
    exists c, In c ["ACC_X"; "ACC_Y"; "ACC_Z"]%string /\ Pd.in_columns c df = false) ->
   forall c, In c (Pd.ft_columns t) -> String.prefix "imu_" c = false) /\
  ((include_ppg = false \/ Pd.in_columns "BVP" df = false) ->
   forall c, In c (Pd.ft_columns t) ->
     String.prefix "ppg_" c = false /\ String.prefix "hr_" c = false /\
     String.prefix "hrv_" c = false).
Proof.
  intros Hrun. split.
  - intros Hoff c Hc.
    assert (Hen : imu_enabled df include_imu = false).
    { unfold imu_enabled. destruct Hoff as [->|[a [Ha Hno]]]; [reflexivity|].
      apply andb_false_intro2.
      destruct (forallb (fun c0 => Pd.in_columns c0 df)
                  ["ACC_X"; "ACC_Y"; "ACC_Z"]%string) eqn:Hall; [|reflexivity].
      rewrite forallb_forall in Hall. rewrite (Hall a Ha) in Hno. discriminate. }
    destruct (@table_column_origin self df include_imu include_ppg t c Hrun Hc) as [p Hp].
    rewrite Hen in Hp. eapply names_without_imu. exact Hp.
  - intros Hoff c Hc.
    assert (Hen : ppg_enabled df include_ppg = false).
    { unfold ppg_enabled. destruct Hoff as [Hoff|Hoff]; rewrite Hoff;
        [reflexivity|apply andb_false_r]. }
    destruct (@table_column_origin self df include_imu include_ppg t c Hrun Hc) as [p Hp].
    rewrite Hen in Hp. eapply names_without_ppg. exact Hp.
Qed.

End EpochLoop.


Lemma missing_modality_skipped_witness :
  exists t,
    Extractor.extract_all_features (L := fixed_library (Py.Ok []))
      (extractor_with 64 2 2) pulse_table true true = Py.Ok t /\
    forall c, In c (Pd.ft_columns t) -> String.prefix "imu_" c = false.
Proof.
  destruct (@extract_epochs_windows (fixed_library (Py.Ok [])) (extractor_with 64 2 2)
              pulse_table true true pulse_table_well_formed
              ltac:(simpl; lia) ltac:(simpl; lia)) as [epochs [_ [Hrun _]]].
  exists (Pd.from_records epochs). split; [exact Hrun|].
  apply (proj1 (@missing_modality_skipped (fixed_library (Py.Ok []))
                  (extractor_with 64 2 2) pulse_table true true _ Hrun)).
  right. exists "ACC_X"%string. split; [left; reflexivity|reflexivity].
Defined.

(* ------------------------------------------------------------------ *)
(** ** The training script: filtering the feature table                 *)
(* ------------------------------------------------------------------ *)

Lemma index_of_In (c : string) (cols : list string) :
  In c cols -> exists i, Pd.index_of c cols = Some i /\ (i < length cols)%nat.
Proof.
  induction cols as [|k rest IH]; intros H; [contradiction|].
  cbn [Pd.index_of]. destruct (String.eqb_spec k c) as [E|E].
  - exists 0%nat. split; [reflexivity|simpl; lia].
  - destruct H as [H|H]; [contradiction|].
    destruct (IH H) as [i [Hi Hlt]]. exists (S i). rewrite Hi.
    split; [reflexivity|simpl; lia].
Qed.

Lemma index_of_None (c : string) (cols : list string) :
  ~ In c cols -> Pd.index_of c cols = None.
Proof.
  induction cols as [|k rest IH]; intros H; [reflexivity|].
  cbn [Pd.index_of]. destruct (String.eqb_spec k c) as [E|E].
  - exfalso. apply H. left. exact E.
  - rewrite IH; [reflexivity|]. intros H'. apply H. right. exact H'.
Qed.

Lemma index_of_snoc (c : string) (cols : list string) :
  ~ In c cols -> Pd.index_of c (cols ++ [c]) = Some (length cols).
Proof.
  induction cols as [|k rest IH]; intros H.
  - cbn [app Pd.index_of]. rewrite String.eqb_refl. reflexivity.
  - cbn [app Pd.index_of]. destruct (String.eqb_spec k c) as [E|E].
    + exfalso. apply H. left. exact E.
    + rewrite IH; [reflexivity|]. intros H'. apply H. right. exact H'.
Qed.

Lemma index_of_app_l (c : string) (cols more : list string) :
  In c cols -> Pd.index_of c (cols ++ more) = Pd.index_of c cols.
Proof.
  induction cols as [|k rest IH]; intros H; [contradiction|].
  cbn [app Pd.index_of]. destruct (String.eqb_spec k c) as [E|E]; [reflexivity|].
  destruct H as [H|H]; [contradiction|]. rewrite IH by exact H. reflexivity.
Qed.

Lemma ft_select_run (t : Pd.FeatureTable) (cols : list string) :
  (forall c, In c cols -> In c (Pd.ft_columns t)) ->
  ft_rectangular t -> NoDup cols ->
  exists t',
    Pd.ft_select t cols = Py.Ok t' /\
    Pd.ft_columns t' = cols /\
    Pd.ft_len t' = Pd.ft_len t /\
    ft_rectangular t' /\
    forall r c, In c cols -> (r < Pd.ft_len t)%nat ->
      ft_cell t' r c = ft_cell t r c /\ ft_cell t r c <> None.
Proof.
  intros Hsub Hrect Hnd.
  assert (Hidx : exists idx,
             Py.mapM (fun c => match Pd.index_of c (Pd.ft_columns t) with
                               | Some i => Py.Ok i
                               | None => Py.Raise Py.KeyError
                               end) cols = Py.Ok idx /\
             length idx = length cols /\
             forall c j, Pd.index_of c cols = Some j ->
               exists i, nth_error idx j = Some i /\
                         Pd.index_of c (Pd.ft_columns t) = Some i /\
                         (i < length (Pd.ft_columns t))%nat).
  { clear Hnd. induction cols as [|k rest IH].
    - exists []. split; [reflexivity|]. split; [reflexivity|].
      intros c j H. discriminate H.
    - destruct (IH (fun c H => Hsub c (or_intror H))) as [idx [Hm [Hlen Hat]]].
      destruct (index_of_In k (Pd.ft_columns t) (Hsub k (or_introl eq_refl)))
        as [i [Hi Hlt]].
      exists (i :: idx). cbn [Py.mapM]. rewrite Hi, Hm. cbn [Py.bind].
      split; [reflexivity|]. split; [simpl; lia|].
      intros c j Hj. cbn [Pd.index_of] in Hj.
      destruct (String.eqb_spec k c) as [E|E].
      + injection Hj as <-. subst c. exists i. repeat split; assumption.
      + destruct (Pd.index_of c rest) as [j'|] eqn:Hj'; [|discriminate].
        cbn [option_map] in Hj. injection Hj as <-.
        destruct (Hat c j' Hj') as [i' [H1 [H2 H3]]].
        exists i'. repeat split; assumption. }
  destruct Hidx as [idx [Hm [Hlen Hat]]].
  unfold Pd.ft_select. rewrite Hm. cbn [Py.bind].
  eexists. split; [reflexivity|]. cbn [Pd.ft_columns].
  split; [reflexivity|]. split.
  - unfold Pd.ft_len. cbn [Pd.ft_rows]. apply length_map.
  - split.
    + unfold ft_rectangular. cbn [Pd.ft_rows Pd.ft_columns].
      apply Forall_forall. intros row Hrow. apply in_map_iff in Hrow.
      destruct Hrow as [row0 [<- _]]. rewrite length_map. exact Hlen.
    + intros r c Hc Hr. unfold ft_cell. cbn [Pd.ft_rows Pd.ft_columns].
      rewrite nth_error_map.
      destruct (nth_error (Pd.ft_rows t) r) as [row|] eqn:Hrow.
      2:{ apply nth_error_None in Hrow. unfold Pd.ft_len in Hr. lia. }
      cbn [option_map].
      destruct (index_of_In c cols Hc) as [j [Hj _]]. rewrite Hj.
      destruct (Hat c j Hj) as [i [Hij [Hi Hlt]]]. rewrite Hi.
      rewrite nth_error_map, Hij. cbn [option_map].
      assert (Hlenrow : length row = length (Pd.ft_columns t)).
      { unfold ft_rectangular in Hrect. rewrite Forall_forall in Hrect.
        apply Hrect. apply nth_error_In with r. exact Hrow. }
      assert (Hnth : nth_error row i = Some (nth i row (Pd.VFloat Np.NaN))).
      { apply nth_error_nth'. lia. }
      rewrite Hnth. split; [reflexivity|discriminate].
Qed.

Lemma from_records_rectangular (rows : list (Py.dict Pd.scalar)) :
  ft_rectangular (Pd.from_records rows).
Proof.
  unfold ft_rectangular, Pd.from_records. cbn [Pd.ft_rows Pd.ft_columns].
  apply Forall_forall. intros row Hrow. apply in_map_iff in Hrow.
  destruct Hrow as [d [<- _]]. apply length_map.
Qed.

Lemma target_names_NoDup :
  NoDup (TrainTflite.get_feature_list ++ ["Sleep_Stage"%string]).
Proof.
  apply (NoDup_count_occ' string_dec). intros x Hx.
  repeat (destruct Hx as [<-|Hx]; [vm_compute; reflexivity|]). contradiction.
Qed.

Lemma participant_not_target :
  ~ In "participant"%string (TrainTflite.get_feature_list ++ ["Sleep_Stage"%string]).
Proof.
  intros H. repeat (destruct H as [H|H]; [discriminate H|]). exact H.
Qed.

Lemma filter_available (t : Pd.FeatureTable) :
  TrainTflite.filter_imu_ppg_features t =
  Pd.ft_select t
    (filter (fun c => Pd.ft_in_columns c t)
            (TrainTflite.get_feature_list ++ ["Sleep_Stage"%string])).
Proof.
  unfold TrainTflite.filter_imu_ppg_features. rewrite filter_app.
  cbn [filter]. destruct (Pd.ft_in_columns "Sleep_Stage" t); [reflexivity|].
  rewrite app_nil_r. reflexivity.
Qed.

Lemma filter_run (t : Pd.FeatureTable) :
  ft_rectangular t ->
  let kept := filter (fun c => Pd.ft_in_columns c t)
                (TrainTflite.get_feature_list ++ ["Sleep_Stage"%string]) in
  exists t',
    TrainTflite.filter_imu_ppg_features t = Py.Ok t' /\
    Pd.ft_columns t' = kept /\
    Pd.ft_len t' = Pd.ft_len t /\
    ft_rectangular t' /\
    forall r c, In c kept -> (r < Pd.ft_len t)%nat ->
      ft_cell t' r c = ft_cell t r c /\ ft_cell t r c <> None.
Proof.
  intros Hrect kept. rewrite filter_available. fold kept.
  apply ft_select_run.
  - intros c Hc. apply filter_In in Hc. destruct Hc as [_ Hc].
    unfold Pd.ft_in_columns in Hc. apply existsb_eqb_In in Hc. exact Hc.
  - exact Hrect.
  - apply NoDup_filter. apply target_names_NoDup.
Qed.

(** X17. [filter_imu_ppg_features] never raises on a table whose rows
    all have one cell per column: it returns the columns that are in the
    target feature list, in the order of that list whatever the order in
    the table, then ['Sleep_Stage'] if present, with every row and every
    cell of those columns unchanged; any other column, such as
    ['participant'], is dropped. *)
Theorem filter_keeps_target_columns (t : Pd.FeatureTable) :
  ft_rectangular t ->
  exists t',
    TrainTflite.filter_imu_ppg_features t = Py.Ok t' /\
    Pd.ft_columns t' =
      filter (fun c => Pd.ft_in_columns c t)
             (TrainTflite.get_feature_list ++ ["Sleep_Stage"%string]) /\
    Pd.ft_len t' = Pd.ft_len t /\
    (forall c, In c (Pd.ft_columns t') <->
               In c (Pd.ft_columns t) /\
               In c (TrainTflite.get_feature_list ++ ["Sleep_Stage"%string])) /\
    ~ In "participant"%string (Pd.ft_columns t') /\
    forall r c, In c (Pd.ft_columns t') -> (r < Pd.ft_len t)%nat ->
      ft_cell t' r c = ft_cell t r c /\ ft_cell t r c <> None.
Proof.
  intros Hrect. destruct (filter_run Hrect) as [t' [Hrun [Hcols [Hlen [_ Hcell]]]]].
  exists t'. split; [exact Hrun|]. split; [exact Hcols|]. split; [exact Hlen|].
  assert (Hiff : forall c, In c (Pd.ft_columns t') <->
            In c (Pd.ft_columns t) /\
            In c (TrainTflite.get_feature_list ++ ["Sleep_Stage"%string])).
  { intros c. rewrite Hcols, filter_In. unfold Pd.ft_in_columns.
    rewrite existsb_eqb_In. tauto. }
  split; [exact Hiff|]. split.
  - intros H. apply Hiff in H. apply participant_not_target. tauto.
  - intros r c Hc Hr. apply Hcell; [rewrite <- Hcols; exact Hc|exact Hr].
Qed.

Lemma filter_keeps_target_columns_witness :
  exists t',
    TrainTflite.filter_imu_ppg_features
      {| Pd.ft_columns := ["participant"; "hr_mean"; "imu_x_mean"]%string;
         Pd.ft_rows := [[Pd.VStr "S002"; Pd.VInt 61; Pd.VInt 1]] |} = Py.Ok t' /\
    Pd.ft_columns t' = ["imu_x_mean"; "hr_mean"]%string.
Proof.
  destruct (@filter_keeps_target_columns
              {| Pd.ft_columns := ["participant"; "hr_mean"; "imu_x_mean"]%string;
                 Pd.ft_rows := [[Pd.VStr "S002"; Pd.VInt 61; Pd.VInt 1]] |}
              ltac:(repeat constructor))
    as [t' [Hrun [Hcols _]]].
  exists t'. split; [exact Hrun|]. rewrite Hcols. reflexivity.
Defined.

Lemma set_new_column (t : Pd.FeatureTable) (c : string) (v : Pd.scalar) :
  ~ In c (Pd.ft_columns t) -> ft_rectangular t ->
  let t' := Pd.ft_set_column t c v in
  Pd.ft_columns t' = Pd.ft_columns t ++ [c] /\
  Pd.ft_len t' = Pd.ft_len t /\
  ft_rectangular t' /\
  (forall r, (r < Pd.ft_len t)%nat -> ft_cell t' r c = Some v) /\
  (forall r c', In c' (Pd.ft_columns t) -> ft_cell t' r c' = ft_cell t r c').
Proof.
  intros Hnew Hrect t'. unfold t', Pd.ft_set_column.
  rewrite (index_of_None _ _ Hnew). cbn [Pd.ft_columns].
  split; [reflexivity|]. split; [apply length_map|].
  unfold ft_rectangular in *. rewrite Forall_forall in Hrect.
  split; [|split].
  - cbn [Pd.ft_rows Pd.ft_columns]. apply Forall_forall. intros row Hrow.
    apply in_map_iff in Hrow. destruct Hrow as [row0 [<- Hin]].
    rewrite !length_app, (Hrect _ Hin). reflexivity.
  - intros r Hr. unfold ft_cell. cbn [Pd.ft_rows Pd.ft_columns].
    rewrite nth_error_map, (index_of_snoc _ _ Hnew).
    destruct (nth_error (Pd.ft_rows t) r) as [row|] eqn:Hrow.
    + cbn [option_map]. rewrite <- (Hrect row (nth_error_In _ _ Hrow)).
      rewrite nth_error_app2, Nat.sub_diag by lia. reflexivity.
    + apply nth_error_None in Hrow. unfold Pd.ft_len in Hr. lia.
  - intros r c' Hc'. unfold ft_cell. cbn [Pd.ft_rows Pd.ft_columns].
    rewrite nth_error_map, (index_of_app_l _ _ [c] Hc').
    destruct (nth_error (Pd.ft_rows t) r) as [row|] eqn:Hrow; [|reflexivity].
    cbn [option_map].
    destruct (index_of_In c' _ Hc') as [i [Hi Hlt]]. rewrite Hi.
    apply nth_error_app1. rewrite (Hrect row (nth_error_In _ _ Hrow)). exact Hlt.
Qed.

Section Participant.
Context {L : Library}.

Lemma extracted_columns_target (self : Extractor.FeatureExtractor)
    (df : Pd.DataFrame) (include_imu include_ppg : bool) (t : Pd.FeatureTable) :
  Extractor.extract_all_features self df include_imu include_ppg = Py.Ok t ->
  ft_rectangular t /\
  forall c, In c (Pd.ft_columns t) ->
    In c (TrainTflite.get_feature_list ++ ["Sleep_Stage"%string]).
Proof.
  intros Hrun. split.
  - unfold Extractor.extract_all_features in Hrun.
    destruct (Extractor.extract_epochs self df include_imu include_ppg)
      as [epochs|e]; [|discriminate].
    cbn [Py.bind] in Hrun. injection Hrun as <-. apply from_records_rectangular.
  - intros c Hc.
    destruct (@table_column_origin L self df include_imu include_ppg t c Hrun Hc)
      as [p Hp].
    rewrite <- all_feature_names_target_list.
    eapply epoch_names_universe. exact Hp.
Qed.

(** X18. [extract_features_for_participant] never raises: when loading
    or extraction fails it returns the empty frame, otherwise the
    extractor's table with a last column ['participant'] holding the
    participant id in every row.  [filter_imu_ppg_features] applied to
    that table keeps every column and every cell the extractor produced
    and drops ['participant'], so no participant id reaches the
    train/test split. *)
Theorem participant_column_filtered_out
    (load_participant : string -> Py.result Pd.DataFrame)
    (participant_id : string) (extractor : Extractor.FeatureExtractor) :
  let t := TrainTflite.extract_features_for_participant load_participant
             participant_id extractor in
  match (df <- load_participant participant_id ;;
         Extractor.extract_all_features extractor df true true) with
  | Py.Raise _ => t = TrainTflite.empty_frame /\ Pd.ft_len t = 0%nat
  | Py.Ok features =>
      Pd.ft_columns t = Pd.ft_columns features ++ ["participant"%string] /\
      Pd.ft_len t = Pd.ft_len features /\
      (forall r, (r < Pd.ft_len t)%nat ->
         ft_cell t r "participant" = Some (Pd.VStr participant_id)) /\
      exists filtered,
        TrainTflite.filter_imu_ppg_features t = Py.Ok filtered /\
        Pd.ft_len filtered = Pd.ft_len features /\
        (forall c, In c (Pd.ft_columns filtered) <-> In c (Pd.ft_columns features)) /\
        ~ In "participant"%string (Pd.ft_columns filtered) /\
        (forall r c, In c (Pd.ft_columns features) -> (r < Pd.ft_len features)%nat ->
           ft_cell filtered r c = ft_cell features r c /\
           ft_cell features r c <> None)
  end.
Proof.
  intros t. unfold t, TrainTflite.extract_features_for_participant.
  destruct (load_participant participant_id) as [df|e]; cbn [Py.bind];
    [|split; reflexivity].
  destruct (Extractor.extract_all_features extractor df true true)
    as [features|e] eqn:Hrun; cbn [Py.bind]; [|split; reflexivity].
  destruct (extracted_columns_target _ _ _ _ Hrun) as [Hrect Htarget].
  assert (Hnew : ~ In "participant"%string (Pd.ft_columns features)).
  { intros H. apply participant_not_target. apply Htarget. exact H. }
  destruct (@set_new_column features "participant" (Pd.VStr participant_id) Hnew Hrect)
    as [Hcols [Hlen [Hrect' [Hpid Hsame]]]].
  set (t' := Pd.ft_set_column features "participant" (Pd.VStr participant_id)) in *.
  split; [exact Hcols|]. split; [exact Hlen|].
  split; [intros r Hr; apply Hpid; rewrite <- Hlen; exact Hr|].
  destruct (@filter_run _ Hrect') as [filtered [Hf [Hfc [Hfl [_ Hcell]]]]].
  exists filtered. split; [exact Hf|]. split; [rewrite Hfl; exact Hlen|].
  assert (Hiff : forall c, In c (Pd.ft_columns filtered) <->
                           In c (Pd.ft_columns features)).
  { intros c. rewrite Hfc, filter_In. unfold Pd.ft_in_columns.
    rewrite existsb_eqb_In, Hcols. split.
    - intros [Hin Hc]. apply in_app_or in Hc.
      destruct Hc as [H|[<-|[]]]; [exact H|].
      exfalso. apply participant_not_target. exact Hin.
    - intros H. split; [apply Htarget; exact H|].
      apply in_or_app. left. exact H. }
  split; [exact Hiff|]. split.
  - intros H. apply Hnew. apply Hiff. exact H.
  - intros r c Hc Hr.
    destruct (Hcell r c) as [H1 H2].
    + rewrite <- Hfc. apply Hiff. exact Hc.
    + rewrite Hlen. exact Hr.
    + rewrite (Hsame r c Hc) in H1, H2. split; assumption.
Qed.

End Participant.

Lemma participant_column_filtered_out_witness :
  exists filtered,
    TrainTflite.filter_imu_ppg_features
      (TrainTflite.extract_features_for_participant (L := fixed_library (Py.Ok []))
         (fun _ => Py.Ok pulse_table) "S002" (extractor_with 64 2 2)) =
      Py.Ok filtered /\
    ~ In "participant"%string (Pd.ft_columns filtered).
Proof.
  destruct (@extract_epochs_windows (fixed_library (Py.Ok [])) (extractor_with 64 2 2)
              pulse_table true true pulse_table_well_formed
              ltac:(simpl; lia) ltac:(simpl; lia)) as [epochs [_ [Hrun _]]].
  pose proof (@participant_column_filtered_out (fixed_library (Py.Ok []))
                (fun _ => Py.Ok pulse_table) "S002" (extractor_with 64 2 2)) as H.
  cbv zeta in H. cbn [Py.bind] in H. rewrite Hrun in H.
  destruct H as [_ [_ [_ [filtered [Hf [_ [_ [Hno _]]]]]]]].
  exists filtered. split; [exact Hf|exact Hno].
Defined.

(* ------------------------------------------------------------------ *)
(** ** Bounds on the statistical features                               *)
(* ------------------------------------------------------------------ *)

Lemma fold_fmin_fins (rs : list R) (r : R) :
  fold_left Np.fmin (map Some rs) (Some r) = Some (fold_left Rmin rs r).
Proof. revert r. induction rs as [|x rs IH]; intros r; [reflexivity|apply IH]. Qed.

Lemma fold_fmax_fins (rs : list R) (r : R) :
  fold_left Np.fmax (map Some rs) (Some r) = Some (fold_left Rmax rs r).
Proof. revert r. induction rs as [|x rs IH]; intros r; [reflexivity|apply IH]. Qed.

Lemma fold_Rmin_least (rs : list R) (r : R) :
  In (fold_left Rmin rs r) (r :: rs) /\
  forall x, In x (r :: rs) -> (fold_left Rmin rs r <= x)%R.
Proof.
  revert r. induction rs as [|y rs IH]; intros r.
  - cbn [fold_left]. split; [left; reflexivity|].
    intros x [<-|[]]. lra.
  - cbn [fold_left]. destruct (IH (Rmin r y)) as [Hin Hle]. split.
    + destruct Hin as [Hin|Hin].
      * rewrite <- Hin. unfold Rmin. destruct (Rle_dec r y); [left|right; left]; reflexivity.
      * right. right. exact Hin.
    + intros x [<-|[<-|Hx]].
      * apply Rle_trans with (Rmin r y); [apply Hle; left; reflexivity|apply Rmin_l].
      * apply Rle_trans with (Rmin r y); [apply Hle; left; reflexivity|apply Rmin_r].
      * apply Hle. right. exact Hx.
Qed.

Lemma fold_Rmax_greatest (rs : list R) (r : R) :
  In (fold_left Rmax rs r) (r :: rs) /\
  forall x, In x (r :: rs) -> (x <= fold_left Rmax rs r)%R.
Proof.
  revert r. induction rs as [|y rs IH]; intros r.
  - cbn [fold_left]. split; [left; reflexivity|].
    intros x [<-|[]]. lra.
  - cbn [fold_left]. destruct (IH (Rmax r y)) as [Hin Hle]. split.
    + destruct Hin as [Hin|Hin].
      * rewrite <- Hin. unfold Rmax. destruct (Rle_dec r y); [right; left|left]; reflexivity.
      * right. right. exact Hin.
    + intros x [<-|[<-|Hx]].
      * apply Rle_trans with (Rmax r y); [apply Rmax_l|apply Hle; left; reflexivity].
      * apply Rle_trans with (Rmax r y); [apply Rmax_r|apply Hle; left; reflexivity].
      * apply Hle. right. exact Hx.
Qed.

Lemma Rsum_bounds (xs : list R) (lo hi : R) :
  (forall x, In x xs -> lo <= x <= hi)%R ->
  (INR (length xs) * lo <= Rsum xs <= INR (length xs) * hi)%R.
Proof.
  induction xs as [|x xs IH]; intros H.
  - simpl. lra.
  - change (Rsum (x :: xs)) with (x + Rsum xs)%R.
    change (length (x :: xs)) with (S (length xs)). rewrite S_INR.
    assert (Hx := H x (or_introl eq_refl)).
    assert (Hr := IH (fun y Hy => H y (or_intror Hy))). lra.
Qed.

Lemma squares_fins (xs : list R) :
  map Np.square (map Some xs) = map Some (map (fun x => x * x)%R xs).
Proof. rewrite !map_map. reflexivity. Qed.

Lemma sqrt_fin (x : R) : (0 <= x)%R -> Np.sqrt (Some x) = Some (sqrt x).
Proof.
  intros H. unfold Np.sqrt. destruct (Rlt_dec x 0); [lra|reflexivity].
Qed.

Lemma count_true_le (l : list bool) : (0 <= Np.count_true l <= Z.of_nat (length l))%Z.
Proof.
  unfold Np.count_true. pose proof (filter_length_le (fun b : bool => b) l). lia.
Qed.

Lemma diff_bool_length (l : list bool) : length (Np.diff_bool l) = (length l - 1)%nat.
Proof.
  induction l as [|x [|y l] IH]; try reflexivity.
  change (Np.diff_bool (x :: y :: l)) with (xorb y x :: Np.diff_bool (y :: l)).
  cbn [length] in *. lia.
Qed.

Section StatisticalBounds.
Context {L : Library}.

Lemma stat_part_fins (prefix : string) (data : list Np.cell) (r : R) (rs : list R) :
  finite_values data = r :: rs ->
  stat_part prefix data =
  prefixed prefix
    (stat_table (map Some (r :: rs)) (Some (fold_left Rmin rs r))
                (Some (fold_left Rmax rs r))).
Proof.
  intros Hxs. unfold stat_part. rewrite drop_nan_finite, Hxs.
  cbn [map]. rewrite fold_fmin_fins, fold_fmax_fins. reflexivity.
Qed.

(** X19. For an array with at least one sample that is not NaN the
    statistical features are computed from those samples alone: the mean
    is their [np.mean]; the minimum and the maximum are samples that bound
    every sample, and the range is their difference, which is not
    negative; the standard deviation, the energy and the RMS are not
    negative; the zero-crossing count lies between 0 and the number of
    samples minus one. *)
Theorem statistical_features_bounds (data : list Np.cell) (prefix : string) :
  let xs := finite_values data in
  xs <> [] ->
  exists features std lo hi energy rms zc,
    Extractor._compute_statistical_features data prefix = Py.Ok features /\
    Py.dict_get features (prefix ++ "_mean")%string =
      Some (Pd.VFloat (Np.mean (Np.drop_nan data))) /\
    Py.dict_get features (prefix ++ "_std")%string = Some (Pd.VFloat (Np.fin std)) /\
    Py.dict_get features (prefix ++ "_min")%string = Some (Pd.VFloat (Np.fin lo)) /\
    Py.dict_get features (prefix ++ "_max")%string = Some (Pd.VFloat (Np.fin hi)) /\
    Py.dict_get features (prefix ++ "_range")%string =
      Some (Pd.VFloat (Np.fin (hi - lo))) /\
    Py.dict_get features (prefix ++ "_energy")%string =
      Some (Pd.VFloat (Np.fin energy)) /\
    Py.dict_get features (prefix ++ "_rms")%string = Some (Pd.VFloat (Np.fin rms)) /\
    Py.dict_get features (prefix ++ "_zero_crossings")%string = Some (Pd.VInt zc) /\
    In lo xs /\ In hi xs /\
    (forall x, In x xs -> lo <= x <= hi)%R /\
    (0 <= hi - lo)%R /\
    (0 <= std)%R /\ (0 <= energy)%R /\ (0 <= rms)%R /\
    (0 <= zc <= Z.of_nat (length xs) - 1)%Z.
Proof.
  intros xs Hne. destruct xs as [|r rs] eqn:Hxs; [contradiction|].
  assert (Hnil : r :: rs <> []) by discriminate.
  pose proof (fold_Rmin_least rs r) as [Hlo_in Hlo].
  pose proof (fold_Rmax_greatest rs r) as [Hhi_in Hhi].
  set (lo := fold_left Rmin rs r) in *. set (hi := fold_left Rmax rs r) in *.
  set (sq := map (fun x => (x * x)%R) (r :: rs)).
  assert (Hsq_nonneg : Forall (fun x => 0 <= x)%R sq).
  { apply Forall_forall. intros y Hy. apply in_map_iff in Hy.
    destruct Hy as [x [<- _]]. nra. }
  assert (Hsq_ne : sq <> []) by discriminate.
  assert (Hen : (0 <= Rsum sq)%R) by (apply Rsum_nonneg; exact Hsq_nonneg).
  assert (Hn : (0 < INR (length (r :: rs)))%R) by apply INR_length_pos.
  assert (Hmsq : (0 <= Rmean sq)%R).
  { unfold Rmean. unfold sq at 2. rewrite length_map.
    apply Rmult_le_pos; [exact Hen|]. left. apply Rinv_0_lt_compat. exact Hn. }
  exists (stat_part prefix data), (sqrt (Rvar (r :: rs))),
    lo, hi, (Rsum sq), (sqrt (Rmean sq)).
  eexists.
  split; [apply stat_features_part|].
  rewrite (stat_part_fins prefix data Hxs). fold lo. fold hi.
  rewrite !prefixed_get. rewrite drop_nan_finite. fold xs. rewrite Hxs.
  cbv [stat_table Py.dict_get String.eqb Ascii.eqb Bool.eqb].
  split; [reflexivity|].
  rewrite (std_fins Hnil), squares_fins. fold sq.
  rewrite (sum_fins sq), (mean_fins Hsq_ne), (sqrt_fin Hmsq).
  cbv [Np.sub Np.lift2 Np.fin].
  repeat (split; [reflexivity|]).
  split; [exact Hlo_in|]. split; [exact Hhi_in|].
  split; [intros x Hx; split; [apply Hlo|apply Hhi]; exact Hx|].
  split.
  { pose proof (Hlo r (or_introl eq_refl)). pose proof (Hhi r (or_introl eq_refl)). lra. }
  split; [apply sqrt_pos|]. split; [exact Hen|]. split; [apply sqrt_pos|].
  match goal with
  | |- context [Np.count_true ?l] => pose proof (count_true_le l) as Hc
  end.
  rewrite diff_bool_length, !length_map in Hc.
  cbn [length] in Hc |- *. lia.
Qed.

End StatisticalBounds.

Lemma statistical_features_bounds_witness :
  exists features,
    Extractor._compute_statistical_features (L := fixed_library (Py.Ok []))
      [Np.fin 2; Np.NaN; Np.fin 6] "ppg" = Py.Ok features /\
    Py.dict_get features "ppg_range" <> None.
Proof.
  destruct (@statistical_features_bounds (fixed_library (Py.Ok []))
              [Np.fin 2; Np.NaN; Np.fin 6] "ppg" ltac:(discriminate))
    as [features [std [lo [hi [energy [rms [zc [Hrun [_ [_ [_ [_ [Hrange _]]]]]]]]]]]]].
  exists features. split; [exact Hrun|].
  change ("ppg" ++ "_range")%string with "ppg_range"%string in Hrange.
  rewrite Hrange. discriminate.
Defined.

(* ------------------------------------------------------------------ *)
(** ** NaN samples in an epoch                                          *)
(* ------------------------------------------------------------------ *)

Lemma diff_nan (l : list Np.cell) :
  In None l -> (2 <= length l)%nat -> In None (Np.diff l).
Proof.
  induction l as [|x [|y t] IH]; intros Hin Hlen; simpl in Hlen; try lia.
  change (Np.diff (x :: y :: t)) with (Np.sub y x :: Np.diff (y :: t)).
  destruct Hin as [->|[->|Hin]].
  - left. destruct y; reflexivity.
  - left. reflexivity.
  - destruct t as [|w t]; [contradiction|].
    right. apply IH; [right; exact Hin|simpl; lia].
Qed.

Lemma std_nan (l : list Np.cell) : In None l -> Np.std l = None.
Proof.
  intros Hin. assert (Hne : l <> []) by (intros ->; contradiction).
  assert (Hm : Np.mean l = None) by (apply mean_nan_iff; assumption).
  unfold Np.std. rewrite Hm.
  assert (Hall : Np.mean (map (fun x => Np.square (Np.abs (Np.sub x None))) l) = None).
  { apply mean_nan_iff.
    - destruct l; [contradiction|discriminate].
    - apply in_map_iff. exists None. split; [reflexivity|exact Hin]. }
  rewrite Hall. reflexivity.
Qed.

Lemma drop_nan_idempotent (l : list Np.cell) :
  Np.drop_nan (Np.drop_nan l) = Np.drop_nan l.
Proof.
  unfold Np.drop_nan. induction l as [|x l IH]; [reflexivity|].
  cbn [filter]. destruct x; cbn [Np.isnan negb filter]; [f_equal|]; exact IH.
Qed.

Lemma magnitude_row (x y z : list Np.cell) (k : nat) (a b c : Np.cell) :
  nth_error x k = Some a -> nth_error y k = Some b -> nth_error z k = Some c ->
  exists v,
    nth_error (Extractor.magnitude_of x y z) k = Some v /\
    (v = None <-> a = None \/ b = None \/ c = None) /\
    (forall r, v = Some r -> (0 <= r)%R).
Proof.
  unfold Extractor.magnitude_of, Extractor.map3.
  revert y z k. induction x as [|x0 x IH]; intros y z k Hx Hy Hz.
  - destruct k; discriminate.
  - destruct y as [|y0 y]; [destruct k; discriminate|].
    destruct z as [|z0 z]; [destruct k; discriminate|].
    destruct k as [|k].
    + cbn [nth_error] in Hx, Hy, Hz. injection Hx as ->. injection Hy as ->.
      injection Hz as ->. cbn [combine map nth_error fst snd].
      eexists. split; [reflexivity|].
      destruct a as [a|], b as [b|], c as [c|];
        cbv [Np.square Np.mul Np.add Np.lift2 Np.sqrt Np.NaN];
        try (split; [split; [intros _; tauto|reflexivity]|intros r H; discriminate H]).
      destruct (Rlt_dec (a * a + b * b + c * c) 0) as [Hneg|_]; [nra|].
      split.
      * split; [discriminate|]. intros [H|[H|H]]; discriminate H.
      * intros r Hr. injection Hr as <-. apply sqrt_pos.
    + cbn [nth_error] in Hx, Hy, Hz. cbn [combine map nth_error].
      apply IH; assumption.
Qed.

Section NanInEpoch.
Context {L : Library}.

Lemma imu_part_intensity_get (x y z : list Np.cell) :
  Py.dict_get (imu_part x y z) "imu_movement_intensity" =
  Some (Pd.VFloat (Np.std (Extractor.magnitude_of x y z))).
Proof.
  unfold imu_part. set (m := Extractor.magnitude_of x y z).
  unfold stat_part.
  destruct (Np.drop_nan x); destruct (Np.drop_nan y); destruct (Np.drop_nan z);
    destruct (Np.drop_nan m); dict_read; reflexivity.
Qed.

(** X20. In the IMU features of an epoch a row is NaN in the magnitude
    exactly when one of its three axes is NaN.  The [imu_mag_] statistics
    leave such rows out and are those of the remaining rows, while
    [imu_movement_intensity] becomes NaN as soon as one row is NaN, and
    so does [imu_activity_count] in an epoch of two rows or more. *)
Theorem nan_rows_in_imu_features (epoch_df : Pd.DataFrame) :
  forallb (fun c => Pd.in_columns c epoch_df) ["ACC_X"; "ACC_Y"; "ACC_Z"]%string
    = true ->
  let x := column epoch_df "ACC_X" in
  let y := column epoch_df "ACC_Y" in
  let z := column epoch_df "ACC_Z" in
  let m := Extractor.magnitude_of x y z in
  exists features,
    Extractor._extract_imu_features epoch_df = Py.Ok features /\
    (forall k a b c,
       nth_error x k = Some a -> nth_error y k = Some b -> nth_error z k = Some c ->
       exists v, nth_error m k = Some v /\
                 (v = Np.NaN <-> a = Np.NaN \/ b = Np.NaN \/ c = Np.NaN)) /\
    (forall s, In s stat_suffixes ->
       Py.dict_get features ("imu_mag" ++ s)%string =
       Py.dict_get (stat_part "imu_mag" (Np.drop_nan m)) ("imu_mag" ++ s)%string) /\
    (In Np.NaN m ->
     Py.dict_get features "imu_movement_intensity" = Some (Pd.VFloat Np.NaN) /\
     ((2 <= length m)%nat ->
      Py.dict_get features "imu_activity_count" = Some (Pd.VFloat Np.NaN))).
Proof.
  intros Hcols x y z m.
  exists (imu_part x y z). split; [apply imu_features_normal_form; exact Hcols|].
  split; [|split].
  - intros k a b c Hx Hy Hz.
    destruct (@magnitude_row x y z k a b c Hx Hy Hz) as [v [Hv [Hnan _]]].
    exists v. split; [exact Hv|exact Hnan].
  - intros s Hs. rewrite (@imu_part_magnitude_get L x y z s Hs). fold m.
    unfold stat_part. rewrite drop_nan_idempotent. reflexivity.
  - intros Hin. split.
    + rewrite imu_part_intensity_get. fold m. rewrite (std_nan m Hin). reflexivity.
    + intros Hlen. rewrite imu_part_activity_get. fold m.
      assert (Hs : Np.sum (map Np.abs (Np.diff m)) = None).
      { apply sum_nan_iff. apply in_map_iff. exists None.
        split; [reflexivity|apply diff_nan; assumption]. }
      rewrite Hs. reflexivity.
Qed.

End NanInEpoch.

Lemma nan_rows_in_imu_features_witness :
  exists features,
    Extractor._extract_imu_features (L := fixed_library (Py.Ok [])) gap_table =
      Py.Ok features /\
    Py.dict_get features "imu_movement_intensity" = Some (Pd.VFloat Np.NaN) /\
    Py.dict_get features "imu_activity_count" = Some (Pd.VFloat Np.NaN).
Proof.
  destruct (@nan_rows_in_imu_features (fixed_library (Py.Ok [])) gap_table eq_refl)
    as [features [Hrun [_ [_ Hnan]]]].
  exists features. split; [exact Hrun|].
  assert (Hin : In Np.NaN
            (Extractor.magnitude_of (column gap_table "ACC_X")
               (column gap_table "ACC_Y") (column gap_table "ACC_Z"))).
  { right. left. reflexivity. }
  destruct (Hnan Hin) as [Hint Hact].
  split; [exact Hint|]. apply Hact. simpl. lia.
Defined.

(* ------------------------------------------------------------------ *)
(** ** Ranges of the HRV features                                       *)
(* ------------------------------------------------------------------ *)

Lemma fins_of_no_nan (l : list Np.cell) :
  ~ In None l -> l = map Some (finite_values l).
Proof.
  induction l as [|x l IH]; intros H; [reflexivity|].
  destruct x as [r|]; [|exfalso; apply H; left; reflexivity].
  cbn [finite_values flat_map app map]. f_equal.
  apply IH. intros Hin. apply H. right. exact Hin.
Qed.

Lemma diff_fins (vs : list R) :
  exists ds, Np.diff (map Some vs) = map Some ds /\ length ds = (length vs - 1)%nat.
Proof.
  induction vs as [|x [|y t] IH].
  - exists []. split; reflexivity.
  - exists []. split; reflexivity.
  - destruct IH as [ds [Hds Hlen]]. exists ((y - x)%R :: ds).
    change (Np.diff (map Some (x :: y :: t)))
      with (Np.sub (Some y) (Some x) :: Np.diff (map Some (y :: t))).
    rewrite Hds. split; [reflexivity|]. cbn [length] in *. lia.
Qed.

Lemma count_true_mono {A : Type} (f g : A -> bool) (l : list A) :
  (forall x, f x = true -> g x = true) ->
  (Np.count_true (map f l) <= Np.count_true (map g l))%Z.
Proof.
  intros H. unfold Np.count_true. apply inj_le.
  induction l as [|x l IH]; [reflexivity|].
  cbn [map filter]. destruct (f x) eqn:Hf.
  - rewrite (H x Hf). cbn [length]. lia.
  - destruct (g x); cbn [length]; lia.
Qed.

Lemma pnn_value (ds : list R) (t : R) :
  ds <> [] ->
  Extractor.pnn (map Some ds) t =
  Some (IZR (Np.count_true (map (fun d => Np.gt (Np.abs (Some d)) (Np.fin t)) ds))
        / INR (length ds) * 100)%R.
Proof.
  intros Hne. unfold Extractor.pnn. rewrite map_map, length_map.
  unfold Np.div, Np.of_Z, Np.of_nat, Np.mul, Np.lift2, Np.fin.
  destruct (Req_dec_T (INR (length ds)) 0) as [H0|_]; [|reflexivity].
  destruct ds as [|d ds]; [contradiction|].
  pose proof (INR_length_pos d ds). lra.
Qed.

Lemma valid_ibi_fins (ibi : list Np.cell) :
  exists vs, Extractor.valid_ibi ibi = map Some vs /\
             forall v, In v vs -> (300 < v < 2000)%R.
Proof.
  exists (finite_values (Extractor.valid_ibi ibi)).
  assert (Hno : ~ In None (Extractor.valid_ibi ibi)).
  { intros H. apply valid_ibi_In in H. destruct H as [_ [r [Hr _]]]. discriminate. }
  split; [apply (@fins_of_no_nan _ Hno)|].
  intros v Hv.
  assert (Hin : In (Some v) (Extractor.valid_ibi ibi)).
  { rewrite (@fins_of_no_nan _ Hno). apply in_map. exact Hv. }
  apply valid_ibi_In in Hin. destruct Hin as [_ [r [Hr Hb]]].
  injection Hr as ->. exact Hb.
Qed.

(** X21. Whenever [_compute_hrv_features] returns features they are
    numbers, not NaN, with the mean interval strictly between 300 and
    2000 ms, SDNN and RMSSD not negative, and
    [0 <= hrv_pnn50 <= hrv_pnn20 <= 100]. *)
Theorem hrv_features_ranges (ibi : list Np.cell) :
  (2 <= length (Extractor.valid_ibi ibi))%nat ->
  exists mean_ibi sdnn rmssd pnn50 pnn20,
    Extractor._compute_hrv_features ibi =
      [ ("hrv_mean_ibi", Pd.VFloat (Np.fin mean_ibi));
        ("hrv_sdnn", Pd.VFloat (Np.fin sdnn));
        ("hrv_rmssd", Pd.VFloat (Np.fin rmssd));
        ("hrv_pnn50", Pd.VFloat (Np.fin pnn50));
        ("hrv_pnn20", Pd.VFloat (Np.fin pnn20)) ]%string /\
    (300 < mean_ibi < 2000)%R /\ (0 <= sdnn)%R /\ (0 <= rmssd)%R /\
    (0 <= pnn50 <= pnn20)%R /\ (pnn20 <= 100)%R.
Proof.
  intros Hlen. rewrite hrv_features_normal_form.
  destruct (Nat.leb_spec 2 (length (Extractor.valid_ibi ibi))) as [_|H]; [|lia].
  destruct (valid_ibi_fins ibi) as [vs [Hvs Hb]]. rewrite Hvs in *.
  rewrite length_map in Hlen.
  assert (Hne : vs <> []) by (destruct vs; [simpl in Hlen; lia|discriminate]).
  destruct (diff_fins vs) as [ds [Hds Hdl]].
  assert (Hdne : ds <> []) by (destruct ds; [simpl in Hdl; lia|discriminate]).
  set (sq := map (fun x => (x * x)%R) ds).
  assert (Hsq_ne : sq <> []).
  { unfold sq. destruct ds; [contradiction|discriminate]. }
  assert (Hmsq : (0 <= Rmean sq)%R).
  { unfold Rmean. apply Rmult_le_pos.
    - apply Rsum_nonneg. apply Forall_forall. intros y Hy.
      apply in_map_iff in Hy. destruct Hy as [x [<- _]]. nra.
    - left. apply Rinv_0_lt_compat. destruct sq as [|s0 sq']; [contradiction|].
      apply INR_length_pos. }
  unfold hrv_table. rewrite Hds, (mean_fins Hne), (std_fins Hne), squares_fins.
  fold sq. rewrite (mean_fins Hsq_ne), (sqrt_fin Hmsq), !(pnn_value _ Hdne).
  do 5 eexists. split; [reflexivity|].
  assert (Hn : (0 < INR (length ds))%R).
  { destruct ds as [|d ds']; [contradiction|]. apply INR_length_pos. }
  set (c50 := Np.count_true (map (fun d => Np.gt (Np.abs (Some d)) (Np.fin 50)) ds)).
  set (c20 := Np.count_true (map (fun d => Np.gt (Np.abs (Some d)) (Np.fin 20)) ds)).
  assert (H50 : (0 <= c50)%Z) by apply count_true_le.
  assert (H5020 : (c50 <= c20)%Z).
  { apply count_true_mono. intros d. unfold Np.gt, Np.abs, Np.fin. cbn [option_map].
    destruct (Rlt_dec 50 (Rabs d)) as [H1|_]; [|discriminate].
    destruct (Rlt_dec 20 (Rabs d)) as [_|H2]; [reflexivity|lra]. }
  assert (H20 : (c20 <= Z.of_nat (length ds))%Z).
  { pose proof (count_true_le
      (map (fun d => Np.gt (Np.abs (Some d)) (Np.fin 20)) ds)) as Hc.
    rewrite length_map in Hc. apply Hc. }
  apply IZR_le in H50, H5020, H20. rewrite <- INR_IZR_INZ in H20.
  assert (Hinv : (0 < / INR (length ds))%R) by (apply Rinv_0_lt_compat; exact Hn).
  split.
  { assert (Hm := @Rsum_bounds vs 300 2000
                    (fun x Hx => conj (Rlt_le _ _ (proj1 (Hb x Hx)))
                                      (Rlt_le _ _ (proj2 (Hb x Hx))))).
    (* the bounds are strict because every interval is strictly inside *)
    assert (Hstrict : (INR (length vs) * 300 < Rsum vs < INR (length vs) * 2000)%R).
    { clear - Hb Hne. induction vs as [|x vs IH]; [contradiction|].
      change (Rsum (x :: vs)) with (x + Rsum vs)%R.
      change (length (x :: vs)) with (S (length vs)). rewrite S_INR.
      assert (Hx := Hb x (or_introl eq_refl)).
      destruct vs as [|y vs'].
      - simpl. lra.
      - assert (Hr := IH (fun v Hv => Hb v (or_intror Hv)) ltac:(discriminate)). lra. }
    assert (Hvn : (0 < INR (length vs))%R).
    { destruct vs as [|v vs']; [contradiction|]. apply INR_length_pos. }
    unfold Rmean. split.
    - apply Rmult_lt_reg_r with (INR (length vs)); [exact Hvn|].
      unfold Rdiv. rewrite Rmult_assoc, Rinv_l by lra. lra.
    - apply Rmult_lt_reg_r with (INR (length vs)); [exact Hvn|].
      unfold Rdiv. rewrite Rmult_assoc, Rinv_l by lra. lra. }
  split; [apply sqrt_pos|]. split; [apply sqrt_pos|].
  unfold Rdiv. split; [split|].
  - apply Rmult_le_pos; [apply Rmult_le_pos; lra|lra].
  - apply Rmult_le_compat_r; [lra|]. apply Rmult_le_compat_r; lra.
  - replace 100%R with (INR (length ds) * / INR (length ds) * 100)%R at 2
      by (rewrite Rinv_r by lra; ring).
    apply Rmult_le_compat_r; [lra|]. apply Rmult_le_compat_r; lra.
Qed.

Lemma hrv_features_ranges_witness :
  exists mean_ibi,
    Py.dict_get (Extractor._compute_hrv_features [Np.fin 800; Np.fin 900; Np.fin 100])
      "hrv_mean_ibi" = Some (Pd.VFloat (Np.fin mean_ibi)) /\
    (300 < mean_ibi < 2000)%R.
Proof.
  assert (Hv : Extractor.valid_ibi [Np.fin 800; Np.fin 900; Np.fin 100] =
               [Np.fin 800; Np.fin 900]).
  { unfold Extractor.valid_ibi. cbn [filter].
    unfold Np.gt, Np.lt, Np.gt, Np.fin.
    repeat match goal with
           | |- context [Rlt_dec ?a ?b] => destruct (Rlt_dec a b); try lra
           end.
    reflexivity. }
  destruct (@hrv_features_ranges [Np.fin 800; Np.fin 900; Np.fin 100]
              ltac:(rewrite Hv; simpl; lia))
    as [mean_ibi [sdnn [rmssd [pnn50 [pnn20 [Hrun [Hm _]]]]]]].
  exists mean_ibi. rewrite Hrun. split; [reflexivity|exact Hm].
Defined.

(* ------------------------------------------------------------------ *)
(** ** Intervals between peaks                                          *)
(* ------------------------------------------------------------------ *)

Lemma diff_int_length (a : list Z) : length (Np.diff_int a) = (length a - 1)%nat.
Proof.
  induction a as [|x [|y t] IH]; try reflexivity.
  change (Np.diff_int (x :: y :: t)) with ((y - x)%Z :: Np.diff_int (y :: t)).
  cbn [length] in *. lia.
Qed.

Lemma diff_int_nth (a : list Z) (k : nat) (p q : Z) :
  nth_error a k = Some p -> nth_error a (S k) = Some q ->
  nth_error (Np.diff_int a) k = Some (q - p)%Z.
Proof.
  revert k. induction a as [|x [|y t] IH]; intros k Hp Hq.
  - destruct k; discriminate.
  - destruct k; [discriminate Hq|destruct k; discriminate].
  - change (Np.diff_int (x :: y :: t)) with ((y - x)%Z :: Np.diff_int (y :: t)).
    destruct k as [|k].
    + cbn [nth_error] in *. injection Hp as <-. injection Hq as <-. reflexivity.
    + cbn [nth_error] in Hp, Hq |- *. apply IH; assumption.
Qed.

Lemma compute_ibi_nth (peaks : list nat) (fs : R) (k p q : nat) :
  fs <> 0%R ->
  nth_error peaks k = Some p -> nth_error peaks (S k) = Some q ->
  nth_error (Preprocessing.compute_ibi_from_peaks peaks fs) k =
  Some (Np.fin (IZR (Z.of_nat q - Z.of_nat p) / fs * 1000)).
Proof.
  intros Hfs Hp Hq. unfold Preprocessing.compute_ibi_from_peaks.
  rewrite nth_error_map.
  rewrite (@diff_int_nth (map Z.of_nat peaks) k (Z.of_nat p) (Z.of_nat q)).
  - cbn [option_map]. rewrite interval_ms by exact Hfs. reflexivity.
  - rewrite nth_error_map, Hp. reflexivity.
  - rewrite nth_error_map, Hq. reflexivity.
Qed.

Lemma compute_ibi_length (peaks : list nat) (fs : R) :
  length (Preprocessing.compute_ibi_from_peaks peaks fs) = (length peaks - 1)%nat.
Proof.
  unfold Preprocessing.compute_ibi_from_peaks.
  rewrite length_map, diff_int_length, length_map. reflexivity.
Qed.

Lemma list_eq_nth {A : Type} (l1 l2 : list A) :
  length l1 = length l2 ->
  (forall k, (k < length l1)%nat -> nth_error l1 k = nth_error l2 k) ->
  l1 = l2.
Proof.
  revert l2. induction l1 as [|x l1 IH]; intros [|y l2] Hlen Hnth;
    try reflexivity; try discriminate.
  f_equal.
  - specialize (Hnth 0%nat ltac:(simpl; lia)). cbn [nth_error] in Hnth.
    injection Hnth as ->. reflexivity.
  - apply IH; [simpl in Hlen; lia|].
    intros k Hk. apply (Hnth (S k)). simpl. lia.
Qed.

Lemma nth_error_repeat_lt {A : Type} (c : A) (n k : nat) :
  (k < n)%nat -> nth_error (repeat c n) k = Some c.
Proof.
  revert k. induction n as [|n IH]; intros k Hk; [lia|].
  destruct k as [|k]; [reflexivity|]. cbn [repeat nth_error]. apply IH. lia.
Qed.

Lemma even_peaks_intervals (first step n : nat) (fs : R) :
  fs <> 0%R ->
  Preprocessing.compute_ibi_from_peaks
    (map (fun k => first + k * step)%nat (seq 0 n)) fs =
  repeat (Np.fin (INR step / fs * 1000)) (n - 1).
Proof.
  intros Hfs. apply list_eq_nth.
  - rewrite compute_ibi_length, length_map, length_seq, repeat_length. reflexivity.
  - intros k Hk. rewrite compute_ibi_length, length_map, length_seq in Hk.
    rewrite (@compute_ibi_nth _ fs k (first + k * step)%nat
               (first + S k * step)%nat Hfs).
    + rewrite nth_error_repeat_lt by exact Hk. f_equal. unfold Np.fin. f_equal.
      rewrite INR_IZR_INZ. f_equal. f_equal. f_equal. lia.
    + apply (@nth_error_map_seq _ (fun j => (first + j * step)%nat) n k). lia.
    + apply (@nth_error_map_seq _ (fun j => (first + j * step)%nat) n (S k)). lia.
Qed.

Lemma valid_ibi_constant (c : R) (m : nat) :
  (300 < c < 2000)%R ->
  Extractor.valid_ibi (repeat (Np.fin c) m) = repeat (Np.fin c) m.
Proof.
  intros Hc. unfold Extractor.valid_ibi. induction m as [|m IH]; [reflexivity|].
  cbn [repeat filter].
  assert (Hkeep : Np.gt (Np.fin c) (Np.fin 300) && Np.lt (Np.fin c) (Np.fin 2000) = true).
  { unfold Np.lt, Np.gt, Np.fin.
    destruct (Rlt_dec 300 c); [|lra]. destruct (Rlt_dec c 2000); [|lra].
    reflexivity. }
  rewrite Hkeep. f_equal. exact IH.
Qed.

Lemma rms_zeros (m : nat) :
  (0 < m)%nat ->
  Np.sqrt (Np.mean (map Np.square (repeat (Np.fin 0) m))) = Np.fin 0.
Proof.
  intros Hm.
  assert (Hsq : map Np.square (repeat (Np.fin 0) m) = repeat (Np.fin 0) m).
  { rewrite map_repeat. f_equal. unfold Np.square, Np.mul, Np.lift2, Np.fin.
    f_equal. ring. }
  rewrite Hsq, mean_constant by exact Hm.
  unfold Np.fin. rewrite sqrt_fin by lra. rewrite sqrt_0. reflexivity.
Qed.

Lemma pnn_zeros (m : nat) (t : R) :
  (0 < m)%nat -> (0 <= t)%R -> Extractor.pnn (repeat (Np.fin 0) m) t = Np.fin 0.
Proof.
  intros Hm Ht.
  replace (repeat (Np.fin 0) m) with (map Some (repeat 0%R m))
    by (rewrite map_repeat; reflexivity).
  rewrite pnn_value by (destruct m; [lia|discriminate]).
  assert (Hc : Np.count_true
                 (map (fun d => Np.gt (Np.abs (Some d)) (Np.fin t)) (repeat 0%R m)) = 0%Z).
  { rewrite map_repeat. unfold Np.gt, Np.abs, Np.fin. cbn [option_map].
    rewrite Rabs_R0. destruct (Rlt_dec t 0) as [H|_]; [lra|].
    unfold Np.count_true. clear. induction m as [|m IH]; [reflexivity|exact IH]. }
  rewrite Hc. unfold Np.fin. f_equal. unfold Rdiv. ring.
Qed.

(** X22. [compute_ibi_from_peaks] with a sampling rate that is not zero
    turns [n] peaks into [n - 1] intervals, interval [k] being the
    distance between peaks [k] and [k + 1] in samples, divided by the
    rate, times 1000.  For three or more peaks a constant [step] samples
    apart the intervals are all one value; when it lies strictly between
    300 and 2000 ms, the HRV features are the computed mean and standard
    deviation of these equal intervals and 0 for RMSSD, pNN50 and pNN20,
    and the standard deviation is 0 when the computed mean is the interval
    itself. *)
Theorem even_peaks_hrv (peaks : list nat) (fs : R) :
  fs <> 0%R ->
  length (Preprocessing.compute_ibi_from_peaks peaks fs) = (length peaks - 1)%nat /\
  (forall k p q, nth_error peaks k = Some p -> nth_error peaks (S k) = Some q ->
     nth_error (Preprocessing.compute_ibi_from_peaks peaks fs) k =
     Some (Np.fin (IZR (Z.of_nat q - Z.of_nat p) / fs * 1000))) /\
  (forall first step n,
     peaks = map (fun k => first + k * step)%nat (seq 0 n) ->
     (3 <= n)%nat -> (300 < INR step / fs * 1000 < 2000)%R ->
     let ibi := repeat (Np.fin (INR step / fs * 1000)) (n - 1) in
     Preprocessing.compute_ibi_from_peaks peaks fs = ibi /\
     Extractor._compute_hrv_features ibi =
     [ ("hrv_mean_ibi", Pd.VFloat (Np.mean ibi));
       ("hrv_sdnn", Pd.VFloat (Np.std ibi));
       ("hrv_rmssd", Pd.VFloat (Np.fin 0));
       ("hrv_pnn50", Pd.VFloat (Np.fin 0));
       ("hrv_pnn20", Pd.VFloat (Np.fin 0)) ]%string /\
     (Np.mean ibi = Np.fin (INR step / fs * 1000) -> Np.std ibi = Np.fin 0)).
Proof.
  intros Hfs. split; [apply compute_ibi_length|]. split.
  - intros k p q Hp Hq. apply compute_ibi_nth; assumption.
  - intros first step n -> Hn Hms ibi.
    split; [apply even_peaks_intervals; exact Hfs|]. split.
    + unfold ibi.
      rewrite hrv_features_normal_form, valid_ibi_constant by exact Hms.
      rewrite repeat_length.
      destruct (Nat.leb_spec 2 (n - 1)) as [_|H]; [|lia].
      unfold hrv_table.
      rewrite diff_constant.
      rewrite rms_zeros, !pnn_zeros by (try lia; lra).
      reflexivity.
    + intros Hmean. apply std_constant_exact_mean; [lia|exact Hmean].
Qed.

Lemma even_peaks_hrv_witness :
  Py.dict_get
    (Extractor._compute_hrv_features
       (Preprocessing.compute_ibi_from_peaks [10; 61; 112; 163]%nat 64))
    "hrv_rmssd" = Some (Pd.VFloat (Np.fin 0)).
Proof.
  destruct (proj2 (proj2 (@even_peaks_hrv [10; 61; 112; 163]%nat 64 ltac:(lra)))
              10%nat 51%nat 4%nat eq_refl ltac:(lia)) as (Hibi & Hhrv & _).
  - simpl. lra.
  - rewrite Hibi, Hhrv. reflexivity.
Defined.

(* ------------------------------------------------------------------ *)
(** ** Normalised signals                                               *)
(* ------------------------------------------------------------------ *)

Lemma Rsum_scaled (f : R -> R) (c : R) (xs : list R) :
  Rsum (map (fun x => f x / c)%R xs) = (Rsum (map f xs) / c)%R.
Proof.
  induction xs as [|x xs IH].
  - simpl. unfold Rdiv. ring.
  - cbn [map]. change (Rsum (?a :: ?l)) with (a + Rsum l)%R.
    rewrite IH. unfold Rdiv. ring.
Qed.

Lemma Rsum_centered (m : R) (xs : list R) :
  Rsum (map (fun x => x - m)%R xs) = (Rsum xs - INR (length xs) * m)%R.
Proof.
  induction xs as [|x xs IH].
  - simpl. ring.
  - cbn [map]. change (Rsum (?a :: ?l)) with (a + Rsum l)%R.
    rewrite IH. change (length (x :: xs)) with (S (length xs)). rewrite S_INR. ring.
Qed.

Lemma Rmean_standardized (xs : list R) (s : R) :
  xs <> [] -> s <> 0%R ->
  Rmean (map (fun x => (x - Rmean xs) / s)%R xs) = 0%R.
Proof.
  intros Hne Hs. unfold Rmean at 1. rewrite length_map.
  rewrite (Rsum_scaled (fun x => x - Rmean xs)%R s xs), Rsum_centered.
  assert (Hn : (0 < INR (length xs))%R).
  { destruct xs as [|x xs']; [contradiction|]. apply INR_length_pos. }
  unfold Rmean. field. split; lra.
Qed.

Lemma Rvar_standardized (xs : list R) (s : R) :
  xs <> [] -> s <> 0%R ->
  Rvar (map (fun x => (x - Rmean xs) / s)%R xs) = (Rvar xs / (s * s))%R.
Proof.
  intros Hne Hs. unfold Rvar at 1. rewrite (Rmean_standardized Hne Hs).
  rewrite map_map. unfold Rmean at 1. rewrite length_map.
  assert (Hext : map (fun x => (Rabs ((x - Rmean xs) / s - 0) *
                                Rabs ((x - Rmean xs) / s - 0))%R) xs =
                 map (fun x => (Rabs (x - Rmean xs) * Rabs (x - Rmean xs)) / (s * s))%R xs).
  { apply map_ext. intros x. rewrite Rminus_0_r.
    unfold Rdiv. rewrite Rabs_mult.
    assert (Hinv : (Rabs (/ s) * Rabs (/ s) = / (s * s))%R).
    { rewrite <- Rabs_mult. rewrite Rabs_pos_eq.
      - field. exact Hs.
      - replace (/ s * / s)%R with ((/ s) ^ 2)%R by ring. apply pow2_ge_0. }
    rewrite <- Hinv. ring. }
  rewrite Hext, (Rsum_scaled (fun x => Rabs (x - Rmean xs) * Rabs (x - Rmean xs))%R).
  assert (Hvar : Rvar xs =
            (Rsum (map (fun x => Rabs (x - Rmean xs) * Rabs (x - Rmean xs))%R xs) /
             INR (length xs))%R).
  { unfold Rvar. unfold Rmean at 1. rewrite length_map. reflexivity. }
  rewrite Hvar.
  assert (Hn : (0 < INR (length xs))%R).
  { destruct xs as [|x xs']; [contradiction|]. apply INR_length_pos. }
  field. split; [lra|exact Hs].
Qed.

Section Normalised.
Context {L : Library}.

Lemma zscore_run (xs : list R) (axis : option Z) :
  Preprocessing.axis_ok axis = true -> xs <> [] -> sqrt (Rvar xs) <> 0%R ->
  Preprocessing.normalize_signal (map Some xs) "zscore" axis =
  Py.Ok (map Some (map (fun x => (x - Rmean xs) / sqrt (Rvar xs))%R xs)).
Proof.
  intros Hax Hne Hs. unfold Preprocessing.normalize_signal.
  cbn [String.eqb Ascii.eqb Bool.eqb]. rewrite Hax. cbn [negb].
  rewrite (mean_fins Hne), (std_fins Hne). f_equal.
  unfold Np.eq, Np.fin, Np.where_.
  destruct (Req_dec_T (sqrt (Rvar xs)) 0) as [H0|_]; [contradiction|].
  rewrite !map_map. apply map_ext. intros x.
  unfold Np.sub, Np.lift2, Np.div.
  destruct (Req_dec_T (sqrt (Rvar xs)) 0) as [H0|_]; [contradiction|reflexivity].
Qed.

(** X23. For a signal without NaN whose standard deviation is not zero,
    z-score normalisation returns a signal of the same length whose mean
    is 0 and whose standard deviation is 1 (in exact arithmetic). *)
Theorem zscore_standardizes (data : list Np.cell) (axis : option Z) :
  Preprocessing.axis_ok axis = true ->
  data <> [] -> ~ In Np.NaN data -> Np.std data <> Np.fin 0 ->
  exists out,
    Preprocessing.normalize_signal data "zscore" axis = Py.Ok out /\
    length out = length data /\
    Np.mean out = Np.fin 0 /\ Np.std out = Np.fin 1.
Proof.
  intros Hax Hne Hnan Hstd.
  pose proof (@fins_of_no_nan data Hnan) as Hd.
  remember (finite_values data) as xs eqn:Heqxs. clear Heqxs. subst data.
  assert (Hxs : xs <> []) by (intros E; rewrite E in Hne; apply Hne; reflexivity).
  rewrite (std_fins Hxs) in Hstd.
  assert (Hs : sqrt (Rvar xs) <> 0%R).
  { intros E. apply Hstd. rewrite E. reflexivity. }
  set (ys := map (fun x => (x - Rmean xs) / sqrt (Rvar xs))%R xs).
  assert (Hys : ys <> []).
  { unfold ys. destruct xs; [contradiction|discriminate]. }
  exists (map Some ys). split; [apply zscore_run; assumption|].
  split; [unfold ys; rewrite !length_map; reflexivity|].
  rewrite (mean_fins Hys), (std_fins Hys). unfold ys.
  rewrite (Rmean_standardized Hxs Hs), (Rvar_standardized Hxs Hs).
  split; [reflexivity|].
  rewrite sqrt_sqrt by (apply Rvar_nonneg; exact Hxs).
  assert (Hv : Rvar xs <> 0%R).
  { intros E. apply Hs. rewrite E. apply sqrt_0. }
  replace (Rvar xs / Rvar xs)%R with 1%R by (field; exact Hv).
  rewrite sqrt_1. reflexivity.
Qed.

End Normalised.

Lemma zscore_standardizes_witness :
  exists out,
    Preprocessing.normalize_signal (L := fixed_library (Py.Ok []))
      [Np.fin 1; Np.fin 3] "zscore" None = Py.Ok out /\
    Np.mean out = Np.fin 0 /\ Np.std out = Np.fin 1.
Proof.
  assert (Hvar : Rvar [1; 3]%R = 1%R).
  { unfold Rvar, Rmean. cbn [map length Rsum fold_right]. simpl INR.
    replace ((1 + (3 + 0)) / (1 + 1))%R with 2%R by field.
    replace (1 - 2)%R with (-1)%R by ring. replace (3 - 2)%R with 1%R by ring.
    rewrite (Rabs_left (-1)) by lra. rewrite Rabs_R1. field. }
  destruct (@zscore_standardizes (fixed_library (Py.Ok [])) [Np.fin 1; Np.fin 3] None
              eq_refl ltac:(discriminate)
              ltac:(intros [H|[H|[]]]; discriminate H))
    as [out [Hrun [_ [Hm Hs]]]].
  - change [Np.fin 1; Np.fin 3] with (map Some [1; 3]%R).
    rewrite std_fins by discriminate. rewrite Hvar, sqrt_1.
    unfold Np.fin. intros H. injection H as H. lra.
  - exists out. repeat split; assumption.
Defined.

Lemma fold_fmin_nan (l : list Np.cell) (x : Np.cell) :
  x = None \/ In None l -> fold_left Np.fmin l x = None.
Proof.
  revert x. induction l as [|y l IH]; intros x H.
  - destruct H as [H|[]]. exact H.
  - cbn [fold_left]. apply IH. destruct H as [->|[->|H]].
    + left. reflexivity.
    + left. destruct x; reflexivity.
    + right. exact H.
Qed.

Lemma fold_fmax_nan (l : list Np.cell) (x : Np.cell) :
  x = None \/ In None l -> fold_left Np.fmax l x = None.
Proof.
  revert x. induction l as [|y l IH]; intros x H.
  - destruct H as [H|[]]. exact H.
  - cbn [fold_left]. apply IH. destruct H as [->|[->|H]].
    + left. reflexivity.
    + left. destruct x; reflexivity.
    + right. exact H.
Qed.

Section MinMax.
Context {L : Library}.

Lemma minmax_run (r : R) (rs : list R) (axis : option Z) :
  Preprocessing.axis_ok axis = true ->
  let lo := fold_left Rmin rs r in
  let hi := fold_left Rmax rs r in
  Preprocessing.normalize_signal (map Some (r :: rs)) "minmax" axis =
  Py.Ok (map (fun x => Some (if Req_dec_T (hi - lo) 0 then x - lo
                             else (x - lo) / (hi - lo))%R) (r :: rs)).
Proof.
  intros Hax lo hi. unfold Preprocessing.normalize_signal.
  cbn [String.eqb Ascii.eqb Bool.eqb]. rewrite Hax. cbn [negb].
  cbn [map Np.min Np.max]. rewrite fold_fmin_fins, fold_fmax_fins.
  fold lo. fold hi. cbn [Py.bind]. f_equal.
  assert (Hpt : forall x,
            Np.div (Np.sub (Some x) (Some lo))
              (Np.where_ (Np.eq (Np.sub (Some hi) (Some lo)) (Np.fin 0))
                 (Np.fin 1) (Np.sub (Some hi) (Some lo))) =
            Some (if Req_dec_T (hi - lo) 0 then x - lo
                  else (x - lo) / (hi - lo))%R).
  { intros x. unfold Np.sub, Np.lift2, Np.eq, Np.fin, Np.where_, Np.div.
    destruct (Req_dec_T (hi - lo) 0) as [H0|H0].
    - destruct (Req_dec_T 1 0) as [H1|_]; [lra|]. f_equal. field.
    - destruct (Req_dec_T (hi - lo) 0) as [H0'|_]; [contradiction|reflexivity]. }
  rewrite map_map. cbn [map]. rewrite Hpt. f_equal.
  apply map_ext. exact Hpt.
Qed.

(** X24. For a signal without NaN that is not empty, min-max
    normalisation returns a signal of the same length with every value
    between 0 and 1; when the signal is not constant, value [x] becomes
    [(x - min) / (max - min)], so that the minimum becomes 0 and the
    maximum 1. *)
Theorem minmax_unit_interval (data : list Np.cell) (axis : option Z) :
  Preprocessing.axis_ok axis = true ->
  data <> [] -> ~ In Np.NaN data ->
  exists out lo hi,
    Preprocessing.normalize_signal data "minmax" axis = Py.Ok out /\
    length out = length data /\
    In (Np.fin lo) data /\ In (Np.fin hi) data /\
    (forall x, In (Np.fin x) data -> lo <= x <= hi)%R /\
    (forall k x, nth_error data k = Some (Np.fin x) ->
       exists y, nth_error out k = Some (Np.fin y) /\ (0 <= y <= 1)%R /\
                 ((lo < hi)%R -> y = ((x - lo) / (hi - lo))%R)) /\
    ((lo < hi)%R -> In (Np.fin 0) out /\ In (Np.fin 1) out).
Proof.
  intros Hax Hne Hnan.
  pose proof (@fins_of_no_nan data Hnan) as Hd.
  remember (finite_values data) as xs eqn:Heqxs. clear Heqxs. subst data.
  destruct xs as [|r rs]; [exfalso; apply Hne; reflexivity|].
  pose proof (fold_Rmin_least rs r) as [Hlo_in Hlo].
  pose proof (fold_Rmax_greatest rs r) as [Hhi_in Hhi].
  pose proof (@minmax_run r rs axis Hax) as Hrun. cbv zeta in Hrun.
  set (lo := fold_left Rmin rs r) in *. set (hi := fold_left Rmax rs r) in *.
  assert (Hlohi : (lo <= hi)%R).
  { apply Rle_trans with r; [apply Hlo|apply Hhi]; left; reflexivity. }
  set (f := fun x => (if Req_dec_T (hi - lo) 0 then x - lo
                      else (x - lo) / (hi - lo))%R) in *.
  assert (Hf : forall x, In x (r :: rs) ->
             (0 <= f x <= 1)%R /\ ((lo < hi)%R -> f x = ((x - lo) / (hi - lo))%R)).
  { intros x Hx. pose proof (Hlo x Hx) as Hxlo. pose proof (Hhi x Hx) as Hxhi.
    unfold f.
    destruct (Req_dec_T (hi - lo) 0) as [H0|H0].
    - split; [lra|]. intros Hlt. lra.
    - split; [|reflexivity].
      assert (Hpos : (0 < hi - lo)%R) by lra.
      split.
      + apply Rmult_le_pos; [lra|]. left. apply Rinv_0_lt_compat. exact Hpos.
      + apply Rmult_le_reg_r with (hi - lo)%R; [exact Hpos|].
        unfold Rdiv. rewrite Rmult_assoc, Rinv_l by lra. lra. }
  exists (map (fun x => Some (f x)) (r :: rs)), lo, hi.
  split; [exact Hrun|]. split; [rewrite !length_map; reflexivity|].
  split; [apply in_map; exact Hlo_in|]. split; [apply in_map; exact Hhi_in|].
  split.
  { intros x Hx. apply in_map_iff in Hx. destruct Hx as [x' [E Hx']].
    unfold Np.fin in E. injection E as <-. split; [apply Hlo|apply Hhi]; exact Hx'. }
  split.
  - intros k x Hk. rewrite nth_error_map in Hk.
    destruct (nth_error (r :: rs) k) as [x'|] eqn:Hx'; [|discriminate].
    cbn [option_map] in Hk. unfold Np.fin in Hk. injection Hk as ->.
    exists (f x). rewrite nth_error_map, Hx'. split; [reflexivity|].
    apply Hf. apply nth_error_In with k. exact Hx'.
  - intros Hlt. split.
    + apply in_map_iff. exists lo. split; [|exact Hlo_in].
      unfold Np.fin. f_equal.
      rewrite (proj2 (Hf lo Hlo_in) Hlt). field. lra.
    + apply in_map_iff. exists hi. split; [|exact Hhi_in].
      unfold Np.fin. f_equal.
      rewrite (proj2 (Hf hi Hhi_in) Hlt). field. lra.
Qed.

(** X25. A normalised signal has as many samples as the input.  A
    single NaN sample makes every sample of the z-score and of the
    min-max result NaN.  On the empty signal z-score returns the empty
    signal while min-max raises [ValueError]. *)
Theorem normalize_nan_and_empty (data : list Np.cell) (method : string)
    (axis : option Z) :
  (forall out, Preprocessing.normalize_signal data method axis = Py.Ok out ->
     length out = length data) /\
  (Preprocessing.axis_ok axis = true -> In Np.NaN data ->
   Preprocessing.normalize_signal data "zscore" axis =
     Py.Ok (map (fun _ => Np.NaN) data) /\
   Preprocessing.normalize_signal data "minmax" axis =
     Py.Ok (map (fun _ => Np.NaN) data)) /\
  (Preprocessing.axis_ok axis = true ->
   Preprocessing.normalize_signal [] "zscore" axis = Py.Ok [] /\
   Preprocessing.normalize_signal [] "minmax" axis = Py.Raise Py.ValueError).
Proof.
  split; [|split].
  - intros out Hrun. unfold Preprocessing.normalize_signal in Hrun.
    destruct (String.eqb method "zscore").
    { destruct (negb (Preprocessing.axis_ok axis)); [discriminate|].
      injection Hrun as <-. apply length_map. }
    destruct (String.eqb method "minmax").
    { destruct (negb (Preprocessing.axis_ok axis)); [discriminate|].
      destruct (Np.min data) as [lo|]; [|discriminate]. cbn [Py.bind] in Hrun.
      destruct (Np.max data) as [hi|]; [|discriminate]. cbn [Py.bind] in Hrun.
      injection Hrun as <-. apply length_map. }
    destruct (String.eqb method "robust"); [|discriminate].
    destruct (negb (Preprocessing.axis_ok axis)); [discriminate|].
    injection Hrun as <-. apply length_map.
  - intros Hax Hin.
    assert (Hne : data <> []) by (intros E; rewrite E in Hin; contradiction).
    split.
    + unfold Preprocessing.normalize_signal.
      cbn [String.eqb Ascii.eqb Bool.eqb]. rewrite Hax. cbn [negb].
      rewrite (proj2 (mean_nan_iff Hne) Hin), (std_nan data Hin).
      f_equal. apply map_ext. intros x. destruct x; reflexivity.
    + unfold Preprocessing.normalize_signal.
      cbn [String.eqb Ascii.eqb Bool.eqb]. rewrite Hax. cbn [negb].
      destruct data as [|x xs]; [contradiction|].
      cbn [Np.min Np.max].
      assert (Hx : x = None \/ In None xs).
      { destruct Hin as [H|H]; [left; exact H|right; exact H]. }
      rewrite (fold_fmin_nan xs Hx), (fold_fmax_nan xs Hx). cbn [Py.bind].
      f_equal. apply map_ext. intros y. destruct y; reflexivity.
  - intros Hax. split.
    + unfold Preprocessing.normalize_signal.
      cbn [String.eqb Ascii.eqb Bool.eqb]. rewrite Hax. reflexivity.
    + unfold Preprocessing.normalize_signal.
      cbn [String.eqb Ascii.eqb Bool.eqb]. rewrite Hax. reflexivity.
Qed.

End MinMax.

Lemma minmax_unit_interval_witness :
  exists out,
    Preprocessing.normalize_signal (L := fixed_library (Py.Ok []))
      [Np.fin 2; Np.fin 6; Np.fin 4] "minmax" None = Py.Ok out /\
    length out = 3%nat.
Proof.
  destruct (@minmax_unit_interval (fixed_library (Py.Ok []))
              [Np.fin 2; Np.fin 6; Np.fin 4] None eq_refl ltac:(discriminate)
              ltac:(intros [H|[H|[H|[]]]]; discriminate H))
    as [out [lo [hi [Hrun [Hlen _]]]]].
  exists out. split; [exact Hrun|exact Hlen].
Defined.

Lemma normalize_nan_and_empty_witness :
  Preprocessing.normalize_signal (L := fixed_library (Py.Ok []))
    [Np.fin 2; Np.NaN] "minmax" None = Py.Ok [Np.NaN; Np.NaN] /\
  Preprocessing.normalize_signal (L := fixed_library (Py.Ok []))
    [] "minmax" None = Py.Raise Py.ValueError.
Proof.
  destruct (@normalize_nan_and_empty (fixed_library (Py.Ok []))
              [Np.fin 2; Np.NaN] "minmax" None) as [_ [Hnan Hempty]].
  split.
  - apply (proj2 (Hnan eq_refl ltac:(right; left; reflexivity))).
  - apply (proj2 (Hempty eq_refl)).
Defined.

(* ------------------------------------------------------------------ *)
(** ** Resampling at a new rate; peak detection that fails              *)
(* ------------------------------------------------------------------ *)

Section ResampleErrors.
Context {L : Library}.

(** X26. With different rates, [resample_signal] raises [IndexError] on
    an empty signal before anything else is looked at, and
    [ZeroDivisionError] for a target rate of zero on a signal that is
    not empty.  Whenever it returns, with equal rates or not, the result
    is a new array and every array that existed keeps its contents: the
    input is never changed in place. *)
Theorem resample_errors_and_heap (h : Np.heap) (data : Np.ndarray)
    (original_sr target_sr : R) (method : string) :
  (original_sr <> target_sr -> Np.deref h data = [] ->
   Preprocessing.resample_signal h data original_sr target_sr method =
     Py.Raise Py.IndexError) /\
  (original_sr <> target_sr -> Np.deref h data <> [] -> target_sr = 0%R ->
   Preprocessing.resample_signal h data original_sr target_sr method =
     Py.Raise Py.ZeroDivisionError) /\
  (forall data' h',
     Preprocessing.resample_signal h data original_sr target_sr method =
       Py.Ok (data', h') ->
     data' = length h /\ length h' = S (length h) /\
     (forall a, (a < length h)%nat -> Np.deref h' a = Np.deref h a)).
Proof.
  split; [|split].
  - intros Hne Hd. unfold Preprocessing.resample_signal.
    destruct (Req_dec_T original_sr target_sr) as [E|_]; [contradiction|].
    rewrite Hd. reflexivity.
  - intros Hne Hd Ht. unfold Preprocessing.resample_signal.
    destruct (Req_dec_T original_sr target_sr) as [E|_]; [contradiction|].
    destruct (Np.deref h data) as [|x xs] eqn:Hdx; [contradiction|].
    set (t := map _ (seq 0 (length (x :: xs)))).
    assert (Hrev : exists last rest, rev t = last :: rest).
    { destruct (rev t) as [|last rest] eqn:Hr.
      - apply (f_equal (@length Np.cell)) in Hr.
        rewrite length_rev in Hr. unfold t in Hr.
        rewrite length_map, length_seq in Hr. discriminate Hr.
      - exists last, rest. reflexivity. }
    destruct Hrev as [last [rest Hr]]. rewrite Hr. cbn [Py.bind].
    destruct (Req_dec_T target_sr 0) as [_|Hn]; [reflexivity|contradiction].
  - intros data' h' Hrun.
    assert (Halloc : exists v, (data', h') = Np.alloc h v).
    { unfold Preprocessing.resample_signal in Hrun.
      destruct (Req_dec_T original_sr target_sr).
      - injection Hrun as <- <-. eexists. reflexivity.
      - destruct (rev _) as [|last rest]; [discriminate|]. cbn [Py.bind] in Hrun.
        destruct (Req_dec_T target_sr 0); [discriminate|]. cbn [Py.bind] in Hrun.
        destruct (Np.arange0 last (1 / target_sr)) as [grid|]; [|discriminate].
        cbn [Py.bind] in Hrun.
        destruct (interp1d _ _ method) as [f|]; [|discriminate].
        cbn [Py.bind] in Hrun. injection Hrun as <- <-. eexists. reflexivity. }
    destruct Halloc as [v Hv]. unfold Np.alloc in Hv. injection Hv as -> ->.
    split; [reflexivity|]. split; [rewrite length_app; simpl; lia|].
    intros a Ha. unfold Np.deref. apply app_nth1. exact Ha.
Qed.

(** X27. [_extract_ppg_features] returns features for every epoch that
    has a [BVP] column, whatever peak detection does: when
    [detect_ppg_peaks] raises, the error is swallowed and the features
    are the statistics of [BVP] followed by the heart-rate features,
    with no HRV key.  Without a [BVP] column it raises [KeyError]. *)
Theorem ppg_features_survive_detection (self : Extractor.FeatureExtractor)
    (epoch_df : Pd.DataFrame) :
  (forall bvp, Pd.values epoch_df "BVP" = Py.Ok bvp ->
     exists features,
       Extractor._extract_ppg_features self epoch_df = Py.Ok features /\
       forall e,
         Preprocessing.detect_ppg_peaks bvp (Extractor.fs self)
           Preprocessing.default_min_distance = Py.Raise e ->
         features =
           stat_part "ppg" bvp ++
           match hr_column epoch_df with
           | Some hr => hr_part hr
           | None => []
           end /\
         forall k, In k (Py.dict_keys features) -> ~ In k hrv_names) /\
  (Pd.in_columns "BVP" epoch_df = false ->
   Extractor._extract_ppg_features self epoch_df = Py.Raise Py.KeyError).
Proof.
  split.
  - intros bvp Hbvp.
    exists (ppg_part self bvp (hr_column epoch_df)).
    split; [apply ppg_features_normal_form; [exact Hbvp|apply hr_column_spec]|].
    intros e He.
    assert (Hhrv : hrv_part self bvp = []).
    { unfold hrv_part, hrv_available. rewrite He. reflexivity. }
    unfold ppg_part. rewrite Hhrv, app_nil_r. split; [reflexivity|].
    intros k Hk Hin. rewrite dict_keys_app in Hk. apply in_app_or in Hk.
    destruct (other_groups_lack_hrv Hin) as [Hstat [Hhr _]].
    destruct Hk as [Hk|Hk].
    + rewrite stat_part_keys in Hk. unfold stat_names in Hk.
      destruct (has_valid bvp); [|contradiction].
      apply (Hstat "ppg"%string); [simpl; tauto|exact Hk].
    + destruct (hr_column epoch_df) as [hr|]; [|contradiction].
      rewrite hr_part_keys in Hk. destruct (has_valid hr); [|contradiction].
      apply Hhr. exact Hk.
  - intros Hno. unfold Extractor._extract_ppg_features.
    rewrite (values_absent _ _ Hno). reflexivity.
Qed.

End ResampleErrors.

Lemma resample_errors_and_heap_witness :
  Preprocessing.resample_signal (L := fixed_library (Py.Ok [])) [[]] 0 64 32 "linear" =
    Py.Raise Py.IndexError /\
  Preprocessing.resample_signal (L := fixed_library (Py.Ok [])) two_sample_heap 0 64 0
    "linear" = Py.Raise Py.ZeroDivisionError.
Proof.
  split.
  - apply (proj1 (@resample_errors_and_heap (fixed_library (Py.Ok [])) [[]] 0%nat
                    64 32 "linear")); [lra|reflexivity].
  - apply (proj1 (proj2 (@resample_errors_and_heap (fixed_library (Py.Ok []))
                           two_sample_heap 0%nat 64 0 "linear")));
      [lra|discriminate|reflexivity].
Defined.

Lemma ppg_features_survive_detection_witness :
  exists features,
    Extractor._extract_ppg_features (L := fixed_library (Py.Raise Py.ValueError))
      slow_extractor six_row_table = Py.Ok features /\
    ~ In "hrv_sdnn"%string (Py.dict_keys features).
Proof.
  destruct (proj1 (@ppg_features_survive_detection
                     (fixed_library (Py.Raise Py.ValueError)) slow_extractor
                     six_row_table) _ eq_refl) as [features [Hrun Herr]].
  exists features. split; [exact Hrun|].
  destruct (Herr Py.ValueError eq_refl) as [_ Hno].
  intros Hin. apply (Hno _ Hin). simpl. tauto.
Defined.

(* ------------------------------------------------------------------ *)
(** ** Frequency features                                               *)
(* ------------------------------------------------------------------ *)

Lemma argmax_from_bound (a : list Np.cell) (best : Np.cell) (besti i : nat) :
  (besti < i)%nat -> (Np.argmax_from best besti i a < i + length a)%nat.
Proof.
  revert best besti i. induction a as [|x xs IH]; intros best besti i Hlt.
  - cbn [Np.argmax_from length]. lia.
  - cbn [Np.argmax_from length]. destruct (Np.isnan best); [lia|].
    destruct (Np.isnan x || Np.gt x best).
    + pose proof (IH x i (S i) ltac:(lia)). lia.
    + pose proof (IH best besti (S i) ltac:(lia)). lia.
Qed.

Lemma argmax_bound (a : list Np.cell) :
  a <> [] -> exists i, Np.argmax a = Py.Ok i /\ (i < length a)%nat.
Proof.
  intros Hne. destruct a as [|x xs]; [contradiction|].
  eexists. split; [reflexivity|].
  pose proof (@argmax_from_bound xs x 0 1 ltac:(lia)). cbn [length]. lia.
Qed.

Section FrequencyOutcomes.
Context {L : Library}.

Local Ltac fresh_suffix :=
  simpl; intros Hin;
  repeat (destruct Hin as [Hin|Hin]; [discriminate Hin|]); exact Hin.

(** X28. When the spectrum of the signal is available,
    [extract_frequency_features] raises [ZeroDivisionError] for a
    sampling rate of zero and [ValueError] when the spectrum has a
    single bin, as for a signal of one sample.  For a positive rate and
    a spectrum of [n // 2 + 1 >= 2] bins it returns the total power, the
    powers of the three bands, a dominant frequency that is the
    frequency [(i + 1) * fs / n] of the strongest bin after the first
    and so never 0 Hz, and as LF/HF ratio the quotient of the two band
    powers when the HF power is positive and the integer 0 otherwise. *)
Theorem frequency_features_outcomes (self : Extractor.FeatureExtractor)
    (signal_data : list Np.cell) (prefix : string) (power : list Np.cell) :
  rfft_power signal_data = Py.Ok power ->
  let n := length signal_data in
  let fs := Extractor.fs self in
  (fs = 0%R ->
   Extractor.extract_frequency_features self signal_data prefix =
     Py.Raise Py.ZeroDivisionError) /\
  (fs <> 0%R -> (length power <= 1)%nat ->
   Extractor.extract_frequency_features self signal_data prefix =
     Py.Raise Py.ValueError) /\
  ((0 < fs)%R -> (2 <= length power)%nat -> length power = (n / 2 + 1)%nat ->
   exists features i vlf lf hf,
     Extractor.extract_frequency_features self signal_data prefix =
       Py.Ok features /\
     Np.argmax (tl power) = Py.Ok i /\ (i + 1 < length power)%nat /\
     Extractor.band_power power (Extractor.rfftfreq n (1 / fs)) (3 / 1000) (4 / 100)
       = Py.Ok vlf /\
     Extractor.band_power power (Extractor.rfftfreq n (1 / fs)) (4 / 100) (15 / 100)
       = Py.Ok lf /\
     Extractor.band_power power (Extractor.rfftfreq n (1 / fs)) (15 / 100) (4 / 10)
       = Py.Ok hf /\
     features =
       prefixed prefix
         [ ("_total_power", Pd.VFloat (Np.sum power));
           ("_dominant_freq", Pd.VFloat (Np.fin (INR (i + 1) / (1 / fs * INR n))));
           ("_vlf_power", Pd.VFloat vlf);
           ("_lf_power", Pd.VFloat lf);
           ("_hf_power", Pd.VFloat hf);
           ("_lf_hf_ratio",
              if Np.gt hf (Np.fin 0) then Pd.VFloat (Np.div lf hf)
              else Pd.VInt 0) ]%string /\
     (0 < INR (i + 1) / (1 / fs * INR n))%R).
Proof.
  intros Hpow n fs. split; [|split].
  - intros H0. unfold Extractor.extract_frequency_features. rewrite Hpow.
    cbn [Py.bind]. fold fs. destruct (Req_dec_T fs 0); [reflexivity|contradiction].
  - intros Hfs Hlen. unfold Extractor.extract_frequency_features. rewrite Hpow.
    cbn [Py.bind]. fold fs. destruct (Req_dec_T fs 0); [contradiction|].
    cbn [Py.bind].
    destruct power as [|p0 [|p1 rest]]; [reflexivity|reflexivity|].
    simpl in Hlen. lia.
  - intros Hfs Hlen Hbins.
    assert (Hn : (2 <= n)%nat).
    { destruct n as [|[|n']]; [simpl in Hbins; lia|simpl in Hbins; lia|lia]. }
    assert (Htl : tl power <> []).
    { destruct power as [|p0 [|p1 rest]]; simpl in Hlen; try lia. discriminate. }
    destruct (argmax_bound Htl) as [i [Hi Hilt]].
    assert (Hi1 : (i + 1 < length power)%nat).
    { destruct power as [|p0 rest]; [simpl in Hlen; lia|].
      cbn [tl length] in *. lia. }
    assert (Hfreq_len : length (Extractor.rfftfreq n (1 / fs)) = length power).
    { unfold Extractor.rfftfreq. rewrite length_map, length_seq. symmetry. exact Hbins. }
    assert (Hband : forall lo hi, exists p,
               Extractor.band_power power (Extractor.rfftfreq n (1 / fs)) lo hi = Py.Ok p).
    { intros lo hi. unfold Extractor.band_power.
      rewrite Hfreq_len, Nat.eqb_refl. eexists. reflexivity. }
    destruct (Hband (3 / 1000) (4 / 100))%R as [vlf Hvlf].
    destruct (Hband (4 / 100) (15 / 100))%R as [lf Hlf].
    destruct (Hband (15 / 100) (4 / 10))%R as [hf Hhf].
    assert (HnR : (0 < INR n)%R) by (apply lt_0_INR; lia).
    assert (Hden : (0 < 1 / fs * INR n)%R).
    { apply Rmult_lt_0_compat; [|exact HnR].
      unfold Rdiv. rewrite Rmult_1_l. apply Rinv_0_lt_compat. exact Hfs. }
    assert (Hdom : nth_error (Extractor.rfftfreq n (1 / fs)) (i + 1) =
                   Some (Np.fin (INR (i + 1) / (1 / fs * INR n)))).
    { unfold Extractor.rfftfreq.
      rewrite (@nth_error_map_seq _
                 (fun k => Np.div (Np.of_nat k) (Np.fin (1 / fs * INR n)))
                 (n / 2 + 1) (i + 1)) by lia.
      f_equal. unfold Np.div, Np.of_nat, Np.fin.
      destruct (Req_dec_T (1 / fs * INR n) 0) as [H0|_]; [lra|reflexivity]. }
    exists (prefixed prefix
         [ ("_total_power", Pd.VFloat (Np.sum power));
           ("_dominant_freq", Pd.VFloat (Np.fin (INR (i + 1) / (1 / fs * INR n))));
           ("_vlf_power", Pd.VFloat vlf);
           ("_lf_power", Pd.VFloat lf);
           ("_hf_power", Pd.VFloat hf);
           ("_lf_hf_ratio",
              if Np.gt hf (Np.fin 0) then Pd.VFloat (Np.div lf hf)
              else Pd.VInt 0) ]%string), i, vlf, lf, hf.
    split.
    { unfold Extractor.extract_frequency_features. cbv zeta. rewrite Hpow.
      cbn [Py.bind]. fold fs. destruct (Req_dec_T fs 0) as [H0|_]; [lra|].
      cbn [Py.bind]. rewrite Hi. cbn [Py.bind]. fold n. rewrite Hdom.
      cbn [Py.bind]. unfold Extractor.bands. cbn [fold_left].
      unfold Extractor.band_step. cbn [Py.bind fst snd].
      rewrite Hvlf. cbn [Py.bind]. rewrite Hlf. cbn [Py.bind].
      rewrite Hhf. cbn [Py.bind].
      change (prefix ++ "_" ++ "vlf" ++ "_power")%string with (prefix ++ "_vlf_power")%string.
      change (prefix ++ "_" ++ "lf" ++ "_power")%string with (prefix ++ "_lf_power")%string.
      change (prefix ++ "_" ++ "hf" ++ "_power")%string with (prefix ++ "_hf_power")%string.
      change (Py.dict_set [] (prefix ++ "_total_power")%string (Pd.VFloat (Np.sum power)))
        with (prefixed prefix [("_total_power"%string, Pd.VFloat (Np.sum power))]).
      rewrite (prefixed_snoc prefix _ "_dominant_freq") by fresh_suffix.
      rewrite (prefixed_snoc prefix _ "_vlf_power") by fresh_suffix.
      rewrite (prefixed_snoc prefix _ "_lf_power") by fresh_suffix.
      rewrite (prefixed_snoc prefix _ "_hf_power") by fresh_suffix.
      unfold Extractor.get_or. rewrite !prefixed_get.
      cbn [app Py.dict_get String.eqb Ascii.eqb Bool.eqb Extractor.to_cell].
      rewrite (prefixed_snoc prefix _ "_lf_hf_ratio") by fresh_suffix.
      reflexivity. }
    split; [exact Hi|]. split; [exact Hi1|].
    split; [exact Hvlf|]. split; [exact Hlf|]. split; [exact Hhf|].
    split; [reflexivity|].
    apply Rmult_lt_0_compat; [apply lt_0_INR; lia|].
    apply Rinv_0_lt_compat. exact Hden.
Qed.

End FrequencyOutcomes.

Lemma frequency_features_outcomes_witness :
  Extractor.extract_frequency_features (L := fixed_library (Py.Ok []))
    (extractor_with 0 4 4) [Np.fin 1; Np.fin 2] "ppg" =
    Py.Raise Py.ZeroDivisionError /\
  Extractor.extract_frequency_features (L := fixed_library (Py.Ok []))
    (extractor_with 64 4 4) [Np.fin 1] "ppg" = Py.Raise Py.ValueError.
Proof.
  split.
  - apply (proj1 (@frequency_features_outcomes (fixed_library (Py.Ok []))
                    (extractor_with 0 4 4) [Np.fin 1; Np.fin 2] "ppg" _ eq_refl)).
    reflexivity.
  - apply (proj1 (proj2 (@frequency_features_outcomes (fixed_library (Py.Ok []))
                           (extractor_with 64 4 4) [Np.fin 1] "ppg" _ eq_refl))).
    + simpl. lra.
    + simpl. lia.
Defined.

(* ------------------------------------------------------------------ *)
(** ** Time vectors                                                     *)
(* ------------------------------------------------------------------ *)

Lemma create_time_vector_run (n_samples : Z) (fs start_time : R) :
  fs <> 0%R ->
  Helpers.create_time_vector n_samples fs start_time =
  map (fun k => Np.fin (INR k / fs + start_time)) (seq 0 (Z.to_nat n_samples)).
Proof.
  intros Hfs. unfold Helpers.create_time_vector. apply map_ext. intros k.
  unfold Np.div, Np.of_nat, Np.fin.
  destruct (Req_dec_T fs 0) as [H|_]; [contradiction|reflexivity].
Qed.

(** X29. For a sampling rate that is not zero, [create_time_vector]
    returns [n_samples] instants (none for a negative count), instant
    [k] being [k / fs + start_time]; for a positive rate they increase
    strictly.  The time vector the loader makes for a table without a
    timestamp column is [create_time_vector(len(df), rate, 0)]. *)
Theorem time_vector_grid (n_samples : Z) (fs start_time : R) :
  fs <> 0%R ->
  let t := Helpers.create_time_vector n_samples fs start_time in
  length t = Z.to_nat n_samples /\
  (forall k, (k < Z.to_nat n_samples)%nat ->
     nth_error t k = Some (Np.fin (INR k / fs + start_time))) /\
  ((0 < fs)%R ->
   forall j k a b, (j < k)%nat ->
     nth_error t j = Some (Np.fin a) -> nth_error t k = Some (Np.fin b) ->
     (a < b)%R) /\
  (forall (self : Loader.DREAMTLoader) (df : Pd.DataFrame),
     Pd.in_columns Loader.TIMESTAMP_COLUMN df = false ->
     Loader.get_time_vector self df =
     Py.Ok (Helpers.create_time_vector (Z.of_nat (Pd.len df))
              (IZR (Loader.rate_of self)) 0)).
Proof.
  intros Hfs t. unfold t. rewrite (create_time_vector_run n_samples start_time Hfs).
  split; [rewrite length_map, length_seq; reflexivity|]. split.
  - intros k Hk.
    apply (@nth_error_map_seq _ (fun k => Np.fin (INR k / fs + start_time))
             (Z.to_nat n_samples) k Hk).
  - split.
    + intros Hpos j k a b Hjk Ha Hb.
      apply nth_error_map_seq_inv in Ha. destruct Ha as [_ Ha].
      apply nth_error_map_seq_inv in Hb. destruct Hb as [_ Hb].
      unfold Np.fin in Ha, Hb. injection Ha as ->. injection Hb as ->.
      apply Rplus_lt_compat_r. unfold Rdiv. apply Rmult_lt_compat_r.
      * apply Rinv_0_lt_compat. exact Hpos.
      * apply lt_INR. exact Hjk.
    + intros self df Hts. rewrite get_time_vector_run, Hts.
      assert (Hr : IZR (Loader.rate_of self) <> 0%R).
      { unfold Loader.rate_of.
        destruct (String.eqb (Loader.resolution self) "64Hz"); lra. }
      rewrite (create_time_vector_run _ 0 Hr), Nat2Z.id. f_equal.
      apply map_ext. intros k. unfold Np.fin. f_equal. ring.
Qed.

Lemma time_vector_grid_witness :
  nth_error (Helpers.create_time_vector 3 64 10) 2 =
  Some (Np.fin (INR 2 / 64 + 10)).
Proof.
  apply (proj1 (proj2 (@time_vector_grid 3 64 10 ltac:(lra)))).
  simpl. lia.
Defined.

(* ------------------------------------------------------------------ *)
(** ** The cells of the feature table                                   *)
(* ------------------------------------------------------------------ *)

Lemma union_keys_spec (rows : list (Py.dict Pd.scalar)) (c : string) :
  In c (Pd.union_keys rows) <-> exists d, In d rows /\ In c (Py.dict_keys d).
Proof.
  unfold Pd.union_keys.
  assert (Hgen : forall acc,
            In c (fold_left (fun acc d => fold_left Pd.add_key (Py.dict_keys d) acc)
                    rows acc) <->
            In c acc \/ exists d, In d rows /\ In c (Py.dict_keys d)).
  { induction rows as [|d rows IH]; intros acc; cbn [fold_left].
    - split; [tauto|]. intros [H|[d [[] _]]]. exact H.
    - rewrite IH, add_keys_spec. split.
      + intros [[H|H]|[d' [Hd' Hc]]].
        * tauto.
        * right. exists d. split; [left; reflexivity|exact H].
        * right. exists d'. split; [right; exact Hd'|exact Hc].
      + intros [H|[d' [[<-|Hd'] Hc]]].
        * tauto.
        * left. right. exact Hc.
        * right. exists d'. split; assumption. }
  rewrite Hgen. simpl. split; [intros [[]|H]; exact H|tauto].
Qed.

Lemma union_keys_NoDup (rows : list (Py.dict Pd.scalar)) : NoDup (Pd.union_keys rows).
Proof.
  unfold Pd.union_keys.
  assert (Hgen : forall acc, NoDup acc ->
            NoDup (fold_left (fun acc d => fold_left Pd.add_key (Py.dict_keys d) acc)
                     rows acc)).
  { induction rows as [|d rows IH]; intros acc Hnd; cbn [fold_left].
    - exact Hnd.
    - apply IH. apply add_keys_NoDup. exact Hnd. }
  apply Hgen. constructor.
Qed.

Lemma index_of_nth (c : string) (cols : list string) (i : nat) :
  Pd.index_of c cols = Some i -> nth_error cols i = Some c.
Proof.
  revert i. induction cols as [|k rest IH]; intros i H; [discriminate|].
  cbn [Pd.index_of] in H. destruct (String.eqb_spec k c) as [->|Hne].
  - injection H as <-. reflexivity.
  - destruct (Pd.index_of c rest) as [j|]; [|discriminate].
    cbn [option_map] in H. injection H as <-. cbn [nth_error]. apply IH. reflexivity.
Qed.

Section TableCells.
Context {L : Library}.

(** X30. The table returned by [extract_all_features] has one row per
    epoch and no repeated column name; every feature name of an epoch is
    a column, and the cell of an epoch in a column holds the epoch's
    feature of that name, or NaN when the epoch has no such feature (as
    for the HRV columns of an epoch with too few peaks). *)
Theorem feature_table_cells (self : Extractor.FeatureExtractor)
    (df : Pd.DataFrame) (include_imu include_ppg : bool)
    (epochs : list Extractor.features_t) :
  Extractor.extract_epochs self df include_imu include_ppg = Py.Ok epochs ->
  let t := Pd.from_records epochs in
  Extractor.extract_all_features self df include_imu include_ppg = Py.Ok t /\
  Pd.ft_len t = length epochs /\
  NoDup (Pd.ft_columns t) /\
  (forall c, In c (Pd.ft_columns t) <->
             exists features, In features epochs /\ In c (Py.dict_keys features)) /\
  forall r features, nth_error epochs r = Some features ->
    forall c, In c (Pd.ft_columns t) ->
      (forall v, Py.dict_get features c = Some v -> ft_cell t r c = Some v) /\
      (~ In c (Py.dict_keys features) ->
       ft_cell t r c = Some (Pd.VFloat Np.NaN)).
Proof.
  intros Hrun t.
  split; [unfold Extractor.extract_all_features; rewrite Hrun; reflexivity|].
  split; [unfold t, Pd.ft_len, Pd.from_records; cbn [Pd.ft_rows]; apply length_map|].
  split; [apply union_keys_NoDup|].
  split; [intros c; apply union_keys_spec|].
  intros r features Hr c Hc.
  assert (Hcell : ft_cell t r c =
            Some (match Py.dict_get features c with
                  | Some v => v
                  | None => Pd.VFloat Np.NaN
                  end)).
  { unfold ft_cell, t, Pd.from_records. cbn [Pd.ft_rows Pd.ft_columns].
    assert (Hr' : @nth_error (Py.dict Pd.scalar) epochs r = Some features)
      by exact Hr.
    rewrite nth_error_map, Hr'. cbn [option_map].
    assert (Hc' : In c (Pd.union_keys epochs)) by exact Hc.
    destruct (index_of_In c _ Hc') as [i [Hi _]]. rewrite Hi.
    rewrite nth_error_map, (index_of_nth _ _ Hi). reflexivity. }
  split.
  - intros v Hv. rewrite Hcell, Hv. reflexivity.
  - intros Hno. apply dict_get_None in Hno. rewrite Hcell, Hno. reflexivity.
Qed.

End TableCells.

Lemma feature_table_cells_witness :
  exists epochs,
    Extractor.extract_epochs (L := four_peaks) slow_extractor six_row_table
      true true = Py.Ok epochs /\
    NoDup (Pd.ft_columns (Pd.from_records epochs)).
Proof.
  destruct (@extract_epochs_windows four_peaks slow_extractor six_row_table
              true true six_row_table_well_formed
              ltac:(simpl; lia) ltac:(simpl; lia)) as [epochs [Hrun _]].
  exists epochs. split; [exact Hrun|].
  apply (@feature_table_cells four_peaks slow_extractor six_row_table true true
           epochs Hrun).
Defined.
